(** * Social-media pipeline: producer, validator, transformer, aggregator

    A shallow embedding of [src/producer.py] (class [SocialMediaProducer]) and
    [consumer.py] (class [SocialMediaConsumer]), followed by the properties
    the specification states about them.

    Conventions of the embedding.
    - A Python value is a [pyval]; a [dict] is an association list in
      insertion order whose keys are strings (the records of the pipeline are
      JSON-shaped).  A string is a [string] of code points below 256.
    - An expression that can raise returns a [result]; the exception classes
      the code can meet are the constructors of [exn].
    - A Python [float] is a [pyfloat]: a finite binary64 number carried as the
      rational it denotes, or an infinity, or NaN.  Every arithmetic
      operation rounds its exact result to the nearest binary64 number, ties
      to even ([rnd64]), and overflows to an infinity at [2^1024]; the sign of
      zero is not represented.
    - Wall-clock readings and random draws are explicit arguments. *)

From Stdlib Require Import ZArith QArith Qround Qabs Qpower Qreduction.
From Stdlib Require Import List String Ascii Bool Arith Lia Lqa DecimalString.
From Stdlib Require Import Sorted Permutation.
Import ListNotations.

Set Warnings "-register-all".
Local Open Scope string_scope.
Local Open Scope list_scope.
Local Open Scope Z_scope.

(* ================================================================== *)
(** * Part I: the embedding *)
(* ================================================================== *)

(** ** Exceptions *)

Inductive exn : Type :=
| AttributeError
| TypeError
| KeyError (key : string)
| ValueError
| OverflowError
| ZeroDivisionError.

Inductive result (A : Type) : Type :=
| Ok (a : A)
| Raise (e : exn).

Arguments Ok {A} a.
Arguments Raise {A} e.

Definition rbind {A B : Type} (r : result A) (k : A -> result B) : result B :=
  match r with
  | Ok a => k a
  | Raise e => Raise e
  end.

Declare Scope result_scope.
Delimit Scope result_scope with result.
Notation "x <- r ;; k" := (rbind r (fun x => k))
  (at level 61, r at next level, right associativity) : result_scope.
Local Open Scope result_scope.

(** ** Binary64 arithmetic *)

Definition pow2 (e : Z) : Q := Qpower 2 e.

(** [ilog2 x] is the integer [k] with [2^k <= x < 2^(k+1)], for [x > 0]. *)
Definition ilog2 (x : Q) : Z :=
  let k := Z.log2 (Qnum x) - Z.log2 (Zpos (Qden x)) in
  if Qle_bool (pow2 k) x then k else k - 1.

(** Nearest integer, ties to the even one. *)
Definition round_half_even (x : Q) : Z :=
  let f := Qfloor x in
  match Qcompare (x - inject_Z f) (1 # 2) with
  | Lt => f
  | Gt => f + 1
  | Eq => if Z.even f then f else f + 1
  end.

(** Exponent of the unit in the last place: 53 significant bits, and the
    subnormal floor [2^-1074]. *)
Definition binary64_exponent (x : Q) : Z := Z.max (ilog2 (Qabs x) - 52) (-1074).

(** Round to nearest, ties to even, with an unbounded exponent range above. *)
Definition rnd64 (x : Q) : Q :=
  if Qeq_bool x 0 then 0%Q
  else
    let e := binary64_exponent x in
    Qred (inject_Z (round_half_even (x / pow2 e)) * pow2 e).

Inductive pyfloat : Type :=
| Fin (q : Q)
| PInf
| NInf
| NaN.

(** The binary64 number nearest to the real [x]. *)
Definition fl (x : Q) : pyfloat :=
  let r := rnd64 x in
  if Qle_bool (pow2 1024) r then PInf
  else if Qle_bool r (- pow2 1024) then NInf
  else Fin r.

Definition fopp (a : pyfloat) : pyfloat :=
  match a with
  | Fin x => Fin (Qred (- x))
  | PInf => NInf
  | NInf => PInf
  | NaN => NaN
  end.

Definition fadd (a b : pyfloat) : pyfloat :=
  match a, b with
  | NaN, _ | _, NaN => NaN
  | Fin x, Fin y => fl (x + y)
  | PInf, NInf | NInf, PInf => NaN
  | PInf, _ | _, PInf => PInf
  | NInf, _ | _, NInf => NInf
  end.

Definition fsub (a b : pyfloat) : pyfloat := fadd a (fopp b).

(** Sign of a rational: [Gt] positive, [Lt] negative, [Eq] zero. *)
Definition Qsign (x : Q) : comparison := Qcompare x 0.

Definition inf_times (positive_inf : bool) (s : comparison) : pyfloat :=
  match s with
  | Eq => NaN
  | Gt => if positive_inf then PInf else NInf
  | Lt => if positive_inf then NInf else PInf
  end.

Definition fmul (a b : pyfloat) : pyfloat :=
  match a, b with
  | NaN, _ | _, NaN => NaN
  | Fin x, Fin y => fl (x * y)
  | PInf, Fin y => inf_times true (Qsign y)
  | NInf, Fin y => inf_times false (Qsign y)
  | Fin x, PInf => inf_times true (Qsign x)
  | Fin x, NInf => inf_times false (Qsign x)
  | PInf, PInf | NInf, NInf => PInf
  | PInf, NInf | NInf, PInf => NInf
  end.

(** [a / b] on floats: a zero divisor raises. *)
Definition fdiv (a b : pyfloat) : result pyfloat :=
  match a, b with
  | _, Fin y =>
      if Qeq_bool y 0 then Raise ZeroDivisionError
      else match a with
           | Fin x => Ok (fl (x / y))
           | PInf => Ok (inf_times true (Qsign y))
           | NInf => Ok (inf_times false (Qsign y))
           | NaN => Ok NaN
           end
  | NaN, _ | _, NaN => Ok NaN
  | Fin _, (PInf | NInf) => Ok (Fin 0)
  | (PInf | NInf), (PInf | NInf) => Ok NaN
  end.

(** [float(n)] for an [int]: too large a magnitude raises. *)
Definition float_of_int (n : Z) : result pyfloat :=
  match fl (inject_Z n) with
  | Fin q => Ok (Fin q)
  | _ => Raise OverflowError
  end.

(** [a / b] on two [int]s: the correctly rounded quotient. *)
Definition int_truediv (a b : Z) : result pyfloat :=
  if b =? 0 then Raise ZeroDivisionError
  else match fl (inject_Z a / inject_Z b) with
       | Fin q => Ok (Fin q)
       | _ => Raise OverflowError
       end.

(** [a < b] and [a <= b]; every comparison with NaN is false. *)
Definition fltb (a b : pyfloat) : bool :=
  match a, b with
  | NaN, _ | _, NaN => false
  | Fin x, Fin y => negb (Qle_bool y x)
  | NInf, (Fin _ | PInf) => true
  | Fin _, PInf => true
  | _, _ => false
  end.

Definition fleb (a b : pyfloat) : bool :=
  match a, b with
  | NaN, _ | _, NaN => false
  | Fin x, Fin y => Qle_bool x y
  | NInf, _ => true
  | _, PInf => true
  | _, _ => false
  end.

Definition feqb (a b : pyfloat) : bool :=
  match a, b with
  | Fin x, Fin y => Qeq_bool x y
  | PInf, PInf | NInf, NInf => true
  | _, _ => false
  end.

(** [round(x, 2)] on a float: the decimal with two places nearest to the
    exact value of [x] (ties to even), converted back to binary64;
    infinities and NaN round to themselves. *)
Definition float_round2 (a : pyfloat) : pyfloat :=
  match a with
  | Fin x => fl (inject_Z (round_half_even (x * 100)) / 100)
  | _ => a
  end.

(** [int(x)] on a float: truncation toward zero. *)
Definition float_trunc (a : pyfloat) : result Z :=
  match a with
  | Fin x => Ok (if Qle_bool 0 x then Qfloor x else Qceiling x)
  | PInf | NInf => Raise OverflowError
  | NaN => Raise ValueError
  end.

(** ** Strings *)

(** [str(n)] for an [int]. *)
Definition str_of_Z (n : Z) : string :=
  NilZero.string_of_int (Z.to_int n).

(** The code points below 256 that [str.strip] and [str.split] treat as
    white space. *)
Definition is_space (c : ascii) : bool :=
  let n := nat_of_ascii c in
  (((9 <=? n) && (n <=? 13)) || ((28 <=? n) && (n <=? 32)) || (n =? 133) || (n =? 160))%nat.

Fixpoint lstrip (s : string) : string :=
  match s with
  | EmptyString => EmptyString
  | String c r => if is_space c then lstrip r else s
  end.

Fixpoint rstrip (s : string) : string :=
  match s with
  | EmptyString => EmptyString
  | String c r =>
      match rstrip r with
      | EmptyString => if is_space c then EmptyString else String c EmptyString
      | r' => String c r'
      end
  end.

(** [s.strip()] *)
Definition strip (s : string) : string := lstrip (rstrip s).

Definition is_empty (s : string) : bool :=
  match s with
  | EmptyString => true
  | String _ _ => false
  end.

(** [c.lower()] on one code point below 256. *)
Definition lower_char (c : ascii) : ascii :=
  let n := nat_of_ascii c in
  if (((65 <=? n) && (n <=? 90)) || ((192 <=? n) && (n <=? 222) && negb (n =? 215)))%nat
  then ascii_of_nat (n + 32)
  else c.

(** [s.lower()] *)
Fixpoint lower (s : string) : string :=
  match s with
  | EmptyString => EmptyString
  | String c r => String (lower_char c) (lower r)
  end.

(** [needle in hay] on two strings. *)
Fixpoint contains (needle hay : string) : bool :=
  prefix needle hay ||
  match hay with
  | EmptyString => false
  | String _ r => contains needle r
  end.

(** [len(s.split())]: the number of maximal runs of non-space characters.
    [in_word] tells whether the previous character belonged to a word. *)
Fixpoint count_words (in_word : bool) (s : string) : nat :=
  match s with
  | EmptyString => 0%nat
  | String c r =>
      if is_space c then count_words false r
      else if in_word then count_words true r
      else S (count_words true r)
  end.

(** [s.replace(c, by)] for a one-character pattern. *)
Fixpoint replace_char (c : ascii) (by_ : string) (s : string) : string :=
  match s with
  | EmptyString => EmptyString
  | String a r =>
      if Ascii.eqb a c then (by_ ++ replace_char c by_ r)%string
      else String a (replace_char c by_ r)
  end.

(** [template.format(topic=topic)] for a template whose only replacement
    field is [{topic}]; [skip] counts the characters of a field still to be
    dropped. *)
Fixpoint format_topic_from (skip : nat) (topic template : string) : string :=
  match template with
  | EmptyString => EmptyString
  | String c r =>
      match skip with
      | S k => format_topic_from k topic r
      | O =>
          if prefix "{topic}" template
          then (topic ++ format_topic_from 6 topic r)%string
          else String c (format_topic_from 0 topic r)
      end
  end.

Definition format_topic (template topic : string) : string :=
  format_topic_from 0 topic template.

Definition in_strings (s : string) (l : list string) : bool :=
  existsb (String.eqb s) l.

(** ** Python values *)

Inductive pyval : Type :=
| VNone
| VBool (b : bool)
| VInt (n : Z)
| VFloat (f : pyfloat)
| VStr (s : string)
| VList (items : list pyval)
| VDict (entries : list (string * pyval)).

Definition pydict : Type := list (string * pyval).

(** [key in d] / [d.get(key)] *)
Fixpoint lookup (key : string) (d : pydict) : option pyval :=
  match d with
  | [] => None
  | (k, v) :: rest => if String.eqb k key then Some v else lookup key rest
  end.

Definition has_key (key : string) (d : pydict) : bool :=
  match lookup key d with
  | Some _ => true
  | None => false
  end.

Definition keys (d : pydict) : list string := map fst d.

(** [d[key] = v]: replaces the value in place, or appends a new entry. *)
Fixpoint dict_set (key : string) (v : pyval) (d : pydict) : pydict :=
  match d with
  | [] => [(key, v)]
  | (k, w) :: rest =>
      if String.eqb k key then (k, v) :: rest else (k, w) :: dict_set key v rest
  end.

(** [d.get(key, default)] *)
Definition dict_get (key : string) (default : pyval) (d : pydict) : pyval :=
  match lookup key d with
  | Some v => v
  | None => default
  end.

(** [v[key]] with a string subscript. *)
Definition getitem (v : pyval) (key : string) : result pyval :=
  match v with
  | VDict d =>
      match lookup key d with
      | Some x => Ok x
      | None => Raise (KeyError key)
      end
  | _ => Raise TypeError
  end.

(** [v.get(key, default)]: only a dict has the method. *)
Definition get_method (v : pyval) (key : string) (default : pyval) : result pyval :=
  match v with
  | VDict d => Ok (dict_get key default d)
  | _ => Raise AttributeError
  end.

(** [isinstance(v, int)]: [bool] is a subclass of [int]. *)
Definition int_value (v : pyval) : option Z :=
  match v with
  | VInt n => Some n
  | VBool b => Some (if b then 1 else 0)
  | _ => None
  end.

Definition is_str (v : pyval) : bool :=
  match v with
  | VStr _ => true
  | _ => false
  end.

(** Lists and dicts cannot be hashed. *)
Definition hashable (v : pyval) : bool :=
  match v with
  | VList _ | VDict _ => false
  | _ => true
  end.

(** [v in strings] for a set of strings: hashing [v] may raise. *)
Definition in_string_set (v : pyval) (strings : list string) : result bool :=
  match v with
  | VStr s => Ok (in_strings s strings)
  | VList _ | VDict _ => Raise TypeError
  | _ => Ok false
  end.

(** [len(v)] *)
Definition py_len (v : pyval) : result Z :=
  match v with
  | VStr s => Ok (Z.of_nat (String.length s))
  | VList l => Ok (Z.of_nat (List.length l))
  | VDict d => Ok (Z.of_nat (List.length d))
  | _ => Raise TypeError
  end.

(** The numeric tower: [bool] and [int] are exact, [float] is binary64. *)
Inductive number : Type :=
| NInt (n : Z)
| NFloat (f : pyfloat).

Definition number_of (v : pyval) : option number :=
  match v with
  | VBool b => Some (NInt (if b then 1 else 0))
  | VInt n => Some (NInt n)
  | VFloat f => Some (NFloat f)
  | _ => None
  end.

Definition pyval_of_number (n : number) : pyval :=
  match n with
  | NInt z => VInt z
  | NFloat f => VFloat f
  end.

Definition to_float (n : number) : result pyfloat :=
  match n with
  | NInt z => float_of_int z
  | NFloat f => Ok f
  end.

Definition num_add (a b : number) : result number :=
  match a, b with
  | NInt x, NInt y => Ok (NInt (x + y))
  | _, _ => x <- to_float a ;; y <- to_float b ;; Ok (NFloat (fadd x y))
  end.

Definition num_mul (a b : number) : result number :=
  match a, b with
  | NInt x, NInt y => Ok (NInt (x * y))
  | _, _ => x <- to_float a ;; y <- to_float b ;; Ok (NFloat (fmul x y))
  end.

Definition num_truediv (a b : number) : result pyfloat :=
  match a, b with
  | NInt x, NInt y => int_truediv x y
  | _, _ => x <- to_float a ;; y <- to_float b ;; fdiv x y
  end.

(** [a > 0] for a number. *)
Definition num_positive (a : number) : bool :=
  match a with
  | NInt x => 0 <? x
  | NFloat f => fltb (Fin 0) f
  end.

(** [round(a, 2)]: an [int] is returned unchanged. *)
Definition num_round2 (a : number) : number :=
  match a with
  | NInt x => NInt x
  | NFloat f => NFloat (float_round2 f)
  end.

(** [a + b]: numbers add, strings and lists concatenate. *)
Definition py_add (a b : pyval) : result pyval :=
  match a, b with
  | VStr x, VStr y => Ok (VStr (x ++ y)%string)
  | VList x, VList y => Ok (VList (x ++ y))
  | _, _ =>
      match number_of a, number_of b with
      | Some x, Some y => n <- num_add x y ;; Ok (pyval_of_number n)
      | _, _ => Raise TypeError
      end
  end.

(** [a / b] *)
Definition py_truediv (a b : pyval) : result pyfloat :=
  match number_of a, number_of b with
  | Some x, Some y => num_truediv x y
  | _, _ => Raise TypeError
  end.

(** [a > 0] *)
Definition py_positive (a : pyval) : result bool :=
  match number_of a with
  | Some x => Ok (num_positive x)
  | None => Raise TypeError
  end.

(** [a * w] for a float [w]: strings and lists cannot be repeated a float
    number of times. *)
Definition py_mul_float (a : pyval) (w : pyfloat) : result pyfloat :=
  match number_of a with
  | Some x => f <- to_float x ;; Ok (fmul f w)
  | None => Raise TypeError
  end.

(** [sum(xs)] for numbers, from the integer [0]. *)
Fixpoint num_sum_from (acc : number) (xs : list number) : result number :=
  match xs with
  | [] => Ok acc
  | x :: rest => acc' <- num_add acc x ;; num_sum_from acc' rest
  end.

Definition num_sum (xs : list number) : result number := num_sum_from (NInt 0) xs.

(** ** Dates and times ([datetime]) *)

(** A naive [datetime] value. *)
Record datetime : Type := mkDatetime {
  year : Z;
  month : Z;
  day : Z;
  hour : Z;
  minute : Z;
  second : Z;
  microsecond : Z
}.

Definition is_leap (y : Z) : bool :=
  (y mod 4 =? 0) && (negb (y mod 100 =? 0) || (y mod 400 =? 0)).

Definition days_in_month (y m : Z) : Z :=
  if m =? 2 then (if is_leap y then 29 else 28)
  else if (m =? 4) || (m =? 6) || (m =? 9) || (m =? 11) then 30
  else 31.

Definition valid_month_day (y m d : Z) : bool :=
  (1 <=? m) && (m <=? 12) && (1 <=? d) && (d <=? days_in_month y m).

Definition valid_time (h mi s us : Z) : bool :=
  (0 <=? h) && (h <=? 23) && (0 <=? mi) && (mi <=? 59) &&
  (0 <=? s) && (s <=? 59) && (0 <=? us) && (us <=? 999999).

Definition valid_datetime (dt : datetime) : bool :=
  (1 <=? year dt) && (year dt <=? 9999) &&
  valid_month_day (year dt) (month dt) (day dt) &&
  valid_time (hour dt) (minute dt) (second dt) (microsecond dt).

(** *** Printing: [dt.isoformat()] *)

Definition digit_char (n : Z) : ascii := ascii_of_nat (48 + Z.to_nat n).

Definition two_digits (n : Z) : string :=
  String (digit_char (n / 10)) (String (digit_char (n mod 10)) EmptyString).

Definition four_digits (n : Z) : string :=
  (two_digits (n / 100) ++ two_digits (n mod 100))%string.

Definition six_digits (n : Z) : string :=
  (two_digits (n / 10000) ++ two_digits ((n / 100) mod 100) ++ two_digits (n mod 100))%string.

Definition isoformat (dt : datetime) : string :=
  (four_digits (year dt) ++ "-" ++ two_digits (month dt) ++ "-" ++ two_digits (day dt)
   ++ "T" ++ two_digits (hour dt) ++ ":" ++ two_digits (minute dt) ++ ":"
   ++ two_digits (second dt)
   ++ (if (microsecond dt =? 0)%Z then "" else "." ++ six_digits (microsecond dt)))%string.

(** *** Parsing: [datetime.fromisoformat(s)]

    The grammar is the one every Python 3 release with this function
    accepts (releases from 3.11 on accept further forms, such as the basic
    format, a trailing [Z] and fractions of other lengths, which this parser
    rejects):
    [YYYY-MM-DD[*HH[:MM[:SS[.fff[fff]]]][(+|-)HH:MM[:SS[.ffffff]]]]],
    [*] being any single character; the fields are range-checked, and an
    offset must be strictly within one day.  The result keeps the fields as
    written; the offset is checked and dropped (the pipeline reads [hour]
    only). *)

Definition digit_value (c : ascii) : option Z :=
  let n := nat_of_ascii c in
  if ((48 <=? n) && (n <=? 57))%nat then Some (Z.of_nat (n - 48)) else None.

Definition obind {A B : Type} (o : option A) (k : A -> option B) : option B :=
  match o with
  | Some a => k a
  | None => None
  end.

Declare Scope option_scope.
Delimit Scope option_scope with option.
Notation "x <~ o ;; k" := (obind o (fun x => k))
  (at level 61, o at next level, right associativity) : option_scope.

(** Exactly [n] decimal digits; returns their value and the rest. *)
Fixpoint parse_digits (n : nat) (acc : Z) (s : string) : option (Z * string) :=
  match n with
  | O => Some (acc, s)
  | S k =>
      match s with
      | EmptyString => None
      | String c r =>
          match digit_value c with
          | Some d => parse_digits k (10 * acc + d) r
          | None => None
          end
      end
  end.

Definition expect_char (c : ascii) (s : string) : option string :=
  match s with
  | String a r => if Ascii.eqb a c then Some r else None
  | EmptyString => None
  end.

Definition starts_with (c : ascii) (s : string) : bool :=
  match s with
  | String a _ => Ascii.eqb a c
  | EmptyString => false
  end.

(** The fraction of a second: three or six digits, in microseconds. *)
Definition parse_fraction (s : string) : option (Z * string) :=
  match parse_digits 6 0 s with
  | Some r => Some r
  | None =>
      match parse_digits 3 0 s with
      | Some (ms, rest) => Some (ms * 1000, rest)
      | None => None
      end
  end.

(** [HH[:MM[:SS[.fff[fff]]]]]; returns hour, minute, second, microsecond. *)
Definition parse_hh_mm_ss_ff (s : string) : option (Z * Z * Z * Z * string) :=
  (hs <~ parse_digits 2 0 s ;;
   let '(h, s1) := hs in
   if starts_with ":" s1 then
     s2 <~ expect_char ":" s1 ;;
     ms <~ parse_digits 2 0 s2 ;;
     let '(mi, s3) := ms in
     if starts_with ":" s3 then
       s4 <~ expect_char ":" s3 ;;
       ss <~ parse_digits 2 0 s4 ;;
       let '(sec, s5) := ss in
       if starts_with "." s5 then
         s6 <~ expect_char "." s5 ;;
         us <~ parse_fraction s6 ;;
         let '(u, s7) := us in
         Some (h, mi, sec, u, s7)
       else Some (h, mi, sec, 0, s5)
     else Some (h, mi, 0, 0, s3)
   else Some (h, 0, 0, 0, s1))%option.

(** The optional offset [(+|-)HH:MM[:SS[.ffffff]]]; the result is its size
    in microseconds, which must stay below one day. *)
Definition parse_offset_fields (s : string) : option (Z * string) :=
  (hs <~ parse_digits 2 0 s ;;
   let '(h, s1) := hs in
   s2 <~ expect_char ":" s1 ;;
   ms <~ parse_digits 2 0 s2 ;;
   let '(mi, s3) := ms in
   if starts_with ":" s3 then
     s4 <~ expect_char ":" s3 ;;
     ss <~ parse_digits 2 0 s4 ;;
     let '(sec, s5) := ss in
     if starts_with "." s5 then
       s6 <~ expect_char "." s5 ;;
       us <~ parse_digits 6 0 s6 ;;
       let '(u, s7) := us in
       Some (((h * 60 + mi) * 60 + sec) * 1000000 + u, s7)
     else Some (((h * 60 + mi) * 60 + sec) * 1000000, s5)
   else Some ((h * 60 + mi) * 60 * 1000000, s3))%option.

Definition parse_offset (s : string) : option (option Z * string) :=
  match s with
  | String c r =>
      if Ascii.eqb c "+" || Ascii.eqb c "-" then
        (t <~ parse_offset_fields r ;;
         let '(size, rest) := t in
         if size <? 86400000000 then Some (Some size, rest) else None)%option
      else Some (None, s)
  | EmptyString => Some (None, s)
  end.

Definition fromisoformat (s : string) : option datetime :=
  (ys <~ parse_digits 4 0 s ;;
   let '(y, s1) := ys in
   s2 <~ expect_char "-" s1 ;;
   ms <~ parse_digits 2 0 s2 ;;
   let '(m, s3) := ms in
   s4 <~ expect_char "-" s3 ;;
   ds <~ parse_digits 2 0 s4 ;;
   let '(d, s5) := ds in
   if negb ((1 <=? y) && valid_month_day y m d) then None
   else
     match s5 with
     | EmptyString => Some (mkDatetime y m d 0 0 0 0)
     | String _ s6 =>
         t <~ parse_hh_mm_ss_ff s6 ;;
         let '(h, mi, sec, u, s7) := t in
         o <~ parse_offset s7 ;;
         let '(_, s8) := o in
         if is_empty s8 && valid_time h mi sec u
         then Some (mkDatetime y m d h mi sec u)
         else None
     end)%option.

(** *** Arithmetic: [dt - timedelta] *)

Definition prev_day (ymd : Z * Z * Z) : Z * Z * Z :=
  let '(y, m, d) := ymd in
  if 1 <? d then (y, m, d - 1)
  else if 1 <? m then (y, m - 1, days_in_month y (m - 1))
  else (y - 1, 12, 31).

Definition next_day (ymd : Z * Z * Z) : Z * Z * Z :=
  let '(y, m, d) := ymd in
  if d <? days_in_month y m then (y, m, d + 1)
  else if m <? 12 then (y, m + 1, 1)
  else (y + 1, 1, 1).

Definition shift_days (n : Z) (ymd : Z * Z * Z) : Z * Z * Z :=
  if 0 <=? n then Nat.iter (Z.to_nat n) next_day ymd
  else Nat.iter (Z.to_nat (- n)) prev_day ymd.

Definition us_per_day : Z := 86400000000.

Definition microsecond_of_day (dt : datetime) : Z :=
  ((hour dt * 60 + minute dt) * 60 + second dt) * 1000000 + microsecond dt.

(** [dt - timedelta(microseconds=us)]: outside the years 1..9999 the
    subtraction raises. *)
Definition datetime_sub (dt : datetime) (us : Z) : result datetime :=
  let t := microsecond_of_day dt - us in
  let '(y, m, d) := shift_days (t / us_per_day) (year dt, month dt, day dt) in
  let r := t mod us_per_day in
  if (1 <=? y) && (y <=? 9999)
  then Ok (mkDatetime y m d (r / 3600000000) ((r / 60000000) mod 60)
                      ((r / 1000000) mod 60) (r mod 1000000))
  else Raise OverflowError.

Definition us_per_hour : Z := 3600000000.

(** [timedelta(hours=u)] for a finite float [u], in microseconds: the whole
    hours are converted exactly, the fraction of an hour is scaled in
    floating point, and the sum is rounded to the nearest whole number of
    microseconds, a tie going to the even total; a result of more than
    999999999 days either way raises. *)
Definition timedelta_hours (u : Q) : result Z :=
  let whole := if Qle_bool 0 u then Qfloor u else Qceiling u in
  let frac := (u - inject_Z whole)%Q in
  match fl (inject_Z us_per_hour * frac) with
  | Fin p =>
      let whole_us := if Qle_bool 0 p then Qfloor p else Qceiling p in
      let x := whole * us_per_hour + whole_us in
      let leftover_us := (p - inject_Z whole_us)%Q in
      let total := round_half_even (inject_Z x + leftover_us) in
      if (-999999999 <=? total / us_per_day) && (total / us_per_day <=? 999999999)
      then Ok total
      else Raise OverflowError
  | _ => Raise OverflowError
  end.

(** ** The consumer: validation ([SocialMediaConsumer.validate_post]) *)

(** An error message.  [Fmt p v] is the f-string [f"{p}{v}"] whose argument
    is a value, [FmtSet p xs] one whose argument is a set of strings, and
    [FmtExn p e] one whose argument is [str(e)] for an exception. *)
Inductive message : Type :=
| Lit (text : string)
| Fmt (prefix : string) (arg : pyval)
| FmtSet (prefix : string) (items : list string)
| FmtExn (prefix : string) (e : exn).

Definition required_fields : list string :=
  ["post_id"; "user_id"; "username"; "platform"; "content";
   "engagement"; "metadata"; "sentiment"; "category"].

Definition valid_platforms : list string :=
  ["twitter"; "facebook"; "instagram"; "linkedin"; "tiktok"].

Definition valid_sentiments : list string := ["positive"; "neutral"; "negative"].

Definition valid_categories : list string :=
  ["educational"; "news"; "discussion"; "advice"; "general"].

Definition required_engagement_fields : list string :=
  ["likes"; "shares"; "comments"; "views"].

(** Checks run with the list [errors] as state and may raise. *)
Definition V (A : Type) : Type := list message -> list message * result A.

Definition vret {A : Type} (a : A) : V A := fun errors => (errors, Ok a).

Definition vbind {A B : Type} (m : V A) (k : A -> V B) : V B :=
  fun errors =>
    match m errors with
    | (errors', Ok a) => k a errors'
    | (errors', Raise e) => (errors', Raise e)
    end.

Definition vlift {A : Type} (r : result A) : V A := fun errors => (errors, r).

(** [errors.append(m)] *)
Definition append_error (m : message) : V unit :=
  fun errors => (errors ++ [m], Ok tt).

(** [try: body except Exception as e: handler(e)] *)
Definition try_except {A : Type} (body : V A) (handler : exn -> V A) : V A :=
  fun errors =>
    match body errors with
    | (errors', Raise e) => handler e errors'
    | done => done
    end.

Declare Scope check_scope.
Delimit Scope check_scope with check.
Notation "x <- m ;; k" := (vbind m (fun x => k))
  (at level 61, m at next level, right associativity) : check_scope.
Notation "m ;; k" := (vbind m (fun _ => k))
  (at level 61, right associativity) : check_scope.

(** [for x in xs: body(x)] *)
Fixpoint vfor {A : Type} (xs : list A) (body : A -> V unit) : V unit :=
  match xs with
  | [] => vret tt
  | x :: rest => (body x ;; vfor rest body)%check
  end.

(** The members of [wanted] that are no key of [d]. *)
Definition missing_keys (wanted : list string) (d : pydict) : list string :=
  filter (fun f => negb (has_key f d)) wanted.

Definition check_required (d : pydict) : V unit :=
  match missing_keys required_fields d with
  | [] => vret tt
  | missing => append_error (FmtSet "Missing required fields: " missing)
  end.

Definition check_post_id (d : pydict) : V unit :=
  match lookup "post_id" d with
  | None => vret tt
  | Some (VStr s) =>
      if is_empty (strip s) then append_error (Lit "post_id must be a non-empty string")
      else vret tt
  | Some _ => append_error (Lit "post_id must be a non-empty string")
  end.

Definition check_user_id (d : pydict) : V unit :=
  match lookup "user_id" d with
  | None => vret tt
  | Some v =>
      match int_value v with
      | Some n =>
          if n <=? 0 then append_error (Lit "user_id must be a positive integer")
          else vret tt
      | None => append_error (Lit "user_id must be a positive integer")
      end
  end.

(** [if key in d: if d[key] not in allowed: errors.append(f"{label}{d[key]}")] *)
Definition check_member (key : string) (allowed : list string) (label : string)
    (d : pydict) : V unit :=
  match lookup key d with
  | None => vret tt
  | Some v =>
      (known <- vlift (in_string_set v allowed) ;;
       if known then vret tt else append_error (Fmt label v))%check
  end.

Definition check_content (d : pydict) : V unit :=
  match lookup "content" d with
  | None => vret tt
  | Some (VStr s) =>
      if is_empty (strip s) then append_error (Lit "content must be a non-empty string")
      else if 10000 <? Z.of_nat (String.length s)
           then append_error (Lit "content exceeds maximum length")
           else vret tt
  | Some _ => append_error (Lit "content must be a non-empty string")
  end.

Definition check_engagement_field (engagement : pydict) (field : string) : V unit :=
  match lookup field engagement with
  | None => vret tt
  | Some v =>
      match int_value v with
      | Some n =>
          if n <? 0
          then append_error (Lit ("engagement." ++ field ++ " must be a non-negative integer"))
          else vret tt
      | None =>
          append_error (Lit ("engagement." ++ field ++ " must be a non-negative integer"))
      end
  end.

(** The set [required_engagement_fields] is traversed in the order of its
    literal; Python leaves the order of a set of strings open, which can
    permute the messages of this loop among themselves. *)
Definition check_engagement (d : pydict) : V unit :=
  match lookup "engagement" d with
  | None => vret tt
  | Some (VDict engagement) =>
      ((match missing_keys required_engagement_fields engagement with
        | [] => vret tt
        | missing => append_error (FmtSet "Missing engagement fields: " missing)
        end) ;;
       vfor required_engagement_fields (check_engagement_field engagement))%check
  | Some _ => append_error (Lit "engagement must be a dictionary")
  end.

(** The inner [try] turns both a malformed string ([ValueError]) and a value
    without [replace] ([AttributeError]) into the same message. *)
Definition check_timestamp (metadata : pydict) : V unit :=
  match lookup "timestamp" metadata with
  | None => vret tt
  | Some (VStr s) =>
      match fromisoformat (replace_char "Z" "+00:00" s) with
      | Some _ => vret tt
      | None => append_error (Lit "metadata.timestamp must be a valid ISO format datetime")
      end
  | Some _ => append_error (Lit "metadata.timestamp must be a valid ISO format datetime")
  end.

Definition check_hashtags (metadata : pydict) : V unit :=
  match lookup "hashtags" metadata with
  | None => vret tt
  | Some (VList tags) =>
      if forallb is_str tags then vret tt
      else append_error (Lit "All hashtags must be strings")
  | Some _ => append_error (Lit "metadata.hashtags must be a list")
  end.

Definition check_metadata (d : pydict) : V unit :=
  match lookup "metadata" d with
  | None => vret tt
  | Some (VDict metadata) => (check_timestamp metadata ;; check_hashtags metadata)%check
  | Some _ => append_error (Lit "metadata must be a dictionary")
  end.

(** The body of the [try] block.  [post_data.keys()] exists on a dict only. *)
Definition validate_checks (post_data : pyval) : V unit :=
  match post_data with
  | VDict d =>
      (check_required d ;;
       check_post_id d ;;
       check_user_id d ;;
       check_member "platform" valid_platforms "Invalid platform: " d ;;
       check_content d ;;
       check_engagement d ;;
       check_metadata d ;;
       check_member "sentiment" valid_sentiments "Invalid sentiment: " d ;;
       check_member "category" valid_categories "Invalid category: " d)%check
  | _ => vlift (Raise AttributeError)
  end.

Definition is_nil {A : Type} (l : list A) : bool :=
  match l with
  | [] => true
  | _ :: _ => false
  end.

Definition validate_post (post_data : pyval) : result (bool * list message) :=
  let '(errors, outcome) :=
    try_except (validate_checks post_data)
               (fun e => append_error (FmtExn "Validation error: " e)) [] in
  match outcome with
  | Ok _ => Ok (is_nil errors, errors)
  | Raise e => Raise e
  end.

(** ** The consumer: transformation ([SocialMediaConsumer.transform_post]) *)

(** [post_data.copy()] followed by an item assignment: a list has [copy]
    but takes no string subscript. *)
Definition copy_for_update (post_data : pyval) : result pydict :=
  match post_data with
  | VDict d => Ok d
  | VList _ => Raise TypeError
  | _ => Raise AttributeError
  end.

(** [(total_engagement / views * 100) if views > 0 else 0], then
    [round(_, 2)]. *)
Definition engagement_rate_of (total views : pyval) : result pyval :=
  positive <- py_positive views ;;
  if positive then
    ratio <- py_truediv total views ;;
    hundred <- float_of_int 100 ;;
    Ok (VFloat (float_round2 (fmul ratio hundred)))
  else Ok (VInt 0).

Definition popularity_weights : list (string * pyfloat) :=
  [("likes", fl 1); ("shares", fl 3); ("comments", fl 2); ("views", fl (1 # 10))].

(** [sum(engagement[metric] * weight for metric, weight in weights.items())]:
    the terms are added from left to right onto the integer [0], each
    addition rounding its result (the builtin [sum] up to CPython 3.11; the
    compensated summation of later versions returns the same float when no
    addition before the last one is inexact). *)
Fixpoint weighted_sum (engagement : pyval) (weights : list (string * pyfloat))
    (acc : number) : result number :=
  match weights with
  | [] => Ok acc
  | (metric, weight) :: rest =>
      v <- getitem engagement metric ;;
      term <- py_mul_float v weight ;;
      acc' <- num_add acc (NFloat term) ;;
      weighted_sum engagement rest acc'
  end.

Definition popularity_score_of (engagement : pyval) : result pyval :=
  s <- weighted_sum engagement popularity_weights (NInt 0) ;;
  Ok (pyval_of_number s).

(** [content.split()] exists on a string only. *)
Definition word_count (content : pyval) : result Z :=
  match content with
  | VStr s => Ok (Z.of_nat (count_words false s))
  | _ => Raise AttributeError
  end.

Definition post_size_of (char_count : Z) : string :=
  if char_count <? 50 then "short"
  else if char_count <? 200 then "medium"
  else "long".

(** [datetime.fromisoformat(v)]: the argument must be a string. *)
Definition py_fromisoformat (v : pyval) : result datetime :=
  match v with
  | VStr s =>
      match fromisoformat s with
      | Some dt => Ok dt
      | None => Raise ValueError
      end
  | _ => Raise TypeError
  end.

(** [now] is the reading of [datetime.now()]. *)
Definition transform_post (now : datetime) (post_data : pyval) : result pyval :=
  copy <- copy_for_update post_data ;;
  let t1 := dict_set "processed_at" (VStr (isoformat now)) copy in
  engagement <- getitem post_data "engagement" ;;
  likes <- getitem engagement "likes" ;;
  shares <- getitem engagement "shares" ;;
  likes_shares <- py_add likes shares ;;
  comments <- getitem engagement "comments" ;;
  total_engagement <- py_add likes_shares comments ;;
  views <- getitem engagement "views" ;;
  engagement_rate <- engagement_rate_of total_engagement views ;;
  let t2 := dict_set "engagement_rate" engagement_rate t1 in
  content <- getitem post_data "content" ;;
  character_count <- py_len content ;;
  words <- word_count content ;;
  metadata <- getitem post_data "metadata" ;;
  hashtags <- get_method metadata "hashtags" (VList []) ;;
  hashtag_count <- py_len hashtags ;;
  metadata' <- getitem post_data "metadata" ;;
  mention_count <- get_method metadata' "mentions" (VInt 0) ;;
  let t3 := dict_set "content_metrics"
              (VDict [("character_count", VInt character_count);
                      ("word_count", VInt words);
                      ("hashtag_count", VInt hashtag_count);
                      ("mention_count", mention_count)]) t2 in
  popularity_score <- popularity_score_of engagement ;;
  let t4 := dict_set "popularity_score" popularity_score t3 in
  let t5 := dict_set "post_size" (VStr (post_size_of character_count)) t4 in
  metadata'' <- getitem post_data "metadata" ;;
  ts <- getitem metadata'' "timestamp" ;;
  timestamp <- py_fromisoformat ts ;;
  Ok (VDict (dict_set "post_hour" (VInt (hour timestamp)) t5)).

(** ** The consumer: aggregation ([update_statistics], [process_post]) *)

(** One entry of [error_log]. *)
Record error_entry : Type := mkErrorEntry {
  err_post_id : pyval;
  err_errors : list message;
  err_timestamp : string
}.

(** A [defaultdict(int)] or [Counter], in insertion order. *)
Definition counter : Type := list (pyval * Z).

Definition num_eqb (a b : number) : bool :=
  match a, b with
  | NInt x, NInt y => x =? y
  | NInt x, NFloat f | NFloat f, NInt x => feqb (Fin (inject_Z x)) f
  | NFloat f, NFloat g => feqb f g
  end.

(** Equality of two hashable values as dictionary keys. *)
Definition key_eqb (a b : pyval) : bool :=
  match number_of a, number_of b with
  | Some x, Some y => num_eqb x y
  | None, None =>
      match a, b with
      | VStr s, VStr t => String.eqb s t
      | VNone, VNone => true
      | _, _ => false
      end
  | _, _ => false
  end.

Fixpoint incr (key : pyval) (c : counter) : counter :=
  match c with
  | [] => [(key, 1)]
  | (k, n) :: rest =>
      if key_eqb k key then (k, n + 1) :: rest else (k, n) :: incr key rest
  end.

(** [c[key] += 1] *)
Definition counter_incr (key : pyval) (c : counter) : result counter :=
  if hashable key then Ok (incr key c) else Raise TypeError.

Fixpoint append_to (key : pyval) (x : pyval) (m : list (pyval * list pyval))
    : list (pyval * list pyval) :=
  match m with
  | [] => [(key, [x])]
  | (k, xs) :: rest =>
      if key_eqb k key then (k, xs ++ [x]) :: rest else (k, xs) :: append_to key x rest
  end.

(** [m[key].append(x)] on a [defaultdict(list)] *)
Definition group_append (key : pyval) (x : pyval) (m : list (pyval * list pyval))
    : result (list (pyval * list pyval)) :=
  if hashable key then Ok (append_to key x m) else Raise TypeError.

(** [sum(c.values())] *)
Definition counter_total (c : counter) : Z :=
  fold_right (fun kv acc => snd kv + acc) 0 c.

Record consumer : Type := mkConsumer {
  is_running : bool;
  processed_posts : Z;
  failed_posts : Z;
  processed_data : list pyval;
  platform_stats : counter;
  topic_stats : counter;
  engagement_stats : list (pyval * list pyval);
  sentiment_stats : counter;
  category_stats : counter;
  hourly_stats : counter;
  processing_times : list pyfloat;
  error_log : list error_entry
}.

(** [SocialMediaConsumer.__init__] *)
Definition new_consumer : consumer :=
  mkConsumer false 0 0 [] [] [] [] [] [] [] [] [].

Definition set_failed_posts (n : Z) (c : consumer) : consumer :=
  mkConsumer (is_running c) (processed_posts c) n (processed_data c)
    (platform_stats c) (topic_stats c) (engagement_stats c) (sentiment_stats c)
    (category_stats c) (hourly_stats c) (processing_times c) (error_log c).

Definition set_processed_posts (n : Z) (c : consumer) : consumer :=
  mkConsumer (is_running c) n (failed_posts c) (processed_data c)
    (platform_stats c) (topic_stats c) (engagement_stats c) (sentiment_stats c)
    (category_stats c) (hourly_stats c) (processing_times c) (error_log c).

Definition set_processed_data (l : list pyval) (c : consumer) : consumer :=
  mkConsumer (is_running c) (processed_posts c) (failed_posts c) l
    (platform_stats c) (topic_stats c) (engagement_stats c) (sentiment_stats c)
    (category_stats c) (hourly_stats c) (processing_times c) (error_log c).

Definition set_platform_stats (m : counter) (c : consumer) : consumer :=
  mkConsumer (is_running c) (processed_posts c) (failed_posts c) (processed_data c)
    m (topic_stats c) (engagement_stats c) (sentiment_stats c)
    (category_stats c) (hourly_stats c) (processing_times c) (error_log c).

Definition set_topic_stats (m : counter) (c : consumer) : consumer :=
  mkConsumer (is_running c) (processed_posts c) (failed_posts c) (processed_data c)
    (platform_stats c) m (engagement_stats c) (sentiment_stats c)
    (category_stats c) (hourly_stats c) (processing_times c) (error_log c).

Definition set_engagement_stats (m : list (pyval * list pyval)) (c : consumer) : consumer :=
  mkConsumer (is_running c) (processed_posts c) (failed_posts c) (processed_data c)
    (platform_stats c) (topic_stats c) m (sentiment_stats c)
    (category_stats c) (hourly_stats c) (processing_times c) (error_log c).

Definition set_sentiment_stats (m : counter) (c : consumer) : consumer :=
  mkConsumer (is_running c) (processed_posts c) (failed_posts c) (processed_data c)
    (platform_stats c) (topic_stats c) (engagement_stats c) m
    (category_stats c) (hourly_stats c) (processing_times c) (error_log c).

Definition set_category_stats (m : counter) (c : consumer) : consumer :=
  mkConsumer (is_running c) (processed_posts c) (failed_posts c) (processed_data c)
    (platform_stats c) (topic_stats c) (engagement_stats c) (sentiment_stats c)
    m (hourly_stats c) (processing_times c) (error_log c).

Definition set_hourly_stats (m : counter) (c : consumer) : consumer :=
  mkConsumer (is_running c) (processed_posts c) (failed_posts c) (processed_data c)
    (platform_stats c) (topic_stats c) (engagement_stats c) (sentiment_stats c)
    (category_stats c) m (processing_times c) (error_log c).

Definition set_processing_times (l : list pyfloat) (c : consumer) : consumer :=
  mkConsumer (is_running c) (processed_posts c) (failed_posts c) (processed_data c)
    (platform_stats c) (topic_stats c) (engagement_stats c) (sentiment_stats c)
    (category_stats c) (hourly_stats c) l (error_log c).

Definition set_error_log (l : list error_entry) (c : consumer) : consumer :=
  mkConsumer (is_running c) (processed_posts c) (failed_posts c) (processed_data c)
    (platform_stats c) (topic_stats c) (engagement_stats c) (sentiment_stats c)
    (category_stats c) (hourly_stats c) (processing_times c) l.

(** Methods of the consumer: the object is threaded through, and what a
    statement has already written stays written when a later one raises. *)
Definition C (A : Type) : Type := consumer -> consumer * result A.

Definition cret {A : Type} (a : A) : C A := fun st => (st, Ok a).

Definition cbind {A B : Type} (m : C A) (k : A -> C B) : C B :=
  fun st =>
    match m st with
    | (st', Ok a) => k a st'
    | (st', Raise e) => (st', Raise e)
    end.

Definition clift {A : Type} (r : result A) : C A := fun st => (st, r).

Definition cget : C consumer := fun st => (st, Ok st).

Definition cmodify (f : consumer -> consumer) : C unit := fun st => (f st, Ok tt).

Declare Scope consumer_scope.
Delimit Scope consumer_scope with consumer.
Notation "x <- m ;; k" := (cbind m (fun x => k))
  (at level 61, m at next level, right associativity) : consumer_scope.
Notation "m ;; k" := (cbind m (fun _ => k))
  (at level 61, right associativity) : consumer_scope.

Definition update_statistics (processed_post : pyval) : C unit :=
  (platform <- clift (getitem processed_post "platform") ;;
   st <- cget ;;
   platform_stats' <- clift (counter_incr platform (platform_stats st)) ;;
   cmodify (set_platform_stats platform_stats') ;;
   topic <- clift (get_method processed_post "topic" (VStr "unknown")) ;;
   st <- cget ;;
   topic_stats' <- clift (counter_incr topic (topic_stats st)) ;;
   cmodify (set_topic_stats topic_stats') ;;
   engagement_rate <- clift (getitem processed_post "engagement_rate") ;;
   st <- cget ;;
   engagement_stats' <- clift (group_append platform engagement_rate (engagement_stats st)) ;;
   cmodify (set_engagement_stats engagement_stats') ;;
   sentiment <- clift (getitem processed_post "sentiment") ;;
   st <- cget ;;
   sentiment_stats' <- clift (counter_incr sentiment (sentiment_stats st)) ;;
   cmodify (set_sentiment_stats sentiment_stats') ;;
   category <- clift (getitem processed_post "category") ;;
   st <- cget ;;
   category_stats' <- clift (counter_incr category (category_stats st)) ;;
   cmodify (set_category_stats category_stats') ;;
   hour <- clift (getitem processed_post "post_hour") ;;
   st <- cget ;;
   hourly_stats' <- clift (counter_incr hour (hourly_stats st)) ;;
   cmodify (set_hourly_stats hourly_stats'))%consumer.

(** The clock readings of one call of [process_post]: [time.time()] on entry
    and after a success, and the two possible readings of [datetime.now()]
    (the first by the validation-failure branch or by [transform_post], the
    second by the exception handler). *)
Record clock : Type := mkClock {
  time_start : pyfloat;
  time_end : pyfloat;
  now_first : datetime;
  now_second : datetime
}.

(** [self.failed_posts += 1; self.error_log.append({...})]: the entry reads
    [post_data.get('post_id', 'unknown')] before anything is appended. *)
Definition record_failure (post_data : pyval) (errors : list message) (now : datetime)
    : C unit :=
  (cmodify (fun st => set_failed_posts (failed_posts st + 1) st) ;;
   post_id <- clift (get_method post_data "post_id" (VStr "unknown")) ;;
   cmodify (fun st =>
     set_error_log (error_log st ++ [mkErrorEntry post_id errors (isoformat now)]) st))%consumer.

(** The body of the [try] block of [process_post]. *)
Definition process_post_body (clk : clock) (post_data : pyval) : C (option pyval) :=
  (checked <- clift (validate_post post_data) ;;
   let '(is_valid, validation_errors) := checked in
   if negb is_valid then
     record_failure post_data validation_errors (now_first clk) ;;
     cret None
   else
     processed_post <- clift (transform_post (now_first clk) post_data) ;;
     update_statistics processed_post ;;
     cmodify (fun st => set_processed_data (processed_data st ++ [processed_post]) st) ;;
     cmodify (fun st => set_processed_posts (processed_posts st + 1) st) ;;
     cmodify (fun st =>
       set_processing_times
         (processing_times st ++ [fsub (time_end clk) (time_start clk)]) st) ;;
     cret (Some processed_post))%consumer.

Definition process_post (clk : clock) (post_data : pyval) : C (option pyval) :=
  fun st =>
    match process_post_body clk post_data st with
    | (st', Raise e) =>
        (record_failure post_data [FmtExn "" e] (now_second clk) ;; cret None)%consumer st'
    | done => done
    end.

(** The consumer after the records [inputs] have been taken from the queue,
    one call of [process_post] each; the loop of [start_consumption] logs an
    exception that escapes [process_post] and goes on. *)
Fixpoint consume (inputs : list (clock * pyval)) (st : consumer) : consumer :=
  match inputs with
  | [] => st
  | (clk, post_data) :: rest => consume rest (fst (process_post clk post_data st))
  end.

(** ** The consumer: analytics ([get_analytics], [get_stats]) *)

Definition num_ltb (a b : number) : bool :=
  match a, b with
  | NInt x, NInt y => x <? y
  | NInt x, NFloat f => fltb (Fin (inject_Z x)) f
  | NFloat f, NInt y => fltb f (Fin (inject_Z y))
  | NFloat f, NFloat g => fltb f g
  end.

(** A stable sort in ascending order of [ltb]: every element is put in
    front of the first one that is not smaller. *)
Fixpoint insert_sorted {A : Type} (ltb : A -> A -> bool) (x : A) (l : list A) : list A :=
  match l with
  | [] => [x]
  | y :: rest => if ltb y x then y :: insert_sorted ltb x rest else x :: y :: rest
  end.

Definition stable_sort {A : Type} (ltb : A -> A -> bool) (l : list A) : list A :=
  fold_right (insert_sorted ltb) [] l.

(** [sorted(l, key=..., reverse=True)] on entries already paired with their
    keys: the list is reversed, sorted in ascending order, and reversed
    again, so entries with equal keys keep their order. *)
Definition sorted_reverse {A : Type} (l : list (number * A)) : list (number * A) :=
  rev (stable_sort (fun a b => num_ltb (fst a) (fst b)) (rev l)).

(** The keys [x['popularity_score']], computed before any comparison; a key
    that is no number cannot be compared with the floats [transform_post]
    stores. *)
Fixpoint with_scores (posts : list pyval) : result (list (number * pyval)) :=
  match posts with
  | [] => Ok []
  | post :: rest =>
      score <- getitem post "popularity_score" ;;
      match number_of score with
      | Some n => keyed <- with_scores rest ;; Ok ((n, post) :: keyed)
      | None => Raise TypeError
      end
  end.

Definition top_posts_of (posts : list pyval) : result (list pyval) :=
  keyed <- with_scores posts ;;
  Ok (firstn 5 (map snd (sorted_reverse keyed))).

Record top_post : Type := mkTopPost {
  top_post_id : pyval;
  top_platform : pyval;
  top_popularity_score : pyval;
  top_engagement_rate : pyval
}.

Fixpoint summarize_posts (posts : list pyval) : result (list top_post) :=
  match posts with
  | [] => Ok []
  | post :: rest =>
      post_id <- getitem post "post_id" ;;
      platform <- getitem post "platform" ;;
      score <- getitem post "popularity_score" ;;
      rate <- getitem post "engagement_rate" ;;
      others <- summarize_posts rest ;;
      Ok (mkTopPost post_id platform score rate :: others)
  end.

Fixpoint numbers_of (vs : list pyval) : result (list number) :=
  match vs with
  | [] => Ok []
  | v :: rest =>
      match number_of v with
      | Some n => ns <- numbers_of rest ;; Ok (n :: ns)
      | None => Raise TypeError
      end
  end.

(** [round(sum(rates) / len(rates), 2)] *)
Definition average_rate (rates : list pyval) : result pyfloat :=
  ns <- numbers_of rates ;;
  total <- num_sum ns ;;
  mean <- num_truediv total (NInt (Z.of_nat (List.length rates))) ;;
  Ok (float_round2 mean).

Fixpoint average_engagement (groups : list (pyval * list pyval))
    : result (list (pyval * pyfloat)) :=
  match groups with
  | [] => Ok []
  | (platform, rates) :: rest =>
      match rates with
      | [] => average_engagement rest
      | _ :: _ =>
          mean <- average_rate rates ;;
          others <- average_engagement rest ;;
          Ok ((platform, mean) :: others)
      end
  end.

(** [round(sum(times) / len(times) * 1000, 2) if times else 0] *)
Definition average_processing_time (times : list pyfloat) : result number :=
  match times with
  | [] => Ok (NInt 0)
  | _ :: _ =>
      total <- num_sum (map NFloat times) ;;
      mean <- num_truediv total (NInt (Z.of_nat (List.length times))) ;;
      thousand <- float_of_int 1000 ;;
      Ok (NFloat (float_round2 (fmul mean thousand)))
  end.

(** [round((processed / (processed + failed)) * 100, 2)] *)
Definition success_rate_of (processed failed : Z) : result pyfloat :=
  ratio <- int_truediv processed (processed + failed) ;;
  hundred <- float_of_int 100 ;;
  Ok (float_round2 (fmul ratio hundred)).

(** [l[-5:]] *)
Definition last_five {A : Type} (l : list A) : list A :=
  skipn (List.length l - 5) l.

Record analytics : Type := mkAnalytics {
  total_processed : Z;
  total_failed : Z;
  success_rate : pyfloat;
  avg_processing_time_ms : number;
  platform_distribution : counter;
  topic_distribution : counter;
  sentiment_distribution : counter;
  category_distribution : counter;
  avg_engagement_by_platform : list (pyval * pyfloat);
  hourly_post_distribution : counter;
  top_performing_posts : list top_post;
  total_errors : Z;
  recent_errors : list error_entry
}.

(** What [get_analytics] returns: the document
    [{'message': 'No data processed yet'}], or the full report. *)
Inductive snapshot : Type :=
| NoData
| Report (a : analytics).

Definition get_analytics (st : consumer) : result snapshot :=
  match processed_data st with
  | [] => Ok NoData
  | _ :: _ =>
      avg_engagement <- average_engagement (engagement_stats st) ;;
      avg_processing_time <- average_processing_time (processing_times st) ;;
      top_posts <- top_posts_of (processed_data st) ;;
      rate <- success_rate_of (processed_posts st) (failed_posts st) ;;
      top <- summarize_posts top_posts ;;
      Ok (Report
            (mkAnalytics (processed_posts st) (failed_posts st) rate avg_processing_time
               (platform_stats st) (topic_stats st) (sentiment_stats st)
               (category_stats st) avg_engagement (hourly_stats st) top
               (Z.of_nat (List.length (error_log st))) (last_five (error_log st))))
  end.

Record stats : Type := mkStats {
  stats_processed_posts : Z;
  stats_failed_posts : Z;
  stats_is_running : bool;
  stats_queue_size : Z;
  stats_success_rate : number
}.

(** [queue_size] is the reading of [self.data_queue.qsize()]. *)
Definition get_stats (queue_size : Z) (st : consumer) : result stats :=
  rate <- (if 0 <? processed_posts st + failed_posts st
           then r <- success_rate_of (processed_posts st) (failed_posts st) ;; Ok (NFloat r)
           else Ok (NInt 0)) ;;
  Ok (mkStats (processed_posts st) (failed_posts st) (is_running st) queue_size rate).

(** ** The producer ([SocialMediaProducer]) *)

Definition platforms : list string :=
  ["twitter"; "facebook"; "instagram"; "linkedin"; "tiktok"].

Definition usernames : list string :=
  ["tech_enthusiast"; "data_scientist"; "social_guru"; "content_creator";
   "digital_nomad"; "startup_founder"; "marketing_pro"; "developer_life";
   "business_insider"; "creative_mind"; "innovation_hub"; "trend_setter"].

Definition content_templates : list string :=
  ["Just discovered an amazing new tool for {topic}! #tech #innovation";
   "Thoughts on the latest trends in {topic}? Share your insights below!";
   "Breaking: Major breakthrough in {topic} industry announced today";
   "Tutorial: How to master {topic} in 5 simple steps";
   "Weekly roundup: Top {topic} news you shouldn't miss";
   "Behind the scenes: Our journey with {topic} development";
   "Quick tip: Boost your {topic} productivity with this simple hack";
   "Community question: What's your favorite {topic} resource?"].

Definition topics : list string :=
  ["artificial intelligence"; "machine learning"; "data science";
   "cloud computing"; "cybersecurity"; "blockchain"; "mobile development";
   "web development"; "digital marketing"; "social media"; "entrepreneurship"].

Definition engagement_multiplier : list (string * pyfloat) :=
  [("twitter", fl 1); ("facebook", fl (3 # 2)); ("instagram", fl 2);
   ("linkedin", fl (4 # 5)); ("tiktok", fl 3)].

Definition hashtag_pools : list (string * list string) :=
  [("artificial intelligence", ["#AI"; "#MachineLearning"; "#Tech"; "#Innovation"]);
   ("machine learning", ["#ML"; "#DataScience"; "#AI"; "#Analytics"]);
   ("data science", ["#DataScience"; "#BigData"; "#Analytics"; "#ML"]);
   ("cloud computing", ["#Cloud"; "#AWS"; "#Azure"; "#Tech"]);
   ("cybersecurity", ["#CyberSecurity"; "#InfoSec"; "#Security"; "#Tech"]);
   ("blockchain", ["#Blockchain"; "#Crypto"; "#Web3"; "#Innovation"]);
   ("mobile development", ["#MobileDev"; "#iOS"; "#Android"; "#Tech"]);
   ("web development", ["#WebDev"; "#JavaScript"; "#Frontend"; "#Backend"]);
   ("digital marketing", ["#DigitalMarketing"; "#Marketing"; "#SocialMedia"; "#Growth"]);
   ("social media", ["#SocialMedia"; "#Marketing"; "#Content"; "#Engagement"]);
   ("entrepreneurship", ["#Startup"; "#Entrepreneur"; "#Business"; "#Innovation"])].

(** [d.get(key, default)] on a table keyed by strings. *)
Fixpoint assoc_get {A : Type} (key : string) (default : A) (table : list (string * A)) : A :=
  match table with
  | [] => default
  | (k, v) :: rest => if String.eqb k key then v else assoc_get key default rest
  end.

(** The random draws and clock readings of one call of [generate_post].
    [random.choice] is given by the position it picks, [random.sample] by
    the positions it picks, in order. *)
Record draws : Type := mkDraws {
  draw_time : pyfloat;             (* time.time() *)
  draw_user_id : Z;                (* random.randint(1000, 9999) *)
  draw_username : nat;             (* random.choice(self.usernames) *)
  draw_platform : nat;             (* random.choice(self.platforms) *)
  draw_topic : nat;                (* random.choice(self.topics) *)
  draw_template : nat;             (* random.choice(self.content_templates) *)
  draw_base_engagement : Z;        (* random.randint(10, 1000) *)
  draw_now : datetime;             (* datetime.now() *)
  draw_time_offset : pyfloat;      (* random.uniform(0, 24) *)
  draw_likes : pyfloat;            (* random.uniform(0.8, 1.2) *)
  draw_shares : pyfloat;           (* random.uniform(0.5, 1.5) *)
  draw_comments : pyfloat;         (* random.uniform(0.3, 2.0) *)
  draw_views : pyfloat;            (* random.uniform(5, 15) *)
  draw_verified : nat;             (* random.choice([True, False]) *)
  draw_has_media : nat;            (* random.choice([True, False]) *)
  draw_hashtag_count : Z;          (* random.randint(1, 3) *)
  draw_hashtags : list nat;        (* random.sample(relevant_hashtags, k=...) *)
  draw_mentions : Z;               (* random.randint(0, 3) *)
  draw_sentiment : nat             (* random.choice([...]) *)
}.

(** [random.sample(pool, k)] raises when [k] exceeds the pool. *)
Definition sample (pool : list string) (k : Z) (positions : list nat) : result (list string) :=
  if (k <? 0) || (Z.of_nat (List.length pool) <? k) then Raise ValueError
  else Ok (map (fun i => nth i pool "") positions).

Definition _generate_hashtags (d : draws) (topic : string) : result (list string) :=
  let relevant_hashtags := assoc_get topic ["#Tech"; "#Innovation"] hashtag_pools in
  sample relevant_hashtags (draw_hashtag_count d) (draw_hashtags d).

Definition _categorize_content (content topic : string) : string :=
  if contains "tutorial" (lower content) || contains "how to" (lower content)
  then "educational"
  else if contains "breaking" (lower content) || contains "news" (lower content)
  then "news"
  else if contains "question" (lower content) || contains "?" content
  then "discussion"
  else if contains "tip" (lower content) || contains "hack" (lower content)
  then "advice"
  else "general".

(** [timedelta(hours=u)] for a float. *)
Definition timedelta_of_hours (u : pyfloat) : result Z :=
  match u with
  | Fin q => timedelta_hours q
  | PInf | NInf => Raise OverflowError
  | NaN => Raise ValueError
  end.

(** [int(a * b)] for two floats *)
Definition int_of_product (a b : pyfloat) : result Z := float_trunc (fmul a b).

Definition generate_post (posts_generated : Z) (d : draws) : result pyval :=
  seconds <- float_trunc (draw_time d) ;;
  let post_id := ("post_" ++ str_of_Z (posts_generated + 1) ++ "_" ++ str_of_Z seconds)%string in
  let user_id := draw_user_id d in
  let username := nth (draw_username d) usernames "" in
  let platform := nth (draw_platform d) platforms "" in
  let topic := nth (draw_topic d) topics "" in
  let content := format_topic (nth (draw_template d) content_templates "") topic in
  base_engagement <- float_of_int (draw_base_engagement d) ;;
  let multiplier := assoc_get platform (fl 1) engagement_multiplier in
  let now := draw_now d in
  time_offset <- timedelta_of_hours (draw_time_offset d) ;;
  post_time <- datetime_sub now time_offset ;;
  let scaled := fmul base_engagement multiplier in
  likes <- int_of_product scaled (draw_likes d) ;;
  shares <- int_of_product (fmul scaled (fl (1 # 10))) (draw_shares d) ;;
  comments <- int_of_product (fmul scaled (fl (1 # 20))) (draw_comments d) ;;
  ten <- float_of_int 10 ;;
  views <- int_of_product (fmul scaled ten) (draw_views d) ;;
  hashtags <- _generate_hashtags d topic ;;
  Ok (VDict
        [("post_id", VStr post_id);
         ("user_id", VInt user_id);
         ("username", VStr username);
         ("platform", VStr platform);
         ("content", VStr content);
         ("topic", VStr topic);
         ("engagement",
          VDict [("likes", VInt likes); ("shares", VInt shares);
                 ("comments", VInt comments); ("views", VInt views)]);
         ("metadata",
          VDict [("timestamp", VStr (isoformat post_time));
                 ("language", VStr "en");
                 ("verified_user", VBool (nth (draw_verified d) [true; false] false));
                 ("has_media", VBool (nth (draw_has_media d) [true; false] false));
                 ("hashtags", VList (map VStr hashtags));
                 ("mentions", VInt (draw_mentions d))]);
         ("sentiment", VStr (nth (draw_sentiment d) valid_sentiments ""));
         ("category", VStr (_categorize_content content topic))]).

(** The draws a run of the generator can make.  The bounds of a
    [random.uniform] are the doubles of its two literals; only [0.3] lies
    below the decimal it is written as. *)
Definition between (lo hi : Q) (f : pyfloat) : Prop :=
  exists q, f = Fin q /\ (lo <= q)%Q /\ (q <= hi)%Q.

Record draws_in_range (d : draws) : Prop := mkDrawsInRange {
  time_in_range : between 0 (inject_Z (2 ^ 62)) (draw_time d);
  user_id_in_range : 1000 <= draw_user_id d <= 9999;
  username_in_range : (draw_username d < List.length usernames)%nat;
  platform_in_range : (draw_platform d < List.length platforms)%nat;
  topic_in_range : (draw_topic d < List.length topics)%nat;
  template_in_range : (draw_template d < List.length content_templates)%nat;
  base_engagement_in_range : 10 <= draw_base_engagement d <= 1000;
  now_in_range : valid_datetime (draw_now d) = true /\ 2 <= year (draw_now d);
  time_offset_in_range : between 0 24 (draw_time_offset d);
  likes_in_range : between (4 # 5) (6 # 5) (draw_likes d);
  shares_in_range : between (1 # 2) (3 # 2) (draw_shares d);
  comments_in_range : between (rnd64 (3 # 10)) 2 (draw_comments d);
  views_in_range : between 5 15 (draw_views d);
  verified_in_range : (draw_verified d < 2)%nat;
  has_media_in_range : (draw_has_media d < 2)%nat;
  hashtag_count_in_range : 1 <= draw_hashtag_count d <= 3;
  hashtags_in_range :
    Z.of_nat (List.length (draw_hashtags d)) = draw_hashtag_count d /\
    NoDup (draw_hashtags d) /\
    Forall (fun i => (i < 4)%nat) (draw_hashtags d);
  mentions_in_range : 0 <= draw_mentions d <= 3;
  sentiment_in_range : (draw_sentiment d < 3)%nat
}.

(** *** The bounded channel and the production loop *)

(** A [queue.Queue]: the oldest item first; [maxsize <= 0] is unbounded. *)
Record channel : Type := mkChannel {
  items : list pyval;
  maxsize : Z
}.

Definition is_full (q : channel) : bool :=
  (0 <? maxsize q) && (maxsize q <=? Z.of_nat (List.length (items q))).

(** The consumer takes [n] items off the queue. *)
Definition taken (n : nat) (q : channel) : channel :=
  mkChannel (skipn n (items q)) (maxsize q).

(** [q.put(item, timeout=5.0)] while the consumer takes [consumed] items
    before the timeout runs out; [false] stands for the exception
    [queue.Full]. *)
Definition put (item : pyval) (consumed : nat) (q : channel) : channel * bool :=
  let q' := taken consumed q in
  if is_full q' then (q', false)
  else (mkChannel (items q' ++ [item]) (maxsize q'), true).

Record producer : Type := mkProducer {
  max_posts : Z;
  posts_generated : Z;
  producer_running : bool
}.

Definition set_running (b : bool) (p : producer) : producer :=
  mkProducer (max_posts p) (posts_generated p) b.

(** [time.sleep(seconds)] for a float, as CPython 3.11 and later have it:
    the duration is first converted to a whole number of nanoseconds
    ([seconds * 1e9] in floating point, rounded away from zero), which
    raises [ValueError] for NaN and [OverflowError] outside the range of a
    signed 64-bit integer, that is beyond about 9.2e9 seconds either way; a
    negative number of nanoseconds then raises [ValueError]. *)
Definition sleep (seconds : pyfloat) : result unit :=
  match seconds with
  | NaN => Raise ValueError
  | PInf | NInf => Raise OverflowError
  | Fin q =>
      match fmul (Fin q) (Fin 1000000000) with
      | Fin ns =>
          let rounded := if Qle_bool 0 ns then Qceiling ns else Qfloor ns in
          if (- 2 ^ 63 <=? rounded) && (rounded <? 2 ^ 63) then
            if rounded <? 0 then Raise ValueError else Ok tt
          else Raise OverflowError
      | _ => Raise OverflowError
      end
  end.

(** What one iteration of the loop meets: whether [stop_production] was
    called since the last test of the loop condition, the draws of
    [generate_post], and how many items the consumer takes while [put]
    waits. *)
Record iteration : Type := mkIteration {
  stop_requested : bool;
  iteration_draws : draws;
  consumed : nat
}.

Inductive event : Type :=
| Generated (post : pyval)
| Enqueued (post : pyval)
| QueueFull
| Slept (seconds : pyfloat).

Record run : Type := mkRun {
  run_producer : producer;
  run_channel : channel;
  run_events : list event;
  run_error : option exn
}.

(** The [while] loop of [start_production] with its [finally] clause; the
    schedule bounds the number of iterations that are observed. *)
Fixpoint production_loop (interval : pyfloat) (schedule : list iteration)
    (p : producer) (q : channel) (log : list event) : run :=
  match schedule with
  | [] => mkRun p q log None
  | it :: rest =>
      let p := if stop_requested it then set_running false p else p in
      if producer_running p && (posts_generated p <? max_posts p) then
        match generate_post (posts_generated p) (iteration_draws it) with
        | Raise e => mkRun (set_running false p) q log (Some e)
        | Ok post_data =>
            match put post_data (consumed it) q with
            | (q', true) =>
                let p' := mkProducer (max_posts p) (posts_generated p + 1) (producer_running p) in
                let log' := log ++ [Generated post_data; Enqueued post_data] in
                match sleep interval with
                | Ok _ => production_loop interval rest p' q' (log' ++ [Slept interval])
                | Raise e => mkRun (set_running false p') q' log' (Some e)
                end
            | (q', false) =>
                let log' := log ++ [Generated post_data; QueueFull] in
                let pause := fmul interval (Fin 2) in
                match sleep pause with
                | Ok _ => production_loop interval rest p q' (log' ++ [Slept pause])
                | Raise e => mkRun (set_running false p) q' log' (Some e)
                end
            end
        end
      else mkRun (set_running false p) q log None
  end.

Definition start_production (interval : pyfloat) (schedule : list iteration)
    (p : producer) (q : channel) : run :=
  production_loop interval schedule (set_running true p) q [].

(** ** Vocabulary of the statements *)

(** The engagement block of a record. *)
Definition engagement_block (likes shares comments views : Z) : pyval :=
  VDict [("likes", VInt likes); ("shares", VInt shares);
         ("comments", VInt comments); ("views", VInt views)].

(** The value [transform_post] stores under ['engagement_rate'] for an
    engagement block of integers. *)
Definition engagement_rate (likes shares comments views : Z) : result pyval :=
  likes_shares <- py_add (VInt likes) (VInt shares) ;;
  total_engagement <- py_add likes_shares (VInt comments) ;;
  engagement_rate_of total_engagement (VInt views).

(** The value [transform_post] stores under ['popularity_score']. *)
Definition popularity_score (likes shares comments views : Z) : result pyval :=
  popularity_score_of (engagement_block likes shares comments views).

(** A float that is neither negative nor NaN. *)
Definition fnonneg (f : pyfloat) : Prop :=
  match f with
  | Fin q => (0 <= q)%Q
  | PInf => True
  | NInf | NaN => False
  end.

(** A finite float within [lo, hi]. *)
Definition fwithin (lo hi : Q) (f : pyfloat) : Prop :=
  match f with
  | Fin q => (lo <= q)%Q /\ (q <= hi)%Q
  | _ => False
  end.

(** The messages a check adds to an empty list, and how it ends. *)
Definition messages_of (c : V unit) : list message := fst (c []).
Definition outcome_of (c : V unit) : result unit := snd (c []).

(** The messages of a sequence of checks: each check adds its own, and only
    an exception keeps the later checks from running. *)
Fixpoint collect (checks : list (V unit)) : list message :=
  match checks with
  | [] => []
  | c :: rest =>
      messages_of c ++
      match outcome_of c with
      | Ok _ => collect rest
      | Raise _ => []
      end
  end.

(** The exception that ends a sequence of checks, if any. *)
Fixpoint first_raise (checks : list (V unit)) : option exn :=
  match checks with
  | [] => None
  | c :: rest =>
      match outcome_of c with
      | Ok _ => first_raise rest
      | Raise e => Some e
      end
  end.

(** The nine checks of [validate_post], in order. *)
Definition field_checks (d : pydict) : list (V unit) :=
  [check_required d;
   check_post_id d;
   check_user_id d;
   check_member "platform" valid_platforms "Invalid platform: " d;
   check_content d;
   check_engagement d;
   check_metadata d;
   check_member "sentiment" valid_sentiments "Invalid sentiment: " d;
   check_member "category" valid_categories "Invalid category: " d].

(** A finite float whose value is the integer [z]. *)
Definition exact (f : pyfloat) (z : Z) : Prop :=
  exists q, f = Fin q /\ (q == inject_Z z)%Q.

(** The score of an engagement block whose weighted integer part stays
    below [2^53]: only the term of the views and the last addition round. *)
Definition score_value (likes shares comments views : Z) : Q :=
  rnd64 (inject_Z (likes + 3 * shares + 2 * comments)
         + rnd64 (inject_Z views * rnd64 (1 # 10))).

(** A check only ever appends to the error list, and what it appends does
    not depend on what is already there. *)
Definition append_only (c : V unit) : Prop :=
  forall errors, c errors = (errors ++ messages_of c, outcome_of c).

(** Running checks one after the other. *)
Fixpoint vseq (checks : list (V unit)) : V unit :=
  match checks with
  | [] => vret tt
  | c :: rest => vbind c (fun _ => vseq rest)
  end.




(** The four counts of a validated engagement block. *)
Definition engagement_counts (e : pydict) (likes shares comments views : Z) : Prop :=
  (exists v, lookup "likes" e = Some v /\ int_value v = Some likes) /\
  (exists v, lookup "shares" e = Some v /\ int_value v = Some shares) /\
  (exists v, lookup "comments" e = Some v /\ int_value v = Some comments) /\
  (exists v, lookup "views" e = Some v /\ int_value v = Some views) /\
  0 <= likes /\ 0 <= shares /\ 0 <= comments /\ 0 <= views.

Record valid_record (d : pydict) : Prop := mkValidRecord {
  valid_post_id : exists s, lookup "post_id" d = Some (VStr s);
  valid_username : exists v, lookup "username" d = Some v;
  valid_platform : exists s, lookup "platform" d = Some (VStr s);
  valid_sentiment : exists s, lookup "sentiment" d = Some (VStr s);
  valid_category : exists s, lookup "category" d = Some (VStr s);
  valid_content : exists s, lookup "content" d = Some (VStr s);
  valid_engagement :
    exists e l s c v, lookup "engagement" d = Some (VDict e) /\ engagement_counts e l s c v;
  valid_metadata : exists md, lookup "metadata" d = Some (VDict md)
}.

(** A check that reports nothing and ends normally. *)
Definition passes (c : V unit) : Prop := messages_of c = [] /\ outcome_of c = Ok tt.

(** A value [transform_post] stores as engagement rate. *)
Definition rate_ok (r : pyval) : Prop := r = VInt 0 \/ exists f, r = VFloat f.

(** A processed record as [get_analytics] needs it. *)
Definition processed_ok (p : pyval) : Prop :=
  exists t f,
    p = VDict t /\
    lookup "popularity_score" t = Some (VFloat f) /\ fnonneg f /\
    (exists r, lookup "engagement_rate" t = Some r /\ rate_ok r) /\
    (exists s, lookup "post_id" t = Some (VStr s)) /\
    (exists s, lookup "platform" t = Some (VStr s)) /\
    (exists s, lookup "sentiment" t = Some (VStr s)) /\
    (exists s, lookup "category" t = Some (VStr s)) /\
    (exists h, lookup "post_hour" t = Some (VInt h)).

(** The running total of [weighted_sum]: the integer [0] it starts from, or
    a float that is neither negative nor NaN. *)
Definition acc_ok (acc : number) : Prop :=
  acc = NInt 0 \/ exists f, acc = NFloat f /\ fnonneg f.

(** What [update_statistics] leaves alone. *)
Definition same_records (st st' : consumer) : Prop :=
  processed_posts st' = processed_posts st /\
  failed_posts st' = failed_posts st /\
  processed_data st' = processed_data st /\
  processing_times st' = processing_times st /\
  error_log st' = error_log st.

(** The two ways a call of [process_post] can end, seen from the fields
    the analytics read. *)
Definition step_failed (st st' : consumer) : Prop :=
  processed_posts st' = processed_posts st /\
  processed_data st' = processed_data st /\
  processing_times st' = processing_times st /\
  failed_posts st < failed_posts st' /\
  (engagement_stats st' = engagement_stats st \/
   exists k rate, rate_ok rate /\
                  engagement_stats st' = append_to k rate (engagement_stats st)).

Definition step_succeeded (st st' : consumer) : Prop :=
  exists p t k rate,
    processed_ok p /\
    processed_posts st' = processed_posts st + 1 /\
    processed_data st' = processed_data st ++ [p] /\
    processing_times st' = processing_times st ++ [t] /\
    failed_posts st' = failed_posts st /\
    rate_ok rate /\
    engagement_stats st' = append_to k rate (engagement_stats st) /\
    platform_stats st' = incr k (platform_stats st).

(** [a] comes first in a stable ascending sort: it is smaller, or neither is
    smaller and [a] was earlier. *)
Definition precedes {A : Type} (ltb : A -> A -> bool) (earlier : A -> A -> Prop)
    (a b : A) : Prop :=
  ltb a b = true \/ (ltb a b = false /\ ltb b a = false /\ earlier a b).

(** A score as [transform_post] stores it. *)
Definition good_score (n : number) : Prop := exists f, n = NFloat f /\ fnonneg f.

(** The entries with their positions, in the order of [sorted_reverse]. *)
Definition ranked {A : Type} (keyed : list (number * A)) : list (nat * (number * A)) :=
  rev (stable_sort (fun a b => num_ltb (fst (snd a)) (fst (snd b)))
         (rev (combine (seq 0 (List.length keyed)) keyed))).

(** [a] ranks before [b]: a higher score, or the same score and an earlier
    position. *)
Definition outranks {A : Type} (a b : nat * (number * A)) : Prop :=
  num_ltb (fst (snd b)) (fst (snd a)) = true \/
  (num_ltb (fst (snd b)) (fst (snd a)) = false /\
   num_ltb (fst (snd a)) (fst (snd b)) = false /\
   (fst a < fst b)%nat).

(** A number that can occur in a list of engagement rates. *)
Definition rate_number (n : number) : Prop := n = NInt 0 \/ exists f, n = NFloat f.

(** What [get_analytics] relies on, after at most [n] calls of
    [process_post]. *)
Definition analytics_ready (n : nat) (st : consumer) : Prop :=
  processed_posts st = Z.of_nat (List.length (processed_data st)) /\
  0 <= failed_posts st /\
  Forall processed_ok (processed_data st) /\
  Forall (fun g => Forall rate_ok (snd g) /\ (List.length (snd g) <= n)%nat)
         (engagement_stats st) /\
  (List.length (processing_times st) <= n)%nat.

(** The score [get_analytics] sorts a processed record by. *)
Definition score_of (post : pyval) : option number :=
  match getitem post "popularity_score" with
  | Ok v => number_of v
  | Raise _ => None
  end.

(** In the list [data], the record at position [i] ranks before the one at
    position [j]: its score is higher, or the scores tie and [i] is the
    earlier position. *)
Definition ranks_before (data : list pyval) (i j : nat) : Prop :=
  exists p q a b,
    nth_error data i = Some p /\ nth_error data j = Some q /\
    score_of p = Some a /\ score_of q = Some b /\
    (num_ltb b a = true \/
     (num_ltb b a = false /\ num_ltb a b = false /\ (i < j)%nat)).

(** A record that passes validation, with the given value as its topic. *)
Definition post_with_topic (topic : pyval) : pyval :=
  VDict
    [("post_id", VStr "post_1_1700000000");
     ("user_id", VInt 1234);
     ("username", VStr "tech_enthusiast");
     ("platform", VStr "twitter");
     ("content", VStr "Tutorial: How to master data science in 5 simple steps");
     ("topic", topic);
     ("engagement", engagement_block 120 12 6 6000);
     ("metadata",
      VDict [("timestamp", VStr "2024-03-01T10:30:15.250000");
             ("language", VStr "en");
             ("verified_user", VBool true);
             ("has_media", VBool false);
             ("hashtags", VList [VStr "#DataScience"; VStr "#ML"]);
             ("mentions", VInt 2)]);
     ("sentiment", VStr "positive");
     ("category", VStr "educational")].

Definition sample_clock : clock :=
  mkClock (Fin 1700000000) (Fin (3400000001 # 2))
          (mkDatetime 2024 3 1 12 0 0 0) (mkDatetime 2024 3 1 12 0 0 500).

(** The topic of a record can be counted: it is absent or hashable. *)
Definition topic_hashable (post_data : pyval) : Prop :=
  match post_data with
  | VDict d =>
      match lookup "topic" d with
      | Some topic => hashable topic = true
      | None => True
      end
  | _ => True
  end.

(** *** Vocabulary for the generator's records *)

(** [c] occurs in [s]. *)
Fixpoint occurs (c : ascii) (s : string) : bool :=
  match s with
  | EmptyString => false
  | String a r => Ascii.eqb a c || occurs c r
  end.

(** A record with the shape [generate_post] gives it. *)
Definition record_of (post_id : string) (user_id : Z) (username platform content topic : string)
    (likes shares comments views : Z) (timestamp : string)
    (verified has_media : bool) (hashtags : list string) (mentions : Z)
    (sentiment category : string) : pyval :=
  VDict
    [("post_id", VStr post_id);
     ("user_id", VInt user_id);
     ("username", VStr username);
     ("platform", VStr platform);
     ("content", VStr content);
     ("topic", VStr topic);
     ("engagement", engagement_block likes shares comments views);
     ("metadata",
      VDict [("timestamp", VStr timestamp);
             ("language", VStr "en");
             ("verified_user", VBool verified);
             ("has_media", VBool has_media);
             ("hashtags", VList (map VStr hashtags));
             ("mentions", VInt mentions)]);
     ("sentiment", VStr sentiment);
     ("category", VStr category)].

(** What [validate_post] asks of the content and the category, for the
    template at position [j] and the topic at position [i]. *)
Definition content_ok (j i : nat) : bool :=
  let topic := nth i topics "" in
  let content := format_topic (nth j content_templates "") topic in
  negb (is_empty (strip content)) &&
  (Z.of_nat (String.length content) <=? 10000) &&
  in_strings (_categorize_content content topic) valid_categories.

(** A finite float between [0] and [2^n]. *)
Definition bounded (n : Z) (f : pyfloat) : Prop :=
  exists q, f = Fin q /\ (0 <= q)%Q /\ (q <= pow2 n)%Q.

(** One run of the random draws: the first template and topic, a LinkedIn
    post, half past midnight on the first of March 2024. *)
Definition sample_draws : draws :=
  mkDraws (Fin (17000000005 # 10)) 1234 0 3 0 0 500
          (mkDatetime 2024 3 1 0 30 15 123456) (Fin (3 # 2))
          (Fin 1) (Fin 1) (Fin 1) (Fin 10) 0 1 2 [0%nat; 3%nat] 2 1.

(** *** Vocabulary for the production loop *)

(** A second run of the draws: another user, on Twitter, a minute later. *)
Definition later_draws : draws :=
  mkDraws (Fin (17000000625 # 10)) 4321 5 0 7 3 250
          (mkDatetime 2024 3 1 0 31 17 654321) (Fin (9 # 2))
          (Fin 1) (Fin 1) (Fin 1) (Fin 10) 1 0 1 [2%nat] 0 0.

(** The record [generate_post] builds from given draws ([None] when it
    raises). *)
Definition generated (posts_generated : Z) (d : draws) : pyval :=
  match generate_post posts_generated d with
  | Ok post => post
  | Raise _ => VNone
  end.

(** A queue of capacity one that holds one item. *)
Definition full_channel : channel := mkChannel [VStr "an earlier post"] 1.

(** A producer that is running and has enqueued nothing so far. *)
Definition fresh_producer : producer := mkProducer 10 0 true.

(** A run of the loop against the full queue: nothing is taken during the
    first [put], one item during the second. *)
Definition full_queue_run : run :=
  start_production (Fin 1)
    [mkIteration false sample_draws 0; mkIteration false later_draws 1]
    (mkProducer 10 0 false) full_channel.

(** *** Sample records and runs *)


(** A record that is well formed but for its content, which is given. *)
Definition post_with_content (content : string) : pydict :=
  [("post_id", VStr "post_1_1700000000");
   ("user_id", VInt 1234);
   ("username", VStr "tech_enthusiast");
   ("platform", VStr "twitter");
   ("content", VStr content);
   ("topic", VStr "data science");
   ("engagement", engagement_block 120 12 6 6000);
   ("metadata",
    VDict [("timestamp", VStr "2024-03-01T10:30:15.250000");
           ("language", VStr "en");
           ("verified_user", VBool true);
           ("has_media", VBool false);
           ("hashtags", VList [VStr "#DataScience"; VStr "#ML"]);
           ("mentions", VInt 2)]);
   ("sentiment", VStr "positive");
   ("category", VStr "educational")].


(** A record with every field of the data model of the specification, well
    formed, and no ['username']. *)
Definition post_without_username : pydict :=
  [("post_id", VStr "post_1_1700000000");
   ("user_id", VInt 1234);
   ("platform", VStr "twitter");
   ("content", VStr "Tutorial: How to master data science in 5 simple steps");
   ("topic", VStr "data science");
   ("engagement", engagement_block 120 12 6 6000);
   ("metadata",
    VDict [("timestamp", VStr "2024-03-01T10:30:15.250000");
           ("language", VStr "en");
           ("verified_user", VBool true);
           ("has_media", VBool false);
           ("hashtags", VList [VStr "#DataScience"; VStr "#ML"]);
           ("mentions", VInt 2)]);
   ("sentiment", VStr "positive");
   ("category", VStr "educational")].

(** A run over three records; the second one is rejected by validation. *)
Definition sample_inputs : list (clock * pyval) :=
  [(sample_clock, post_with_topic (VStr "data science"));
   (sample_clock, VDict (post_with_content ""));
   (sample_clock, post_with_topic (VStr "machine learning"))].

(** The largest integer up to which every integer is a float, and its
    successor. *)
Definition shares_2_53 : Z := 9007199254740992.
Definition shares_2_53_plus_1 : Z := 9007199254740993.

(** *** What validation asks of a record *)

(** The value under [key] is one of the strings [allowed]. *)
Definition member_field (key : string) (allowed : list string) (d : pydict) : Prop :=
  exists s, lookup key d = Some (VStr s) /\ in_strings s allowed = true.

(** A timestamp, when there is one, is a string that parses once every [Z]
    is replaced by [+00:00]. *)
Definition timestamp_ok (metadata : pydict) : Prop :=
  forall v, lookup "timestamp" metadata = Some v ->
    exists s dt, v = VStr s /\ fromisoformat (replace_char "Z" "+00:00" s) = Some dt.

(** The hashtags, when there are some, are a list of strings. *)
Definition hashtags_ok (metadata : pydict) : Prop :=
  forall v, lookup "hashtags" metadata = Some v ->
    exists tags, v = VList tags /\ forallb is_str tags = true.

Record well_formed (d : pydict) : Prop := mkWellFormed {
  wf_post_id :
    exists s, lookup "post_id" d = Some (VStr s) /\ is_empty (strip s) = false;
  wf_user_id :
    exists v n, lookup "user_id" d = Some v /\ int_value v = Some n /\ 0 < n;
  wf_username : exists v, lookup "username" d = Some v;
  wf_platform : member_field "platform" valid_platforms d;
  wf_content :
    exists s, lookup "content" d = Some (VStr s) /\ is_empty (strip s) = false /\
              Z.of_nat (String.length s) <= 10000;
  wf_engagement :
    exists e l s c v, lookup "engagement" d = Some (VDict e) /\ engagement_counts e l s c v;
  wf_metadata :
    exists md, lookup "metadata" d = Some (VDict md) /\ timestamp_ok md /\ hashtags_ok md;
  wf_sentiment : member_field "sentiment" valid_sentiments d;
  wf_category : member_field "category" valid_categories d
}.

(** A record that is well formed but for its platform, which is a list, and
    its content, which is blank. *)
Definition post_with_list_platform : pydict :=
  [("post_id", VStr "post_1_1700000000");
   ("user_id", VInt 1234);
   ("username", VStr "tech_enthusiast");
   ("platform", VList [VStr "twitter"]);
   ("content", VStr "   ");
   ("engagement", engagement_block 120 12 6 6000);
   ("metadata", VDict [("timestamp", VStr "2024-03-01T10:30:15.250000")]);
   ("sentiment", VStr "positive");
   ("category", VStr "educational")].

(** The fields [transform_post] writes. *)
Definition added_fields : list string :=
  ["processed_at"; "engagement_rate"; "content_metrics"; "popularity_score";
   "post_size"; "post_hour"].

(** A record that passes validation and whose metadata holds no timestamp. *)
Definition post_without_timestamp : pydict :=
  [("post_id", VStr "post_7_1700000000");
   ("user_id", VInt 1234);
   ("username", VStr "tech_enthusiast");
   ("platform", VStr "twitter");
   ("content", VStr "Quick tip: Boost your data science productivity with this simple hack");
   ("engagement", engagement_block 120 12 6 6000);
   ("metadata", VDict [("language", VStr "en")]);
   ("sentiment", VStr "positive");
   ("category", VStr "advice")].

Definition tutorial_post : pydict :=
  post_with_content "Tutorial: How to master data science in 5 simple steps".

(** What [transform_post] makes of [tutorial_post] ([None] if it raises). *)
Definition processed_tutorial_post : pyval :=
  match transform_post (now_first sample_clock) (VDict tutorial_post) with
  | Ok p => p
  | Raise _ => VNone
  end.

(** *** Vocabulary for the processing steps *)

(** The consumer after a failure of the record [d] has been counted and
    logged. *)
Definition logged_failure (d : pydict) (errors : list message) (now : datetime)
    (st : consumer) : consumer :=
  set_error_log
    (error_log st ++
     [mkErrorEntry (dict_get "post_id" (VStr "unknown") d) errors (isoformat now)])
    (set_failed_posts (failed_posts st + 1) st).

(** The consumer after the processed record [p] has been stored. *)
Definition stored (p : pyval) (elapsed : pyfloat) (st : consumer) : consumer :=
  set_processing_times (processing_times st ++ [elapsed])
    (set_processed_posts (processed_posts st + 1)
       (set_processed_data (processed_data st ++ [p]) st)).

Definition is_dict (v : pyval) : bool :=
  match v with
  | VDict _ => true
  | _ => false
  end.

(** The number of rates held by [engagement_stats], all platforms together. *)
Definition group_total (m : list (pyval * list pyval)) : Z :=
  fold_right (fun g acc => Z.of_nat (List.length (snd g)) + acc) 0 m.

(** The statistics count the processed records: every counter but the one
    of the platforms has one count for each of them, and the platforms have
    at least that and at most one more for each failure. *)
Record totals_match (st : consumer) : Prop := mkTotalsMatch {
  topic_total : counter_total (topic_stats st) = processed_posts st;
  sentiment_total : counter_total (sentiment_stats st) = processed_posts st;
  category_total : counter_total (category_stats st) = processed_posts st;
  hourly_total : counter_total (hourly_stats st) = processed_posts st;
  engagement_total : group_total (engagement_stats st) = processed_posts st;
  platform_total_low : processed_posts st <= counter_total (platform_stats st);
  platform_total_high :
    counter_total (platform_stats st) <= processed_posts st + failed_posts st
}.

(** The lists of the consumer are as long as its two counters say. *)
Record counts_match (n : Z) (st : consumer) : Prop := mkCountsMatch {
  attempts_counted : processed_posts st + failed_posts st = n;
  data_counted : Z.of_nat (List.length (processed_data st)) = processed_posts st;
  times_counted : Z.of_nat (List.length (processing_times st)) = processed_posts st;
  errors_counted : Z.of_nat (List.length (error_log st)) = failed_posts st
}.

(** ** The consumer: the consumption loop ([start_consumption]) *)

Definition set_is_running (b : bool) (c : consumer) : consumer :=
  mkConsumer b (processed_posts c) (failed_posts c) (processed_data c)
    (platform_stats c) (topic_stats c) (engagement_stats c) (sentiment_stats c)
    (category_stats c) (hourly_stats c) (processing_times c) (error_log c).

(** What [self.data_queue.get(timeout=timeout)] gives: the exception
    [queue.Empty] after the timeout, or an item. *)
Inductive arrival : Type :=
| Empty
| Item (post_data : pyval).

(** What one turn of the loop meets: whether [stop_consumption] was called
    since the loop condition was last tested, what the queue gives, and the
    clock readings of [process_post]. *)
Record turn : Type := mkTurn {
  stop_called : bool;
  turn_arrival : arrival;
  turn_clock : clock
}.

(** The [while] loop of [start_consumption] with its [finally] clause; the
    second component counts the calls of [task_done].  [None] is the
    sentinel that ends the loop; an exception that escapes [process_post] is
    logged by the inner handler, which skips [task_done]; the schedule bounds
    the number of turns that are observed. *)
Fixpoint consumption_loop (schedule : list turn) (st : consumer) (tasks_done : Z)
    : consumer * Z :=
  match schedule with
  | [] => (st, tasks_done)
  | t :: rest =>
      let st := if stop_called t then set_is_running false st else st in
      if is_running st then
        match turn_arrival t with
        | Empty => consumption_loop rest st tasks_done
        | Item VNone => (set_is_running false st, tasks_done)
        | Item post_data =>
            match process_post (turn_clock t) post_data st with
            | (st', Ok _) => consumption_loop rest st' (tasks_done + 1)
            | (st', Raise _) => consumption_loop rest st' tasks_done
            end
        end
      else (set_is_running false st, tasks_done)
  end.

Definition start_consumption (schedule : list turn) (st : consumer) : consumer * Z :=
  consumption_loop schedule (set_is_running true st) 0.

(** [stop_consumption] *)
Definition stop_consumption (st : consumer) : consumer := set_is_running false st.

(** ** The producer: its statistics ([SocialMediaProducer.get_stats]) *)

Record producer_stats : Type := mkProducerStats {
  stats_posts_generated : Z;
  stats_max_posts : Z;
  stats_producer_running : bool;
  completion_percentage : pyfloat
}.

Definition producer_get_stats (p : producer) : result producer_stats :=
  ratio <- int_truediv (posts_generated p) (max_posts p) ;;
  hundred <- float_of_int 100 ;;
  Ok (mkProducerStats (posts_generated p) (max_posts p) (producer_running p)
        (fmul ratio hundred)).

(** *** Vocabulary for the loops *)

(** The items a schedule of turns takes off the queue, with their clocks. *)
Fixpoint arrived (schedule : list turn) : list (clock * pyval) :=
  match schedule with
  | [] => []
  | t :: rest =>
      match turn_arrival t with
      | Empty => arrived rest
      | Item v => (turn_clock t, v) :: arrived rest
      end
  end.

(** No turn of the schedule sees a stop request or takes the sentinel. *)
Definition uninterrupted (schedule : list turn) : Prop :=
  Forall (fun t => stop_called t = false /\ turn_arrival t <> Item VNone) schedule.

Definition count_dicts (inputs : list (clock * pyval)) : Z :=
  Z.of_nat (List.length (filter (fun input => is_dict (snd input)) inputs)).

(** A schedule of three turns and one of four, which share the first two
    turns and the sentinel that follows them. *)
Definition turns_before_sentinel : list turn :=
  [mkTurn false (Item (post_with_topic (VStr "data science"))) sample_clock;
   mkTurn false Empty sample_clock].

Definition sentinel_turn : turn := mkTurn false (Item VNone) sample_clock.

Definition turns_with_a_string : list turn :=
  [mkTurn false (Item (post_with_topic (VStr "data science"))) sample_clock;
   mkTurn false Empty sample_clock;
   mkTurn false (Item (VStr "not a record")) sample_clock;
   mkTurn false (Item (VDict [])) sample_clock].

(** Draws that ask for three hashtags. *)
Definition three_hashtag_draws : draws :=
  mkDraws (Fin 1700000000) 1000 0 0 0 0 10 (mkDatetime 2024 3 1 0 0 0 0) (Fin 0)
          (Fin 1) (Fin 1) (Fin 1) (Fin 10) 0 0 3 [0%nat; 1%nat; 2%nat] 0 0.

(** *** Vocabulary for the records of the generator *)

(** The record [generate_post] builds from the draws [d] once the clock
    readings and the four counts are known. *)
Definition generated_record (posts_generated : Z) (d : draws) (seconds : Z)
    (post_time : datetime) (likes shares comments views : Z) : pyval :=
  let topic := nth (draw_topic d) topics "" in
  let content := format_topic (nth (draw_template d) content_templates "") topic in
  record_of
    ("post_" ++ str_of_Z (posts_generated + 1) ++ "_" ++ str_of_Z seconds)%string
    (draw_user_id d)
    (nth (draw_username d) usernames "")
    (nth (draw_platform d) platforms "")
    content topic likes shares comments views
    (isoformat post_time)
    (nth (draw_verified d) [true; false] false)
    (nth (draw_has_media d) [true; false] false)
    (map (fun i => nth i (assoc_get topic ["#Tech"; "#Innovation"] hashtag_pools) "")
         (draw_hashtags d))
    (draw_mentions d)
    (nth (draw_sentiment d) valid_sentiments "")
    (_categorize_content content topic).

(** The counts a generated record can carry. *)
Definition generated_counts (likes shares comments views : Z) : Prop :=
  6 <= likes <= 3600 /\ 0 <= shares <= 450 /\ 0 <= comments <= 300 /\
  400 <= views <= 450000.

(** An item of a run that [generate_post] returned for draws in range. *)
Definition generated_input (input : clock * pyval) : Prop :=
  exists posts_generated d,
    draws_in_range d /\ generate_post posts_generated d = Ok (snd input).

(** The records the log shows as enqueued, and how often each kind of event
    occurs. *)
Definition enqueued_posts (log : list event) : list pyval :=
  flat_map (fun e => match e with Enqueued post => [post] | _ => [] end) log.

Definition count_generated (log : list event) : Z :=
  Z.of_nat (List.length (filter (fun e => match e with Generated _ => true | _ => false end) log)).

Definition count_queue_full (log : list event) : Z :=
  Z.of_nat (List.length (filter (fun e => match e with QueueFull => true | _ => false end) log)).

(** What a run of the production loop has added to the log [log]. *)
Record production_accounts (p : producer) (log : list event) (r : run) : Prop :=
  mkProductionAccounts {
  log_extended : exists added,
    run_events r = log ++ added /\
    posts_generated (run_producer r)
    = posts_generated p + Z.of_nat (List.length (enqueued_posts added)) /\
    count_generated added
    = Z.of_nat (List.length (enqueued_posts added)) + count_queue_full added;
  max_posts_kept : max_posts (run_producer r) = max_posts p;
  max_posts_respected :
    posts_generated p <= max_posts p -> posts_generated (run_producer r) <= max_posts p
}.

(** An item is in the queue [q] already, or passes validation. *)
Definition old_or_valid (q : channel) (item : pyval) : Prop :=
  In item (items q) \/ validate_post item = Ok (true, []).

(** A schedule of two iterations with draws in range. *)
Definition sample_schedule : list iteration :=
  [mkIteration false sample_draws 0; mkIteration false later_draws 1].

(** *** Vocabulary for the distributions *)

(** The keys of a counter are strings of [allowed]. *)
Definition keys_among (allowed : list string) (c : counter) : Prop :=
  Forall (fun kv => exists s, fst kv = VStr s /\ in_strings s allowed = true) c.

(** The keys of a counter are hours of the day. *)
Definition keys_are_hours (c : counter) : Prop :=
  Forall (fun kv => exists h, fst kv = VInt h /\ 0 <= h <= 23) c.

(** A like count at which one more like leaves the score unchanged. *)
Definition likes_2_52_plus_1 : Z := 4503599627370497.

(** The keys of the four counters are what validation and the parsing of
    the timestamp let through. *)
Record keys_valid (st : consumer) : Prop := mkKeysValid {
  platform_keys : keys_among valid_platforms (platform_stats st);
  sentiment_keys : keys_among valid_sentiments (sentiment_stats st);
  category_keys : keys_among valid_categories (category_stats st);
  hourly_keys : keys_are_hours (hourly_stats st)
}.

(** *** Vocabulary for the report *)

(** The entry of the top-performing list for a record: its four fields are
    those the record holds under the same keys. *)
Definition summary_of (post : pyval) (entry : top_post) : Prop :=
  exists d,
    post = VDict d /\
    lookup "post_id" d = Some (top_post_id entry) /\
    lookup "platform" d = Some (top_platform entry) /\
    lookup "popularity_score" d = Some (top_popularity_score entry) /\
    lookup "engagement_rate" d = Some (top_engagement_rate entry).

(** The score of the first entry is a float not below that of the second. *)
Definition score_not_below (e1 e2 : top_post) : Prop :=
  exists f g,
    top_popularity_score e1 = VFloat f /\ top_popularity_score e2 = VFloat g /\
    fleb g f = true.

(** A record that passes validation, with the given post id and likes. *)
Definition post_with_likes (post_id : string) (likes : Z) : pyval :=
  VDict
    [("post_id", VStr post_id);
     ("user_id", VInt 1234);
     ("username", VStr "tech_enthusiast");
     ("platform", VStr "twitter");
     ("content", VStr "Tutorial: How to master data science in 5 simple steps");
     ("topic", VStr "data science");
     ("engagement", engagement_block likes 12 6 6000);
     ("metadata", VDict [("timestamp", VStr "2024-03-01T10:30:15.250000")]);
     ("sentiment", VStr "positive");
     ("category", VStr "educational")].

(** A run over eight records, one of them rejected; of the seven processed
    ones, [b] and [d] tie, and so do [c] and [g]. *)
Definition ranking_inputs : list (clock * pyval) :=
  [(sample_clock, post_with_likes "a" 100);
   (sample_clock, post_with_likes "b" 300);
   (sample_clock, post_with_likes "c" 200);
   (sample_clock, VDict (post_with_content ""));
   (sample_clock, post_with_likes "d" 300);
   (sample_clock, post_with_likes "e" 50);
   (sample_clock, post_with_likes "f" 400);
   (sample_clock, post_with_likes "g" 200)].

(** A record that validation rejects: it has a post id and nothing else. *)
Definition post_with_id_only (post_id : string) : pyval :=
  VDict [("post_id", VStr post_id)].

(** A run over eight records, seven of them rejected. *)
Definition failing_inputs : list (clock * pyval) :=
  [(sample_clock, post_with_id_only "r1");
   (sample_clock, post_with_id_only "r2");
   (sample_clock, post_with_likes "a" 100);
   (sample_clock, post_with_id_only "r3");
   (sample_clock, post_with_id_only "r4");
   (sample_clock, post_with_id_only "r5");
   (sample_clock, post_with_id_only "r6");
   (sample_clock, post_with_id_only "r7")].

(* ================================================================== *)
(** * Part II: properties *)
(* ================================================================== *)

(** ** Binary64 rounding *)

(** [lra] reads [inject_Z z] as a constant: the injected integers are
    abstracted first. *)
Ltac qlra :=
  repeat match goal with
  | |- context [inject_Z ?z] =>
      let q := fresh "q" in set (q := inject_Z z) in *; clearbody q
  | H : context [inject_Z ?z] |- _ =>
      let q := fresh "q" in set (q := inject_Z z) in *; clearbody q
  end; lra.

(** *** Powers of two *)
Lemma pow2_pos e : (0 < pow2 e)%Q.
Proof. apply Qpower_0_lt. reflexivity. Qed.

Lemma pow2_add a b : (pow2 (a + b) == pow2 a * pow2 b)%Q.
Proof. apply Qpower_plus. discriminate. Qed.

Lemma pow2_le a b : a <= b -> (pow2 a <= pow2 b)%Q.
Proof. intro H. apply Qpower_le_compat_l; [exact H | discriminate]. Qed.

Lemma pow2_lt a b : a < b -> (pow2 a < pow2 b)%Q.
Proof. intro H. apply Qpower_lt_compat_l; [exact H | reflexivity]. Qed.

Lemma pow2_Z n : 0 <= n -> (pow2 n == inject_Z (2 ^ n))%Q.
Proof. intro H. unfold pow2. rewrite Zpower_Qpower by exact H. reflexivity. Qed.

Lemma pow2_sub a b : (pow2 (a - b) == pow2 a / pow2 b)%Q.
Proof.
  assert (H := pow2_add (a - b) b). replace (a - b + b) with a in H by lia.
  rewrite H. field. intro E. pose proof (pow2_pos b) as P. rewrite E in P. discriminate.
Qed.

(** *** The integer logarithm *)
Lemma ilog2_spec x : (0 < x)%Q -> (pow2 (ilog2 x) <= x /\ x < pow2 (ilog2 x + 1))%Q.
Proof.
  intros Hx. destruct x as [n d]. unfold ilog2. cbn [Qnum Qden].
  assert (Hn : 0 < n) by (unfold Qlt in Hx; cbn in Hx; lia).
  pose proof (Z.log2_spec n Hn) as [Ha1 Ha2].
  pose proof (Z.log2_spec (Zpos d) eq_refl) as [Hb1 Hb2].
  pose proof (Z.log2_nonneg n) as Ha0. pose proof (Z.log2_nonneg (Zpos d)) as Hb0.
  set (a := Z.log2 n) in *. set (b := Z.log2 (Zpos d)) in *.
  assert (Hq : (n # d == inject_Z n / inject_Z (Zpos d))%Q) by apply Qmake_Qdiv.
  assert (Hd : (0 < inject_Z (Zpos d))%Q) by reflexivity.
  assert (Pb : forall k, ~ (pow2 k == 0)%Q).
  { intros k E. pose proof (pow2_pos k) as P. rewrite E in P. discriminate. }
  assert (Hlo : (pow2 (a - b - 1) <= n # d)%Q).
  { rewrite Hq. apply Qle_shift_div_l; [exact Hd|].
    replace (a - b - 1) with (a - (b + 1)) by lia. rewrite pow2_sub.
    setoid_replace (pow2 a / pow2 (b + 1) * inject_Z (Z.pos d))%Q
      with (pow2 a * inject_Z (Z.pos d) / pow2 (b + 1))%Q by (field; apply Pb).
    apply Qle_shift_div_r; [apply pow2_pos|].
    rewrite (pow2_Z a), (pow2_Z (b + 1)) by lia.
    rewrite <- !inject_Z_mult, <- Zle_Qle.
    unfold Z.succ in *. nia. }
  assert (Hhi : (n # d < pow2 (a - b + 1))%Q).
  { rewrite Hq. apply Qlt_shift_div_r; [exact Hd|].
    replace (a - b + 1) with ((a + 1) - b) by lia. rewrite pow2_sub.
    setoid_replace (pow2 (a + 1) / pow2 b * inject_Z (Z.pos d))%Q
      with (pow2 (a + 1) * inject_Z (Z.pos d) / pow2 b)%Q by (field; apply Pb).
    apply Qlt_shift_div_l; [apply pow2_pos|].
    rewrite (pow2_Z b), (pow2_Z (a + 1)) by lia.
    rewrite <- !inject_Z_mult, <- Zlt_Qlt.
    unfold Z.succ in *. nia. }
  destruct (Qle_bool (pow2 (a - b)) (n # d)) eqn:E.
  - apply Qle_bool_iff in E. split; assumption.
  - assert (E' : (n # d < pow2 (a - b))%Q).
    { apply Qnot_le_lt. intro C. apply Qle_bool_iff in C. congruence. }
    replace (a - b - 1 + 1) with (a - b) by lia. split; assumption.
Qed.

Lemma ilog2_unique x k : (pow2 k <= x)%Q -> (x < pow2 (k + 1))%Q -> ilog2 x = k.
Proof.
  intros H1 H2.
  assert (Hx : (0 < x)%Q) by (eapply Qlt_le_trans; [apply (pow2_pos k) | exact H1]).
  destruct (ilog2_spec x Hx) as [L1 L2].
  assert (A : ilog2 x < k + 1).
  { apply Qpower_lt_compat_l_inv with (q := 2%Q); [|reflexivity].
    eapply Qle_lt_trans; [exact L1 | exact H2]. }
  assert (B : k < ilog2 x + 1).
  { apply Qpower_lt_compat_l_inv with (q := 2%Q); [|reflexivity].
    eapply Qle_lt_trans; [exact H1 | exact L2]. }
  lia.
Qed.

Lemma ilog2_mono x y : (0 < x)%Q -> (x <= y)%Q -> ilog2 x <= ilog2 y.
Proof.
  intros Hx Hxy.
  assert (Hy : (0 < y)%Q) by (eapply Qlt_le_trans; eassumption).
  destruct (ilog2_spec x Hx) as [L1 _]. destruct (ilog2_spec y Hy) as [_ M2].
  assert (A : ilog2 x < ilog2 y + 1).
  { apply Qpower_lt_compat_l_inv with (q := 2%Q); [|reflexivity].
    eapply Qle_lt_trans; [exact L1 |]. eapply Qle_lt_trans; [exact Hxy | exact M2]. }
  lia.
Qed.

Lemma ilog2_comp x y : (0 < x)%Q -> (x == y)%Q -> ilog2 x = ilog2 y.
Proof.
  intros Hx E. symmetry. apply ilog2_unique; rewrite <- E; apply ilog2_spec; exact Hx.
Qed.

(** *** Rounding to the nearest integer *)
#[global] Instance round_half_even_comp : Proper (Qeq ==> eq) round_half_even.
Proof.
  intros x y E. unfold round_half_even.
  rewrite (Qfloor_comp x y E).
  assert (E' : (x - inject_Z (Qfloor y) == y - inject_Z (Qfloor y))%Q) by (rewrite E; reflexivity).
  rewrite (Qcompare_comp _ _ E' (1#2) (1#2) (Qeq_refl _)). reflexivity.
Qed.

Lemma round_half_even_Z n : round_half_even (inject_Z n) = n.
Proof.
  unfold round_half_even. rewrite Qfloor_Z.
  assert (E : (inject_Z n - inject_Z n ?= 1 # 2)%Q = Lt).
  { apply Qlt_alt. setoid_replace (inject_Z n - inject_Z n)%Q with 0%Q by ring. reflexivity. }
  rewrite E. reflexivity.
Qed.

Lemma round_half_even_bounds x :
  (inject_Z (round_half_even x) - (1#2) <= x /\ x <= inject_Z (round_half_even x) + (1#2))%Q.
Proof.
  unfold round_half_even.
  pose proof (Qfloor_le x) as F1. pose proof (Qlt_floor x) as F2.
  rewrite inject_Z_plus in F2. change (inject_Z 1) with 1%Q in F2.
  destruct (Qcompare_spec (x - inject_Z (Qfloor x)) (1#2)) as [E|E|E].
  - destruct (Z.even (Qfloor x)); [|rewrite inject_Z_plus; change (inject_Z 1) with 1%Q]; qlra.
  - qlra.
  - rewrite inject_Z_plus; change (inject_Z 1) with 1%Q; qlra.
Qed.

Lemma round_half_even_mono x y : (x <= y)%Q -> round_half_even x <= round_half_even y.
Proof.
  intros Hxy.
  destruct (round_half_even_bounds x) as [Bx _]. destruct (round_half_even_bounds y) as [_ By].
  destruct (Z_le_gt_dec (round_half_even x) (round_half_even y)) as [L|G]; [exact L|].
  assert (G' : (inject_Z (round_half_even y) + 1 <= inject_Z (round_half_even x))%Q).
  { change 1%Q with (inject_Z 1). rewrite <- inject_Z_plus, <- Zle_Qle. lia. }
  assert (E : (x == y)%Q) by qlra.
  rewrite E in G. lia.
Qed.

Lemma round_half_even_opp x : round_half_even (- x) = - round_half_even x.
Proof.
  unfold round_half_even.
  pose proof (Qfloor_le x) as F1. pose proof (Qlt_floor x) as F2.
  pose proof (Qfloor_le (- x)) as G1. pose proof (Qlt_floor (- x)) as G2.
  rewrite inject_Z_plus in F2, G2. change (inject_Z 1) with 1%Q in F2, G2.
  set (f := Qfloor x) in *. set (g := Qfloor (- x)) in *.
  assert (A : (inject_Z f <= inject_Z (- g))%Q) by (rewrite inject_Z_opp; qlra).
  assert (B : (inject_Z (- g) < inject_Z (f + 2))%Q).
  { rewrite inject_Z_opp, inject_Z_plus. change (inject_Z 2) with 2%Q. qlra. }
  rewrite <- Zle_Qle in A. rewrite <- Zlt_Qlt in B.
  assert (C : g = - f \/ g = - f - 1) by lia.
  destruct C as [C|C]; rewrite C in *; clear C.
  - (* x is an integer *)
    rewrite inject_Z_opp in G1, G2.
    assert (X : (x == inject_Z f)%Q) by qlra.
    assert (E1 : (x - inject_Z f ?= 1 # 2)%Q = Lt) by (apply (proj1 (Qlt_alt _ _)); qlra).
    assert (E2 : (- x - inject_Z (- f) ?= 1 # 2)%Q = Lt)
      by (apply (proj1 (Qlt_alt _ _)); rewrite inject_Z_opp; qlra).
    rewrite E1, E2. reflexivity.
  - assert (I : (inject_Z (- f - 1) == - inject_Z f - 1)%Q).
    { unfold Z.sub. rewrite inject_Z_plus, inject_Z_opp. reflexivity. }
    rewrite I in G1, G2.
    destruct (Qcompare_spec (x - inject_Z f) (1#2)) as [E|E|E].
    + assert (E2 : (- x - inject_Z (- f - 1) ?= 1 # 2)%Q = Eq) by (apply (proj1 (Qeq_alt _ _)); rewrite I; qlra).
      rewrite E2. rewrite Z.even_sub, Z.even_opp. change (Z.even 1) with false.
      destruct (Z.even f); cbn; lia.
    + assert (E2 : (- x - inject_Z (- f - 1) ?= 1 # 2)%Q = Gt) by (apply (proj1 (Qgt_alt _ _)); rewrite I; qlra).
      rewrite E2. lia.
    + assert (E2 : (- x - inject_Z (- f - 1) ?= 1 # 2)%Q = Lt) by (apply (proj1 (Qlt_alt _ _)); rewrite I; qlra).
      rewrite E2. lia.
Qed.

(** *** Rounding to binary64: monotone, odd, exact on what is representable *)
Lemma pow2_nz k : ~ (pow2 k == 0)%Q.
Proof. intros E. pose proof (pow2_pos k) as P. rewrite E in P. discriminate. Qed.

Lemma rnd64_zero x : (x == 0)%Q -> rnd64 x = 0%Q.
Proof. intro E. unfold rnd64. rewrite (Qeq_eq_bool _ _ E). reflexivity. Qed.

Lemma rnd64_nz x :
  ~ (x == 0)%Q ->
  (rnd64 x == inject_Z (round_half_even (x / pow2 (binary64_exponent x))) * pow2 (binary64_exponent x))%Q.
Proof.
  intro N. unfold rnd64. destruct (Qeq_bool x 0) eqn:E.
  - apply Qeq_bool_eq in E. contradiction.
  - apply Qred_correct.
Qed.

Lemma Qabs_pos_nz x : ~ (x == 0)%Q -> (0 < Qabs x)%Q.
Proof.
  intro N. pose proof (Qabs_nonneg x) as P.
  destruct (Qeq_dec (Qabs x) 0) as [E|E]; [|lra].
  exfalso. apply N.
  assert (L : (Qabs x <= 0)%Q) by (rewrite E; apply Qle_refl).
  apply Qabs_Qle_condition in L. lra.
Qed.

Lemma binary64_exponent_comp x y : ~ (x == 0)%Q -> (x == y)%Q -> binary64_exponent x = binary64_exponent y.
Proof.
  intros N E. unfold binary64_exponent. f_equal. f_equal.
  apply ilog2_comp; [apply Qabs_pos_nz; exact N | rewrite E; reflexivity].
Qed.

#[global] Instance rnd64_comp : Proper (Qeq ==> eq) rnd64.
Proof.
  intros x y E. unfold rnd64.
  rewrite (Qeqb_comp x y E 0%Q 0%Q (Qeq_refl _)).
  destruct (Qeq_bool y 0) eqn:Z0; [reflexivity|].
  assert (N : ~ (x == 0)%Q) by (rewrite E; apply Qeq_bool_neq; exact Z0).
  rewrite (binary64_exponent_comp x y N E).
  apply Qred_complete. rewrite E. reflexivity.
Qed.

Lemma binary64_exponent_opp x : ~ (x == 0)%Q -> binary64_exponent (- x) = binary64_exponent x.
Proof.
  intro N. unfold binary64_exponent. f_equal. f_equal.
  apply ilog2_comp; [|apply Qabs_opp].
  apply Qabs_pos_nz. intro E. apply N. lra.
Qed.

Lemma rnd64_opp x : (rnd64 (- x) == - rnd64 x)%Q.
Proof.
  destruct (Qeq_dec x 0) as [E|N].
  - rewrite (rnd64_zero x E). rewrite (rnd64_zero (- x)) by lra. reflexivity.
  - assert (N' : ~ (- x == 0)%Q) by (intro E; apply N; lra).
    rewrite (rnd64_nz _ N), (rnd64_nz _ N'), (binary64_exponent_opp x N).
    setoid_replace (- x / pow2 (binary64_exponent x))%Q
      with (- (x / pow2 (binary64_exponent x)))%Q by (field; apply pow2_nz).
    rewrite round_half_even_opp, inject_Z_opp. ring.
Qed.

Lemma round_half_even_nonneg x : (0 <= x)%Q -> 0 <= round_half_even x.
Proof.
  intro H. rewrite <- (round_half_even_Z 0). apply round_half_even_mono. exact H.
Qed.

Lemma Qdiv_pow2_nonneg x e : (0 <= x)%Q -> (0 <= x / pow2 e)%Q.
Proof.
  intro H. apply Qle_shift_div_l; [apply pow2_pos | lra].
Qed.

Lemma rnd64_nonneg x : (0 <= x)%Q -> (0 <= rnd64 x)%Q.
Proof.
  intro H. destruct (Qeq_dec x 0) as [E|N].
  - rewrite (rnd64_zero x E). apply Qle_refl.
  - rewrite (rnd64_nz _ N). apply Qmult_le_0_compat.
    + change 0%Q with (inject_Z 0). rewrite <- Zle_Qle.
      apply round_half_even_nonneg, Qdiv_pow2_nonneg, H.
    + apply Qlt_le_weak, pow2_pos.
Qed.

Lemma Qdiv_pow2_le x y e : (x <= y)%Q -> (x / pow2 e <= y / pow2 e)%Q.
Proof.
  intro H. unfold Qdiv. apply Qmult_le_compat_r; [exact H|].
  apply Qlt_le_weak, Qinv_lt_0_compat, pow2_pos.
Qed.

Lemma rnd64_mono_pos x y : (0 < x)%Q -> (x <= y)%Q -> (rnd64 x <= rnd64 y)%Q.
Proof.
  intros Hx Hxy.
  assert (Hy : (0 < y)%Q) by lra.
  assert (Nx : ~ (x == 0)%Q) by (intro E; rewrite E in Hx; discriminate).
  assert (Ny : ~ (y == 0)%Q) by (intro E; rewrite E in Hy; discriminate).
  rewrite (rnd64_nz _ Nx), (rnd64_nz _ Ny).
  assert (Ax : ilog2 (Qabs x) = ilog2 x) by (apply ilog2_comp; [apply Qabs_pos_nz; exact Nx | apply Qabs_pos; lra]).
  assert (Ay : ilog2 (Qabs y) = ilog2 y) by (apply ilog2_comp; [apply Qabs_pos_nz; exact Ny | apply Qabs_pos; lra]).
  pose proof (ilog2_mono x y Hx Hxy) as M.
  destruct (ilog2_spec x Hx) as [_ X2]. destruct (ilog2_spec y Hy) as [Y1 _].
  set (ex := binary64_exponent x). set (ey := binary64_exponent y).
  assert (Eex : ex = Z.max (ilog2 x - 52) (-1074)) by (unfold ex, binary64_exponent; rewrite Ax; reflexivity).
  assert (Eey : ey = Z.max (ilog2 y - 52) (-1074)) by (unfold ey, binary64_exponent; rewrite Ay; reflexivity).
  destruct (Z.eq_dec ex ey) as [Eq|Ne].
  - rewrite Eq. apply Qmult_le_compat_r; [|apply Qlt_le_weak, pow2_pos].
    rewrite <- Zle_Qle. apply round_half_even_mono, Qdiv_pow2_le, Hxy.
  - assert (Lt : ex < ey) by lia.
    assert (Eey' : ey = ilog2 y - 52) by lia.
    (* below: the mantissa of x is at most 2^53 *)
    assert (Bx : (inject_Z (round_half_even (x / pow2 ex)) * pow2 ex <= pow2 (53 + ex))%Q).
    { rewrite pow2_add. apply Qmult_le_compat_r; [|apply Qlt_le_weak, pow2_pos].
      rewrite (pow2_Z 53) by lia. rewrite <- Zle_Qle.
      rewrite <- (round_half_even_Z (2 ^ 53)). apply round_half_even_mono.
      rewrite <- (pow2_Z 53) by lia. apply Qle_shift_div_r; [apply pow2_pos|].
      rewrite <- pow2_add. apply Qlt_le_weak. eapply Qlt_le_trans; [exact X2|].
      apply pow2_le. lia. }
    assert (By : (pow2 (52 + ey) <= inject_Z (round_half_even (y / pow2 ey)) * pow2 ey)%Q).
    { rewrite pow2_add. apply Qmult_le_compat_r; [|apply Qlt_le_weak, pow2_pos].
      rewrite (pow2_Z 52) by lia. rewrite <- Zle_Qle.
      rewrite <- (round_half_even_Z (2 ^ 52)) at 1. apply round_half_even_mono.
      rewrite <- (pow2_Z 52) by lia. apply Qle_shift_div_l; [apply pow2_pos|].
      rewrite <- pow2_add. eapply Qle_trans; [|exact Y1].
      apply pow2_le. lia. }
    eapply Qle_trans; [exact Bx|]. eapply Qle_trans; [|exact By].
    apply pow2_le. lia.
Qed.

Lemma rnd64_mono x y : (x <= y)%Q -> (rnd64 x <= rnd64 y)%Q.
Proof.
  intro Hxy.
  destruct (Qlt_le_dec 0 x) as [Px|Nx].
  - apply rnd64_mono_pos; assumption.
  - destruct (Qlt_le_dec y 0) as [Ny|Py].
    + (* both negative: mirror the positive case *)
      assert (M : (rnd64 (- y) <= rnd64 (- x))%Q) by (apply rnd64_mono_pos; lra).
      rewrite !rnd64_opp in M. lra.
    + assert (A : (rnd64 x <= 0)%Q).
      { assert (B : (0 <= rnd64 (- x))%Q) by (apply rnd64_nonneg; lra).
        rewrite rnd64_opp in B. lra. }
      pose proof (rnd64_nonneg y Py). lra.
Qed.

Lemma rnd64_representable m k :
  Z.abs m < 2 ^ 53 -> -1074 <= k -> (rnd64 (inject_Z m * pow2 k) == inject_Z m * pow2 k)%Q.
Proof.
  assert (P : forall m, 0 < m < 2 ^ 53 -> -1074 <= k ->
              (rnd64 (inject_Z m * pow2 k) == inject_Z m * pow2 k)%Q).
  { clear m. intros m Hm Hk.
    set (x := (inject_Z m * pow2 k)%Q).
    assert (Hx : (0 < x)%Q).
    { apply Qmult_lt_0_compat; [|apply pow2_pos]. change 0%Q with (inject_Z 0). rewrite <- Zlt_Qlt. lia. }
    assert (Nx : ~ (x == 0)%Q) by (intro E; rewrite E in Hx; discriminate).
    rewrite (rnd64_nz _ Nx).
    pose proof (Z.log2_spec m ltac:(lia)) as [L1 L2].
    pose proof (Z.log2_nonneg m) as L0.
    assert (L3 : Z.log2 m < 53) by (apply Z.log2_lt_pow2; lia).
    assert (IL : ilog2 x = Z.log2 m + k).
    { apply ilog2_unique; unfold x.
      - rewrite pow2_add. apply Qmult_le_compat_r; [|apply Qlt_le_weak, pow2_pos].
        rewrite pow2_Z by lia. rewrite <- Zle_Qle. exact L1.
      - replace (Z.log2 m + k + 1) with (Z.succ (Z.log2 m) + k) by lia.
        rewrite pow2_add. apply Qmult_lt_compat_r; [apply pow2_pos|].
        rewrite pow2_Z by lia. rewrite <- Zlt_Qlt. exact L2. }
    assert (Ax : ilog2 (Qabs x) = ilog2 x)
      by (apply ilog2_comp; [apply Qabs_pos_nz; exact Nx | apply Qabs_pos; lra]).
    set (e := binary64_exponent x).
    assert (He : e <= k) by (unfold e, binary64_exponent; rewrite Ax, IL; lia).
    assert (S : (x / pow2 e == inject_Z (m * 2 ^ (k - e)))%Q).
    { unfold x. rewrite inject_Z_mult, <- pow2_Z by lia. rewrite pow2_sub.
      field. apply pow2_nz. }
    rewrite S, round_half_even_Z, inject_Z_mult, <- pow2_Z by lia.
    unfold x. rewrite pow2_sub. field. apply pow2_nz. }
  intros Hm Hk.
  destruct (Z.lt_trichotomy m 0) as [Neg|[Zero|Pos]].
  - assert (E : (inject_Z m * pow2 k == - (inject_Z (- m) * pow2 k))%Q)
      by (rewrite inject_Z_opp; ring).
    rewrite (rnd64_comp _ _ E), rnd64_opp, P by lia. symmetry. exact E.
  - subst m. rewrite rnd64_zero by ring. ring.
  - apply P; lia.
Qed.

Lemma rnd64_Z z : Z.abs z <= 2 ^ 53 -> (rnd64 (inject_Z z) == inject_Z z)%Q.
Proof.
  intro H.
  destruct (Z.eq_dec (Z.abs z) (2 ^ 53)) as [E|N].
  - destruct (Z.abs_eq_or_opp z) as [A|A]; rewrite A in E.
    + subst z. reflexivity.
    + replace z with (- 2 ^ 53) by lia. reflexivity.
  - pose proof (rnd64_representable z 0 ltac:(lia) ltac:(lia)) as R.
    assert (E : (inject_Z z * pow2 0 == inject_Z z)%Q) by (change (pow2 0) with 1%Q; ring).
    rewrite <- (rnd64_comp _ _ E), R. exact E.
Qed.

(** *** Floats *)

Lemma rnd64_pow2 n : -1074 <= n -> (rnd64 (pow2 n) == pow2 n)%Q.
Proof.
  intro H. pose proof (rnd64_representable 1 n ltac:(reflexivity) H) as R.
  assert (E : (inject_Z 1 * pow2 n == pow2 n)%Q) by ring.
  rewrite <- (rnd64_comp _ _ E), R. exact E.
Qed.

Lemma fl_Fin x :
  (- pow2 1024 < rnd64 x)%Q -> (rnd64 x < pow2 1024)%Q -> fl x = Fin (rnd64 x).
Proof.
  intros L U. unfold fl.
  destruct (Qle_bool (pow2 1024) (rnd64 x)) eqn:E1.
  - apply Qle_bool_iff in E1. lra.
  - destruct (Qle_bool (rnd64 x) (- pow2 1024)) eqn:E2; [|reflexivity].
    apply Qle_bool_iff in E2. lra.
Qed.

Lemma fl_bounded x n :
  (0 <= x)%Q -> (x <= pow2 n)%Q -> -1074 <= n < 1024 ->
  fl x = Fin (rnd64 x) /\ (0 <= rnd64 x)%Q /\ (rnd64 x <= pow2 n)%Q.
Proof.
  intros L U Hn.
  assert (A : (0 <= rnd64 x)%Q) by (apply rnd64_nonneg; exact L).
  assert (B : (rnd64 x <= pow2 n)%Q).
  { rewrite <- (rnd64_pow2 n) by lia. apply rnd64_mono. exact U. }
  assert (P : (pow2 n < pow2 1024)%Q) by (apply pow2_lt; lia).
  pose proof (pow2_pos 1024) as P0.
  split; [|split; assumption].
  apply fl_Fin; lra.
Qed.

Lemma fl_nonneg x : (0 <= x)%Q -> fnonneg (fl x).
Proof.
  intro H. pose proof (rnd64_nonneg x H) as A. pose proof (pow2_pos 1024) as P.
  unfold fl. destruct (Qle_bool (pow2 1024) (rnd64 x)); [exact I|].
  destruct (Qle_bool (rnd64 x) (- pow2 1024)) eqn:E; [|exact A].
  apply Qle_bool_iff in E. lra.
Qed.

Lemma fl_int z : Z.abs z <= 2 ^ 53 -> exists q, fl (inject_Z z) = Fin q /\ (q == inject_Z z)%Q.
Proof.
  intro H. pose proof (rnd64_Z z H) as R.
  exists (rnd64 (inject_Z z)). split; [|exact R].
  assert (B : (- inject_Z (2 ^ 53) <= inject_Z z /\ inject_Z z <= inject_Z (2 ^ 53))%Q).
  { rewrite <- inject_Z_opp, <- !Zle_Qle. lia. }
  assert (P : (inject_Z (2 ^ 53) < pow2 1024)%Q).
  { rewrite <- (pow2_Z 53) by lia. apply pow2_lt. lia. }
  apply fl_Fin; rewrite R; qlra.
Qed.

Lemma float_of_int_exact z :
  Z.abs z <= 2 ^ 53 -> exists q, float_of_int z = Ok (Fin q) /\ (q == inject_Z z)%Q.
Proof.
  intro H. destruct (fl_int z H) as [q [E Q]]. exists q. unfold float_of_int. rewrite E. auto.
Qed.

Lemma exact_fl z : Z.abs z <= 2 ^ 53 -> exact (fl (inject_Z z)) z.
Proof. exact (fl_int z). Qed.

Lemma fl_comp x y : (x == y)%Q -> fl x = fl y.
Proof. intro E. unfold fl. rewrite (rnd64_comp _ _ E). reflexivity. Qed.

Lemma exact_fmul f g a b :
  exact f a -> exact g b -> Z.abs (a * b) <= 2 ^ 53 -> exact (fmul f g) (a * b).
Proof.
  intros [p [-> P]] [q [-> Q]] H. cbn.
  rewrite (fl_comp (p * q) (inject_Z (a * b))).
  - apply exact_fl. exact H.
  - rewrite P, Q, inject_Z_mult. reflexivity.
Qed.

Lemma exact_fadd f g a b :
  exact f a -> exact g b -> Z.abs (a + b) <= 2 ^ 53 -> exact (fadd f g) (a + b).
Proof.
  intros [p [-> P]] [q [-> Q]] H. cbn.
  rewrite (fl_comp (p + q) (inject_Z (a + b))).
  - apply exact_fl. exact H.
  - rewrite P, Q, inject_Z_plus. reflexivity.
Qed.

Lemma exact_float_of_int z :
  Z.abs z <= 2 ^ 53 -> exists f, float_of_int z = Ok f /\ exact f z.
Proof.
  intro H. destruct (float_of_int_exact z H) as [q [E Q]].
  exists (Fin q). split; [exact E|]. exists q. auto.
Qed.

Lemma float_of_int_0 : float_of_int 0 = Ok (Fin 0).
Proof. reflexivity. Qed.

Lemma popularity_score_unfold l s c v :
  popularity_score l s c v =
  (fl_ <- float_of_int l ;;
   fs <- float_of_int s ;;
   fc <- float_of_int c ;;
   fv <- float_of_int v ;;
   Ok (VFloat (fadd (fadd (fadd (fadd (Fin 0) (fmul fl_ (fl 1))) (fmul fs (fl 3)))
                          (fmul fc (fl 2)))
                    (fmul fv (fl (1 # 10))))))%result.
Proof.
  unfold popularity_score, popularity_score_of, engagement_block, popularity_weights.
  cbn [weighted_sum getitem lookup String.eqb Ascii.eqb Bool.eqb rbind py_mul_float number_of to_float].
  destruct (float_of_int l) as [fl_|e]; cbn [rbind]; [|reflexivity].
  unfold num_add at 1. cbn [to_float rbind]. rewrite float_of_int_0. cbn [rbind].
  destruct (float_of_int s) as [fs|e]; cbn [rbind]; [|reflexivity].
  unfold num_add at 1. cbn [to_float rbind].
  destruct (float_of_int c) as [fc|e]; cbn [rbind]; [|reflexivity].
  unfold num_add at 1. cbn [to_float rbind].
  destruct (float_of_int v) as [fv|e]; cbn [rbind]; [|reflexivity].
  unfold num_add. cbn [to_float rbind pyval_of_number]. reflexivity.
Qed.

Lemma exact_const z : Z.abs z <= 2 ^ 53 -> exact (fl (inject_Z z)) z.
Proof. apply exact_fl. Qed.

(** Between two reals that are three apart lie two integers; below [2^53]
    both are binary64 numbers, so rounding keeps the reals apart. *)
Lemma rnd64_separates (a a' : Z) (x : Q) :
  0 <= a -> a + 3 <= a' -> (0 <= x)%Q -> (inject_Z a' + x + 1 <= inject_Z (2 ^ 53))%Q ->
  (rnd64 (inject_Z a + x) < rnd64 (inject_Z a' + x))%Q.
Proof.
  intros Ha Haa Hx Hb.
  set (y := (inject_Z a + x)%Q). set (y' := (inject_Z a' + x)%Q).
  pose proof (Qle_ceiling y) as C1. pose proof (Qceiling_lt y) as C2.
  pose proof (Qfloor_le y') as F1. pose proof (Qlt_floor y') as F2.
  set (c := Qceiling y) in *. set (f := Qfloor y') in *.
  assert (Haa' : (inject_Z a + 3 <= inject_Z a')%Q).
  { change 3%Q with (inject_Z 3). rewrite <- inject_Z_plus, <- Zle_Qle. exact Haa. }
  assert (Ha' : (0 <= inject_Z a)%Q) by (change 0%Q with (inject_Z 0); rewrite <- Zle_Qle; exact Ha).
  unfold Z.sub in C2. rewrite inject_Z_plus in C2, F2. rewrite inject_Z_opp in C2.
  change (inject_Z 1) with 1%Q in C2, F2.
  assert (Lt : (inject_Z c < inject_Z f)%Q) by (unfold y, y' in *; qlra).
  assert (Lc : (0 <= inject_Z c)%Q) by (unfold y in *; qlra).
  assert (Uf : (inject_Z f <= inject_Z (2 ^ 53))%Q) by (unfold y' in *; qlra).
  assert (Zc : 0 <= c) by (rewrite Zle_Qle; exact Lc).
  assert (Zf : f <= 2 ^ 53) by (rewrite Zle_Qle; exact Uf).
  assert (Zlt : c < f) by (rewrite Zlt_Qlt; exact Lt).
  pose proof (rnd64_mono y (inject_Z c) C1) as M1.
  pose proof (rnd64_mono (inject_Z f) y' F1) as M2.
  rewrite (rnd64_Z c) in M1 by lia. rewrite (rnd64_Z f) in M2 by lia.
  lra.
Qed.

Lemma tenth_float : fl (1 # 10) = Fin (rnd64 (1 # 10)).
Proof. reflexivity. Qed.

Lemma tenth_bounds : (0 <= rnd64 (1 # 10))%Q /\ (rnd64 (1 # 10) <= 1)%Q.
Proof. split; vm_compute; discriminate. Qed.

Lemma popularity_score_value l s c v :
  0 <= l -> 0 <= s -> 0 <= c -> 0 <= v -> l + 3 * s + 2 * c + v < 2 ^ 53 ->
  exists f, popularity_score l s c v = Ok (VFloat (Fin f)) /\ (f == score_value l s c v)%Q.
Proof.
  intros Hl Hs Hc Hv Hb.
  rewrite popularity_score_unfold.
  destruct (exact_float_of_int l ltac:(lia)) as [fl_ [El Xl]].
  destruct (exact_float_of_int s ltac:(lia)) as [fs [Es Xs]].
  destruct (exact_float_of_int c ltac:(lia)) as [fc [Ec Xc]].
  destruct (float_of_int_exact v ltac:(lia)) as [qv [Ev Xv]].
  rewrite El, Es, Ec, Ev. cbn [rbind].
  assert (X0 : exact (Fin 0) 0) by (exists 0%Q; split; reflexivity).
  pose proof (exact_fmul _ _ _ _ Xl (exact_fl 1 ltac:(lia)) ltac:(lia)) as T1.
  pose proof (exact_fadd _ _ _ _ X0 T1 ltac:(lia)) as A1.
  pose proof (exact_fmul _ _ _ _ Xs (exact_fl 3 ltac:(lia)) ltac:(lia)) as T2.
  pose proof (exact_fadd _ _ _ _ A1 T2 ltac:(lia)) as A2.
  pose proof (exact_fmul _ _ _ _ Xc (exact_fl 2 ltac:(lia)) ltac:(lia)) as T3.
  pose proof (exact_fadd _ _ _ _ A2 T3 ltac:(lia)) as A3.
  change (inject_Z 1) with 1%Q in A3. change (inject_Z 3) with 3%Q in A3.
  change (inject_Z 2) with 2%Q in A3.
  destruct A3 as [qa [-> Qa]].
  rewrite tenth_float. cbn [fmul].
  destruct tenth_bounds as [C0 C1].
  assert (V0 : (0 <= qv)%Q) by (rewrite Xv; change 0%Q with (inject_Z 0); rewrite <- Zle_Qle; lia).
  assert (V1 : (qv <= pow2 53)%Q) by (rewrite Xv, (pow2_Z 53) by lia; rewrite <- Zle_Qle; lia).
  assert (P0 : (0 <= qv * rnd64 (1 # 10))%Q) by (apply Qmult_le_0_compat; assumption).
  assert (P1 : (qv * rnd64 (1 # 10) <= qv)%Q).
  { nra. }
  destruct (fl_bounded (qv * rnd64 (1 # 10)) 53 P0 ltac:(lra) ltac:(lia)) as [E4 [L4 U4]].
  rewrite E4. cbn [fadd].
  assert (M4 : (rnd64 (qv * rnd64 (1 # 10)) <= inject_Z v)%Q).
  { pose proof (rnd64_mono _ _ P1) as M. rewrite (rnd64_comp _ _ Xv), (rnd64_Z v) in M by lia.
    exact M. }
  assert (Qa0 : (0 <= qa)%Q).
  { rewrite Qa. change 0%Q with (inject_Z 0). rewrite <- Zle_Qle. lia. }
  assert (S1 : (qa + rnd64 (qv * rnd64 (1 # 10)) <= pow2 53)%Q).
  { rewrite (pow2_Z 53) by lia. rewrite Qa.
    assert (B : (inject_Z (0 + l * 1 + s * 3 + c * 2) + inject_Z v <= inject_Z (2 ^ 53))%Q)
      by (rewrite <- inject_Z_plus, <- Zle_Qle; lia).
    qlra. }
  destruct (fl_bounded (qa + rnd64 (qv * rnd64 (1 # 10))) 53 ltac:(lra) S1 ltac:(lia)) as [E5 _].
  rewrite E5. eexists. split; [reflexivity|].
  unfold score_value.
  assert (Ex : rnd64 (qv * rnd64 (1 # 10)) = rnd64 (inject_Z v * rnd64 (1 # 10))).
  { apply rnd64_comp. rewrite Xv. reflexivity. }
  rewrite Ex.
  assert (Ea : (qa + rnd64 (inject_Z v * rnd64 (1 # 10)) ==
                inject_Z (l + 3 * s + 2 * c) + rnd64 (inject_Z v * rnd64 (1 # 10)))%Q).
  { rewrite Qa. replace (0 + l * 1 + s * 3 + c * 2) with (l + 3 * s + 2 * c) by lia. reflexivity. }
  rewrite (rnd64_comp _ _ Ea). reflexivity.
Qed.

(** ** C8: the popularity score *)

(** C8 (as the code has it).  For an engagement block of non-negative
    integers whose weighted sum [likes + 3 * shares' + 2 * comments + views]
    stays below [2^53], the popularity score is the double-precision value of
    [likes * 1.0 + shares * 3.0 + comments * 2.0 + views * 0.1], not rounded
    to decimals, and it grows strictly with the shares when the likes, the
    comments and the views are held fixed. *)
Theorem popularity_score_increasing_in_shares (likes shares shares' comments views : Z) :
  0 <= likes -> 0 <= shares -> shares < shares' -> 0 <= comments -> 0 <= views ->
  likes + 3 * shares' + 2 * comments + views < 2 ^ 53 ->
  exists f f',
    popularity_score likes shares comments views = Ok (VFloat (Fin f)) /\
    popularity_score likes shares' comments views = Ok (VFloat (Fin f')) /\
    (f == score_value likes shares comments views)%Q /\
    (f' == score_value likes shares' comments views)%Q /\
    (f < f')%Q.
Proof.
  intros Hl Hs Hss Hc Hv Hb.
  destruct (popularity_score_value likes shares comments views) as [f [E F]]; try lia.
  destruct (popularity_score_value likes shares' comments views) as [f' [E' F']]; try lia.
  exists f, f'. repeat split; try assumption.
  rewrite F, F'. unfold score_value.
  destruct tenth_bounds as [C0 C1].
  assert (V0 : (0 <= inject_Z views)%Q) by (change 0%Q with (inject_Z 0); rewrite <- Zle_Qle; lia).
  assert (X0 : (0 <= rnd64 (inject_Z views * rnd64 (1 # 10)))%Q).
  { apply rnd64_nonneg, Qmult_le_0_compat; assumption. }
  assert (X1 : (rnd64 (inject_Z views * rnd64 (1 # 10)) <= inject_Z views)%Q).
  { rewrite <- (rnd64_Z views) at 2 by lia. apply rnd64_mono. nra. }
  apply rnd64_separates; try lia; try assumption.
  assert (B : (inject_Z (likes + 3 * shares' + 2 * comments) + inject_Z views + 1
               <= inject_Z (2 ^ 53))%Q).
  { change 1%Q with (inject_Z 1). rewrite <- !inject_Z_plus, <- Zle_Qle. lia. }
  qlra.
Qed.

Lemma popularity_score_increasing_in_shares_witness :
  0 <= 120 /\ 0 <= 12 /\ 12 < 13 /\ 0 <= 6 /\ 0 <= 6000 /\
  120 + 3 * 13 + 2 * 6 + 6000 < 2 ^ 53 /\
  exists f f',
    popularity_score 120 12 6 6000 = Ok (VFloat (Fin f)) /\
    popularity_score 120 13 6 6000 = Ok (VFloat (Fin f')) /\
    (f == score_value 120 12 6 6000)%Q /\
    (f' == score_value 120 13 6 6000)%Q /\
    (f < f')%Q.
Proof.
  assert (B : 120 + 3 * 13 + 2 * 6 + 6000 < 2 ^ 53) by (vm_compute; reflexivity).
  do 5 (split; [lia|]). split; [exact B|].
  apply (popularity_score_increasing_in_shares 120 12 13 6 6000); first [lia | exact B].
Defined.

(** C8 fails as stated: [2^53 + 1] shares are converted to the same double as
    [2^53] shares, and the two scores are equal. *)
Lemma popularity_score_ties_beyond_2_53 :
  shares_2_53 < shares_2_53_plus_1 /\
  popularity_score 0 shares_2_53 0 0 = Ok (VFloat (Fin 27021597764222976)) /\
  popularity_score 0 shares_2_53_plus_1 0 0 = Ok (VFloat (Fin 27021597764222976)) /\
  ~ (27021597764222976 < 27021597764222976)%Q.
Proof.
  split; [reflexivity|]. split; [vm_compute; reflexivity|].
  split; [vm_compute; reflexivity|]. exact (Qlt_irrefl _).
Qed.


(** ** C2: the engagement rate *)

Ltac qnra :=
  repeat match goal with
  | |- context [inject_Z ?z] =>
      let q := fresh "q" in set (q := inject_Z z) in *; clearbody q
  | H : context [inject_Z ?z] |- _ =>
      let q := fresh "q" in set (q := inject_Z z) in *; clearbody q
  end; nra.

Lemma float_of_int_100 : float_of_int 100 = Ok (Fin 100).
Proof. reflexivity. Qed.

Lemma engagement_rate_unfold l s c v :
  engagement_rate l s c v =
  if 0 <? v
  then (ratio <- int_truediv (l + s + c) v ;;
        Ok (VFloat (float_round2 (fmul ratio (Fin 100)))))%result
  else Ok (VInt 0).
Proof.
  unfold engagement_rate, engagement_rate_of, py_add, py_positive, py_truediv.
  cbn [number_of num_add rbind pyval_of_number num_positive num_truediv].
  destruct (0 <? v); [|reflexivity].
  destruct (int_truediv (l + s + c) v); cbn [rbind]; [|reflexivity].
  rewrite float_of_int_100. reflexivity.
Qed.

Lemma fl_zero x : (x == 0)%Q -> fl x = Fin 0.
Proof. intro E. unfold fl. rewrite (rnd64_zero x E). reflexivity. Qed.

Lemma float_round2_nonneg f : fnonneg f -> fnonneg (float_round2 f).
Proof.
  destruct f as [q| | |]; cbn; try tauto. intro H. apply fl_nonneg.
  apply Qle_shift_div_l; [reflexivity|]. rewrite Qmult_0_l.
  change 0%Q with (inject_Z 0). rewrite <- Zle_Qle.
  apply round_half_even_nonneg. nra.
Qed.

Lemma fmul_nonneg f g : fnonneg f -> fnonneg g -> g <> PInf -> f <> PInf -> fnonneg (fmul f g).
Proof.
  destruct f as [p| | |], g as [q| | |]; cbn; try tauto. intros. apply fl_nonneg. nra.
Qed.

Lemma int_truediv_nonneg t v ratio :
  0 <= t -> 0 < v -> int_truediv t v = Ok ratio -> exists q, ratio = Fin q /\ (0 <= q)%Q.
Proof.
  intros Ht Hv. unfold int_truediv.
  destruct (v =? 0) eqn:E; [lia|].
  assert (N : (0 <= inject_Z t / inject_Z v)%Q).
  { apply Qle_shift_div_l.
    - change 0%Q with (inject_Z 0). rewrite <- Zlt_Qlt. exact Hv.
    - rewrite Qmult_0_l. change 0%Q with (inject_Z 0). rewrite <- Zle_Qle. exact Ht. }
  pose proof (fl_nonneg _ N) as F.
  destruct (fl (inject_Z t / inject_Z v)) as [q| | |]; try discriminate.
  intro H. injection H as <-. exists q. auto.
Qed.

(** C2 (as the code has it).  For an engagement block of non-negative
    integers, the engagement rate is the integer [0] when [views = 0]; when
    [views > 0] it is [round(total / views * 100, 2)] computed on doubles,
    with [total = likes + shares + comments]: a float that is neither
    negative nor NaN, that is finite when [total < 2^64], and that is [0.0]
    when [total = 0], so that a rate of zero does not tell that
    [views = 0]. *)
Theorem engagement_rate_zero_and_sign (likes shares comments views : Z) :
  0 <= likes -> 0 <= shares -> 0 <= comments -> 0 <= views ->
  (views = 0 -> engagement_rate likes shares comments views = Ok (VInt 0)) /\
  (0 < views ->
     (forall r, engagement_rate likes shares comments views = Ok r ->
        exists ratio,
          int_truediv (likes + shares + comments) views = Ok ratio /\
          r = VFloat (float_round2 (fmul ratio (Fin 100))) /\
          fnonneg (float_round2 (fmul ratio (Fin 100)))) /\
     (likes + shares + comments = 0 ->
        engagement_rate likes shares comments views = Ok (VFloat (Fin 0))) /\
     (likes + shares + comments < 2 ^ 64 ->
        exists q, engagement_rate likes shares comments views = Ok (VFloat (Fin q))
                  /\ (0 <= q)%Q)).
Proof.
  intros Hl Hs Hc Hv. rewrite engagement_rate_unfold. split.
  - intros ->. reflexivity.
  - intro Pv. assert (E : (0 <? views) = true) by (apply Z.ltb_lt; exact Pv). rewrite E.
    split; [|split].
    + intros r H. destruct (int_truediv (likes + shares + comments) views) as [ratio|e] eqn:D;
        cbn [rbind] in H; [|discriminate].
      injection H as <-. exists ratio. split; [reflexivity|]. split; [reflexivity|].
      assert (T0 : 0 <= likes + shares + comments) by lia.
      destruct (int_truediv_nonneg _ _ _ T0 Pv D) as [q [-> Q]].
      apply float_round2_nonneg. cbn [fmul]. apply fl_nonneg.
      apply Qmult_le_0_compat; [exact Q | discriminate].
    + intro Z0. rewrite Z0. unfold int_truediv.
      destruct (views =? 0) eqn:V0; [lia|].
      rewrite (fl_zero (inject_Z 0 / inject_Z views)) by (unfold Qdiv; ring).
      reflexivity.
    + intro B. set (t := likes + shares + comments) in *.
      unfold int_truediv. destruct (views =? 0) eqn:V0; [lia|].
      assert (T0 : (0 <= inject_Z t)%Q) by (change 0%Q with (inject_Z 0); rewrite <- Zle_Qle; lia).
      assert (T1 : (inject_Z t <= pow2 64)%Q) by (rewrite (pow2_Z 64) by lia; rewrite <- Zle_Qle; lia).
      assert (V1 : (1 <= inject_Z views)%Q) by (change 1%Q with (inject_Z 1); rewrite <- Zle_Qle; lia).
      assert (R0 : (0 <= inject_Z t / inject_Z views)%Q).
      { apply Qle_shift_div_l; qlra. }
      assert (R1 : (inject_Z t / inject_Z views <= pow2 64)%Q).
      { apply Qle_shift_div_r; [qlra|]. pose proof (pow2_pos 64). qnra. }
      destruct (fl_bounded _ 64 R0 R1 ltac:(lia)) as [E1 [L1 U1]]. rewrite E1. cbn [rbind fmul].
      set (q1 := rnd64 (inject_Z t / inject_Z views)) in *.
      assert (P64 : (pow2 71 == pow2 64 * 128)%Q) by reflexivity.
      destruct (fl_bounded (q1 * 100) 71 ltac:(nra) ltac:(rewrite P64; nra) ltac:(lia)) as [E2 [L2 U2]].
      rewrite E2. cbn [float_round2].
      set (q2 := rnd64 (q1 * 100)) in *.
      destruct (round_half_even_bounds (q2 * 100)) as [B1 B2].
      pose proof (round_half_even_nonneg (q2 * 100) ltac:(nra)) as N.
      rewrite Zle_Qle in N. change (inject_Z 0) with 0%Q in N.
      set (m := inject_Z (round_half_even (q2 * 100))) in *. clearbody m.
      assert (P72 : (pow2 72 == pow2 71 * 2)%Q) by reflexivity.
      pose proof (pow2_pos 71) as P71.
      assert (G1 : (1 <= pow2 71)%Q) by (vm_compute; discriminate).
      destruct (fl_bounded (m / 100) 72) as [E3 [L3 U3]]; [ | | lia | ].
      * apply Qle_shift_div_l; [reflexivity | lra].
      * apply Qle_shift_div_r; [reflexivity|]. rewrite P72. lra.
      * rewrite E3. eexists. split; [reflexivity | exact L3].
Qed.

Lemma engagement_rate_zero_and_sign_witness :
  0 <= 120 /\ 0 <= 12 /\ 0 <= 6 /\ 0 <= 6000 /\
  (6000 = 0 -> engagement_rate 120 12 6 6000 = Ok (VInt 0)) /\
  (0 < 6000 ->
     (forall r, engagement_rate 120 12 6 6000 = Ok r ->
        exists ratio,
          int_truediv (120 + 12 + 6) 6000 = Ok ratio /\
          r = VFloat (float_round2 (fmul ratio (Fin 100))) /\
          fnonneg (float_round2 (fmul ratio (Fin 100)))) /\
     (120 + 12 + 6 = 0 ->
        engagement_rate 120 12 6 6000 = Ok (VFloat (Fin 0))) /\
     (120 + 12 + 6 < 2 ^ 64 ->
        exists q, engagement_rate 120 12 6 6000 = Ok (VFloat (Fin q))
                  /\ (0 <= q)%Q)).
Proof.
  do 4 (split; [lia|]).
  apply (engagement_rate_zero_and_sign 120 12 6 6000); lia.
Defined.

(** C2 fails as stated: with five views and no engagement the rate is [0.0],
    so the rate is zero although [views] is not. *)
Lemma engagement_rate_zero_with_views :
  engagement_rate 0 0 0 5 = Ok (VFloat (Fin 0)) /\ 5 <> 0.
Proof. split; [vm_compute; reflexivity | discriminate]. Qed.

(** ** Validation *)

Lemma append_only_vret : append_only (vret tt).
Proof. intro errors. cbn. rewrite app_nil_r. reflexivity. Qed.

Lemma append_only_append_error m : append_only (append_error m).
Proof. intro errors. reflexivity. Qed.

Lemma append_only_vlift r : append_only (vlift r).
Proof. intro errors. cbn. rewrite app_nil_r. reflexivity. Qed.

Lemma vbind_append_only (c : V unit) (k : V unit) errors :
  append_only c ->
  vbind c (fun _ => k) errors =
  match outcome_of c with
  | Ok _ => k (errors ++ messages_of c)
  | Raise e => (errors ++ messages_of c, Raise e)
  end.
Proof.
  intro H. unfold vbind. rewrite (H errors). destruct (outcome_of c); reflexivity.
Qed.

Lemma append_only_vbind (c k : V unit) :
  append_only c -> append_only k -> append_only (vbind c (fun _ => k)).
Proof.
  intros Hc Hk errors.
  unfold messages_of, outcome_of.
  rewrite !vbind_append_only by exact Hc.
  destruct (outcome_of c).
  - rewrite (Hk (errors ++ messages_of c)), (Hk ([] ++ messages_of c)).
    cbn. rewrite app_assoc. reflexivity.
  - cbn. reflexivity.
Qed.

Lemma append_only_vfor {A : Type} (xs : list A) (body : A -> V unit) :
  (forall x, append_only (body x)) -> append_only (vfor xs body).
Proof.
  intro H. induction xs as [|x rest IH]; cbn [vfor].
  - apply append_only_vret.
  - apply append_only_vbind; [apply H | exact IH].
Qed.

Create HintDb checks.
#[local] Hint Resolve append_only_vret append_only_append_error append_only_vlift
  append_only_vbind : checks.

Lemma append_only_check_required d : append_only (check_required d).
Proof. unfold check_required. destruct (missing_keys required_fields d); auto with checks. Qed.

Lemma append_only_check_post_id d : append_only (check_post_id d).
Proof.
  unfold check_post_id. destruct (lookup "post_id" d) as [[]|]; auto with checks.
  destruct (is_empty (strip s)); auto with checks.
Qed.

Lemma append_only_check_user_id d : append_only (check_user_id d).
Proof.
  unfold check_user_id. destruct (lookup "user_id" d) as [v|]; auto with checks.
  destruct (int_value v) as [n|]; auto with checks.
  destruct (n <=? 0); auto with checks.
Qed.

Lemma append_only_check_member key allowed label d :
  append_only (check_member key allowed label d).
Proof.
  unfold check_member. destruct (lookup key d) as [v|]; auto with checks.
  intro errors. unfold vbind, vlift, messages_of, outcome_of.
  destruct (in_string_set v allowed) as [[]|e]; cbn; rewrite ?app_nil_r; reflexivity.
Qed.

Lemma append_only_check_content d : append_only (check_content d).
Proof.
  unfold check_content. destruct (lookup "content" d) as [[]|]; auto with checks.
  destruct (is_empty (strip s)); auto with checks.
  destruct (10000 <? Z.of_nat (String.length s)); auto with checks.
Qed.

Lemma append_only_check_engagement_field e field :
  append_only (check_engagement_field e field).
Proof.
  unfold check_engagement_field. destruct (lookup field e) as [v|]; auto with checks.
  destruct (int_value v) as [n|]; auto with checks.
  destruct (n <? 0); auto with checks.
Qed.

Lemma append_only_check_engagement d : append_only (check_engagement d).
Proof.
  unfold check_engagement. destruct (lookup "engagement" d) as [[]|]; auto with checks.
  apply append_only_vbind.
  - destruct (missing_keys required_engagement_fields entries); auto with checks.
  - apply append_only_vfor. intro x. apply append_only_check_engagement_field.
Qed.

Lemma append_only_check_timestamp md : append_only (check_timestamp md).
Proof.
  unfold check_timestamp. destruct (lookup "timestamp" md) as [[]|]; auto with checks.
  destruct (fromisoformat _); auto with checks.
Qed.

Lemma append_only_check_hashtags md : append_only (check_hashtags md).
Proof.
  unfold check_hashtags.
  destruct (lookup "hashtags" md) as [[| | | | | tags |]|]; auto with checks.
  destruct (forallb is_str tags); auto with checks.
Qed.

Lemma append_only_check_metadata d : append_only (check_metadata d).
Proof.
  unfold check_metadata. destruct (lookup "metadata" d) as [[]|]; auto with checks.
  apply append_only_vbind; [apply append_only_check_timestamp | apply append_only_check_hashtags].
Qed.

Lemma append_only_field_checks d : Forall append_only (field_checks d).
Proof.
  unfold field_checks.
  repeat constructor;
    auto using append_only_check_required, append_only_check_post_id,
      append_only_check_user_id, append_only_check_member, append_only_check_content,
      append_only_check_engagement, append_only_check_metadata.
Qed.

Lemma vseq_run checks errors :
  Forall append_only checks ->
  vseq checks errors =
  (errors ++ collect checks,
   match first_raise checks with
   | None => Ok tt
   | Some e => Raise e
   end).
Proof.
  intro H. revert errors. induction H as [|c rest Hc Hrest IH]; intro errors.
  - cbn. rewrite app_nil_r. reflexivity.
  - cbn [vseq collect first_raise]. rewrite vbind_append_only by exact Hc.
    destruct (outcome_of c).
    + rewrite IH, app_assoc. reflexivity.
    + rewrite app_nil_r. reflexivity.
Qed.

Lemma validate_checks_vseq d errors :
  validate_checks (VDict d) errors = vseq (field_checks d) errors.
Proof.
  cbn [validate_checks field_checks vseq]. unfold vbind.
  repeat match goal with
  | |- context [match ?c errors with _ => _ end] => destruct (c errors) as [? [[]|?]]
  | |- context [match ?c ?l with _ => _ end] => destruct (c l) as [? [[]|?]]
  end; cbn; try reflexivity.
Qed.

Lemma validate_post_dict d :
  validate_post (VDict d) =
  Ok (match first_raise (field_checks d) with
      | None => (is_nil (collect (field_checks d)), collect (field_checks d))
      | Some e => (false, collect (field_checks d) ++ [FmtExn "Validation error: " e])
      end).
Proof.
  unfold validate_post, try_except.
  rewrite validate_checks_vseq, vseq_run by apply append_only_field_checks.
  cbn [app]. destruct (first_raise (field_checks d)) as [e|]; [|reflexivity].
  unfold append_error.
  destruct (collect (field_checks d) ++ [FmtExn "Validation error: " e]) eqn:E; [|reflexivity].
  apply app_eq_nil in E. destruct E as [_ E]. discriminate.
Qed.

Lemma is_nil_true {A : Type} (l : list A) : is_nil l = true <-> l = [].
Proof. destruct l; cbn; split; intro H; try reflexivity; discriminate. Qed.

(** ** C4: validation never raises *)

(** C4.  For every input value, [validate_post] returns a pair
    [(valid, errors)] and never raises.  A value that is not a dict yields the
    generic validation error.  For a dict the errors are those of every field
    check, in order, each check adding its own instead of stopping at the
    first failure; an exception raised by a check ends the checking and is
    reported as one more, generic, validation error in the list.  [valid] is
    [True] exactly when the list is empty. *)
Theorem validate_post_never_raises (post_data : pyval) :
  exists valid errors,
    validate_post post_data = Ok (valid, errors) /\
    (valid = true <-> errors = []) /\
    errors =
      match post_data with
      | VDict d =>
          collect (field_checks d) ++
          match first_raise (field_checks d) with
          | None => []
          | Some e => [FmtExn "Validation error: " e]
          end
      | _ => [FmtExn "Validation error: " AttributeError]
      end.
Proof.
  destruct post_data as [| b | n | f | s | l | d];
    try (exists false, [FmtExn "Validation error: " AttributeError];
         split; [reflexivity | split; [split; discriminate | reflexivity]]).
  rewrite validate_post_dict.
  destruct (first_raise (field_checks d)) as [e|].
  - exists false, (collect (field_checks d) ++ [FmtExn "Validation error: " e]).
    split; [reflexivity|]. split; [|reflexivity].
    split; [discriminate|]. intro E. apply app_eq_nil in E. destruct E as [_ E]. discriminate.
  - exists (is_nil (collect (field_checks d))), (collect (field_checks d)).
    split; [reflexivity|]. split; [apply is_nil_true | rewrite app_nil_r; reflexivity].
Qed.

(** ** C10: [username] is required *)

Lemma missing_keys_absent key wanted d :
  In key wanted -> lookup key d = None -> In key (missing_keys wanted d).
Proof.
  intros Hin Hl. unfold missing_keys. apply filter_In. split; [exact Hin|].
  unfold has_key. rewrite Hl. reflexivity.
Qed.

(** C10.  ['username'] is one of the required top-level fields, and every
    record without that key is rejected: [validate_post] returns [False],
    and the list of errors starts with the missing-required-fields message
    that names ['username'], whatever the other fields are. *)
Theorem validate_post_requires_username (d : pydict) :
  lookup "username" d = None ->
  In "username" required_fields /\
  exists missing rest,
    In "username" missing /\
    validate_post (VDict d) = Ok (false, FmtSet "Missing required fields: " missing :: rest).
Proof.
  intro H. split; [cbn; tauto|].
  pose proof (missing_keys_absent "username" required_fields d ltac:(cbn; tauto) H) as M.
  rewrite validate_post_dict.
  assert (C : exists tail, collect (field_checks d) =
                 FmtSet "Missing required fields: " (missing_keys required_fields d) :: tail).
  { cbn [field_checks collect]. unfold messages_of at 1, outcome_of at 1, check_required.
    destruct (missing_keys required_fields d) as [|m ms] eqn:E; [contradiction|].
    cbn. eexists. reflexivity. }
  destruct C as [tail C]. exists (missing_keys required_fields d).
  rewrite C. destruct (first_raise (field_checks d)) as [e|].
  - exists (tail ++ [FmtExn "Validation error: " e]). split; [exact M | reflexivity].
  - exists tail. split; [exact M | reflexivity].
Qed.

Lemma validate_post_requires_username_witness :
  lookup "username" post_without_username = None /\
  In "username" required_fields /\
  exists missing rest,
    In "username" missing /\
    validate_post (VDict post_without_username)
    = Ok (false, FmtSet "Missing required fields: " missing :: rest).
Proof.
  assert (H : lookup "username" post_without_username = None) by (vm_compute; reflexivity).
  split; [exact H|].
  exact (validate_post_requires_username post_without_username H).
Defined.

(** ** C9: the bound on the length of the content *)

Lemma messages_of_vbind (c k : V unit) :
  append_only c -> append_only k ->
  messages_of (vbind c (fun _ => k)) =
  messages_of c ++ match outcome_of c with Ok _ => messages_of k | Raise _ => [] end.
Proof.
  intros H K. unfold messages_of at 1. rewrite vbind_append_only by exact H.
  destruct (outcome_of c); cbn; [rewrite K; reflexivity | rewrite app_nil_r; reflexivity].
Qed.














Lemma outcome_check_required d : outcome_of (check_required d) = Ok tt.
Proof. unfold check_required. destruct (missing_keys required_fields d); reflexivity. Qed.

Lemma outcome_check_post_id d : outcome_of (check_post_id d) = Ok tt.
Proof.
  unfold check_post_id. destruct (lookup "post_id" d) as [[]|]; try reflexivity.
  destruct (is_empty (strip s)); reflexivity.
Qed.

Lemma outcome_check_user_id d : outcome_of (check_user_id d) = Ok tt.
Proof.
  unfold check_user_id. destruct (lookup "user_id" d) as [v|]; try reflexivity.
  destruct (int_value v) as [n|]; try reflexivity. destruct (n <=? 0); reflexivity.
Qed.








(** ** What a record that passes validation looks like *)

Lemma collect_nil checks :
  first_raise checks = None -> collect checks = [] -> Forall passes checks.
Proof.
  induction checks as [|c rest IH]; cbn [first_raise collect]; intros R C; [constructor|].
  destruct (outcome_of c) as [[]|] eqn:O; [|discriminate].
  apply app_eq_nil in C. destruct C as [C1 C2].
  constructor; [split; assumption | apply IH; assumption].
Qed.

Lemma validate_post_valid v errors :
  validate_post v = Ok (true, errors) ->
  exists d, v = VDict d /\ errors = [] /\ Forall passes (field_checks d).
Proof.
  intro H. destruct v as [| b | n | f | s | l | d]; try discriminate.
  exists d. split; [reflexivity|]. rewrite validate_post_dict in H.
  destruct (first_raise (field_checks d)) as [e|] eqn:R; [discriminate|].
  injection H as N E. apply is_nil_true in N. split; [congruence|].
  apply collect_nil; assumption.
Qed.

Lemma missing_keys_nil wanted d key :
  missing_keys wanted d = [] -> In key wanted -> exists v, lookup key d = Some v.
Proof.
  unfold missing_keys. intros M I.
  destruct (lookup key d) as [v|] eqn:L; [exists v; reflexivity|].
  assert (J : In key (filter (fun f => negb (has_key f d)) wanted)).
  { apply filter_In. split; [exact I|]. unfold has_key. rewrite L. reflexivity. }
  rewrite M in J. contradiction.
Qed.

Lemma check_required_passes d :
  passes (check_required d) -> missing_keys required_fields d = [].
Proof.
  unfold passes, check_required, messages_of. intros [M _].
  destruct (missing_keys required_fields d); [reflexivity | discriminate].
Qed.

Lemma check_member_passes key allowed label d v :
  passes (check_member key allowed label d) ->
  lookup key d = Some v -> exists s, v = VStr s /\ in_strings s allowed = true.
Proof.
  unfold passes, check_member, messages_of, outcome_of, vbind, vlift. intros [M O] L.
  rewrite L in M, O.
  destruct v as [| b | n | f | s | l | e]; cbn in M, O; try discriminate.
  exists s. split; [reflexivity|]. destruct (in_strings s allowed); [reflexivity | discriminate].
Qed.

Lemma check_post_id_passes d v :
  passes (check_post_id d) -> lookup "post_id" d = Some v -> exists s, v = VStr s.
Proof.
  unfold passes, check_post_id, messages_of. intros [M _] L. rewrite L in M.
  destruct v as [| b | n | f | s | l | e]; try discriminate. exists s. reflexivity.
Qed.

Lemma check_content_passes d v :
  passes (check_content d) -> lookup "content" d = Some v -> exists s, v = VStr s.
Proof.
  unfold passes, check_content, messages_of. intros [M _] L. rewrite L in M.
  destruct v as [| b | n | f | s | l | e]; try discriminate. exists s. reflexivity.
Qed.

Lemma check_metadata_passes d v :
  passes (check_metadata d) -> lookup "metadata" d = Some v -> exists md, v = VDict md.
Proof.
  unfold passes, check_metadata, messages_of. intros [M _] L. rewrite L in M.
  destruct v as [| b | n | f | s | l | e]; try discriminate. exists e. reflexivity.
Qed.

Lemma check_engagement_field_passes e field :
  passes (check_engagement_field e field) ->
  forall v, lookup field e = Some v -> exists n, int_value v = Some n /\ 0 <= n.
Proof.
  unfold passes, check_engagement_field, messages_of. intros [M _] v L. rewrite L in M.
  destruct (int_value v) as [n|]; [|discriminate].
  destruct (n <? 0) eqn:E; [discriminate|]. exists n. split; [reflexivity|].
  apply Z.ltb_ge. exact E.
Qed.

Lemma passes_vbind (c k : V unit) :
  append_only c -> append_only k -> passes (vbind c (fun _ => k)) -> passes c /\ passes k.
Proof.
  intros Hc Hk [M O]. rewrite messages_of_vbind in M by assumption.
  unfold outcome_of in O. rewrite vbind_append_only in O by exact Hc.
  apply app_eq_nil in M. destruct M as [M1 M2].
  destruct (outcome_of c) as [[]|] eqn:Oc; [|discriminate].
  split; [split; [exact M1 | exact Oc]|]. split; [exact M2|].
  rewrite (Hk ([] ++ messages_of c)) in O. exact O.
Qed.

Lemma passes_vfor {A : Type} (xs : list A) (body : A -> V unit) :
  (forall x, append_only (body x)) -> passes (vfor xs body) ->
  forall x, In x xs -> passes (body x).
Proof.
  intro H. induction xs as [|y rest IH]; cbn [vfor]; intros P x I; [contradiction|].
  apply passes_vbind in P; [|apply H|apply append_only_vfor; exact H].
  destruct P as [P1 P2]. destruct I as [<-|I]; [exact P1 | apply IH; assumption].
Qed.

Lemma check_engagement_passes d v :
  passes (check_engagement d) -> lookup "engagement" d = Some v ->
  exists e l s c w, v = VDict e /\ engagement_counts e l s c w.
Proof.
  unfold check_engagement. intros P L. rewrite L in P.
  destruct v as [| b | n | f | s | l | e];
    try (destruct P as [M _]; discriminate).
  apply passes_vbind in P.
  - destruct P as [[M _] F].
    assert (K : missing_keys required_engagement_fields e = []).
    { unfold messages_of in M.
      destruct (missing_keys required_engagement_fields e); [reflexivity | discriminate]. }
    pose proof (passes_vfor _ _ (append_only_check_engagement_field e) F) as G.
    assert (X : forall field, In field required_engagement_fields ->
                  exists v n, lookup field e = Some v /\ int_value v = Some n /\ 0 <= n).
    { intros field I. destruct (missing_keys_nil _ _ _ K I) as [v Lv].
      destruct (check_engagement_field_passes e field (G field I) v Lv) as [n [N1 N2]].
      exists v, n. auto. }
    destruct (X "likes" ltac:(cbn; tauto)) as [v1 [n1 [A1 [B1 C1]]]].
    destruct (X "shares" ltac:(cbn; tauto)) as [v2 [n2 [A2 [B2 C2]]]].
    destruct (X "comments" ltac:(cbn; tauto)) as [v3 [n3 [A3 [B3 C3]]]].
    destruct (X "views" ltac:(cbn; tauto)) as [v4 [n4 [A4 [B4 C4]]]].
    exists e, n1, n2, n3, n4. split; [reflexivity|].
    unfold engagement_counts.
    repeat split; try assumption; eexists; split; eassumption.
  - destruct (missing_keys required_engagement_fields e); auto with checks.
  - apply append_only_vfor. apply append_only_check_engagement_field.
Qed.

Ltac in_list := unfold field_checks; cbn [In]; repeat (first [left; reflexivity | right]).

Lemma validated_record v errors :
  validate_post v = Ok (true, errors) -> exists d, v = VDict d /\ valid_record d.
Proof.
  intro H. destruct (validate_post_valid v errors H) as [d [-> [_ F]]].
  exists d. split; [reflexivity|].
  pose proof (proj1 (Forall_forall _ _) F) as P.
  pose proof (check_required_passes d (P (check_required d) ltac:(in_list))) as K.
  assert (R : forall key, In key required_fields -> exists v, lookup key d = Some v)
    by (intros key I; exact (missing_keys_nil _ _ _ K I)).
  destruct (R "post_id" ltac:(cbn; tauto)) as [v1 L1].
  destruct (R "username" ltac:(cbn; tauto)) as [v2 L2].
  destruct (R "platform" ltac:(cbn; tauto)) as [v3 L3].
  destruct (R "content" ltac:(cbn; tauto)) as [v4 L4].
  destruct (R "engagement" ltac:(cbn; tauto)) as [v5 L5].
  destruct (R "metadata" ltac:(cbn; tauto)) as [v6 L6].
  destruct (R "sentiment" ltac:(cbn; tauto)) as [v7 L7].
  destruct (R "category" ltac:(cbn; tauto)) as [v8 L8].
  constructor.
  - destruct (check_post_id_passes d v1 (P (check_post_id d) ltac:(in_list)) L1) as [s ->]. eauto.
  - eauto.
  - destruct (check_member_passes "platform" valid_platforms "Invalid platform: " d v3
                (P (check_member "platform" valid_platforms "Invalid platform: " d)
                   ltac:(in_list)) L3) as [s [-> _]]. eauto.
  - destruct (check_member_passes "sentiment" valid_sentiments "Invalid sentiment: " d v7
                (P (check_member "sentiment" valid_sentiments "Invalid sentiment: " d)
                   ltac:(in_list)) L7) as [s [-> _]]. eauto.
  - destruct (check_member_passes "category" valid_categories "Invalid category: " d v8
                (P (check_member "category" valid_categories "Invalid category: " d)
                   ltac:(in_list)) L8) as [s [-> _]]. eauto.
  - destruct (check_content_passes d v4 (P (check_content d) ltac:(in_list)) L4) as [s ->]. eauto.
  - destruct (check_engagement_passes d v5 (P (check_engagement d) ltac:(in_list)) L5) as [e [l [s [c [w [-> E]]]]]].
    exists e, l, s, c, w. auto.
  - destruct (check_metadata_passes d v6 (P (check_metadata d) ltac:(in_list)) L6) as [md ->]. eauto.
Qed.

(** ** What [transform_post] stores *)

Lemma lookup_dict_set key key' v d :
  lookup key (dict_set key' v d) = if String.eqb key' key then Some v else lookup key d.
Proof.
  induction d as [|[k w] rest IH]; cbn [dict_set lookup].
  - destruct (String.eqb key' key); reflexivity.
  - destruct (String.eqb k key') eqn:E; cbn [lookup].
    + apply String.eqb_eq in E. subst k. destruct (String.eqb key' key); reflexivity.
    + rewrite IH. destruct (String.eqb k key) eqn:F; [|reflexivity].
      apply String.eqb_eq in F. subst k. rewrite String.eqb_sym, E. reflexivity.
Qed.

Lemma int_value_number v n : int_value v = Some n -> number_of v = Some (NInt n).
Proof.
  destruct v as [| b | m | f | s | l | e]; cbn; intro H; try discriminate; congruence.
Qed.

Lemma float_of_int_nonneg n f : 0 <= n -> float_of_int n = Ok f -> fnonneg f.
Proof.
  intros Hn. unfold float_of_int.
  assert (N : (0 <= inject_Z n)%Q) by (change 0%Q with (inject_Z 0); rewrite <- Zle_Qle; exact Hn).
  pose proof (fl_nonneg _ N) as F.
  destruct (fl (inject_Z n)); try discriminate. intro H. injection H as <-. exact F.
Qed.

Lemma fadd_nonneg f g : fnonneg f -> fnonneg g -> fnonneg (fadd f g).
Proof.
  destruct f as [p| | |], g as [q| | |]; cbn; try tauto. intros. apply fl_nonneg. lra.
Qed.

Lemma fmul_nonneg_finite f q : fnonneg f -> (0 <= q)%Q -> f <> PInf -> fnonneg (fmul f (Fin q)).
Proof.
  destruct f as [p| | |]; cbn; try tauto; try congruence. intros. apply fl_nonneg. nra.
Qed.

Lemma weighted_sum_nonneg e ws acc r :
  (forall metric w, In (metric, w) ws ->
     (exists v n, lookup metric e = Some v /\ int_value v = Some n /\ 0 <= n) /\
     (exists q, w = Fin q /\ (0 <= q)%Q)) ->
  acc_ok acc ->
  weighted_sum (VDict e) ws acc = Ok r ->
  acc_ok r /\ (ws <> [] -> exists f, r = NFloat f /\ fnonneg f).
Proof.
  revert acc. induction ws as [|[metric w] rest IH]; intros acc W A H.
  - cbn in H. injection H as <-. split; [exact A | congruence].
  - cbn [weighted_sum getitem] in H.
    destruct (W metric w ltac:(left; reflexivity)) as [[v [n [L [N P]]]] [q [-> Q]]].
    rewrite L in H. cbn [rbind] in H.
    unfold py_mul_float in H. rewrite (int_value_number v n N) in H. cbn [to_float] in H.
    destruct (float_of_int n) as [fn|] eqn:F; cbn [rbind] in H; [|discriminate].
    pose proof (float_of_int_nonneg n fn P F) as Fn.
    assert (Fin_fn : fn <> PInf).
    { unfold float_of_int in F. destruct (fl (inject_Z n)); try discriminate.
      injection F as <-. discriminate. }
    pose proof (fmul_nonneg_finite fn q Fn Q Fin_fn) as T.
    assert (A' : exists f, num_add acc (NFloat (fmul fn (Fin q))) = Ok (NFloat f) /\ fnonneg f).
    { destruct A as [-> | [f [-> Ff]]].
      - exists (fadd (Fin 0) (fmul fn (Fin q))). split; [reflexivity|].
        apply fadd_nonneg; [apply Qle_refl | exact T].
      - exists (fadd f (fmul fn (Fin q))). split; [reflexivity|].
        apply fadd_nonneg; assumption. }
    destruct A' as [f [E Ff]]. rewrite E in H. cbn [rbind] in H.
    assert (Af : acc_ok (NFloat f)) by (right; exists f; auto).
    destruct (IH (NFloat f) (fun m w' I => W m w' (or_intror I)) Af H) as [R1 R2].
    split; [exact R1|]. intros _.
    destruct rest as [|x rest'].
    + cbn in H. injection H as <-. exists f. auto.
    + apply R2. discriminate.
Qed.

Lemma popularity_weights_nonneg metric w :
  In (metric, w) popularity_weights -> exists q, w = Fin q /\ (0 <= q)%Q.
Proof.
  unfold popularity_weights. cbn [In].
  intros [H|[H|[H|[H|[]]]]]; injection H as _ <-; eexists; (split; [reflexivity|]);
    vm_compute; discriminate.
Qed.

Lemma popularity_score_of_nonneg e l s c v ps :
  engagement_counts e l s c v ->
  popularity_score_of (VDict e) = Ok ps -> exists f, ps = VFloat f /\ fnonneg f.
Proof.
  intros [[v1 [L1 N1]] [[v2 [L2 N2]] [[v3 [L3 N3]] [[v4 [L4 N4]] [P1 [P2 [P3 P4]]]]]]] H.
  unfold popularity_score_of in H.
  destruct (weighted_sum (VDict e) popularity_weights (NInt 0)) as [r|] eqn:W;
    cbn [rbind] in H; [|discriminate].
  injection H as <-.
  destruct (weighted_sum_nonneg e popularity_weights (NInt 0) r) as [_ R]; try assumption.
  - intros metric w I. split; [|exact (popularity_weights_nonneg metric w I)].
    unfold popularity_weights in I. cbn [In] in I.
    destruct I as [I|[I|[I|[I|[]]]]]; injection I as <- _; eauto.
  - left. reflexivity.
  - destruct (R ltac:(discriminate)) as [f [-> Ff]]. exists f. auto.
Qed.

Lemma engagement_rate_of_ok total views r :
  engagement_rate_of total views = Ok r -> rate_ok r.
Proof.
  unfold engagement_rate_of. destruct (py_positive views) as [[]|]; cbn [rbind]; try discriminate.
  - destruct (py_truediv total views); cbn [rbind]; [|discriminate].
    destruct (float_of_int 100); cbn [rbind]; [|discriminate].
    intro H. injection H as <-. right. eexists. reflexivity.
  - intro H. injection H as <-. left. reflexivity.
Qed.

(** One step of a computation that ended normally. *)
Ltac rstep H :=
  match type of H with
  | rbind ?r _ = Ok _ =>
      let E := fresh "E" in
      destruct r eqn:E; cbn [rbind] in H; [|discriminate H]
  end.

Lemma transform_post_stores now d p :
  valid_record d -> transform_post now (VDict d) = Ok p -> processed_ok p.
Proof.
  intros [[pid Lpid] _ [pl Lpl] [se Lse] [ca Lca] _ [e [l [s [c [v [Le Ec]]]]]] _] H.
  unfold transform_post in H. cbn [copy_for_update rbind] in H.
  unfold getitem at 1 in H. rewrite Le in H. cbn [rbind] in H.
  repeat rstep H.
  injection H as <-.
  match goal with E : engagement_rate_of _ _ = Ok _ |- _ =>
    pose proof (engagement_rate_of_ok _ _ _ E) as Rk end.
  match goal with E : popularity_score_of _ = Ok _ |- _ =>
    destruct (popularity_score_of_nonneg e l s c v _ Ec E) as [f [-> Ff]] end.
  eexists _, f. split; [reflexivity|].
  rewrite !lookup_dict_set. cbn [String.eqb Ascii.eqb Bool.eqb].
  repeat split; eauto.
Qed.

(** ** The effect of one processing step *)

Ltac cstep H :=
  match type of H with
  | context [match ?r with Ok _ => _ | Raise _ => _ end] =>
      let E := fresh "E" in destruct r eqn:E
  end.

Lemma group_append_inv k x m m' : group_append k x m = Ok m' -> m' = append_to k x m.
Proof. unfold group_append. destruct (hashable k); congruence. Qed.

Lemma counter_incr_inv k c c' : counter_incr k c = Ok c' -> c' = incr k c.
Proof. unfold counter_incr. destruct (hashable k); congruence. Qed.

Lemma update_statistics_frame p st st' r :
  update_statistics p st = (st', r) ->
  same_records st st' /\
  (engagement_stats st' = engagement_stats st \/
   exists k rate, getitem p "engagement_rate" = Ok rate /\
                  engagement_stats st' = append_to k rate (engagement_stats st)) /\
  (platform_stats st' = platform_stats st \/
   exists k, platform_stats st' = incr k (platform_stats st)) /\
  (r = Ok tt ->
   exists k rate, getitem p "platform" = Ok k /\
                  getitem p "engagement_rate" = Ok rate /\
                  platform_stats st' = incr k (platform_stats st) /\
                  engagement_stats st' = append_to k rate (engagement_stats st)).
Proof.
  intro H.
  cbv beta iota delta [update_statistics cbind clift cget cmodify] in H.
  repeat cstep H; injection H as <- <-; cbn; unfold same_records; cbn;
    repeat match goal with
    | E : group_append _ _ _ = Ok _ |- _ => apply group_append_inv in E; cbn in E; subst
    | E : counter_incr _ (platform_stats _) = Ok _ |- _ =>
        apply counter_incr_inv in E; cbn in E; subst
    end;
    (split; [tauto|]); (split; [eauto|]); (split; [eauto|]); try discriminate; eauto 8.
Qed.

Lemma record_failure_frame x errors now st st' r :
  record_failure x errors now st = (st', r) ->
  processed_posts st' = processed_posts st /\
  processed_data st' = processed_data st /\
  processing_times st' = processing_times st /\
  engagement_stats st' = engagement_stats st /\
  platform_stats st' = platform_stats st /\
  failed_posts st' = failed_posts st + 1.
Proof.
  intro H. cbv beta iota delta [record_failure cbind clift cmodify] in H.
  repeat cstep H; injection H as <- <-; cbn; tauto.
Qed.

Lemma processed_ok_rate p rate :
  processed_ok p -> getitem p "engagement_rate" = Ok rate -> rate_ok rate.
Proof.
  intros [t [f [-> [_ [_ [[r [L R]] _]]]]]] G. cbn in G. rewrite L in G.
  injection G as <-. exact R.
Qed.

Lemma handler_failed x e now st0 st1 :
  processed_posts st1 = processed_posts st0 ->
  processed_data st1 = processed_data st0 ->
  processing_times st1 = processing_times st0 ->
  failed_posts st0 <= failed_posts st1 ->
  (engagement_stats st1 = engagement_stats st0 \/
   exists k rate, rate_ok rate /\
                  engagement_stats st1 = append_to k rate (engagement_stats st0)) ->
  step_failed st0
    (fst (cbind (record_failure x [FmtExn "" e] now) (fun _ => cret None) st1
          : consumer * result (option pyval))).
Proof.
  intros A B C D E. unfold cbind.
  destruct (record_failure x [FmtExn "" e] now st1) as [st2 r] eqn:R.
  destruct (record_failure_frame _ _ _ _ _ _ R) as [F1 [F2 [F3 [F4 [F5 F6]]]]].
  assert (G : step_failed st0 st2).
  { unfold step_failed. rewrite F1, F2, F3, F4, F6. repeat split; try assumption. lia. }
  destruct r; exact G.
Qed.

Lemma process_post_cases clk x st :
  let st' := fst (process_post clk x st) in
  step_failed st st' \/ step_succeeded st st'.
Proof.
  cbv zeta. unfold process_post.
  destruct (process_post_body clk x st) as [st1 r1] eqn:B.
  unfold process_post_body in B.
  destruct (validate_post_never_raises x) as [valid [errors [V _]]].
  cbv beta iota delta [cbind clift] in B. rewrite V in B. cbv beta iota in B.
  destruct valid; cbn [negb] in B.
  - (* the record is valid *)
    destruct (validated_record x errors V) as [d [-> VR]].
    destruct (transform_post (now_first clk) (VDict d)) as [p|e] eqn:T.
    + pose proof (transform_post_stores _ _ _ VR T) as PO.
      cbv beta iota in B.
      destruct (update_statistics p st) as [st2 r2] eqn:U.
      destruct (update_statistics_frame _ _ _ _ U) as [[S1 [S2 [S3 [S4 S5]]]] [ES [PS OKP]]].
      assert (ES' : engagement_stats st2 = engagement_stats st \/
                    exists k rate, rate_ok rate /\
                      engagement_stats st2 = append_to k rate (engagement_stats st)).
      { destruct ES as [ES|[k [rate [G ES]]]]; [left; exact ES|].
        right. exists k, rate. split; [exact (processed_ok_rate p rate PO G) | exact ES]. }
      destruct r2 as [[]|e].
      * right. cbv beta iota delta [cmodify cret] in B. injection B as <- <-. cbn.
        destruct (OKP eq_refl) as [k [rate [Gk [Gr [Pk Ek]]]]].
        exists p, (fsub (time_end clk) (time_start clk)), k, rate. cbn.
        pose proof (processed_ok_rate p rate PO Gr) as RO.
        repeat split; try assumption; congruence.
      * left. injection B as <- <-.
        apply handler_failed; try congruence; try lia; exact ES'.
    + left. cbv beta iota in B. injection B as <- <-.
      apply handler_failed; try reflexivity; try lia; left; reflexivity.
  - (* the record is rejected *)
    left. fold (cbind (record_failure x errors (now_first clk)) (fun _ => cret (@None pyval)) st) in B.
    unfold cbind in B.
    destruct (record_failure x errors (now_first clk) st) as [st2 r2] eqn:R.
    destruct (record_failure_frame _ _ _ _ _ _ R) as [F1 [F2 [F3 [F4 [F5 F6]]]]].
    destruct r2 as [[]|e]; injection B as <- <-.
    + cbn. unfold step_failed. rewrite F1, F2, F3, F4, F6. repeat split; try lia. left. reflexivity.
    + apply handler_failed; try assumption; try lia; left; exact F4.
Qed.

(** ** Stable sorting *)

Lemma Forall_perm {A : Type} (P : A -> Prop) l l' :
  Permutation l l' -> Forall P l -> Forall P l'.
Proof.
  intros H F. apply Forall_forall. intros x I.
  apply (proj1 (Forall_forall P l) F). apply Permutation_in with (l := l'); [symmetry|]; assumption.
Qed.

Section StableSort.

Variable A : Type.
Variable ltb : A -> A -> bool.

(** The elements whose comparisons behave: on them [ltb] is a strict weak
    order. *)
Variable good : A -> Prop.
Hypothesis ltb_asym : forall a b, good a -> good b -> ltb a b = true -> ltb b a = false.
Hypothesis ltb_cotrans :
  forall a b c, good a -> good b -> good c ->
    ltb a c = true -> ltb a b = true \/ ltb b c = true.

(** The order the elements had before sorting. *)
Variable earlier : A -> A -> Prop.

Local Abbreviation precedes := (precedes ltb earlier).

Lemma insert_sorted_perm x l : Permutation (insert_sorted ltb x l) (x :: l).
Proof.
  induction l as [|y rest IH]; cbn [insert_sorted]; [reflexivity|].
  destruct (ltb y x); [|reflexivity].
  rewrite IH. apply perm_swap.
Qed.

Lemma stable_sort_perm l : Permutation (stable_sort ltb l) l.
Proof.
  induction l as [|x rest IH]; cbn; [reflexivity|].
  rewrite insert_sorted_perm. constructor. exact IH.
Qed.

Lemma insert_sorted_sorted x l :
  good x -> Forall good l ->
  Forall (earlier x) l ->
  StronglySorted precedes l ->
  StronglySorted precedes (insert_sorted ltb x l).
Proof.
  intros Gx Gl Ex S. induction S as [|y rest Srest IH Hy]; cbn [insert_sorted].
  - constructor; constructor.
  - inversion Gl as [|? ? Gy Grest]; subst. inversion Ex as [|? ? Exy Exrest]; subst.
    destruct (ltb y x) eqn:Lyx.
    + constructor; [apply IH; assumption|].
      apply (Forall_perm _ (x :: rest)); [symmetry; apply insert_sorted_perm|].
      constructor; [left; exact Lyx | exact Hy].
    + constructor; [constructor; assumption|].
      assert (Pxy : precedes x y).
      { destruct (ltb x y) eqn:Lxy; [left; exact Lxy|]. right. auto. }
      constructor; [exact Pxy|].
      apply Forall_forall. intros z Iz.
      pose proof (proj1 (Forall_forall _ _) Hy z Iz) as Pyz.
      pose proof (proj1 (Forall_forall _ _) Grest z Iz) as Gz.
      pose proof (proj1 (Forall_forall _ _) Exrest z Iz) as Exz.
      destruct (ltb x z) eqn:Lxz; [left; exact Lxz|]. right.
      split; [exact Lxz|]. split; [|exact Exz].
      destruct (ltb z x) eqn:Lzx; [|reflexivity]. exfalso.
      (* z < x and not y < x give z < y, against y before z *)
      destruct (ltb_cotrans z y x Gz Gy Gx Lzx) as [Lzy|C]; [|congruence].
      destruct Pyz as [Lyz|[_ [Lzy' _]]]; [|congruence].
      rewrite (ltb_asym y z Gy Gz Lyz) in Lzy. discriminate.
Qed.

Lemma stable_sort_sorted l :
  Forall good l -> StronglySorted earlier l -> StronglySorted precedes (stable_sort ltb l).
Proof.
  intros G S. induction S as [|x rest Srest IH Hx]; cbn; [constructor|].
  inversion G as [|? ? Gx Grest]; subst.
  apply insert_sorted_sorted.
  - exact Gx.
  - apply (Forall_perm _ rest); [symmetry; apply stable_sort_perm | exact Grest].
  - apply (Forall_perm _ rest); [symmetry; apply stable_sort_perm | exact Hx].
  - apply IH. exact Grest.
Qed.

End StableSort.

Lemma StronglySorted_snoc {A : Type} (R : A -> A -> Prop) l x :
  StronglySorted R l -> Forall (fun y => R y x) l -> StronglySorted R (l ++ [x]).
Proof.
  induction 1 as [|y rest S IH H]; cbn; intro F.
  - constructor; constructor.
  - inversion F as [|? ? Ryx Frest]; subst. constructor; [apply IH; exact Frest|].
    apply Forall_app. split; [exact H | constructor; [exact Ryx | constructor]].
Qed.

Lemma StronglySorted_rev {A : Type} (R : A -> A -> Prop) l :
  StronglySorted R l -> StronglySorted (fun a b => R b a) (rev l).
Proof.
  induction 1 as [|x rest S IH H]; cbn; [constructor|].
  apply StronglySorted_snoc; [exact IH | apply Forall_rev; exact H].
Qed.

Lemma insert_sorted_map {A B : Type} (f : B -> A) (ltA : A -> A -> bool) x l :
  map f (insert_sorted (fun a b => ltA (f a) (f b)) x l) = insert_sorted ltA (f x) (map f l).
Proof.
  induction l as [|y rest IH]; cbn; [reflexivity|].
  destruct (ltA (f y) (f x)); cbn; [rewrite IH|]; reflexivity.
Qed.

Lemma stable_sort_map {A B : Type} (f : B -> A) (ltA : A -> A -> bool) l :
  map f (stable_sort (fun a b => ltA (f a) (f b)) l) = stable_sort ltA (map f l).
Proof.
  induction l as [|x rest IH]; cbn; [reflexivity|].
  unfold stable_sort in IH. rewrite insert_sorted_map, IH. reflexivity.
Qed.

Lemma StronglySorted_map {A B : Type} (f : B -> A) (R : A -> A -> Prop) l :
  StronglySorted (fun a b => R (f a) (f b)) l -> StronglySorted R (map f l).
Proof.
  induction 1 as [|x rest S IH H]; cbn; constructor; [exact IH|].
  apply Forall_map. exact H.
Qed.

Lemma StronglySorted_weaken {A : Type} (R R' : A -> A -> Prop) l :
  (forall a b, In a l -> In b l -> R a b -> R' a b) ->
  StronglySorted R l -> StronglySorted R' l.
Proof.
  intros W S. induction S as [|x rest S IH H]; constructor.
  - apply IH. intros a b Ia Ib. apply W; right; assumption.
  - apply Forall_forall. intros y Iy. apply W; [left; reflexivity | right; exact Iy|].
    exact (proj1 (Forall_forall _ _) H y Iy).
Qed.

(** *** The order of the scores *)

Lemma num_ltb_asym a b : good_score a -> good_score b -> num_ltb a b = true -> num_ltb b a = false.
Proof.
  intros [f [-> Ff]] [g [-> Fg]]. cbn.
  destruct f as [p| | |], g as [q| | |]; cbn in *; try tauto; try discriminate.
  intro H. apply negb_true_iff in H. apply negb_false_iff. apply Qle_bool_iff.
  destruct (Qlt_le_dec p q) as [L|L]; [apply Qlt_le_weak; exact L|].
  apply Qle_bool_iff in L. congruence.
Qed.

Lemma num_ltb_cotrans a b c :
  good_score a -> good_score b -> good_score c ->
  num_ltb a c = true -> num_ltb a b = true \/ num_ltb b c = true.
Proof.
  intros [f [-> Ff]] [g [-> Fg]] [h [-> Fh]]. cbn.
  destruct f as [p| | |], g as [q| | |], h as [r| | |]; cbn in *;
    try tauto; try discriminate; auto.
  intro H. apply negb_true_iff in H.
  destruct (Qle_bool q p) eqn:E1; [|left; reflexivity].
  destruct (Qle_bool r q) eqn:E2; [|right; reflexivity].
  apply Qle_bool_iff in E1, E2.
  assert (L : (r <= p)%Q) by lra. apply Qle_bool_iff in L. congruence.
Qed.

(** *** Ranking a list of scored entries *)

Lemma map_snd_combine_seq {A : Type} (l : list A) start :
  map snd (combine (seq start (List.length l)) l) = l.
Proof.
  revert start. induction l as [|x rest IH]; intro start; cbn; [reflexivity|].
  rewrite IH. reflexivity.
Qed.

Lemma map_fst_combine_seq {A : Type} (l : list A) start :
  map fst (combine (seq start (List.length l)) l) = seq start (List.length l).
Proof.
  revert start. induction l as [|x rest IH]; intro start; cbn; [reflexivity|].
  rewrite IH. reflexivity.
Qed.

Lemma ranked_sorted_reverse {A : Type} (keyed : list (number * A)) :
  map snd (ranked keyed) = sorted_reverse keyed.
Proof.
  unfold ranked, sorted_reverse. rewrite map_rev. f_equal.
  rewrite (stable_sort_map snd (fun a b => num_ltb (fst a) (fst b))).
  rewrite map_rev, map_snd_combine_seq. reflexivity.
Qed.

Lemma ranked_perm {A : Type} (keyed : list (number * A)) :
  Permutation (ranked keyed) (combine (seq 0 (List.length keyed)) keyed).
Proof.
  unfold ranked. rewrite <- Permutation_rev, stable_sort_perm, <- Permutation_rev. reflexivity.
Qed.

Lemma combine_seq_increasing {A : Type} (l : list A) start :
  StronglySorted (fun a b => (fst a < fst b)%nat) (combine (seq start (List.length l)) l).
Proof.
  revert start. induction l as [|x rest IH]; intro start; cbn; constructor; [apply IH|].
  apply Forall_forall. intros [i y] I. cbn.
  apply in_combine_l in I. apply in_seq in I. lia.
Qed.

Lemma ranked_sorted {A : Type} (keyed : list (number * A)) :
  Forall (fun kv => good_score (fst kv)) keyed ->
  StronglySorted outranks (ranked keyed).
Proof.
  intro G. unfold ranked.
  set (entries := combine (seq 0 (List.length keyed)) keyed).
  assert (Ge : Forall (fun a : nat * (number * A) => good_score (fst (snd a))) (rev entries)).
  { apply Forall_rev. apply Forall_forall. intros [i kv] I. cbn.
    apply in_combine_r in I. exact (proj1 (Forall_forall _ _) G kv I). }
  pose proof (StronglySorted_rev _ _ (combine_seq_increasing keyed 0)) as Se.
  fold entries in Se.
  pose proof (stable_sort_sorted _
                (fun a b : nat * (number * A) => num_ltb (fst (snd a)) (fst (snd b)))
                (fun a => good_score (fst (snd a)))
                (fun a b G1 G2 => num_ltb_asym _ _ G1 G2)
                (fun a b c G1 G2 G3 => num_ltb_cotrans _ _ _ G1 G2 G3)
                (fun a b => (fst b < fst a)%nat)
                (rev entries) Ge Se) as S.
  apply StronglySorted_rev in S.
  eapply StronglySorted_weaken; [|exact S].
  intros a b _ _ H. unfold precedes in H. unfold outranks. tauto.
Qed.

(** ** The state of the consumer during a run *)

Lemma analytics_ready_new : analytics_ready 0 new_consumer.
Proof. unfold analytics_ready. cbn. repeat split; try constructor; lia. Qed.

Lemma append_to_ready n k x (groups : list (pyval * list pyval)) :
  rate_ok x ->
  Forall (fun g => Forall rate_ok (snd g) /\ (List.length (snd g) <= n)%nat) groups ->
  Forall (fun g => Forall rate_ok (snd g) /\ (List.length (snd g) <= S n)%nat)
         (append_to k x groups).
Proof.
  intros Rx F. induction F as [|[k' xs] rest [R L] Frest IH]; cbn [append_to].
  - constructor; [|constructor]. cbn. split; [constructor; [exact Rx | constructor] | lia].
  - cbn in R, L. destruct (key_eqb k' k).
    + constructor.
      * cbn. split; [apply Forall_app; split; [exact R | constructor; [exact Rx | constructor]]|].
        rewrite length_app. cbn. lia.
      * eapply Forall_impl; [|exact Frest]. intros g [G1 G2]. split; [exact G1 | lia].
    + constructor; [cbn; split; [exact R | lia] | exact IH].
Qed.

Lemma analytics_ready_step n clk x st :
  analytics_ready n st -> analytics_ready (S n) (fst (process_post clk x st)).
Proof.
  intros [A [B [C [D E]]]].
  assert (D' : Forall (fun g => Forall rate_ok (snd g) /\ (List.length (snd g) <= S n)%nat)
                      (engagement_stats st)).
  { eapply Forall_impl; [|exact D]. intros g [G1 G2]. split; [exact G1 | lia]. }
  destruct (process_post_cases clk x st) as [F|S]; cbv zeta in *.
  - destruct F as [F1 [F2 [F3 [F4 F5]]]]. unfold analytics_ready.
    rewrite F1, F2, F3. repeat split; try assumption; try lia.
    destruct F5 as [->|[k [rate [R ->]]]]; [exact D' | apply append_to_ready; assumption].
  - destruct S as [p [t [k [rate [PO [S1 [S2 [S3 [S4 [R [S5 S6]]]]]]]]]]].
    unfold analytics_ready. rewrite S1, S2, S3, S4, S5.
    repeat split; try assumption.
    + rewrite length_app. cbn. lia.
    + apply Forall_app. split; [exact C | constructor; [exact PO | constructor]].
    + apply append_to_ready; assumption.
    + rewrite length_app. cbn. lia.
Qed.

Lemma analytics_ready_consume inputs n st :
  analytics_ready n st -> analytics_ready (n + List.length inputs) (consume inputs st).
Proof.
  revert n st. induction inputs as [|[clk x] rest IH]; intros n st R; cbn [consume List.length].
  - rewrite Nat.add_0_r. exact R.
  - replace (n + S (List.length rest))%nat with (S n + List.length rest)%nat by lia.
    apply IH. apply analytics_ready_step. exact R.
Qed.

(** ** The analytics of a run *)

Lemma float_of_int_length (n : nat) :
  (0 < n)%nat -> Z.of_nat n < 2 ^ 63 ->
  exists q, float_of_int (Z.of_nat n) = Ok (Fin q) /\ (1 <= q)%Q.
Proof.
  intros P B. unfold float_of_int.
  assert (L : (1 <= inject_Z (Z.of_nat n))%Q) by (change 1%Q with (inject_Z 1); rewrite <- Zle_Qle; lia).
  assert (U : (inject_Z (Z.of_nat n) <= pow2 63)%Q) by (rewrite (pow2_Z 63) by lia; rewrite <- Zle_Qle; lia).
  destruct (fl_bounded (inject_Z (Z.of_nat n)) 63 ltac:(lra) U ltac:(lia)) as [E _].
  rewrite E. eexists. split; [reflexivity|].
  rewrite <- (rnd64_Z 1) by (cbn; lia). apply rnd64_mono. exact L.
Qed.

Lemma numbers_of_rates rates :
  Forall rate_ok rates ->
  exists ns, numbers_of rates = Ok ns /\ Forall rate_number ns.
Proof.
  induction 1 as [|r rest R F IH]; cbn [numbers_of].
  - exists []. split; [reflexivity | constructor].
  - destruct IH as [ns [E N]]. rewrite E.
    destruct R as [->|[f ->]]; cbn; eexists; (split; [reflexivity|]); constructor; try exact N.
    + left. reflexivity.
    + right. eexists. reflexivity.
Qed.

Lemma num_sum_from_rates acc ns :
  rate_number acc -> Forall rate_number ns ->
  exists total, num_sum_from acc ns = Ok total /\ rate_number total.
Proof.
  intros A F. revert acc A. induction F as [|x rest X F IH]; intros acc A; cbn [num_sum_from].
  - exists acc. auto.
  - assert (S : exists acc', num_add acc x = Ok acc' /\ rate_number acc').
    { destruct A as [->|[f ->]], X as [->|[g ->]]; cbn; eexists; (split; [reflexivity|]).
      - left. reflexivity.
      - right. eexists. reflexivity.
      - right. eexists. reflexivity.
      - right. eexists. reflexivity. }
    destruct S as [acc' [E A']]. rewrite E. cbn [rbind]. apply IH. exact A'.
Qed.

Lemma num_truediv_length total (n : nat) :
  rate_number total -> (0 < n)%nat -> Z.of_nat n < 2 ^ 63 ->
  exists mean, num_truediv total (NInt (Z.of_nat n)) = Ok mean.
Proof.
  intros [->|[f ->]] P B.
  - cbn [num_truediv]. unfold int_truediv.
    destruct (Z.of_nat n =? 0) eqn:E; [apply Z.eqb_eq in E; lia|].
    rewrite (fl_zero (inject_Z 0 / inject_Z (Z.of_nat n))) by (unfold Qdiv; ring).
    eexists. reflexivity.
  - cbn [num_truediv to_float rbind].
    destruct (float_of_int_length n P B) as [q [E Q]]. rewrite E. cbn [rbind].
    unfold fdiv. destruct (Qeq_bool q 0) eqn:Z0.
    + apply Qeq_bool_eq in Z0. lra.
    + destruct f; eexists; reflexivity.
Qed.

Lemma average_rate_ok rates :
  Forall rate_ok rates -> rates <> [] -> Z.of_nat (List.length rates) < 2 ^ 63 ->
  exists mean, average_rate rates = Ok mean.
Proof.
  intros F N B. unfold average_rate.
  destruct (numbers_of_rates rates F) as [ns [E Ns]]. rewrite E. cbn [rbind].
  destruct (num_sum_from_rates (NInt 0) ns ltac:(left; reflexivity) Ns) as [total [S T]].
  unfold num_sum. rewrite S. cbn [rbind].
  destruct (num_truediv_length total (List.length rates) T) as [mean M]; [|exact B|].
  - destruct rates; [congruence | cbn; lia].
  - rewrite M. cbn [rbind]. eexists. reflexivity.
Qed.

Lemma average_engagement_ok n groups :
  Z.of_nat n < 2 ^ 63 ->
  Forall (fun g : pyval * list pyval =>
            Forall rate_ok (snd g) /\ (List.length (snd g) <= n)%nat) groups ->
  exists avgs, average_engagement groups = Ok avgs.
Proof.
  intros B F. induction F as [|[k rates] rest [R L] F IH]; cbn [average_engagement].
  - eexists. reflexivity.
  - cbn in R, L. destruct IH as [avgs E]. destruct rates as [|r rates'].
    + exists avgs. exact E.
    + destruct (average_rate_ok (r :: rates') R ltac:(discriminate) ltac:(lia)) as [mean M].
      rewrite M, E. cbn [rbind]. eexists. reflexivity.
Qed.

Lemma average_processing_time_ok times :
  Z.of_nat (List.length times) < 2 ^ 63 ->
  exists avg, average_processing_time times = Ok avg.
Proof.
  intro B. unfold average_processing_time. destruct times as [|t rest]; [eexists; reflexivity|].
  assert (F : Forall rate_number (map NFloat (t :: rest))).
  { apply Forall_map. apply Forall_forall. intros x _. right. eexists. reflexivity. }
  destruct (num_sum_from_rates (NInt 0) _ ltac:(left; reflexivity) F) as [total [S T]].
  unfold num_sum. rewrite S. cbn [rbind].
  destruct (num_truediv_length total (List.length (t :: rest)) T ltac:(cbn; lia) B) as [mean M].
  rewrite M. cbn [rbind]. eexists. reflexivity.
Qed.

Lemma rnd64_le_Z x z :
  Z.abs z <= 2 ^ 53 -> (x <= inject_Z z)%Q -> (rnd64 x <= inject_Z z)%Q.
Proof.
  intros B H. eapply Qle_trans; [apply rnd64_mono; exact H|].
  rewrite rnd64_Z by exact B. apply Qle_refl.
Qed.

Lemma rnd64_ge_Z x z :
  Z.abs z <= 2 ^ 53 -> (inject_Z z <= x)%Q -> (inject_Z z <= rnd64 x)%Q.
Proof.
  intros B H. eapply Qle_trans; [|apply rnd64_mono; exact H].
  rewrite rnd64_Z by exact B. apply Qle_refl.
Qed.

Lemma success_rate_of_range processed failed :
  0 <= processed -> 0 <= failed -> 0 < processed + failed ->
  exists r, success_rate_of processed failed = Ok r /\ fwithin 0 100 r.
Proof.
  intros Hp Hf Ht. unfold success_rate_of, int_truediv.
  destruct (processed + failed =? 0) eqn:E; [apply Z.eqb_eq in E; lia|].
  assert (P0 : (0 <= inject_Z processed)%Q)
    by (change 0%Q with (inject_Z 0); rewrite <- Zle_Qle; exact Hp).
  assert (T0 : (0 < inject_Z (processed + failed))%Q)
    by (change 0%Q with (inject_Z 0); rewrite <- Zlt_Qlt; exact Ht).
  assert (PT : (inject_Z processed <= inject_Z (processed + failed))%Q)
    by (rewrite <- Zle_Qle; lia).
  assert (R0 : (0 <= inject_Z processed / inject_Z (processed + failed))%Q).
  { apply Qle_shift_div_l; [exact T0|]. rewrite Qmult_0_l. exact P0. }
  assert (R1 : (inject_Z processed / inject_Z (processed + failed) <= pow2 0)%Q).
  { apply Qle_shift_div_r; [exact T0|]. change (pow2 0) with 1%Q. rewrite Qmult_1_l. exact PT. }
  destruct (fl_bounded _ 0 R0 R1 ltac:(lia)) as [E1 [L1 U1]]. rewrite E1.
  change (pow2 0) with 1%Q in U1.
  cbn [rbind]. rewrite float_of_int_100. cbn [rbind fmul].
  set (q := rnd64 (inject_Z processed / inject_Z (processed + failed))) in *.
  assert (H0 : (0 <= q * 100)%Q) by nra.
  assert (H1 : (q * 100 <= inject_Z 100)%Q) by (change (inject_Z 100) with 100%Q; nra).
  assert (H2 : (rnd64 (q * 100) <= 100)%Q).
  { apply (rnd64_le_Z (q * 100) 100); [cbn; lia | exact H1]. }
  assert (P7 : (100 <= pow2 7)%Q) by (vm_compute; discriminate).
  destruct (fl_bounded (q * 100) 7 H0 ltac:(change (inject_Z 100) with 100%Q in H1; lra)
              ltac:(lia)) as [E2 [L2 _]].
  rewrite E2. cbn [float_round2].
  set (x := rnd64 (q * 100)) in *.
  pose proof (round_half_even_nonneg (x * 100) ltac:(nra)) as N0.
  assert (N1 : round_half_even (x * 100) <= 10000).
  { rewrite <- (round_half_even_Z 10000). apply round_half_even_mono.
    change (inject_Z 10000) with 10000%Q. nra. }
  rewrite Zle_Qle in N0, N1. change (inject_Z 0) with 0%Q in N0.
  change (inject_Z 10000) with 10000%Q in N1.
  set (m := inject_Z (round_half_even (x * 100))) in *. clearbody m.
  assert (M0 : (0 <= m / 100)%Q) by (apply Qle_shift_div_l; [reflexivity | lra]).
  assert (M1 : (m / 100 <= inject_Z 100)%Q).
  { apply Qle_shift_div_r; [reflexivity|]. change (inject_Z 100) with 100%Q. lra. }
  destruct (fl_bounded (m / 100) 7 M0 ltac:(change (inject_Z 100) with 100%Q in M1; lra)
              ltac:(lia)) as [E3 [L3 _]].
  rewrite E3. eexists. split; [reflexivity|]. cbn. split; [exact L3|].
  apply (rnd64_le_Z (m / 100) 100); [cbn; lia | exact M1].
Qed.

Lemma processed_ok_score p :
  processed_ok p -> exists n, score_of p = Some n /\ good_score n.
Proof.
  intros [t [f [-> [L [F _]]]]]. exists (NFloat f). unfold score_of. cbn. rewrite L. cbn.
  split; [reflexivity | exists f; auto].
Qed.

Lemma with_scores_ok data :
  Forall processed_ok data ->
  exists keyed,
    with_scores data = Ok keyed /\ map snd keyed = data /\
    Forall (fun kv => good_score (fst kv) /\ score_of (snd kv) = Some (fst kv)) keyed.
Proof.
  induction 1 as [|p rest P F IH]; cbn [with_scores].
  - exists []. repeat split; constructor.
  - destruct IH as [keyed [E [M G]]].
    destruct (processed_ok_score p P) as [n [S Gn]].
    pose proof S as S'. unfold score_of in S'.
    destruct (getitem p "popularity_score") as [v|]; [|discriminate]. cbn [rbind].
    rewrite S', E. cbn [rbind].
    exists ((n, p) :: keyed). split; [reflexivity|]. split; [cbn; congruence|].
    constructor; [cbn; split; assumption | exact G].
Qed.

Lemma summarize_posts_ok posts :
  Forall processed_ok posts ->
  exists tops, summarize_posts posts = Ok tops /\ List.length tops = List.length posts.
Proof.
  induction 1 as [|p rest P F IH]; cbn [summarize_posts].
  - exists []. split; reflexivity.
  - destruct IH as [tops [E L]].
    destruct P as [t [f [-> [Ls [_ [[r [Lr _]] [[pid Lp] [[pl Lpl] _]]]]]]]].
    cbn [getitem]. rewrite Lp, Lpl, Ls, Lr. cbn [rbind]. rewrite E. cbn [rbind].
    eexists. split; [reflexivity|]. cbn. congruence.
Qed.

Lemma in_combine_seq_nth {A : Type} (l : list A) start i x :
  In (i, x) (combine (seq start (List.length l)) l) ->
  (start <= i)%nat /\ nth_error l (i - start) = Some x.
Proof.
  revert start. induction l as [|y rest IH]; intro start; cbn; [tauto|].
  intros [H|H].
  - injection H as <- <-. split; [lia|]. rewrite Nat.sub_diag. reflexivity.
  - destruct (IH (S start) H) as [L N]. split; [lia|].
    replace (i - start)%nat with (S (i - S start)) by lia. exact N.
Qed.

Lemma In_firstn {A : Type} (x : A) n l : In x (firstn n l) -> In x l.
Proof.
  intro I. rewrite <- (firstn_skipn n l). apply in_or_app. left. exact I.
Qed.

(** The ranking of the processed records: every position, sorted by
    [ranks_before]; the records [top_posts_of] keeps are its first five. *)
Lemma top_posts_ranking data :
  Forall processed_ok data ->
  exists ranking top,
    top_posts_of data = Ok top /\
    Permutation ranking (seq 0 (List.length data)) /\
    StronglySorted (ranks_before data) ranking /\
    top = map (fun i => nth i data VNone) (firstn 5 ranking) /\
    Forall processed_ok top.
Proof.
  intro F. destruct (with_scores_ok data F) as [keyed [E [M G]]].
  unfold top_posts_of. rewrite E. cbn [rbind].
  assert (Len : List.length keyed = List.length data) by (rewrite <- M, length_map; reflexivity).
  pose proof (ranked_perm keyed) as P.
  assert (In_ranked : forall i kv, In (i, kv) (ranked keyed) ->
                        nth_error keyed i = Some kv).
  { intros i kv I. apply (Permutation_in _ P) in I.
    destruct (in_combine_seq_nth keyed 0 i kv I) as [_ N].
    rewrite Nat.sub_0_r in N. exact N. }
  assert (Nth_data : forall i kv, nth_error keyed i = Some kv ->
                       nth_error data i = Some (snd kv) /\ good_score (fst kv) /\
                       score_of (snd kv) = Some (fst kv)).
  { intros i kv N. split.
    - rewrite <- M. rewrite nth_error_map, N. reflexivity.
    - apply nth_error_In in N. exact (proj1 (Forall_forall _ _) G kv N). }
  exists (map fst (ranked keyed)), (firstn 5 (map snd (sorted_reverse keyed))).
  split; [reflexivity|]. split; [|split; [|split]].
  - rewrite P, map_fst_combine_seq, Len. reflexivity.
  - apply StronglySorted_map.
    eapply StronglySorted_weaken; [|apply ranked_sorted].
    + intros [i a] [j b] Ia Ib O.
      destruct (Nth_data i a (In_ranked i a Ia)) as [Na [_ Sa]].
      destruct (Nth_data j b (In_ranked j b Ib)) as [Nb [_ Sb]].
      exists (snd a), (snd b), (fst a), (fst b). cbn in O |- *.
      repeat split; try assumption.
    + eapply Forall_impl; [|exact G]. intros kv [Gk _]. exact Gk.
  - rewrite <- ranked_sorted_reverse, !firstn_map, !map_map.
    apply map_ext_in. intros [i kv] I. apply In_firstn in I. cbn.
    destruct (Nth_data i kv (In_ranked i kv I)) as [N _].
    symmetry. apply nth_error_nth. exact N.
  - apply Forall_forall. intros p I. apply In_firstn in I.
    rewrite <- ranked_sorted_reverse, map_map in I. apply in_map_iff in I.
    destruct I as [[i kv] [<- I]]. cbn.
    destruct (Nth_data i kv (In_ranked i kv I)) as [N _].
    apply nth_error_In in N. exact (proj1 (Forall_forall _ _) F _ N).
Qed.

Lemma get_analytics_report n st :
  analytics_ready n st -> Z.of_nat n < 2 ^ 63 -> processed_data st <> [] ->
  exists a ranking,
    get_analytics st = Ok (Report a) /\
    success_rate_of (processed_posts st) (failed_posts st) = Ok (success_rate a) /\
    fwithin 0 100 (success_rate a) /\
    Permutation ranking (seq 0 (List.length (processed_data st))) /\
    StronglySorted (ranks_before (processed_data st)) ranking /\
    summarize_posts (map (fun i => nth i (processed_data st) VNone) (firstn 5 ranking))
      = Ok (top_performing_posts a) /\
    List.length (top_performing_posts a) = Nat.min 5 (List.length (processed_data st)).
Proof.
  intros [A [B [C [D E]]]] Bn N.
  unfold get_analytics.
  destruct (processed_data st) as [|p0 rest] eqn:PD; [congruence|]. rewrite <- PD in *.
  destruct (average_engagement_ok n (engagement_stats st) Bn D) as [avgs Ea].
  rewrite Ea. cbn [rbind].
  destruct (average_processing_time_ok (processing_times st) ltac:(lia)) as [avg Ep].
  rewrite Ep. cbn [rbind].
  destruct (top_posts_ranking (processed_data st) C) as [ranking [top [Et [P [S [T Ft]]]]]].
  rewrite Et. cbn [rbind].
  assert (Pos : 0 < processed_posts st) by (rewrite A, PD; cbn; lia).
  destruct (success_rate_of_range (processed_posts st) (failed_posts st)) as [r [Er R]]; try lia.
  rewrite Er. cbn [rbind].
  destruct (summarize_posts_ok top Ft) as [tops [Es L]]. rewrite Es.
  cbn [rbind]. eexists _, ranking. split; [reflexivity|].
  cbn [success_rate top_performing_posts].
  split; [first [exact Er | reflexivity]|].
  split; [exact R|]. split; [exact P|]. split; [exact S|].
  split; [rewrite <- T; first [exact Es | reflexivity]|].
  rewrite L, T, length_map, length_firstn.
  rewrite (Permutation_length P), length_seq. reflexivity.
Qed.

(** ** C3: the success rate *)

Lemma success_rate_of_value processed failed r :
  success_rate_of processed failed = Ok r ->
  exists ratio,
    int_truediv processed (processed + failed) = Ok ratio /\
    r = float_round2 (fmul ratio (Fin 100)).
Proof.
  unfold success_rate_of. rewrite float_of_int_100.
  destruct (int_truediv processed (processed + failed)) as [ratio|e]; cbn [rbind]; intro H;
    [|discriminate H].
  injection H as <-. exists ratio. split; reflexivity.
Qed.

(** C3 (as the code has it).  After a run over fewer than [2^63] records,
    [get_stats] reports the integer [0] as success rate when no record was
    attempted; otherwise it reports the float
    [round(processed / (processed + failed) * 100, 2)], the quotient, the
    product and the rounding being those of doubles, and that float lies
    within [0, 100].  [get_analytics] reports the same float when at least
    one record was processed; when none was, it returns the message
    ['No data processed yet'], which carries no success rate. *)
Theorem success_rate_of_a_run (inputs : list (clock * pyval)) (queue_size : Z) :
  Z.of_nat (List.length inputs) < 2 ^ 63 ->
  let st := consume inputs new_consumer in
  (exists s,
     get_stats queue_size st = Ok s /\
     if processed_posts st + failed_posts st =? 0
     then stats_success_rate s = NInt 0
     else exists ratio,
            int_truediv (processed_posts st) (processed_posts st + failed_posts st)
            = Ok ratio /\
            stats_success_rate s = NFloat (float_round2 (fmul ratio (Fin 100))) /\
            fwithin 0 100 (float_round2 (fmul ratio (Fin 100)))) /\
  match processed_data st with
  | [] => get_analytics st = Ok NoData
  | _ :: _ =>
      exists a ratio,
        get_analytics st = Ok (Report a) /\
        int_truediv (processed_posts st) (processed_posts st + failed_posts st)
        = Ok ratio /\
        success_rate a = float_round2 (fmul ratio (Fin 100)) /\
        fwithin 0 100 (success_rate a)
  end.
Proof.
  intros Bn st.
  pose proof (analytics_ready_consume inputs 0 new_consumer analytics_ready_new) as R.
  cbn [Nat.add] in R. fold st in R. split.
  - destruct R as [A [B _]]. unfold get_stats.
    assert (P : 0 <= processed_posts st) by (rewrite A; lia).
    destruct (processed_posts st + failed_posts st =? 0) eqn:E.
    + apply Z.eqb_eq in E.
      assert (L : (0 <? processed_posts st + failed_posts st) = false) by (apply Z.ltb_ge; lia).
      rewrite L. cbn [rbind]. eexists. split; reflexivity.
    + apply Z.eqb_neq in E.
      assert (L : (0 <? processed_posts st + failed_posts st) = true) by (apply Z.ltb_lt; lia).
      rewrite L.
      destruct (success_rate_of_range (processed_posts st) (failed_posts st)) as [r [Er Rr]];
        try lia.
      rewrite Er. cbn [rbind]. eexists. split; [reflexivity|]. cbn [stats_success_rate].
      destruct (success_rate_of_value _ _ _ Er) as [ratio [D V]].
      exists ratio. split; [exact D|]. rewrite <- V. split; [reflexivity | exact Rr].
  - destruct (processed_data st) as [|p rest] eqn:PD.
    + unfold get_analytics. rewrite PD. reflexivity.
    + destruct (get_analytics_report _ st R Bn) as [a [_ [G [S [W _]]]]]; [congruence|].
      destruct (success_rate_of_value _ _ _ S) as [ratio [D V]].
      exists a, ratio. split; [exact G|]. split; [exact D|]. split; [exact V | exact W].
Qed.

Lemma success_rate_of_a_run_witness :
  Z.of_nat (List.length ranking_inputs) < 2 ^ 63 /\
  let st := consume ranking_inputs new_consumer in
  (exists s,
     get_stats 3 st = Ok s /\
     if processed_posts st + failed_posts st =? 0
     then stats_success_rate s = NInt 0
     else exists ratio,
            int_truediv (processed_posts st) (processed_posts st + failed_posts st)
            = Ok ratio /\
            stats_success_rate s = NFloat (float_round2 (fmul ratio (Fin 100))) /\
            fwithin 0 100 (float_round2 (fmul ratio (Fin 100)))) /\
  match processed_data st with
  | [] => get_analytics st = Ok NoData
  | _ :: _ =>
      exists a ratio,
        get_analytics st = Ok (Report a) /\
        int_truediv (processed_posts st) (processed_posts st + failed_posts st)
        = Ok ratio /\
        success_rate a = float_round2 (fmul ratio (Fin 100)) /\
        fwithin 0 100 (success_rate a)
  end.
Proof.
  assert (B : Z.of_nat (List.length ranking_inputs) < 2 ^ 63) by (vm_compute; reflexivity).
  split; [exact B|].
  exact (success_rate_of_a_run ranking_inputs 3 B).
Defined.

(** On a run of eight records of which seven are processed, both reports
    give [87.5]. *)
Example success_rate_of_seven_in_eight :
  (exists s, get_stats 3 (consume ranking_inputs new_consumer) = Ok s /\
             stats_success_rate s = NFloat (Fin (175 # 2))) /\
  (exists a, get_analytics (consume ranking_inputs new_consumer) = Ok (Report a) /\
             success_rate a = Fin (175 # 2)).
Proof.
  split; eexists; (split; [vm_compute; reflexivity|]); vm_compute; reflexivity.
Qed.

(** C3 fails as stated: when no record was attempted, [get_analytics] returns
    the message ['No data processed yet']; there is no report, hence no
    success rate of [0]. *)
Lemma analytics_without_success_rate :
  processed_posts new_consumer + failed_posts new_consumer = 0 /\
  get_analytics new_consumer = Ok NoData /\
  ~ (exists a, get_analytics new_consumer = Ok (Report a) /\ success_rate a = Fin 0).
Proof.
  split; [reflexivity|]. split; [reflexivity|]. intros [a [H _]]. discriminate.
Qed.

(** ** C6: the top-performing posts *)

Lemma getitem_lookup p key v :
  getitem p key = Ok v -> exists d, p = VDict d /\ lookup key d = Some v.
Proof.
  destruct p as [| | | | | |d]; try discriminate. cbn [getitem].
  destruct (lookup key d) as [x|] eqn:L; [|discriminate].
  intro H. injection H as <-. exists d. split; [reflexivity | exact L].
Qed.

(** The list comprehension keeps the order of the records: the entry at a
    position is made of the record at that position. *)
Lemma summarize_posts_entries posts tops :
  summarize_posts posts = Ok tops -> Forall2 summary_of posts tops.
Proof.
  revert tops. induction posts as [|post rest IH]; intros tops H; cbn [summarize_posts] in H.
  - injection H as <-. constructor.
  - destruct (getitem post "post_id") as [pid|] eqn:E1; cbn [rbind] in H; [|discriminate H].
    destruct (getitem post "platform") as [pl|] eqn:E2; cbn [rbind] in H; [|discriminate H].
    destruct (getitem post "popularity_score") as [sc|] eqn:E3; cbn [rbind] in H;
      [|discriminate H].
    destruct (getitem post "engagement_rate") as [ra|] eqn:E4; cbn [rbind] in H;
      [|discriminate H].
    destruct (summarize_posts rest) as [others|] eqn:E5; cbn [rbind] in H; [|discriminate H].
    injection H as <-. constructor; [|apply IH; reflexivity].
    destruct (getitem_lookup _ _ _ E1) as [d [-> L1]].
    destruct (getitem_lookup _ _ _ E2) as [d2 [D2 L2]]. injection D2 as <-.
    destruct (getitem_lookup _ _ _ E3) as [d3 [D3 L3]]. injection D3 as <-.
    destruct (getitem_lookup _ _ _ E4) as [d4 [D4 L4]]. injection D4 as <-.
    exists d. cbn [top_post_id top_platform top_popularity_score top_engagement_rate].
    split; [reflexivity|]. split; [exact L1|]. split; [exact L2|]. split; [exact L3 | exact L4].
Qed.

Lemma entries_of_positions data positions tops :
  Forall (fun i => (i < List.length data)%nat) positions ->
  Forall2 summary_of (map (fun i => nth i data VNone) positions) tops ->
  Forall2 (fun i entry => exists post, nth_error data i = Some post /\ summary_of post entry)
          positions tops.
Proof.
  intro F. revert tops. induction F as [|i rest Hi F IH]; intros tops H; cbn [map] in H.
  - inversion H. constructor.
  - inversion H as [|post entry posts entries Hs Hr]; subst. constructor; [|apply IH; exact Hr].
    exists (nth i data VNone). split; [|exact Hs].
    apply nth_error_nth'. exact Hi.
Qed.

Lemma StronglySorted_firstn {A : Type} (R : A -> A -> Prop) n l :
  StronglySorted R l -> StronglySorted R (firstn n l).
Proof.
  intro S. revert n. induction S as [|x l S IH F]; intros [|n]; cbn [firstn]; try constructor.
  - apply IH.
  - apply Forall_forall. intros y I. apply In_firstn in I.
    exact (proj1 (Forall_forall _ _) F y I).
Qed.

Lemma StronglySorted_Forall2 {A B : Type} (R : A -> A -> Prop) (R' : B -> B -> Prop)
    (Q : A -> B -> Prop) l l' :
  (forall a b a' b', R a b -> Q a a' -> Q b b' -> R' a' b') ->
  StronglySorted R l -> Forall2 Q l l' -> StronglySorted R' l'.
Proof.
  intros T S H. induction H as [|a a' l l' Qa H IH]; [constructor|].
  apply StronglySorted_inv in S. destruct S as [S F].
  constructor; [apply IH; exact S|].
  clear IH S. induction H as [|b b' l l' Qb H IH]; [constructor|].
  inversion F as [|? ? Rab F']; subst.
  constructor; [exact (T a b a' b' Rab Qa Qb) | apply IH; exact F'].
Qed.

Lemma fleb_of_not_fltb f g :
  fnonneg f -> fnonneg g ->
  fltb g f = true \/ (fltb g f = false /\ fltb f g = false) -> fleb g f = true.
Proof.
  destruct f as [x| | |], g as [y| | |]; cbn [fnonneg fltb fleb]; try tauto;
    intros _ _ [H|[H1 H2]]; try reflexivity; try discriminate.
  - apply negb_true_iff in H. apply Qle_bool_iff.
    destruct (Qlt_le_dec x y) as [L|L]; [|].
    + exfalso. assert (C : Qle_bool x y = true) by (apply Qle_bool_iff; lra). congruence.
    + exact L.
  - apply negb_false_iff in H2. apply Qle_bool_iff in H2. apply Qle_bool_iff. exact H2.
Qed.

(** A record that ranks before another gives an entry with no lower
    score. *)
Lemma ranks_before_scores data i j ei ej :
  Forall processed_ok data ->
  ranks_before data i j ->
  (exists post, nth_error data i = Some post /\ summary_of post ei) ->
  (exists post, nth_error data j = Some post /\ summary_of post ej) ->
  score_not_below ei ej.
Proof.
  intros F [p [q [a [b [Np [Nq [Sa [Sb O]]]]]]]] [p' [Np' [dp [Ep [_ [_ [Lp _]]]]]]]
         [q' [Nq' [dq [Eq [_ [_ [Lq _]]]]]]].
  rewrite Np in Np'. injection Np' as <-. rewrite Nq in Nq'. injection Nq' as <-.
  pose proof (proj1 (Forall_forall _ _) F p (nth_error_In _ _ Np)) as Pp.
  pose proof (proj1 (Forall_forall _ _) F q (nth_error_In _ _ Nq)) as Pq.
  destruct Pp as [tp [f [Ep' [Lf [Nf _]]]]]. destruct Pq as [tq [g [Eq' [Lg [Ng _]]]]].
  subst p q. injection Ep' as <-. injection Eq' as <-.
  rewrite Lf in Lp. injection Lp as Lp. rewrite Lg in Lq. injection Lq as Lq.
  unfold score_of in Sa, Sb. cbn [getitem] in Sa, Sb. rewrite Lf in Sa. rewrite Lg in Sb.
  cbn [number_of] in Sa, Sb. injection Sa as <-. injection Sb as <-.
  cbn [num_ltb] in O.
  exists f, g. split; [symmetry; exact Lp|]. split; [symmetry; exact Lq|].
  apply fleb_of_not_fltb; [exact Nf | exact Ng |].
  destruct O as [O|[O1 [O2 _]]]; [left; exact O | right; split; assumption].
Qed.

(** C6 (as the code has it).  After a run (over fewer than [2^63] records)
    that processed at least one record, take the ranking of all processed
    records in which a record comes before another when its popularity score
    is higher, or when the scores tie and it was processed earlier.  The
    top-performing list of [get_analytics] has the first five places of that
    ranking (all of them if there are fewer), in that order: its entry at
    each place holds the post id, platform, popularity score and engagement
    rate of the record ranked there, and the scores of the entries never
    increase along the list. *)
Theorem top_performing_posts_ranked (inputs : list (clock * pyval)) :
  Z.of_nat (List.length inputs) < 2 ^ 63 ->
  let st := consume inputs new_consumer in
  processed_data st <> [] ->
  exists a ranking,
    get_analytics st = Ok (Report a) /\
    Permutation ranking (seq 0 (List.length (processed_data st))) /\
    StronglySorted (ranks_before (processed_data st)) ranking /\
    summarize_posts (map (fun i => nth i (processed_data st) VNone) (firstn 5 ranking))
      = Ok (top_performing_posts a) /\
    List.length (top_performing_posts a) = Nat.min 5 (List.length (processed_data st)) /\
    Forall2 (fun i entry =>
               exists post,
                 nth_error (processed_data st) i = Some post /\ summary_of post entry)
            (firstn 5 ranking) (top_performing_posts a) /\
    StronglySorted score_not_below (top_performing_posts a).
Proof.
  intros Bn st N.
  pose proof (analytics_ready_consume inputs 0 new_consumer analytics_ready_new) as R.
  cbn [Nat.add] in R. fold st in R.
  destruct (get_analytics_report _ st R Bn N) as [a [ranking [G [_ [_ [P [S [T L]]]]]]]].
  destruct R as [_ [_ [Fd _]]].
  assert (In_range : Forall (fun i => (i < List.length (processed_data st))%nat)
                            (firstn 5 ranking)).
  { apply Forall_forall. intros i I. apply In_firstn in I.
    apply (Permutation_in _ P) in I. apply in_seq in I. lia. }
  pose proof (entries_of_positions _ _ _ In_range (summarize_posts_entries _ _ T)) as E.
  exists a, ranking.
  split; [exact G|]. split; [exact P|]. split; [exact S|]. split; [exact T|].
  split; [exact L|]. split; [exact E|].
  apply (StronglySorted_Forall2 (ranks_before (processed_data st)) score_not_below
           (fun i entry =>
              exists post, nth_error (processed_data st) i = Some post /\ summary_of post entry)
           (firstn 5 ranking) (top_performing_posts a)).
  - intros i j ei ej O Hi Hj. exact (ranks_before_scores _ i j ei ej Fd O Hi Hj).
  - apply StronglySorted_firstn. exact S.
  - exact E.
Qed.

Lemma top_performing_posts_ranked_witness :
  Z.of_nat (List.length ranking_inputs) < 2 ^ 63 /\
  processed_data (consume ranking_inputs new_consumer) <> [] /\
  exists a ranking,
    get_analytics (consume ranking_inputs new_consumer) = Ok (Report a) /\
    Permutation ranking
      (seq 0 (List.length (processed_data (consume ranking_inputs new_consumer)))) /\
    StronglySorted (ranks_before (processed_data (consume ranking_inputs new_consumer)))
      ranking /\
    summarize_posts
      (map (fun i => nth i (processed_data (consume ranking_inputs new_consumer)) VNone)
           (firstn 5 ranking))
      = Ok (top_performing_posts a) /\
    List.length (top_performing_posts a)
    = Nat.min 5 (List.length (processed_data (consume ranking_inputs new_consumer))) /\
    Forall2 (fun i entry =>
               exists post,
                 nth_error (processed_data (consume ranking_inputs new_consumer)) i
                 = Some post /\
                 summary_of post entry)
            (firstn 5 ranking) (top_performing_posts a) /\
    StronglySorted score_not_below (top_performing_posts a).
Proof.
  assert (B : Z.of_nat (List.length ranking_inputs) < 2 ^ 63) by (vm_compute; reflexivity).
  assert (N : processed_data (consume ranking_inputs new_consumer) <> []).
  { vm_compute. intro E. discriminate E. }
  split; [exact B|]. split; [exact N|].
  exact (top_performing_posts_ranked ranking_inputs B N).
Defined.

(** A run of seven processed records with the scores 748, 948, 848, 948,
    698, 1048 and 848, in this order: the list starts with [f], has [b]
    before [d] and [c] before [g], which tie, and leaves out [a] and [e]. *)
Example top_performing_posts_of_seven :
  exists a,
    get_analytics (consume ranking_inputs new_consumer) = Ok (Report a) /\
    map top_post_id (top_performing_posts a)
    = [VStr "f"; VStr "b"; VStr "d"; VStr "c"; VStr "g"] /\
    map top_popularity_score (top_performing_posts a)
    = [VFloat (Fin 1048); VFloat (Fin 948); VFloat (Fin 948); VFloat (Fin 848);
       VFloat (Fin 848)].
Proof.
  eexists. split; [vm_compute; reflexivity|]. split; vm_compute; reflexivity.
Qed.

(** C6 fails as stated: for the initial state, [get_analytics] returns the
    message ['No data processed yet'], which has no top-performing list, not
    even an empty one. *)
Lemma no_top_posts_without_data :
  processed_data new_consumer = [] /\
  ~ (exists a, get_analytics new_consumer = Ok (Report a) /\ top_performing_posts a = []).
Proof.
  split; [reflexivity|]. intros [a [H _]]. discriminate.
Qed.

(** ** C5: the platform counts and the number of processed records *)

(** C5 (fails on the code).  A record that passes validation and whose topic
    is a list is counted in [platform_stats] before [update_statistics] raises
    [TypeError] on the topic; [process_post] then counts the record as
    failed.  From the initial state, the platform counts sum to [1] while no
    record was processed. *)
Theorem platform_total_after_unhashable_topic :
  let post := post_with_topic (VList []) in
  let st := fst (process_post sample_clock post new_consumer) in
  validate_post post = Ok (true, []) /\
  counter_total (platform_stats st) = 1 /\
  processed_posts st = 0 /\
  failed_posts st = 1.
Proof. vm_compute. repeat split; reflexivity. Qed.

Lemma counter_total_incr k c : counter_total (incr k c) = counter_total c + 1.
Proof.
  unfold counter_total. induction c as [|[k' n] rest IH]; cbn [incr]; [reflexivity|].
  destruct (key_eqb k' k); cbn [fold_right snd]; [|rewrite IH]; lia.
Qed.

Lemma transform_post_topic now d p :
  transform_post now (VDict d) = Ok p ->
  exists t, p = VDict t /\ lookup "topic" t = lookup "topic" d.
Proof.
  intro H. unfold transform_post in H. cbn [copy_for_update rbind] in H.
  repeat rstep H. injection H as <-.
  eexists. split; [reflexivity|].
  rewrite !lookup_dict_set. reflexivity.
Qed.

Lemma update_statistics_ok p st :
  processed_ok p -> topic_hashable p ->
  exists st', update_statistics p st = (st', Ok tt).
Proof.
  intros [t [f [-> [Ls [_ [Hr [_ [Hpl [Hse [Hca Hh]]]]]]]]]] T.
  destruct Hr as [r [Lr _]]. destruct Hpl as [pl Lpl]. destruct Hse as [se Lse].
  destruct Hca as [ca Lca]. destruct Hh as [h Lh].
  cbn [topic_hashable] in T.
  cbv beta iota delta [update_statistics cbind clift cget cmodify getitem get_method dict_get].
  rewrite Lpl, Lr, Lse, Lca, Lh. cbn [counter_incr hashable group_append].
  destruct (lookup "topic" t) as [topic|]; cbn [counter_incr hashable].
  - unfold counter_incr. rewrite T. eexists. reflexivity.
  - eexists. reflexivity.
Qed.

Lemma handler_platform x e now st0 st1 :
  platform_stats st1 = platform_stats st0 ->
  processed_posts st1 = processed_posts st0 ->
  let st2 := fst (cbind (record_failure x [FmtExn "" e] now) (fun _ => cret None) st1
                  : consumer * result (option pyval)) in
  platform_stats st2 = platform_stats st0 /\ processed_posts st2 = processed_posts st0.
Proof.
  intros A B. cbv zeta. unfold cbind.
  destruct (record_failure x [FmtExn "" e] now st1) as [st2 r] eqn:R.
  destruct (record_failure_frame _ _ _ _ _ _ R) as [F1 [_ [_ [_ [F5 _]]]]].
  destruct r; cbn; split; congruence.
Qed.

(** One call of [process_post] on a record whose topic can be counted keeps
    the platform counts in step with the number of processed records. *)
Lemma process_post_platform clk x st :
  topic_hashable x ->
  let st' := fst (process_post clk x st) in
  counter_total (platform_stats st') - processed_posts st' =
  counter_total (platform_stats st) - processed_posts st.
Proof.
  intro TH. cbv zeta. unfold process_post.
  destruct (process_post_body clk x st) as [st1 r1] eqn:B.
  unfold process_post_body in B.
  destruct (validate_post_never_raises x) as [valid [errors [V _]]].
  cbv beta iota delta [cbind clift] in B. rewrite V in B. cbv beta iota in B.
  destruct valid; cbn [negb] in B.
  - destruct (validated_record x errors V) as [d [-> VR]].
    destruct (transform_post (now_first clk) (VDict d)) as [p|e] eqn:T.
    + pose proof (transform_post_stores _ _ _ VR T) as PO.
      destruct (transform_post_topic _ _ _ T) as [t [-> Lt]].
      assert (TH' : topic_hashable (VDict t)) by (cbn in TH |- *; rewrite Lt; exact TH).
      destruct (update_statistics_ok (VDict t) st PO TH') as [st2 U].
      cbv beta iota in B. rewrite U in B.
      destruct (update_statistics_frame _ _ _ _ U) as [[S1 _] [_ [_ OKP]]].
      destruct (OKP eq_refl) as [k [rate [_ [_ [Pk _]]]]].
      cbv beta iota delta [cmodify cret] in B. injection B as <- <-. cbn.
      rewrite Pk, counter_total_incr, S1. lia.
    + cbv beta iota in B. injection B as <- <-.
      destruct (handler_platform (VDict d) e (now_second clk) st st eq_refl eq_refl) as [A1 A2].
      rewrite A1, A2. reflexivity.
  - fold (cbind (record_failure x errors (now_first clk)) (fun _ => cret (@None pyval)) st) in B.
    unfold cbind in B.
    destruct (record_failure x errors (now_first clk) st) as [st2 r2] eqn:R.
    destruct (record_failure_frame _ _ _ _ _ _ R) as [F1 [_ [_ [_ [F5 _]]]]].
    destruct r2 as [[]|e]; injection B as <- <-.
    + cbn. rewrite F1, F5. reflexivity.
    + destruct (handler_platform x e (now_second clk) st st2 F5 F1) as [A1 A2].
      rewrite A1, A2. reflexivity.
Qed.

(** The invariant of the specification holds on every run whose records
    all carry a topic that can be counted. *)
Lemma platform_total_invariant (inputs : list (clock * pyval)) :
  Forall (fun input => topic_hashable (snd input)) inputs ->
  let st := consume inputs new_consumer in
  counter_total (platform_stats st) = processed_posts st.
Proof.
  intro F. cbv zeta.
  assert (G : forall st,
            counter_total (platform_stats (consume inputs st)) - processed_posts (consume inputs st)
            = counter_total (platform_stats st) - processed_posts st).
  { induction F as [|[clk x] rest Hx F IH]; intro st; cbn [consume]; [reflexivity|].
    rewrite IH. apply process_post_platform. exact Hx. }
  specialize (G new_consumer). cbn in G. lia.
Qed.

(** ** Printing and parsing a datetime *)

Lemma string_app_assoc (a b c : string) : ((a ++ b) ++ c = a ++ (b ++ c))%string.
Proof. induction a as [|x a IH]; cbn; [reflexivity | rewrite IH; reflexivity]. Qed.

Lemma digit_value_digit_char k : 0 <= k <= 9 -> digit_value (digit_char k) = Some k.
Proof.
  intro H.
  assert (C : k = 0 \/ k = 1 \/ k = 2 \/ k = 3 \/ k = 4 \/ k = 5 \/ k = 6 \/ k = 7 \/ k = 8 \/ k = 9)
    by lia.
  repeat (destruct C as [C|C]; [subst k; reflexivity|]). subst k. reflexivity.
Qed.

Lemma parse_two_digits n acc rest :
  0 <= n < 100 ->
  parse_digits 2 acc (two_digits n ++ rest) = Some (100 * acc + n, rest).
Proof.
  intro H. unfold two_digits. cbn [String.append parse_digits].
  rewrite (digit_value_digit_char (n / 10)), (digit_value_digit_char (n mod 10)).
  - f_equal. f_equal. Z.div_mod_to_equations. lia.
  - Z.div_mod_to_equations. lia.
  - Z.div_mod_to_equations. lia.
Qed.

Lemma parse_digits_add a b acc s :
  parse_digits (a + b) acc s =
  match parse_digits a acc s with
  | Some (v, r) => parse_digits b v r
  | None => None
  end.
Proof.
  revert acc s. induction a as [|a IH]; intros acc s; cbn [Nat.add parse_digits]; [reflexivity|].
  destruct s as [|c r]; [reflexivity|]. destruct (digit_value c); [apply IH | reflexivity].
Qed.

Lemma parse_four_digits n rest :
  0 <= n < 10000 -> parse_digits 4 0 (four_digits n ++ rest) = Some (n, rest).
Proof.
  intro H. unfold four_digits. rewrite string_app_assoc.
  change 4%nat with (2 + 2)%nat. rewrite parse_digits_add, parse_two_digits.
  - rewrite parse_two_digits by (Z.div_mod_to_equations; lia).
    f_equal. f_equal. Z.div_mod_to_equations. lia.
  - Z.div_mod_to_equations. lia.
Qed.

Lemma parse_six_digits n rest :
  0 <= n < 1000000 -> parse_digits 6 0 (six_digits n ++ rest) = Some (n, rest).
Proof.
  intro H. unfold six_digits. rewrite !string_app_assoc.
  change 6%nat with (2 + (2 + 2))%nat.
  rewrite parse_digits_add, parse_two_digits by (Z.div_mod_to_equations; lia).
  rewrite parse_digits_add, parse_two_digits by (Z.div_mod_to_equations; lia).
  rewrite parse_two_digits by (Z.div_mod_to_equations; lia).
  f_equal. f_equal. Z.div_mod_to_equations. lia.
Qed.

Lemma days_in_month_bounds y m : 28 <= days_in_month y m <= 31.
Proof.
  unfold days_in_month.
  repeat match goal with |- context [if ?b then _ else _] => destruct b end; lia.
Qed.

Lemma valid_month_day_bounds y m d :
  valid_month_day y m d = true -> 1 <= m <= 12 /\ 1 <= d <= days_in_month y m.
Proof.
  unfold valid_month_day. rewrite !andb_true_iff, !Z.leb_le. lia.
Qed.

Lemma valid_time_bounds h mi s us :
  valid_time h mi s us = true <->
  0 <= h <= 23 /\ 0 <= mi <= 59 /\ 0 <= s <= 59 /\ 0 <= us <= 999999.
Proof.
  unfold valid_time. rewrite !andb_true_iff, !Z.leb_le. lia.
Qed.

Lemma fromisoformat_isoformat dt :
  valid_datetime dt = true -> fromisoformat (isoformat dt) = Some dt.
Proof.
  destruct dt as [y m d h mi s us]. unfold valid_datetime.
  cbn [year month day hour minute second microsecond].
  rewrite !andb_true_iff, !Z.leb_le. intros [[[Y1 Y2] VMD] VT].
  destruct (valid_month_day_bounds y m d VMD) as [Bm Bd].
  pose proof (days_in_month_bounds y m) as Dm.
  pose proof (proj1 (valid_time_bounds h mi s us) VT) as [Bh [Bmi [Bs Bus]]].
  unfold isoformat, fromisoformat. cbn [year month day hour minute second microsecond].
  rewrite parse_four_digits by lia. cbn [obind expect_char String.append Ascii.eqb Bool.eqb].
  rewrite parse_two_digits by lia. cbn [obind expect_char String.append Ascii.eqb Bool.eqb].
  rewrite parse_two_digits by lia. cbn [obind expect_char String.append Ascii.eqb Bool.eqb].
  replace (100 * 0 + m) with m by lia. replace (100 * 0 + d) with d by lia.
  rewrite VMD. assert (Y1' : (1 <=? y) = true) by (apply Z.leb_le; lia). rewrite Y1'.
  cbn [andb negb]. unfold parse_hh_mm_ss_ff.
  rewrite parse_two_digits by lia. cbn [obind expect_char starts_with String.append Ascii.eqb Bool.eqb].
  rewrite parse_two_digits by lia. cbn [obind expect_char starts_with String.append Ascii.eqb Bool.eqb].
  rewrite parse_two_digits by lia.
  replace (100 * 0 + h) with h by lia. replace (100 * 0 + mi) with mi by lia.
  replace (100 * 0 + s) with s by lia.
  destruct (us =? 0) eqn:U.
  - apply Z.eqb_eq in U. subst us. cbn. rewrite VT. reflexivity.
  - cbn [obind expect_char starts_with String.append Ascii.eqb Bool.eqb].
    unfold parse_fraction.
    replace (six_digits us) with (six_digits us ++ "")%string
      by (clear; induction (six_digits us); cbn; congruence).
    rewrite parse_six_digits by lia. cbn. rewrite VT. reflexivity.
Qed.

Lemma occurs_app c a b : occurs c (a ++ b) = occurs c a || occurs c b.
Proof.
  induction a as [|x a IH]; cbn; [reflexivity|]. rewrite IH, orb_assoc. reflexivity.
Qed.

Lemma replace_char_absent c by_ s : occurs c s = false -> replace_char c by_ s = s.
Proof.
  induction s as [|a r IH]; cbn; [reflexivity|].
  intro H. apply orb_false_elim in H. destruct H as [H1 H2].
  rewrite H1, (IH H2). reflexivity.
Qed.

Lemma digit_char_not_Z k : 0 <= k <= 9 -> Ascii.eqb (digit_char k) "Z" = false.
Proof.
  intro H.
  assert (C : k = 0 \/ k = 1 \/ k = 2 \/ k = 3 \/ k = 4 \/ k = 5 \/ k = 6 \/ k = 7 \/ k = 8 \/ k = 9)
    by lia.
  repeat (destruct C as [C|C]; [subst k; reflexivity|]). subst k. reflexivity.
Qed.

Lemma two_digits_no_Z n : 0 <= n < 100 -> occurs "Z" (two_digits n) = false.
Proof.
  intro H. unfold two_digits. cbn [occurs].
  rewrite !digit_char_not_Z by (Z.div_mod_to_equations; lia). reflexivity.
Qed.

Lemma isoformat_no_Z dt : valid_datetime dt = true -> occurs "Z" (isoformat dt) = false.
Proof.
  destruct dt as [y m d h mi s us]. unfold valid_datetime.
  cbn [year month day hour minute second microsecond].
  rewrite !andb_true_iff, !Z.leb_le. intros [[[Y1 Y2] VMD] VT].
  destruct (valid_month_day_bounds y m d VMD) as [Bm Bd].
  pose proof (days_in_month_bounds y m) as Dm.
  pose proof (proj1 (valid_time_bounds h mi s us) VT) as [Bh [Bmi [Bs Bus]]].
  unfold isoformat, four_digits, six_digits.
  cbn [year month day hour minute second microsecond].
  destruct (us =? 0); rewrite !occurs_app;
    rewrite !two_digits_no_Z by (Z.div_mod_to_equations; lia); reflexivity.
Qed.

Lemma timestamp_accepted dt :
  valid_datetime dt = true ->
  fromisoformat (replace_char "Z" "+00:00" (isoformat dt)) = Some dt.
Proof.
  intro V. rewrite replace_char_absent by (apply isoformat_no_Z; exact V).
  apply fromisoformat_isoformat. exact V.
Qed.

(** ** Subtracting at most a day from a datetime *)

Lemma prev_day_valid y m d :
  valid_month_day y m d = true ->
  let '(y', m', d') := prev_day (y, m, d) in
  valid_month_day y' m' d' = true /\ y - 1 <= y' <= y.
Proof.
  intro V. destruct (valid_month_day_bounds y m d V) as [Bm Bd].
  unfold prev_day. destruct (1 <? d) eqn:D; [|destruct (1 <? m) eqn:M].
  - apply Z.ltb_lt in D. split; [|lia].
    unfold valid_month_day. rewrite !andb_true_iff, !Z.leb_le. lia.
  - apply Z.ltb_lt in M. split; [|lia].
    pose proof (days_in_month_bounds y (m - 1)).
    unfold valid_month_day. rewrite !andb_true_iff, !Z.leb_le. lia.
  - split; [reflexivity | lia].
Qed.

Lemma datetime_sub_day dt us :
  valid_datetime dt = true -> 2 <= year dt -> 0 <= us <= us_per_day ->
  exists dt', datetime_sub dt us = Ok dt' /\ valid_datetime dt' = true.
Proof.
  destruct dt as [y m d h mi s u]. unfold valid_datetime.
  cbn [year month day hour minute second microsecond].
  rewrite !andb_true_iff, !Z.leb_le. intros [[[Y1 Y2] VMD] VT] Y Us.
  pose proof (proj1 (valid_time_bounds h mi s u) VT) as [Bh [Bmi [Bs Bus]]].
  unfold datetime_sub, microsecond_of_day.
  cbn [year month day hour minute second microsecond].
  set (t := ((h * 60 + mi) * 60 + s) * 1000000 + u - us).
  assert (T : - us_per_day <= t < us_per_day) by (unfold t, us_per_day in *; lia).
  assert (Q : t / us_per_day = 0 \/ t / us_per_day = -1)
    by (unfold us_per_day in *; Z.div_mod_to_equations; lia).
  assert (R : 0 <= t mod us_per_day < us_per_day) by (apply Z.mod_pos_bound; reflexivity).
  set (r := t mod us_per_day) in *.
  assert (VT' : valid_time (r / 3600000000) ((r / 60000000) mod 60) ((r / 1000000) mod 60)
                  (r mod 1000000) = true).
  { apply valid_time_bounds. unfold us_per_day in R. Z.div_mod_to_equations. lia. }
  destruct Q as [Q|Q]; rewrite Q.
  - change (shift_days 0 (y, m, d)) with (y, m, d). cbv beta iota.
    assert (E : (1 <=? y) && (y <=? 9999) = true) by (rewrite andb_true_iff, !Z.leb_le; lia).
    rewrite E. eexists. split; [reflexivity|].
    unfold valid_datetime. cbn [year month day hour minute second microsecond].
    rewrite VMD, VT'. rewrite !andb_true_iff, !Z.leb_le. lia.
  - change (shift_days (-1) (y, m, d)) with (prev_day (y, m, d)).
    pose proof (prev_day_valid y m d VMD) as P.
    destruct (prev_day (y, m, d)) as [[y' m'] d']. destruct P as [P1 P2].
    assert (E : (1 <=? y') && (y' <=? 9999) = true) by (rewrite andb_true_iff, !Z.leb_le; lia).
    rewrite E. eexists. split; [reflexivity|].
    unfold valid_datetime. cbn [year month day hour minute second microsecond].
    rewrite P1, VT'. rewrite !andb_true_iff, !Z.leb_le. lia.
Qed.

(** ** The generator *)

Lemma timedelta_hours_day q :
  (0 <= q)%Q -> (q <= 24)%Q ->
  exists us, timedelta_hours q = Ok us /\ 0 <= us <= us_per_day.
Proof.
  intros L U. unfold timedelta_hours.
  assert (E0 : Qle_bool 0 q = true) by (apply Qle_bool_iff; exact L). rewrite E0.
  pose proof (Qfloor_le q) as F1. pose proof (Qlt_floor q) as F2.
  rewrite inject_Z_plus in F2. change (inject_Z 1) with 1%Q in F2.
  assert (W0 : 0 <= Qfloor q).
  { rewrite <- (Qfloor_Z 0). apply Qfloor_resp_le. exact L. }
  assert (W1 : Qfloor q <= 24).
  { rewrite <- (Qfloor_Z 24). apply Qfloor_resp_le. exact U. }
  set (w := Qfloor q) in *.
  set (frac := (q - inject_Z w)%Q).
  assert (Fr0 : (0 <= frac)%Q) by (unfold frac; qlra).
  assert (Fr1 : (frac < 1)%Q) by (unfold frac; qlra).
  set (x := (inject_Z us_per_hour * frac)%Q).
  assert (X0 : (0 <= x)%Q) by (unfold x, us_per_hour; change (inject_Z 3600000000) with 3600000000%Q; nra).
  assert (X1 : (x <= inject_Z 3600000000)%Q)
    by (unfold x, us_per_hour; change (inject_Z 3600000000) with 3600000000%Q; nra).
  assert (P32 : (inject_Z 3600000000 <= pow2 32)%Q) by (vm_compute; discriminate).
  destruct (fl_bounded x 32 X0 ltac:(lra) ltac:(lia)) as [E [P0 _]]. rewrite E.
  pose proof (rnd64_le_Z x 3600000000 ltac:(cbn; lia) X1) as P1.
  set (p := rnd64 x) in *.
  assert (E1 : Qle_bool 0 p = true) by (apply Qle_bool_iff; exact P0). rewrite E1.
  pose proof (Qfloor_le p) as G1. pose proof (Qlt_floor p) as G2.
  rewrite inject_Z_plus in G2. change (inject_Z 1) with 1%Q in G2.
  assert (V0 : 0 <= Qfloor p) by (rewrite <- (Qfloor_Z 0); apply Qfloor_resp_le; exact P0).
  assert (V1 : Qfloor p <= 3600000000)
    by (rewrite <- (Qfloor_Z 3600000000); apply Qfloor_resp_le; exact P1).
  set (v := Qfloor p) in *.
  cbv zeta.
  set (total := round_half_even (inject_Z (w * us_per_hour + v) + (p - inject_Z v))).
  assert (S : (inject_Z (w * us_per_hour + v) + (p - inject_Z v)
               == inject_Z w * 3600000000 + p)%Q).
  { rewrite inject_Z_plus, inject_Z_mult. unfold us_per_hour.
    change (inject_Z 3600000000) with 3600000000%Q. ring. }
  assert (Iw0 : (0 <= inject_Z w)%Q)
    by (change 0%Q with (inject_Z 0); rewrite <- Zle_Qle; exact W0).
  assert (T0 : 0 <= total).
  { unfold total. rewrite <- (round_half_even_Z 0). apply round_half_even_mono.
    rewrite S. change (inject_Z 0) with 0%Q. nra. }
  assert (T1 : total <= us_per_day).
  { unfold total. rewrite <- (round_half_even_Z us_per_day). apply round_half_even_mono.
    rewrite S. unfold us_per_day. change (inject_Z 86400000000) with 86400000000%Q.
    change (inject_Z 3600000000) with 3600000000%Q in P1.
    destruct (Z.eq_dec w 24) as [W|W].
    - (* a whole day: the fraction vanishes *)
      assert (Fz : (frac == 0)%Q).
      { unfold frac. rewrite W. change (inject_Z 24) with 24%Q. rewrite W in F1.
        change (inject_Z 24) with 24%Q in F1. lra. }
      assert (Xz : (x == 0)%Q) by (unfold x; rewrite Fz; ring).
      assert (Pz : p = 0%Q) by (unfold p; apply rnd64_zero; exact Xz).
      rewrite Pz, W. change (inject_Z 24) with 24%Q. lra.
    - assert (Iw1 : (inject_Z w <= 23)%Q)
        by (change 23%Q with (inject_Z 23); rewrite <- Zle_Qle; lia).
      lra. }
  assert (D0 : 0 <= total / us_per_day) by (apply Z.div_pos; [exact T0 | reflexivity]).
  assert (D1 : total / us_per_day <= 1).
  { change 1 with (us_per_day / us_per_day). apply Z.div_le_mono; [reflexivity | exact T1]. }
  assert (Dok : (-999999999 <=? total / us_per_day) && (total / us_per_day <=? 999999999) = true).
  { apply andb_true_iff. split; apply Z.leb_le; lia. }
  rewrite Dok. exists total. split; [reflexivity|]. split; [exact T0 | exact T1].
Qed.

(** Half a microsecond goes to the even total: one and a half microseconds
    make two, and so do two and a half. *)
Example timedelta_hours_ties :
  timedelta_hours (rnd64 ((1 # 2) / 3600000000)) = Ok 0 /\
  timedelta_hours (rnd64 ((3 # 2) / 3600000000)) = Ok 2 /\
  timedelta_hours (rnd64 ((5 # 2) / 3600000000)) = Ok 2.
Proof. vm_compute. repeat split. Qed.

Lemma forallb_is_str_map l : forallb is_str (map VStr l) = true.
Proof. induction l as [|x l IH]; cbn; [reflexivity | exact IH]. Qed.

Lemma record_of_valid post_id user_id username platform content topic
    likes shares comments views dt verified has_media hashtags mentions sentiment category :
  is_empty (strip post_id) = false ->
  0 < user_id ->
  in_strings platform valid_platforms = true ->
  is_empty (strip content) = false ->
  Z.of_nat (String.length content) <= 10000 ->
  0 <= likes -> 0 <= shares -> 0 <= comments -> 0 <= views ->
  valid_datetime dt = true ->
  in_strings sentiment valid_sentiments = true ->
  in_strings category valid_categories = true ->
  validate_post
    (record_of post_id user_id username platform content topic likes shares comments views
       (isoformat dt) verified has_media hashtags mentions sentiment category)
  = Ok (true, []).
Proof.
  intros Hid Hu Hp Hc Hlen Hl Hs Hco Hv Hdt Hse Hca.
  unfold record_of, engagement_block, validate_post, try_except, validate_checks.
  unfold check_required, check_post_id, check_user_id, check_member, check_content,
    check_engagement, check_metadata, check_timestamp, check_hashtags, missing_keys,
    required_fields, required_engagement_fields, has_key, vbind, vret, vlift, append_error.
  cbn [lookup String.eqb Ascii.eqb Bool.eqb filter negb int_value in_string_set vfor
       check_engagement_field vbind vret].
  rewrite Hid, Hp, Hc, Hse, Hca, (timestamp_accepted dt Hdt), forallb_is_str_map.
  assert (E1 : (user_id <=? 0) = false) by (apply Z.leb_gt; lia).
  assert (E2 : (10000 <? Z.of_nat (String.length content)) = false) by (apply Z.ltb_ge; lia).
  assert (E3 : (likes <? 0) = false) by (apply Z.ltb_ge; lia).
  assert (E4 : (shares <? 0) = false) by (apply Z.ltb_ge; lia).
  assert (E5 : (comments <? 0) = false) by (apply Z.ltb_ge; lia).
  assert (E6 : (views <? 0) = false) by (apply Z.ltb_ge; lia).
  rewrite E1, E2. unfold check_engagement_field, vbind, vret.
  cbn [lookup String.eqb Ascii.eqb Bool.eqb int_value].
  rewrite E3, E4, E5, E6. reflexivity.
Qed.

Lemma strip_nonblank c r : is_space c = false -> is_empty (strip (String c r)) = false.
Proof.
  intro H. unfold strip. cbn [rstrip]. rewrite H.
  destruct (rstrip r); cbn [lstrip]; rewrite H; reflexivity.
Qed.

Lemma platform_choice_valid i :
  (i < List.length platforms)%nat -> in_strings (nth i platforms "") valid_platforms = true.
Proof.
  intro H. cbn in H. do 5 (destruct i as [|i]; [reflexivity|]). lia.
Qed.

Lemma sentiment_choice_valid i :
  (i < 3)%nat -> in_strings (nth i valid_sentiments "") valid_sentiments = true.
Proof.
  intro H. do 3 (destruct i as [|i]; [reflexivity|]). lia.
Qed.

Lemma every_content_ok :
  forallb (fun j => forallb (content_ok j) (seq 0 (List.length topics)))
          (seq 0 (List.length content_templates)) = true.
Proof. vm_compute. reflexivity. Qed.

Lemma content_choice_ok j i :
  (j < List.length content_templates)%nat -> (i < List.length topics)%nat ->
  content_ok j i = true.
Proof.
  intros Hj Hi. pose proof every_content_ok as A.
  rewrite forallb_forall in A. specialize (A j ltac:(apply in_seq; lia)).
  rewrite forallb_forall in A. apply A. apply in_seq. lia.
Qed.

Lemma fmul_bounded a b f g :
  bounded a f -> bounded b g -> -1074 <= a + b < 1024 -> bounded (a + b) (fmul f g).
Proof.
  intros [p [-> [P0 P1]]] [q [-> [Q0 Q1]]] H. cbn [fmul].
  assert (L : (0 <= p * q)%Q) by nra.
  assert (U : (p * q <= pow2 (a + b))%Q).
  { rewrite pow2_add. pose proof (pow2_pos a). pose proof (pow2_pos b). nra. }
  destruct (fl_bounded (p * q) (a + b) L U H) as [E [R0 R1]].
  rewrite E. eexists. split; [reflexivity|]. split; assumption.
Qed.

Lemma between_bounded lo hi n f :
  between lo hi f -> (0 <= lo)%Q -> (hi <= pow2 n)%Q -> bounded n f.
Proof.
  intros [q [-> [L U]]] H0 H1. exists q. split; [reflexivity|]. split; lra.
Qed.

Lemma float_trunc_bounded n f : bounded n f -> exists z, float_trunc f = Ok z /\ 0 <= z.
Proof.
  intros [q [-> [Q0 _]]]. cbn [float_trunc].
  assert (E : Qle_bool 0 q = true) by (apply Qle_bool_iff; exact Q0). rewrite E.
  eexists. split; [reflexivity|]. rewrite <- (Qfloor_Z 0). apply Qfloor_resp_le. exact Q0.
Qed.

Lemma int_of_product_nonneg a b f g :
  bounded a f -> bounded b g -> -1074 <= a + b < 1024 ->
  exists z, int_of_product f g = Ok z /\ 0 <= z.
Proof.
  intros F G H. unfold int_of_product.
  exact (float_trunc_bounded _ _ (fmul_bounded a b f g F G H)).
Qed.

Lemma multiplier_bounded i :
  (i < List.length platforms)%nat ->
  bounded 2 (assoc_get (nth i platforms "") (fl 1) engagement_multiplier).
Proof.
  intro H. cbn in H.
  do 5 (destruct i as [|i];
        [eexists; split; [vm_compute; reflexivity | split; vm_compute; discriminate]|]).
  lia.
Qed.

Lemma base_engagement_bounded n :
  10 <= n <= 1000 -> exists f, float_of_int n = Ok f /\ bounded 10 f.
Proof.
  intro H. destruct (float_of_int_exact n ltac:(lia)) as [q [E Q]].
  exists (Fin q). split; [exact E|]. exists q. split; [reflexivity|].
  rewrite Q, (pow2_Z 10) by lia. change 0%Q with (inject_Z 0). rewrite <- !Zle_Qle. lia.
Qed.

Lemma hashtag_pool_size i :
  (i < List.length topics)%nat ->
  List.length (assoc_get (nth i topics "") ["#Tech"; "#Innovation"] hashtag_pools) = 4%nat.
Proof.
  intro H. cbn in H. do 11 (destruct i as [|i]; [reflexivity|]). lia.
Qed.

Lemma fl_fraction_bounded x : (0 <= x)%Q -> (x <= 1)%Q -> bounded 0 (fl x).
Proof.
  intros L U. destruct (fl_bounded x 0 L U ltac:(lia)) as [E [R0 R1]].
  rewrite E. eexists. split; [reflexivity|]. split; assumption.
Qed.

Lemma sample_in_range pool k positions :
  0 <= k <= Z.of_nat (List.length pool) ->
  sample pool k positions = Ok (map (fun i => nth i pool "") positions).
Proof.
  intro H. unfold sample.
  destruct (k <? 0) eqn:A; [apply Z.ltb_lt in A; lia|].
  destruct (Z.of_nat (List.length pool) <? k) eqn:B; [apply Z.ltb_lt in B; lia|].
  reflexivity.
Qed.

(** ** C7: what the generator returns passes validation *)

(** C7.  Whatever the count of posts generated so far and whatever the random
    draws, as long as each draw lies in the range its call states,
    [generate_post] returns a record, and [validate_post] applied to that
    record returns [True] with an empty list of errors. *)
Theorem generated_posts_are_valid (posts_generated : Z) (d : draws) :
  draws_in_range d ->
  exists post,
    generate_post posts_generated d = Ok post /\ validate_post post = Ok (true, []).
Proof.
  intros [Ht Hu Hun Hp Hto Hte Hb [Hn Hy] Hoff Hl Hs Hc Hv Hve Hm Hk Hh Hme Hse].
  unfold generate_post.
  destruct (float_trunc_bounded _ _ (between_bounded _ _ 62 _ Ht ltac:(lra)
              ltac:(rewrite (pow2_Z 62) by lia; apply Qle_refl))) as [seconds [-> _]].
  cbn [rbind].
  destruct (base_engagement_bounded _ Hb) as [base [-> Bb]]. cbn [rbind].
  destruct Hoff as [off [Eoff [O0 O1]]]. rewrite Eoff. cbn [timedelta_of_hours].
  destruct (timedelta_hours_day off O0 O1) as [us [-> Us]]. cbn [rbind].
  destruct (datetime_sub_day _ us Hn Hy Us) as [post_time [-> Vt]]. cbn [rbind].
  pose proof (fmul_bounded 10 2 _ _ Bb (multiplier_bounded _ Hp) ltac:(lia)) as Bs.
  cbn [Z.add Pos.add Pos.succ] in Bs.
  destruct (int_of_product_nonneg 12 1 _ _ Bs
              (between_bounded _ _ 1 _ Hl ltac:(lra) ltac:(vm_compute; discriminate))
              ltac:(lia)) as [likes [-> L0]].
  cbn [rbind].
  destruct (int_of_product_nonneg 12 1 _ _
              (fmul_bounded 12 0 _ _ Bs
                 (fl_fraction_bounded (1 # 10) ltac:(lra) ltac:(lra)) ltac:(lia))
              (between_bounded _ _ 1 _ Hs ltac:(lra) ltac:(vm_compute; discriminate))
              ltac:(lia)) as [shares [-> S0]].
  cbn [rbind].
  destruct (int_of_product_nonneg 12 1 _ _
              (fmul_bounded 12 0 _ _ Bs
                 (fl_fraction_bounded (1 # 20) ltac:(lra) ltac:(lra)) ltac:(lia))
              (between_bounded _ _ 1 _ Hc ltac:(apply rnd64_nonneg; lra)
                 ltac:(vm_compute; discriminate))
              ltac:(lia)) as [comments [-> C0]].
  cbn [rbind].
  destruct (base_engagement_bounded 10 ltac:(lia)) as [ten [-> Bten]]. cbn [rbind].
  destruct (int_of_product_nonneg 22 4 _ _
              (fmul_bounded 12 10 _ _ Bs Bten ltac:(lia))
              (between_bounded _ _ 4 _ Hv ltac:(lra) ltac:(vm_compute; discriminate))
              ltac:(lia)) as [views [-> V0]].
  cbn [rbind].
  unfold _generate_hashtags.
  rewrite sample_in_range by (rewrite (hashtag_pool_size _ Hto); lia).
  cbn [rbind]. eexists. split; [reflexivity|].
  pose proof (content_choice_ok _ _ Hte Hto) as Ck. unfold content_ok in Ck.
  cbv zeta in Ck. rewrite !andb_true_iff, negb_true_iff, Z.leb_le in Ck.
  destruct Ck as [[Ck1 Ck2] Ck3].
  apply (record_of_valid _ _ _ _ _ _ _ _ _ _ post_time); try assumption; try lia.
  - apply strip_nonblank. reflexivity.
  - apply platform_choice_valid. exact Hp.
  - apply sentiment_choice_valid. exact Hse.
Qed.

Lemma sample_draws_in_range : draws_in_range sample_draws.
Proof.
  constructor; cbn;
    try (eexists; split; [reflexivity | split; vm_compute; discriminate]);
    try lia.
  split; [reflexivity|]. split.
  - constructor; [cbn; intros [E | []]; discriminate E|].
    constructor; [intros [] | constructor].
  - constructor; [lia|]. constructor; [lia | constructor].
Defined.

Lemma generated_posts_are_valid_witness :
  draws_in_range sample_draws /\
  exists post,
    generate_post 41 sample_draws = Ok post /\ validate_post post = Ok (true, []).
Proof.
  split; [exact sample_draws_in_range|].
  apply (generated_posts_are_valid 41 sample_draws). exact sample_draws_in_range.
Defined.

(** ** C1: a full queue in the production loop *)

Lemma put_full item n q :
  is_full (taken n q) = true -> put item n q = (taken n q, false).
Proof. intro H. unfold put. rewrite H. reflexivity. Qed.

Lemma put_full_inv item n q :
  snd (put item n q) = false -> put item n q = (taken n q, false).
Proof.
  unfold put. destruct (is_full (taken n q)); cbn [snd]; [reflexivity | discriminate].
Qed.

(** C1 (as the code has it).  In an iteration of the production loop in which
    [put] raises [queue.Full], the producer sleeps twice the interval and goes
    on with the next iteration in the state it had before: the counter of
    generated posts is not advanced, the queue holds what the consumer left
    of it and not the record that did not fit, and the next iteration calls
    [generate_post] anew with its own draws.  The record that met the full
    queue is kept nowhere. *)
Theorem full_queue_backs_off_and_regenerates
    (interval : pyfloat) (it : iteration) (rest : list iteration)
    (p : producer) (q : channel) (log : list event) (post : pyval) :
  producer_running p = true ->
  stop_requested it = false ->
  posts_generated p < max_posts p ->
  generate_post (posts_generated p) (iteration_draws it) = Ok post ->
  snd (put post (consumed it) q) = false ->
  sleep (fmul interval (Fin 2)) = Ok tt ->
  production_loop interval (it :: rest) p q log =
  production_loop interval rest p (taken (consumed it) q)
    (log ++ [Generated post; QueueFull; Slept (fmul interval (Fin 2))]).
Proof.
  intros Hrun Hstop Hmax Hgen Hput Hsleep. cbn [production_loop].
  rewrite Hstop, Hrun. apply Z.ltb_lt in Hmax. rewrite Hmax. cbn [andb].
  rewrite Hgen, (put_full_inv _ _ _ Hput), Hsleep.
  rewrite <- app_assoc. reflexivity.
Qed.

Lemma full_queue_backs_off_and_regenerates_witness :
  producer_running fresh_producer = true /\
  stop_requested (mkIteration false sample_draws 0) = false /\
  posts_generated fresh_producer < max_posts fresh_producer /\
  generate_post (posts_generated fresh_producer) sample_draws = Ok (generated 0 sample_draws) /\
  snd (put (generated 0 sample_draws) 0 full_channel) = false /\
  sleep (fmul (Fin 1) (Fin 2)) = Ok tt /\
  production_loop (Fin 1) [mkIteration false sample_draws 0] fresh_producer full_channel [] =
  production_loop (Fin 1) [] fresh_producer (taken 0 full_channel)
    ([] ++ [Generated (generated 0 sample_draws); QueueFull; Slept (fmul (Fin 1) (Fin 2))]).
Proof.
  assert (R : producer_running fresh_producer = true) by reflexivity.
  assert (N : stop_requested (mkIteration false sample_draws 0) = false) by reflexivity.
  assert (M : posts_generated fresh_producer < max_posts fresh_producer) by (cbn; lia).
  assert (G : generate_post (posts_generated fresh_producer) sample_draws
              = Ok (generated 0 sample_draws)) by (vm_compute; reflexivity).
  assert (F : snd (put (generated 0 sample_draws) 0 full_channel) = false)
    by (vm_compute; reflexivity).
  assert (S : sleep (fmul (Fin 1) (Fin 2)) = Ok tt) by (vm_compute; reflexivity).
  split; [exact R|]. split; [exact N|]. split; [exact M|].
  split; [exact G|]. split; [exact F|]. split; [exact S|].
  exact (full_queue_backs_off_and_regenerates (Fin 1) (mkIteration false sample_draws 0) []
           fresh_producer full_channel [] (generated 0 sample_draws) R N M G F S).
Defined.

(** C1 fails as stated: with a queue of capacity one that is full, the first
    record is generated, meets [queue.Full] and is slept on; once the
    consumer has taken an item, the loop generates another record and
    enqueues that one.  The first record is never enqueued. *)
Lemma full_queue_drops_the_record :
  generate_post 0 sample_draws = Ok (generated 0 sample_draws) /\
  generate_post 0 later_draws = Ok (generated 0 later_draws) /\
  generated 0 sample_draws <> generated 0 later_draws /\
  run_events full_queue_run =
    [Generated (generated 0 sample_draws); QueueFull; Slept (fmul (Fin 1) (Fin 2));
     Generated (generated 0 later_draws); Enqueued (generated 0 later_draws);
     Slept (Fin 1)] /\
  run_error full_queue_run = None /\
  items (run_channel full_queue_run) = [generated 0 later_draws] /\
  ~ In (Enqueued (generated 0 sample_draws)) (run_events full_queue_run) /\
  ~ In (generated 0 sample_draws) (items (run_channel full_queue_run)) /\
  posts_generated (run_producer full_queue_run) = 1.
Proof.
  assert (G : generate_post 0 sample_draws = Ok (generated 0 sample_draws))
    by (vm_compute; reflexivity).
  assert (G' : generate_post 0 later_draws = Ok (generated 0 later_draws))
    by (vm_compute; reflexivity).
  assert (D : generated 0 sample_draws <> generated 0 later_draws).
  { vm_compute. intro E. discriminate E. }
  assert (L : run_events full_queue_run =
             [Generated (generated 0 sample_draws); QueueFull; Slept (fmul (Fin 1) (Fin 2));
              Generated (generated 0 later_draws); Enqueued (generated 0 later_draws);
              Slept (Fin 1)])
    by (vm_compute; reflexivity).
  assert (X : run_error full_queue_run = None) by (vm_compute; reflexivity).
  assert (R : items (run_channel full_queue_run) = [generated 0 later_draws])
    by (vm_compute; reflexivity).
  assert (N : posts_generated (run_producer full_queue_run) = 1)
    by (vm_compute; reflexivity).
  split; [exact G|]. split; [exact G'|]. split; [exact D|]. split; [exact L|].
  split; [exact X|]. split; [exact R|]. split; [|split; [|exact N]].
  - rewrite L. cbn [In]. intros [E | [E | [E | [E | [E | [E | []]]]]]].
    + discriminate E.
    + discriminate E.
    + discriminate E.
    + discriminate E.
    + apply D. symmetry.
      exact (f_equal (fun e => match e with Enqueued x => x | _ => VNone end) E).
    + discriminate E.
  - rewrite R. cbn [In]. intros [E | []]. exact (D (eq_sym E)).
Qed.

(** ** Which records validation accepts *)

Lemma passes_vret : passes (vret tt).
Proof. split; reflexivity. Qed.

Lemma passes_vbind_intro (c k : V unit) :
  append_only c -> append_only k -> passes c -> passes k -> passes (vbind c (fun _ => k)).
Proof.
  intros Hc Hk [M1 O1] [M2 O2]. split.
  - rewrite messages_of_vbind by assumption. rewrite M1, O1, M2. reflexivity.
  - unfold outcome_of. rewrite vbind_append_only by exact Hc. rewrite O1.
    rewrite (Hk ([] ++ messages_of c)). exact O2.
Qed.

Lemma passes_vfor_intro {A : Type} (xs : list A) (body : A -> V unit) :
  (forall x, append_only (body x)) -> (forall x, In x xs -> passes (body x)) ->
  passes (vfor xs body).
Proof.
  intros H P. induction xs as [|y rest IH]; cbn [vfor]; [apply passes_vret|].
  apply passes_vbind_intro.
  - apply H.
  - apply append_only_vfor. exact H.
  - apply P. left. reflexivity.
  - apply IH. intros x I. apply P. right. exact I.
Qed.

Lemma passes_collect checks :
  Forall passes checks -> collect checks = [] /\ first_raise checks = None.
Proof.
  induction 1 as [|c rest [M O] _ [IH1 IH2]]; cbn [collect first_raise]; [auto|].
  rewrite M, O, IH1, IH2. auto.
Qed.

Lemma check_required_spec d :
  passes (check_required d) <->
  forall key, In key required_fields -> exists v, lookup key d = Some v.
Proof.
  split.
  - intros P key I. exact (missing_keys_nil _ _ _ (check_required_passes d P) I).
  - intro H. unfold check_required.
    destruct (missing_keys required_fields d) as [|m ms] eqn:E; [apply passes_vret|].
    exfalso. assert (I : In m (missing_keys required_fields d)) by (rewrite E; left; reflexivity).
    unfold missing_keys in I. apply filter_In in I. destruct I as [I N].
    destruct (H m I) as [v L]. unfold has_key in N. rewrite L in N. discriminate.
Qed.

Lemma check_post_id_spec d :
  passes (check_post_id d) <->
  forall v, lookup "post_id" d = Some v ->
    exists s, v = VStr s /\ is_empty (strip s) = false.
Proof.
  unfold check_post_id. split.
  - intros [M _] v L. rewrite L in M. unfold messages_of in M.
    destruct v as [| b | n | f | s | l | e]; try discriminate.
    exists s. split; [reflexivity|]. destruct (is_empty (strip s)); [discriminate | reflexivity].
  - intro H. destruct (lookup "post_id" d) as [v|]; [|apply passes_vret].
    destruct (H v eq_refl) as [s [-> E]]. rewrite E. apply passes_vret.
Qed.

Lemma check_user_id_spec d :
  passes (check_user_id d) <->
  forall v, lookup "user_id" d = Some v -> exists n, int_value v = Some n /\ 0 < n.
Proof.
  unfold check_user_id. split.
  - intros [M _] v L. rewrite L in M. unfold messages_of in M.
    destruct (int_value v) as [n|]; [|discriminate].
    destruct (n <=? 0) eqn:E; [discriminate|]. exists n. split; [reflexivity|].
    apply Z.leb_gt. exact E.
  - intro H. destruct (lookup "user_id" d) as [v|]; [|apply passes_vret].
    destruct (H v eq_refl) as [n [-> P]].
    assert (E : (n <=? 0) = false) by (apply Z.leb_gt; exact P). rewrite E. apply passes_vret.
Qed.

Lemma check_member_spec key allowed label d :
  passes (check_member key allowed label d) <->
  forall v, lookup key d = Some v -> exists s, v = VStr s /\ in_strings s allowed = true.
Proof.
  split.
  - intros P v L. exact (check_member_passes key allowed label d v P L).
  - intro H. unfold check_member. destruct (lookup key d) as [v|]; [|apply passes_vret].
    destruct (H v eq_refl) as [s [-> E]].
    unfold passes, messages_of, outcome_of, vbind, vlift. cbn [in_string_set].
    rewrite E. split; reflexivity.
Qed.

Lemma check_content_spec d :
  passes (check_content d) <->
  forall v, lookup "content" d = Some v ->
    exists s, v = VStr s /\ is_empty (strip s) = false /\ Z.of_nat (String.length s) <= 10000.
Proof.
  unfold check_content. split.
  - intros [M _] v L. rewrite L in M. unfold messages_of in M.
    destruct v as [| b | n | f | s | l | e]; try discriminate.
    exists s. split; [reflexivity|].
    destruct (is_empty (strip s)); [discriminate|].
    destruct (10000 <? Z.of_nat (String.length s)) eqn:E; [discriminate|].
    split; [reflexivity | apply Z.ltb_ge; exact E].
  - intro H. destruct (lookup "content" d) as [v|]; [|apply passes_vret].
    destruct (H v eq_refl) as [s [-> [E B]]]. rewrite E.
    assert (F : (10000 <? Z.of_nat (String.length s)) = false) by (apply Z.ltb_ge; exact B).
    rewrite F. apply passes_vret.
Qed.

Lemma check_engagement_field_intro e field :
  (forall v, lookup field e = Some v -> exists n, int_value v = Some n /\ 0 <= n) ->
  passes (check_engagement_field e field).
Proof.
  intro H. unfold check_engagement_field.
  destruct (lookup field e) as [v|]; [|apply passes_vret].
  destruct (H v eq_refl) as [n [-> P]].
  assert (E : (n <? 0) = false) by (apply Z.ltb_ge; exact P). rewrite E. apply passes_vret.
Qed.

Lemma check_engagement_spec d :
  passes (check_engagement d) <->
  forall v, lookup "engagement" d = Some v ->
    exists e l s c w, v = VDict e /\ engagement_counts e l s c w.
Proof.
  split.
  - intros P v L. exact (check_engagement_passes d v P L).
  - intro H. unfold check_engagement.
    destruct (lookup "engagement" d) as [v|]; [|apply passes_vret].
    destruct (H v eq_refl) as [e [l [s [c [w [-> EC]]]]]].
    destruct EC as [[v1 [L1 I1]] [[v2 [L2 I2]] [[v3 [L3 I3]] [[v4 [L4 I4]] [P1 [P2 [P3 P4]]]]]]].
    assert (K : missing_keys required_engagement_fields e = []).
    { unfold missing_keys, required_engagement_fields, has_key. cbn [filter].
      rewrite L1, L2, L3, L4. reflexivity. }
    rewrite K. apply passes_vbind_intro.
    + apply append_only_vret.
    + apply append_only_vfor. apply append_only_check_engagement_field.
    + apply passes_vret.
    + apply passes_vfor_intro; [apply append_only_check_engagement_field|].
      intros field I. apply check_engagement_field_intro. intros v Lv.
      cbn [required_engagement_fields In] in I.
      destruct I as [<- | [<- | [<- | [<- | []]]]].
      * rewrite L1 in Lv. injection Lv as <-. eauto.
      * rewrite L2 in Lv. injection Lv as <-. eauto.
      * rewrite L3 in Lv. injection Lv as <-. eauto.
      * rewrite L4 in Lv. injection Lv as <-. eauto.
Qed.

Lemma check_timestamp_spec md : passes (check_timestamp md) <-> timestamp_ok md.
Proof.
  unfold check_timestamp, timestamp_ok. split.
  - intros [M _] v L. rewrite L in M. unfold messages_of in M.
    destruct v as [| b | n | f | s | l | e]; try discriminate.
    destruct (fromisoformat (replace_char "Z" "+00:00" s)) as [dt|] eqn:E; [|discriminate].
    exists s, dt. auto.
  - intro H. destruct (lookup "timestamp" md) as [v|]; [|apply passes_vret].
    destruct (H v eq_refl) as [s [dt [-> E]]]. rewrite E. apply passes_vret.
Qed.

Lemma check_hashtags_spec md : passes (check_hashtags md) <-> hashtags_ok md.
Proof.
  unfold check_hashtags, hashtags_ok. split.
  - intros [M _] v L. rewrite L in M. unfold messages_of in M.
    destruct v as [| b | n | f | s | tags | e]; try discriminate.
    exists tags. split; [reflexivity|].
    destruct (forallb is_str tags); [reflexivity | discriminate].
  - intro H. destruct (lookup "hashtags" md) as [v|]; [|apply passes_vret].
    destruct (H v eq_refl) as [tags [-> E]]. rewrite E. apply passes_vret.
Qed.

Lemma check_metadata_spec d :
  passes (check_metadata d) <->
  forall v, lookup "metadata" d = Some v ->
    exists md, v = VDict md /\ timestamp_ok md /\ hashtags_ok md.
Proof.
  unfold check_metadata. split.
  - intros P v L. rewrite L in P.
    destruct v as [| b | n | f | s | l | md]; try (destruct P as [M _]; discriminate).
    apply passes_vbind in P;
      [|apply append_only_check_timestamp | apply append_only_check_hashtags].
    destruct P as [P1 P2]. exists md. split; [reflexivity|].
    split; [apply check_timestamp_spec | apply check_hashtags_spec]; assumption.
  - intro H. destruct (lookup "metadata" d) as [v|]; [|apply passes_vret].
    destruct (H v eq_refl) as [md [-> [T G]]].
    apply passes_vbind_intro.
    + apply append_only_check_timestamp.
    + apply append_only_check_hashtags.
    + apply check_timestamp_spec. exact T.
    + apply check_hashtags_spec. exact G.
Qed.

Lemma field_checks_pass d : Forall passes (field_checks d) <-> well_formed d.
Proof.
  split.
  - intro F. pose proof (proj1 (Forall_forall _ _) F) as P.
    pose proof (proj1 (check_required_spec d) (P (check_required d) ltac:(in_list))) as R.
    destruct (R "post_id" ltac:(cbn; tauto)) as [v1 L1].
    destruct (R "user_id" ltac:(cbn; tauto)) as [v2 L2].
    destruct (R "platform" ltac:(cbn; tauto)) as [v3 L3].
    destruct (R "content" ltac:(cbn; tauto)) as [v4 L4].
    destruct (R "engagement" ltac:(cbn; tauto)) as [v5 L5].
    destruct (R "metadata" ltac:(cbn; tauto)) as [v6 L6].
    destruct (R "sentiment" ltac:(cbn; tauto)) as [v7 L7].
    destruct (R "category" ltac:(cbn; tauto)) as [v8 L8].
    constructor.
    + destruct (proj1 (check_post_id_spec d) (P (check_post_id d) ltac:(in_list)) v1 L1)
        as [s [-> E]]. eauto.
    + destruct (proj1 (check_user_id_spec d) (P (check_user_id d) ltac:(in_list)) v2 L2)
        as [n [E N]]. eauto.
    + apply R. cbn. tauto.
    + destruct (proj1 (check_member_spec "platform" valid_platforms "Invalid platform: " d)
                  (P (check_member "platform" valid_platforms "Invalid platform: " d)
                     ltac:(in_list)) v3 L3) as [s [-> E]].
      exists s. auto.
    + destruct (proj1 (check_content_spec d) (P (check_content d) ltac:(in_list)) v4 L4)
        as [s [-> E]]. eauto.
    + destruct (proj1 (check_engagement_spec d) (P (check_engagement d) ltac:(in_list)) v5 L5)
        as [e [l [s [c [w [-> E]]]]]]. exists e, l, s, c, w. auto.
    + destruct (proj1 (check_metadata_spec d) (P (check_metadata d) ltac:(in_list)) v6 L6)
        as [md [-> E]]. eauto.
    + destruct (proj1 (check_member_spec "sentiment" valid_sentiments "Invalid sentiment: " d)
                  (P (check_member "sentiment" valid_sentiments "Invalid sentiment: " d)
                     ltac:(in_list)) v7 L7) as [s [-> E]].
      exists s. auto.
    + destruct (proj1 (check_member_spec "category" valid_categories "Invalid category: " d)
                  (P (check_member "category" valid_categories "Invalid category: " d)
                     ltac:(in_list)) v8 L8) as [s [-> E]].
      exists s. auto.
  - intros [[s1 [L1 E1]] [v2 [n2 [L2 [I2 P2]]]] [v3 L3] [s4 [L4 E4]] [s5 [L5 [E5 B5]]]
            [e [l [s [c [w [L6 E6]]]]]] [md [L7 [T7 H7]]] [s8 [L8 E8]] [s9 [L9 E9]]].
    unfold field_checks. repeat (apply Forall_cons); try apply Forall_nil.
    + apply check_required_spec. intros key I. cbn [required_fields In] in I.
      destruct I as [<- | [<- | [<- | [<- | [<- | [<- | [<- | [<- | [<- | []]]]]]]]]]; eauto.
    + apply check_post_id_spec. intros v L. rewrite L1 in L. injection L as <-. eauto.
    + apply check_user_id_spec. intros v L. rewrite L2 in L. injection L as <-. eauto.
    + apply check_member_spec. intros v L. rewrite L4 in L. injection L as <-. eauto.
    + apply check_content_spec. intros v L. rewrite L5 in L. injection L as <-. eauto.
    + apply check_engagement_spec. intros v L. rewrite L6 in L. injection L as <-.
      exists e, l, s, c, w. auto.
    + apply check_metadata_spec. intros v L. rewrite L7 in L. injection L as <-. eauto.
    + apply check_member_spec. intros v L. rewrite L8 in L. injection L as <-. eauto.
    + apply check_member_spec. intros v L. rewrite L9 in L. injection L as <-. eauto.
Qed.

(** [validate_post] accepts exactly the well-formed records: a value is
    accepted if and only if it is a dict that holds the nine required fields
    with a non-blank string as post id, a positive integer as user id, a
    known platform, sentiment and category, a non-blank content of at most
    10000 characters, four non-negative integer counts in the engagement
    dict, and a metadata dict whose timestamp (if any) parses and whose
    hashtags (if any) are a list of strings. *)
Theorem validate_post_accepts_well_formed (v : pyval) :
  (exists errors, validate_post v = Ok (true, errors)) <->
  (exists d, v = VDict d /\ well_formed d).
Proof.
  split.
  - intros [errors H]. destruct (validate_post_valid v errors H) as [d [-> [_ F]]].
    exists d. split; [reflexivity|]. apply field_checks_pass. exact F.
  - intros [d [-> W]]. exists []. rewrite validate_post_dict.
    destruct (passes_collect _ (proj2 (field_checks_pass d) W)) as [C R].
    rewrite C, R. reflexivity.
Qed.

(** ** Missing fields, unhashable values and unknown fields *)

(** When a required field is absent, the record is rejected and the first
    error is the missing-fields message; the fields it names are exactly the
    required fields that the record does not hold. *)
Theorem missing_required_fields_reported (d : pydict) (key : string) :
  In key required_fields -> lookup key d = None ->
  exists rest,
    validate_post (VDict d)
    = Ok (false, FmtSet "Missing required fields: " (missing_keys required_fields d) :: rest) /\
    forall k, In k (missing_keys required_fields d) <->
              In k required_fields /\ lookup k d = None.
Proof.
  intros I L.
  pose proof (missing_keys_absent key required_fields d I L) as M.
  assert (S : forall k, In k (missing_keys required_fields d) <->
                        In k required_fields /\ lookup k d = None).
  { intro k. unfold missing_keys. rewrite filter_In. unfold has_key.
    destruct (lookup k d); cbn; split; intros [A B]; split; auto; discriminate. }
  rewrite validate_post_dict.
  assert (C : exists tail, collect (field_checks d) =
                 FmtSet "Missing required fields: " (missing_keys required_fields d) :: tail).
  { cbn [field_checks collect]. unfold messages_of at 1, outcome_of at 1, check_required.
    destruct (missing_keys required_fields d) as [|m ms] eqn:E; [contradiction|].
    cbn. eexists. reflexivity. }
  destruct C as [tail C]. rewrite C.
  destruct (first_raise (field_checks d)) as [e|]; eexists; (split; [reflexivity | exact S]).
Qed.

Lemma missing_required_fields_reported_witness :
  In "engagement" required_fields /\
  lookup "engagement" [("post_id", VStr "p")] = None /\
  exists rest,
    validate_post (VDict [("post_id", VStr "p")])
    = Ok (false,
          FmtSet "Missing required fields: "
            (missing_keys required_fields [("post_id", VStr "p")]) :: rest) /\
    forall k, In k (missing_keys required_fields [("post_id", VStr "p")]) <->
              In k required_fields /\ lookup k [("post_id", VStr "p")] = None.
Proof.
  assert (I : In "engagement" required_fields) by (cbn; tauto).
  assert (L : lookup "engagement" [("post_id", VStr "p")] = None) by reflexivity.
  split; [exact I|]. split; [exact L|].
  exact (missing_required_fields_reported [("post_id", VStr "p")] "engagement" I L).
Defined.

Lemma messages_check_unhashable key allowed label d v :
  lookup key d = Some v -> hashable v = false ->
  messages_of (check_member key allowed label d) = [] /\
  outcome_of (check_member key allowed label d) = Raise TypeError.
Proof.
  intros L H. unfold check_member, messages_of, outcome_of, vbind, vlift. rewrite L.
  destruct v; try discriminate; cbn; split; reflexivity.
Qed.

(** A platform that cannot be hashed (a list or a dict) makes the membership
    test raise [TypeError]: the record is rejected, the errors are those of
    the three checks before it followed by the generic validation error, and
    the checks after it (content, engagement, metadata, sentiment, category)
    are not run. *)
Theorem unhashable_platform_stops_validation (d : pydict) (v : pyval) :
  lookup "platform" d = Some v -> hashable v = false ->
  validate_post (VDict d)
  = Ok (false,
        collect [check_required d; check_post_id d; check_user_id d]
        ++ [FmtExn "Validation error: " TypeError]).
Proof.
  intros L H. rewrite validate_post_dict.
  destruct (messages_check_unhashable "platform" valid_platforms "Invalid platform: " d v L H)
    as [M O].
  cbn [field_checks collect first_raise].
  rewrite outcome_check_required, outcome_check_post_id, outcome_check_user_id, M, O.
  rewrite !app_nil_r. reflexivity.
Qed.

Lemma unhashable_platform_stops_validation_witness :
  lookup "platform" post_with_list_platform = Some (VList [VStr "twitter"]) /\
  hashable (VList [VStr "twitter"]) = false /\
  validate_post (VDict post_with_list_platform)
  = Ok (false,
        collect [check_required post_with_list_platform;
                 check_post_id post_with_list_platform;
                 check_user_id post_with_list_platform]
        ++ [FmtExn "Validation error: " TypeError]).
Proof.
  split; [reflexivity|]. split; [reflexivity|].
  exact (unhashable_platform_stops_validation post_with_list_platform
           (VList [VStr "twitter"]) eq_refl eq_refl).
Defined.

Lemma lookup_dict_set_other key key' v d :
  key' <> key -> lookup key (dict_set key' v d) = lookup key d.
Proof.
  intro N. rewrite lookup_dict_set.
  destruct (String.eqb key' key) eqn:E; [|reflexivity].
  apply String.eqb_eq in E. contradiction.
Qed.

Lemma field_checks_dict_set key v d :
  ~ In key required_fields -> field_checks (dict_set key v d) = field_checks d.
Proof.
  intro N.
  assert (L : forall k, In k required_fields ->
                        lookup k (dict_set key v d) = lookup k d).
  { intros k I. apply lookup_dict_set_other. intros ->. exact (N I). }
  assert (M : missing_keys required_fields (dict_set key v d)
              = missing_keys required_fields d).
  { unfold missing_keys. apply filter_ext_in. intros k I. unfold has_key.
    rewrite (L k I). reflexivity. }
  unfold field_checks, check_required, check_post_id, check_user_id, check_member,
    check_content, check_engagement, check_metadata.
  rewrite M.
  rewrite (L "post_id"), (L "user_id"), (L "platform"), (L "content"), (L "engagement"),
    (L "metadata"), (L "sentiment"), (L "category") by (cbn; tauto).
  reflexivity.
Qed.

(** Validation reads the nine required fields only: setting any other field
    of a record (its topic, for one) to any value leaves the outcome of
    [validate_post] unchanged. *)
Theorem validate_post_ignores_other_fields (d : pydict) (key : string) (v : pyval) :
  ~ In key required_fields ->
  validate_post (VDict (dict_set key v d)) = validate_post (VDict d).
Proof.
  intro N. rewrite !validate_post_dict, (field_checks_dict_set key v d N). reflexivity.
Qed.

Lemma validate_post_ignores_other_fields_witness :
  ~ In "topic" required_fields /\
  validate_post (VDict (dict_set "topic" (VList []) post_without_username))
  = validate_post (VDict post_without_username).
Proof.
  assert (N : ~ In "topic" required_fields).
  { cbn. intros [E | [E | [E | [E | [E | [E | [E | [E | [E | []]]]]]]]]]; discriminate E. }
  split; [exact N|].
  exact (validate_post_ignores_other_fields post_without_username "topic" (VList []) N).
Defined.

(** ** What [transform_post] keeps, adds and needs *)

(** [transform_post] returns a copy of the record in which the six computed
    fields are set and every other field is as it was; [processed_at] is the
    reading of the clock. *)
Theorem transform_post_keeps_fields (now : datetime) (d : pydict) (p : pyval) :
  transform_post now (VDict d) = Ok p ->
  exists t,
    p = VDict t /\
    (forall k, ~ In k added_fields -> lookup k t = lookup k d) /\
    (forall k, In k added_fields -> exists v, lookup k t = Some v) /\
    lookup "processed_at" t = Some (VStr (isoformat now)).
Proof.
  intro H. unfold transform_post in H. cbn [copy_for_update rbind] in H.
  repeat rstep H. injection H as <-.
  eexists. split; [reflexivity|]. split; [|split].
  - intros k N. rewrite !lookup_dict_set.
    repeat match goal with
    | |- context [String.eqb ?a k] =>
        let E := fresh "E" in
        destruct (String.eqb a k) eqn:E;
        [apply String.eqb_eq in E; subst k; exfalso; apply N; cbn; tauto|]
    end.
    reflexivity.
  - intros k I. cbn [added_fields In] in I. rewrite !lookup_dict_set.
    destruct I as [<- | [<- | [<- | [<- | [<- | [<- | []]]]]]]; cbn; eexists; reflexivity.
  - rewrite !lookup_dict_set. reflexivity.
Qed.

Lemma transform_post_keeps_fields_witness :
  transform_post (now_first sample_clock) (VDict tutorial_post) = Ok processed_tutorial_post /\
  exists t,
    processed_tutorial_post = VDict t /\
    (forall k, ~ In k added_fields -> lookup k t = lookup k tutorial_post) /\
    (forall k, In k added_fields -> exists v, lookup k t = Some v) /\
    lookup "processed_at" t = Some (VStr (isoformat (now_first sample_clock))).
Proof.
  assert (H : transform_post (now_first sample_clock) (VDict tutorial_post)
              = Ok processed_tutorial_post) by (vm_compute; reflexivity).
  split; [exact H|].
  exact (transform_post_keeps_fields (now_first sample_clock) tutorial_post
           processed_tutorial_post H).
Defined.

(** ** The engagement rate of a record with at least as many views as
    interactions *)

(** When the likes, shares and comments together do not exceed the views
    (and there is at least one view), the engagement rate is a finite float
    between 0 and 100. *)
Theorem engagement_rate_at_most_100 (likes shares comments views : Z) :
  0 <= likes -> 0 <= shares -> 0 <= comments -> 0 < views ->
  likes + shares + comments <= views ->
  exists q,
    engagement_rate likes shares comments views = Ok (VFloat (Fin q)) /\
    (0 <= q)%Q /\ (q <= 100)%Q.
Proof.
  intros Hl Hs Hc Hv Ht. rewrite engagement_rate_unfold.
  assert (E : (0 <? views) = true) by (apply Z.ltb_lt; exact Hv). rewrite E.
  destruct (success_rate_of_range (likes + shares + comments)
              (views - (likes + shares + comments))) as [r [R W]]; try lia.
  unfold success_rate_of in R.
  replace (likes + shares + comments + (views - (likes + shares + comments)))
    with views in R by lia.
  destruct (int_truediv (likes + shares + comments) views) as [ratio|e];
    cbn [rbind] in R |- *; [|discriminate R].
  rewrite float_of_int_100 in R. cbn [rbind] in R. injection R as R.
  rewrite R. destruct r as [q| | |]; try contradiction.
  exists q. split; [reflexivity|]. exact W.
Qed.

Lemma engagement_rate_at_most_100_witness :
  0 <= 120 /\ 0 <= 12 /\ 0 <= 6 /\ 0 < 6000 /\ 120 + 12 + 6 <= 6000 /\
  exists q,
    engagement_rate 120 12 6 6000 = Ok (VFloat (Fin q)) /\ (0 <= q)%Q /\ (q <= 100)%Q.
Proof.
  do 5 (split; [lia|]).
  apply (engagement_rate_at_most_100 120 12 6 6000); lia.
Defined.

(** ** A validated record without a timestamp *)

Lemma transform_post_needs_timestamp now d md :
  lookup "metadata" d = Some (VDict md) -> lookup "timestamp" md = None ->
  exists e, transform_post now (VDict d) = Raise e.
Proof.
  intros Lm Lt. unfold transform_post. cbn [copy_for_update rbind].
  assert (Gm : getitem (VDict d) "metadata" = Ok (VDict md))
    by (cbn [getitem]; rewrite Lm; reflexivity).
  assert (Gt : getitem (VDict md) "timestamp" = Raise (KeyError "timestamp"))
    by (cbn [getitem]; rewrite Lt; reflexivity).
  repeat match goal with
  | |- exists e, rbind (getitem (VDict d) "metadata") _ = Raise e =>
      rewrite Gm; cbn [rbind]
  | |- exists e, rbind (getitem (VDict md) "timestamp") _ = Raise e =>
      rewrite Gt; cbn [rbind]; eexists; reflexivity
  | |- exists e, rbind ?r _ = Raise e =>
      destruct r; cbn [rbind]; [|eexists; reflexivity]
  end.
Qed.

(** ** One call of [process_post], case by case *)

Lemma process_post_dict clk d st :
  process_post clk (VDict d) st =
  match validate_post (VDict d) with
  | Ok (true, _) =>
      match transform_post (now_first clk) (VDict d) with
      | Ok p =>
          match update_statistics p st with
          | (st1, Ok _) =>
              (stored p (fsub (time_end clk) (time_start clk)) st1, Ok (Some p))
          | (st1, Raise e) =>
              (logged_failure d [FmtExn "" e] (now_second clk) st1, Ok None)
          end
      | Raise e => (logged_failure d [FmtExn "" e] (now_second clk) st, Ok None)
      end
  | Ok (false, errors) => (logged_failure d errors (now_first clk) st, Ok None)
  | Raise e => (logged_failure d [FmtExn "" e] (now_second clk) st, Ok None)
  end.
Proof.
  unfold process_post, process_post_body.
  cbv beta iota delta [cbind clift].
  destruct (validate_post (VDict d)) as [[[|] errors]|e]; cbn [negb]; cbv beta iota.
  - destruct (transform_post (now_first clk) (VDict d)) as [p|e]; cbv beta iota.
    + destruct (update_statistics p st) as [st1 [[]|e]]; reflexivity.
    + reflexivity.
  - reflexivity.
  - reflexivity.
Qed.

Lemma process_post_non_dict clk v st :
  is_dict v = false ->
  process_post clk v st = (set_failed_posts (failed_posts st + 2) st, Raise AttributeError).
Proof.
  intro H. unfold process_post, process_post_body.
  cbv beta iota delta [cbind clift].
  assert (V : validate_post v = Ok (false, [FmtExn "Validation error: " AttributeError]))
    by (destruct v; try discriminate; reflexivity).
  assert (G : get_method v "post_id" (VStr "unknown") = Raise AttributeError)
    by (destruct v; try discriminate; reflexivity).
  rewrite V. cbn [negb]. cbv beta iota delta [record_failure cbind clift cmodify cret].
  rewrite G. cbv beta iota.
  destruct st as [run done failed data pl tp eng se ca ho times log].
  unfold set_failed_posts; cbn.
  replace (failed + 1 + 1) with (failed + 2) by lia. reflexivity.
Qed.

Lemma group_total_append_to k x m : group_total (append_to k x m) = group_total m + 1.
Proof.
  unfold group_total. induction m as [|[k' xs] rest IH]; cbn [append_to].
  - cbn. lia.
  - destruct (key_eqb k' k); cbn [fold_right snd].
    + rewrite length_app. cbn [List.length]. lia.
    + rewrite IH. lia.
Qed.

(** What [update_statistics] does with a record [transform_post] returned:
    it counts it everywhere, or it counts the platform and stops at a topic
    that cannot be hashed. *)
Lemma update_statistics_processed p st :
  processed_ok p ->
  exists k topic rate s c h,
    getitem p "platform" = Ok k /\
    get_method p "topic" (VStr "unknown") = Ok topic /\
    update_statistics p st =
    if hashable topic
    then (set_hourly_stats (incr h (hourly_stats st))
            (set_category_stats (incr c (category_stats st))
               (set_sentiment_stats (incr s (sentiment_stats st))
                  (set_engagement_stats (append_to k rate (engagement_stats st))
                     (set_topic_stats (incr topic (topic_stats st))
                        (set_platform_stats (incr k (platform_stats st)) st))))),
          Ok tt)
    else (set_platform_stats (incr k (platform_stats st)) st, Raise TypeError).
Proof.
  intros [t [f [-> [_ [_ [[r [Lr _]] [_ [[pl Lpl] [[se Lse] [[ca Lca] [h Lh]]]]]]]]]]].
  exists (VStr pl), (dict_get "topic" (VStr "unknown") t), r, (VStr se), (VStr ca), (VInt h).
  split; [cbn [getitem]; rewrite Lpl; reflexivity|]. split; [reflexivity|].
  unfold update_statistics. cbv beta iota delta [cbind clift cget cmodify].
  cbn [getitem get_method]. rewrite Lpl, Lr, Lse, Lca, Lh.
  cbv beta iota. cbn [counter_incr hashable group_append].
  unfold counter_incr at 1.
  destruct (hashable (dict_get "topic" (VStr "unknown") t)); reflexivity.
Qed.

Lemma totals_match_step clk x st :
  totals_match st -> totals_match (fst (process_post clk x st)).
Proof.
  intros [T1 T2 T3 T4 T5 T6 T7].
  destruct (is_dict x) eqn:D.
  - destruct x as [| | | | | |d]; try discriminate. rewrite process_post_dict.
    destruct (validate_post (VDict d)) as [[[|] errors]|e] eqn:V.
    + destruct (validated_record _ _ V) as [d' [Ed VR]]. injection Ed as <-.
      destruct (transform_post (now_first clk) (VDict d)) as [p|e] eqn:T.
      * pose proof (transform_post_stores _ _ _ VR T) as PO.
        destruct (update_statistics_processed p st PO)
          as [k [topic [rate [s [c [h [_ [_ U]]]]]]]].
        rewrite U. destruct (hashable topic); cbn [fst];
          constructor; unfold stored, logged_failure; cbn -[counter_total group_total];
          rewrite ?counter_total_incr, ?group_total_append_to; lia.
      * constructor; unfold logged_failure; cbn -[counter_total group_total]; lia.
    + constructor; unfold logged_failure; cbn -[counter_total group_total]; lia.
    + constructor; unfold logged_failure; cbn -[counter_total group_total]; lia.
  - rewrite (process_post_non_dict clk x st D). constructor; cbn -[counter_total group_total]; lia.
Qed.

(** After any run, whatever the records were, the counters of topics,
    sentiments, categories and hours and the lists of engagement rates each
    hold one count for every processed record; the platform counter holds at
    least that many, and at most one more for every failed record. *)
Theorem statistics_count_processed_records (inputs : list (clock * pyval)) :
  totals_match (consume inputs new_consumer).
Proof.
  assert (G : forall st, totals_match st -> totals_match (consume inputs st)).
  { induction inputs as [|[clk x] rest IH]; intros st T; cbn [consume]; [exact T|].
    apply IH. apply totals_match_step. exact T. }
  apply G. constructor; cbn; lia.
Qed.

Lemma counts_match_step clk d st n :
  counts_match n st -> counts_match (n + 1) (fst (process_post clk (VDict d) st)).
Proof.
  intros [C1 C2 C3 C4]. rewrite process_post_dict.
  assert (F : forall errors now st1,
            same_records st st1 ->
            counts_match (n + 1) (logged_failure d errors now st1)).
  { intros errors now st1 [S1 [S2 [S3 [S4 S5]]]].
    constructor; unfold logged_failure; cbn; rewrite ?S1, ?S2, ?S3, ?S4, ?S5, ?length_app;
      cbn [List.length]; lia. }
  assert (R : same_records st st) by (repeat split).
  destruct (validate_post (VDict d)) as [[[|] errors]|e]; try (apply F; exact R).
  destruct (transform_post (now_first clk) (VDict d)) as [p|e]; try (apply F; exact R).
  destruct (update_statistics p st) as [st1 r] eqn:U.
  destruct (update_statistics_frame _ _ _ _ U) as [S _].
  destruct r as [[]|e]; cbn [fst]; [|apply F; exact S].
  destruct S as [S1 [S2 [S3 [S4 S5]]]].
  constructor; unfold stored; cbn; rewrite ?S1, ?S2, ?S3, ?S4, ?S5, ?length_app;
    cbn [List.length]; lia.
Qed.

(** After a run over records that are all dicts, every record has been
    counted once, as processed or as failed; the processed records and the
    processing times are as many as [processed_posts] says, and the error
    log has one entry for each failure. *)
Theorem run_counts_every_record (inputs : list (clock * pyval)) :
  Forall (fun input => is_dict (snd input) = true) inputs ->
  counts_match (Z.of_nat (List.length inputs)) (consume inputs new_consumer).
Proof.
  intro F.
  assert (G : forall n st, counts_match n st ->
                counts_match (n + Z.of_nat (List.length inputs)) (consume inputs st)).
  { induction F as [|[clk x] rest Hx F IH]; intros n st C; cbn [consume List.length].
    - rewrite Z.add_0_r. exact C.
    - cbn [snd] in Hx. destruct x as [| | | | | |d]; try discriminate.
      replace (n + Z.of_nat (S (List.length rest)))
        with (n + 1 + Z.of_nat (List.length rest)) by lia.
      apply IH. apply counts_match_step. exact C. }
  apply (G 0 new_consumer). constructor; reflexivity.
Qed.

Lemma run_counts_every_record_witness :
  Forall (fun input => is_dict (snd input) = true) sample_inputs /\
  counts_match (Z.of_nat (List.length sample_inputs)) (consume sample_inputs new_consumer).
Proof.
  assert (F : Forall (fun input => is_dict (snd input) = true) sample_inputs)
    by (repeat constructor).
  split; [exact F|]. exact (run_counts_every_record sample_inputs F).
Defined.

(** The three ways a call of [process_post] can end.  It returns the
    processed record, which then passed validation, is what [transform_post]
    made of the input and has been appended to [processed_data]; or it
    returns [None] after counting one failure and logging one entry; or, for
    an input that is not a dict, it raises [AttributeError] out of its own
    exception handler, after counting the failure twice and logging
    nothing. *)
Theorem process_post_outcomes (clk : clock) (x : pyval) (st : consumer) :
  match process_post clk x st with
  | (st', Ok (Some p)) =>
      validate_post x = Ok (true, []) /\
      transform_post (now_first clk) x = Ok p /\
      processed_data st' = processed_data st ++ [p] /\
      processed_posts st' = processed_posts st + 1 /\
      failed_posts st' = failed_posts st /\
      error_log st' = error_log st
  | (st', Ok None) =>
      is_dict x = true /\
      processed_data st' = processed_data st /\
      processed_posts st' = processed_posts st /\
      failed_posts st' = failed_posts st + 1 /\
      exists entry, error_log st' = error_log st ++ [entry]
  | (st', Raise e) =>
      is_dict x = false /\ e = AttributeError /\
      st' = set_failed_posts (failed_posts st + 2) st
  end.
Proof.
  destruct (is_dict x) eqn:D.
  - destruct x as [| | | | | |d]; try discriminate. rewrite process_post_dict.
    assert (F : forall errors now st1,
              same_records st st1 ->
              let st' := logged_failure d errors now st1 in
              true = true /\
              processed_data st' = processed_data st /\
              processed_posts st' = processed_posts st /\
              failed_posts st' = failed_posts st + 1 /\
              exists entry, error_log st' = error_log st ++ [entry]).
    { intros errors now st1 [S1 [S2 [S3 [S4 S5]]]]. unfold logged_failure. cbn.
      rewrite S1, S2, S3, S5. repeat split. eexists. reflexivity. }
    assert (R : same_records st st) by (repeat split).
    destruct (validate_post (VDict d)) as [[[|] errors]|e] eqn:V; try (apply F; exact R).
    destruct (validate_post_valid _ _ V) as [_ [_ [-> _]]].
    destruct (transform_post (now_first clk) (VDict d)) as [p|e]; try (apply F; exact R).
    destruct (update_statistics p st) as [st1 r] eqn:U.
    destruct (update_statistics_frame _ _ _ _ U) as [S _].
    destruct r as [[]|e]; [|apply F; exact S].
    destruct S as [S1 [S2 [S3 [S4 S5]]]]. unfold stored. cbn.
    rewrite S1, S2, S3, S5. repeat split.
  - rewrite (process_post_non_dict clk x st D). repeat split.
Qed.

(** A record that validation rejects is counted as failed and logged with
    the validation errors and its post id (['unknown'] if it has none); no
    statistic and no other field of the consumer changes. *)
Theorem rejected_record_is_logged (clk : clock) (d : pydict) (errors : list message)
    (st : consumer) :
  validate_post (VDict d) = Ok (false, errors) ->
  process_post clk (VDict d) st =
  (set_error_log
     (error_log st ++
      [mkErrorEntry (dict_get "post_id" (VStr "unknown") d) errors
         (isoformat (now_first clk))])
     (set_failed_posts (failed_posts st + 1) st),
   Ok None).
Proof. intro V. rewrite process_post_dict, V. reflexivity. Qed.

Lemma rejected_record_is_logged_witness :
  validate_post (VDict [("user_id", VInt 0)])
  = Ok (false,
        [FmtSet "Missing required fields: "
           ["post_id"; "username"; "platform"; "content"; "engagement"; "metadata";
            "sentiment"; "category"];
         Lit "user_id must be a positive integer"]) /\
  process_post sample_clock (VDict [("user_id", VInt 0)]) new_consumer =
  (set_error_log
     (error_log new_consumer ++
      [mkErrorEntry (dict_get "post_id" (VStr "unknown") [("user_id", VInt 0)])
         [FmtSet "Missing required fields: "
            ["post_id"; "username"; "platform"; "content"; "engagement"; "metadata";
             "sentiment"; "category"];
          Lit "user_id must be a positive integer"]
         (isoformat (now_first sample_clock))])
     (set_failed_posts (failed_posts new_consumer + 1) new_consumer),
   Ok None).
Proof.
  assert (V : validate_post (VDict [("user_id", VInt 0)])
              = Ok (false,
                    [FmtSet "Missing required fields: "
                       ["post_id"; "username"; "platform"; "content"; "engagement";
                        "metadata"; "sentiment"; "category"];
                     Lit "user_id must be a positive integer"]))
    by (vm_compute; reflexivity).
  split; [exact V|].
  exact (rejected_record_is_logged sample_clock [("user_id", VInt 0)] _ new_consumer V).
Defined.

(** An item that is not a dict (a string, a list, a number) is rejected by
    validation, but logging the failure calls [post_data.get], which raises
    [AttributeError]; the exception handler counts the failure a second time
    and raises again in the same way: the call raises, [failed_posts] has
    grown by two and nothing has been logged. *)
Theorem non_dict_record_counted_twice (clk : clock) (v : pyval) (st : consumer) :
  is_dict v = false ->
  validate_post v = Ok (false, [FmtExn "Validation error: " AttributeError]) /\
  process_post clk v st
  = (set_failed_posts (failed_posts st + 2) st, Raise AttributeError).
Proof.
  intro D. split; [|exact (process_post_non_dict clk v st D)].
  destruct v; try discriminate; reflexivity.
Qed.

Lemma non_dict_record_counted_twice_witness :
  is_dict (VStr "not a record") = false /\
  validate_post (VStr "not a record")
  = Ok (false, [FmtExn "Validation error: " AttributeError]) /\
  process_post sample_clock (VStr "not a record") new_consumer
  = (set_failed_posts (failed_posts new_consumer + 2) new_consumer, Raise AttributeError).
Proof.
  split; [reflexivity|].
  exact (non_dict_record_counted_twice sample_clock (VStr "not a record") new_consumer
           eq_refl).
Defined.

(** Validation does not ask for a timestamp, [transform_post] does: a record
    that passes validation with a metadata dict that holds no ['timestamp']
    makes [transform_post] raise, and [process_post] counts it as failed and
    logs the exception; the statistics stay as they were. *)
Theorem missing_timestamp_fails_processing (clk : clock) (d md : pydict) (st : consumer) :
  validate_post (VDict d) = Ok (true, []) ->
  lookup "metadata" d = Some (VDict md) ->
  lookup "timestamp" md = None ->
  exists e,
    transform_post (now_first clk) (VDict d) = Raise e /\
    process_post clk (VDict d) st =
    (set_error_log
       (error_log st ++
        [mkErrorEntry (dict_get "post_id" (VStr "unknown") d) [FmtExn "" e]
           (isoformat (now_second clk))])
       (set_failed_posts (failed_posts st + 1) st),
     Ok None).
Proof.
  intros V Lm Lt.
  destruct (transform_post_needs_timestamp (now_first clk) d md Lm Lt) as [e T].
  exists e. split; [exact T|]. rewrite process_post_dict, V, T. reflexivity.
Qed.

Lemma missing_timestamp_fails_processing_witness :
  validate_post (VDict post_without_timestamp) = Ok (true, []) /\
  lookup "metadata" post_without_timestamp = Some (VDict [("language", VStr "en")]) /\
  lookup "timestamp" [("language", VStr "en")] = None /\
  exists e,
    transform_post (now_first sample_clock) (VDict post_without_timestamp) = Raise e /\
    process_post sample_clock (VDict post_without_timestamp) new_consumer =
    (set_error_log
       (error_log new_consumer ++
        [mkErrorEntry (dict_get "post_id" (VStr "unknown") post_without_timestamp)
           [FmtExn "" e] (isoformat (now_second sample_clock))])
       (set_failed_posts (failed_posts new_consumer + 1) new_consumer),
     Ok None).
Proof.
  assert (V : validate_post (VDict post_without_timestamp) = Ok (true, []))
    by (vm_compute; reflexivity).
  split; [exact V|]. split; [reflexivity|]. split; [reflexivity|].
  exact (missing_timestamp_fails_processing sample_clock post_without_timestamp
           [("language", VStr "en")] new_consumer V eq_refl eq_refl).
Defined.

(** ** The consumption loop *)

Lemma process_post_is_running clk x st :
  is_running (fst (process_post clk x st)) = is_running st.
Proof.
  destruct (is_dict x) eqn:D.
  - destruct x as [| | | | | |d]; try discriminate. rewrite process_post_dict.
    assert (F : forall errors now st1, is_running st1 = is_running st ->
              is_running (logged_failure d errors now st1) = is_running st)
      by (intros errors now st1 H; exact H).
    destruct (validate_post (VDict d)) as [[[|] errors]|e]; try (apply F; reflexivity).
    destruct (transform_post (now_first clk) (VDict d)) as [p|e]; try (apply F; reflexivity).
    destruct (update_statistics p st) as [st1 r] eqn:U.
    assert (R : is_running st1 = is_running st).
    { cbv beta iota delta [update_statistics cbind clift cget cmodify] in U.
      repeat cstep U; injection U as <- _; reflexivity. }
    destruct r as [[]|e]; cbn [fst]; [exact R | apply F; exact R].
  - rewrite (process_post_non_dict clk x st D). reflexivity.
Qed.

Lemma process_post_result clk v st :
  match snd (process_post clk v st) with
  | Ok _ => is_dict v = true
  | Raise _ => is_dict v = false
  end.
Proof.
  destruct (is_dict v) eqn:D.
  - destruct v as [| | | | | |d]; try discriminate. rewrite process_post_dict.
    destruct (validate_post (VDict d)) as [[[|] errors]|e]; try reflexivity.
    destruct (transform_post (now_first clk) (VDict d)) as [p|e]; try reflexivity.
    destruct (update_statistics p st) as [st1 [[]|e]]; reflexivity.
  - rewrite (process_post_non_dict clk v st D). reflexivity.
Qed.

Lemma consume_is_running inputs st : is_running (consume inputs st) = is_running st.
Proof.
  revert st. induction inputs as [|[clk x] rest IH]; intro st; cbn [consume]; [reflexivity|].
  rewrite IH. apply process_post_is_running.
Qed.

Lemma count_dicts_cons clk v rest :
  count_dicts ((clk, v) :: rest) = (if is_dict v then 1 else 0) + count_dicts rest.
Proof.
  unfold count_dicts. cbn [filter snd]. destruct (is_dict v); cbn [List.length]; lia.
Qed.

Lemma consumption_loop_uninterrupted schedule st n :
  uninterrupted schedule -> is_running st = true ->
  consumption_loop schedule st n
  = (consume (arrived schedule) st, n + count_dicts (arrived schedule)).
Proof.
  intro U. revert st n.
  induction U as [|t rest [S A] U IH]; intros st n R; cbn [consumption_loop arrived].
  - cbn [consume]. unfold count_dicts. cbn. rewrite Z.add_0_r. reflexivity.
  - rewrite S, R. destruct (turn_arrival t) as [|v]; [apply IH; exact R|].
    cbn [consume]. rewrite count_dicts_cons.
    pose proof (process_post_result (turn_clock t) v st) as P.
    pose proof (process_post_is_running (turn_clock t) v st) as K.
    destruct (process_post (turn_clock t) v st) as [st' r]. cbn [fst snd] in P, K |- *.
    rewrite R in K.
    destruct v as [| b | z | f | s | l | d]; [contradiction A; reflexivity | | | | | |];
      destruct r; rewrite P, IH by exact K; f_equal; lia.
Qed.

Lemma set_is_running_twice b st :
  set_is_running false (set_is_running b st) = set_is_running false st.
Proof. reflexivity. Qed.

Lemma consumption_loop_ends before t after st n :
  uninterrupted before -> is_running st = true ->
  stop_called t = true \/ turn_arrival t = Item VNone ->
  consumption_loop (before ++ t :: after) st n
  = (set_is_running false (consume (arrived before) st),
     n + count_dicts (arrived before)).
Proof.
  intro U. revert st n.
  induction U as [|u rest [S A] U IH]; intros st n R E; cbn [app consumption_loop arrived].
  - cbn [consume]. unfold count_dicts. cbn [filter List.length Z.of_nat].
    rewrite Z.add_0_r.
    destruct (stop_called t) eqn:St; [reflexivity|].
    destruct E as [E | E]; [discriminate|]. rewrite R, E. reflexivity.
  - rewrite S, R. destruct (turn_arrival u) as [|v]; [apply IH; assumption|].
    cbn [consume]. rewrite count_dicts_cons.
    pose proof (process_post_result (turn_clock u) v st) as P.
    pose proof (process_post_is_running (turn_clock u) v st) as K.
    destruct (process_post (turn_clock u) v st) as [st' r]. cbn [fst snd] in P, K |- *.
    rewrite R in K.
    destruct v as [| b | z | f | s | l | d]; [contradiction A; reflexivity | | | | | |];
      destruct r; rewrite P, IH by assumption; f_equal; lia.
Qed.

(** The loop of [start_consumption] ends at the first turn that sees a stop
    request or takes the sentinel [None] off the queue: the consumer is what
    processing the items taken before that turn made of it, with
    [is_running] off; what the queue delivers afterwards is not processed,
    and [task_done] has been called once for each item taken before that
    was a dict, not for the sentinel. *)
Theorem consumption_ends_at_sentinel (before : list turn) (t : turn) (after : list turn)
    (st : consumer) :
  uninterrupted before ->
  stop_called t = true \/ turn_arrival t = Item VNone ->
  start_consumption (before ++ t :: after) st
  = (set_is_running false (consume (arrived before) st),
     count_dicts (arrived before)).
Proof.
  intros U E. unfold start_consumption.
  rewrite (consumption_loop_ends before t after (set_is_running true st) 0 U eq_refl E).
  cbn [Z.add]. f_equal.
  enough (G : forall inputs s b,
            consume inputs (set_is_running b s) = set_is_running b (consume inputs s))
    by (rewrite G; reflexivity).
  { induction inputs as [|[clk x] rest IH]; intros s b; cbn [consume]; [reflexivity|].
    rewrite <- IH. f_equal.
    destruct (is_dict x) eqn:D.
    - destruct x as [| | | | | |d]; try discriminate. rewrite !process_post_dict.
      destruct (validate_post (VDict d)) as [[[|] errors]|e]; try reflexivity.
      destruct (transform_post (now_first clk) (VDict d)) as [p|e]; try reflexivity.
      assert (W : update_statistics p (set_is_running b s)
                  = (set_is_running b (fst (update_statistics p s)),
                     snd (update_statistics p s))).
      { cbv beta iota delta [update_statistics cbind clift cget cmodify].
        repeat
          (cbn [platform_stats topic_stats engagement_stats sentiment_stats category_stats
                hourly_stats set_is_running set_platform_stats set_topic_stats
                set_engagement_stats set_sentiment_stats set_category_stats
                set_hourly_stats fst snd];
           match goal with
           | |- context [match ?r with Ok _ => _ | Raise _ => _ end] => destruct r
           end);
          reflexivity. }
      rewrite W. destruct (update_statistics p s) as [s1 [[]|e]]; reflexivity.
    - rewrite !(process_post_non_dict clk x _ D). reflexivity. }
Qed.

Lemma consumption_ends_at_sentinel_witness :
  uninterrupted turns_before_sentinel /\
  (stop_called sentinel_turn = true \/ turn_arrival sentinel_turn = Item VNone) /\
  start_consumption (turns_before_sentinel ++ sentinel_turn :: turns_with_a_string)
    new_consumer
  = (set_is_running false (consume (arrived turns_before_sentinel) new_consumer),
     count_dicts (arrived turns_before_sentinel)).
Proof.
  assert (U : uninterrupted turns_before_sentinel).
  { repeat constructor; discriminate. }
  assert (E : stop_called sentinel_turn = true \/ turn_arrival sentinel_turn = Item VNone)
    by (right; reflexivity).
  split; [exact U|]. split; [exact E|].
  exact (consumption_ends_at_sentinel turns_before_sentinel sentinel_turn
           turns_with_a_string new_consumer U E).
Defined.

(** As long as no stop is requested and no sentinel arrives, the loop of
    [start_consumption] calls [process_post] on every item it takes off the
    queue, in order, waits again after each timeout, and goes on after an
    item whose processing raised; it calls [task_done] once for each item
    that is a dict and never for an item that is not. *)
Theorem consumption_processes_every_item (schedule : list turn) (st : consumer) :
  uninterrupted schedule ->
  start_consumption schedule st
  = (consume (arrived schedule) (set_is_running true st),
     count_dicts (arrived schedule)).
Proof.
  intro U. unfold start_consumption.
  rewrite (consumption_loop_uninterrupted schedule (set_is_running true st) 0 U eq_refl).
  reflexivity.
Qed.

Lemma consumption_processes_every_item_witness :
  uninterrupted turns_with_a_string /\
  start_consumption turns_with_a_string new_consumer
  = (consume (arrived turns_with_a_string) (set_is_running true new_consumer),
     count_dicts (arrived turns_with_a_string)) /\
  List.length (arrived turns_with_a_string) = 3%nat /\
  count_dicts (arrived turns_with_a_string) = 2.
Proof.
  assert (U : uninterrupted turns_with_a_string).
  { repeat constructor; discriminate. }
  split; [exact U|].
  split; [exact (consumption_processes_every_item turns_with_a_string new_consumer U)|].
  split; reflexivity.
Defined.

(** ** The categories and hashtags of the producer *)

(** Whatever the content and the topic, the category [_categorize_content]
    returns is one of the five categories [validate_post] accepts. *)
Theorem categories_are_valid (content topic : string) :
  in_strings (_categorize_content content topic) valid_categories = true.
Proof.
  unfold _categorize_content.
  repeat match goal with
  | |- context [if ?b then _ else _] => destruct b
  end; reflexivity.
Qed.

Lemma assoc_get_absent {A : Type} key (default : A) table :
  ~ In key (map fst table) -> assoc_get key default table = default.
Proof.
  induction table as [|[k v] rest IH]; cbn [assoc_get map fst In]; intro N; [reflexivity|].
  destruct (String.eqb k key) eqn:E.
  - apply String.eqb_eq in E. exfalso. apply N. left. exact E.
  - apply IH. intro I. apply N. right. exact I.
Qed.

Lemma hashtag_pools_keys : map fst hashtag_pools = topics.
Proof. reflexivity. Qed.

(** For a topic that is not in the table of pools, [_generate_hashtags]
    samples from the default pool of two hashtags: it raises [ValueError]
    when three are asked for, and returns a sample when one or two are. *)
Theorem hashtags_of_unknown_topic (d : draws) (topic : string) :
  ~ In topic topics ->
  (draw_hashtag_count d = 3 -> _generate_hashtags d topic = Raise ValueError) /\
  (1 <= draw_hashtag_count d <= 2 ->
   exists tags,
     _generate_hashtags d topic = Ok tags /\
     List.length tags = List.length (draw_hashtags d)).
Proof.
  intro N. unfold _generate_hashtags.
  rewrite assoc_get_absent by (rewrite hashtag_pools_keys; exact N).
  unfold sample. cbn [List.length Z.of_nat Pos.of_succ_nat Pos.succ].
  split; intro H.
  - rewrite H. reflexivity.
  - destruct (draw_hashtag_count d <? 0) eqn:A; [apply Z.ltb_lt in A; lia|].
    destruct (2 <? draw_hashtag_count d) eqn:B; [apply Z.ltb_lt in B; lia|].
    cbn [orb]. eexists. split; [reflexivity | apply length_map].
Qed.

Lemma hashtags_of_unknown_topic_witness :
  ~ In "quantum computing" topics /\
  draw_hashtag_count three_hashtag_draws = 3 /\
  _generate_hashtags three_hashtag_draws "quantum computing" = Raise ValueError.
Proof.
  assert (N : ~ In "quantum computing" topics).
  { cbn. intros [E | [E | [E | [E | [E | [E | [E | [E | [E | [E | [E | []]]]]]]]]]]];
      discriminate E. }
  split; [exact N|]. split; [reflexivity|].
  exact (proj1 (hashtags_of_unknown_topic three_hashtag_draws "quantum computing" N)
           eq_refl).
Defined.

Lemma NoDup_map_nth (pool : list string) (positions : list nat) :
  NoDup pool -> NoDup positions ->
  Forall (fun i => (i < List.length pool)%nat) positions ->
  NoDup (map (fun i => nth i pool "") positions).
Proof.
  intros Np Ni F. induction Ni as [|i rest Hi Ni IH]; cbn [map]; [constructor|].
  inversion F as [|? ? Fi Frest]; subst.
  constructor; [|apply IH; exact Frest].
  intro I. apply in_map_iff in I. destruct I as [j [E J]].
  assert (Fj : (j < List.length pool)%nat)
    by exact (proj1 (Forall_forall _ _) Frest j J).
  assert (j = i) by (apply (proj1 (NoDup_nth pool "") Np); assumption).
  subst j. exact (Hi J).
Qed.

Lemma hashtag_pool_distinct i :
  (i < List.length topics)%nat ->
  NoDup (assoc_get (nth i topics "") ["#Tech"; "#Innovation"] hashtag_pools).
Proof.
  intro H. cbn in H.
  do 11 (destruct i as [|i];
         [cbn; repeat constructor; cbn; intuition discriminate|]).
  lia.
Qed.

(** For each of the eleven topics, [_generate_hashtags] returns as many
    hashtags as were asked for (one to three), all different, all taken from
    the pool of the topic. *)
Theorem hashtags_come_from_the_pool (d : draws) (i : nat) :
  (i < List.length topics)%nat ->
  1 <= draw_hashtag_count d <= 3 ->
  Z.of_nat (List.length (draw_hashtags d)) = draw_hashtag_count d ->
  NoDup (draw_hashtags d) ->
  Forall (fun i => (i < 4)%nat) (draw_hashtags d) ->
  exists tags,
    _generate_hashtags d (nth i topics "") = Ok tags /\
    Z.of_nat (List.length tags) = draw_hashtag_count d /\
    NoDup tags /\
    Forall (fun tag =>
              In tag (assoc_get (nth i topics "") ["#Tech"; "#Innovation"] hashtag_pools))
           tags.
Proof.
  intros Hi Hk Hl Hn Hf. unfold _generate_hashtags.
  pose proof (hashtag_pool_size i Hi) as S.
  rewrite sample_in_range by (rewrite S; lia).
  eexists. split; [reflexivity|]. split; [rewrite length_map; exact Hl|]. split.
  - apply NoDup_map_nth; [apply hashtag_pool_distinct; exact Hi | exact Hn|].
    rewrite S. exact Hf.
  - apply Forall_forall. intros tag I. apply in_map_iff in I. destruct I as [j [<- J]].
    apply nth_In. rewrite S. exact (proj1 (Forall_forall _ _) Hf j J).
Qed.

Lemma hashtags_come_from_the_pool_witness :
  (0 < List.length topics)%nat /\
  1 <= draw_hashtag_count sample_draws <= 3 /\
  Z.of_nat (List.length (draw_hashtags sample_draws)) = draw_hashtag_count sample_draws /\
  NoDup (draw_hashtags sample_draws) /\
  Forall (fun i => (i < 4)%nat) (draw_hashtags sample_draws) /\
  exists tags,
    _generate_hashtags sample_draws (nth 0 topics "") = Ok tags /\
    Z.of_nat (List.length tags) = draw_hashtag_count sample_draws /\
    NoDup tags /\
    Forall (fun tag =>
              In tag (assoc_get (nth 0 topics "") ["#Tech"; "#Innovation"] hashtag_pools))
           tags.
Proof.
  assert (A : (0 < List.length topics)%nat) by (cbn; lia).
  assert (B : 1 <= draw_hashtag_count sample_draws <= 3) by (cbn; lia).
  assert (C : Z.of_nat (List.length (draw_hashtags sample_draws))
              = draw_hashtag_count sample_draws) by reflexivity.
  assert (D : NoDup (draw_hashtags sample_draws)).
  { cbn. constructor; [cbn; intros [E | []]; discriminate E|].
    constructor; [intros [] | constructor]. }
  assert (F : Forall (fun i => (i < 4)%nat) (draw_hashtags sample_draws)).
  { cbn. constructor; [lia|]. constructor; [lia | constructor]. }
  split; [exact A|]. split; [exact B|]. split; [exact C|]. split; [exact D|].
  split; [exact F|].
  exact (hashtags_come_from_the_pool sample_draws 0 A B C D F).
Defined.

(** ** The statistics of the producer *)

(** [get_stats] of the producer divides by [max_posts]: it raises
    [ZeroDivisionError] for a producer made with [max_posts = 0]; for a
    producer that has generated at most [max_posts > 0] posts the completion
    percentage is a float between 0 and 100, and it is exactly 100 once
    [max_posts] posts have been generated. *)
Theorem completion_percentage_range (p : producer) :
  (max_posts p = 0 -> producer_get_stats p = Raise ZeroDivisionError) /\
  (0 <= posts_generated p <= max_posts p -> 0 < max_posts p ->
   exists s q,
     producer_get_stats p = Ok s /\
     completion_percentage s = Fin q /\ (0 <= q)%Q /\ (q <= 100)%Q /\
     (posts_generated p = max_posts p -> (q == 100)%Q)).
Proof.
  unfold producer_get_stats, int_truediv. split.
  - intros ->. reflexivity.
  - intros [G0 G1] M.
    destruct (max_posts p =? 0) eqn:E; [apply Z.eqb_eq in E; lia|].
    assert (P0 : (0 <= inject_Z (posts_generated p))%Q)
      by (change 0%Q with (inject_Z 0); rewrite <- Zle_Qle; exact G0).
    assert (T0 : (0 < inject_Z (max_posts p))%Q)
      by (change 0%Q with (inject_Z 0); rewrite <- Zlt_Qlt; exact M).
    assert (PT : (inject_Z (posts_generated p) <= inject_Z (max_posts p))%Q)
      by (rewrite <- Zle_Qle; exact G1).
    assert (R0 : (0 <= inject_Z (posts_generated p) / inject_Z (max_posts p))%Q).
    { apply Qle_shift_div_l; [exact T0|]. rewrite Qmult_0_l. exact P0. }
    assert (R1 : (inject_Z (posts_generated p) / inject_Z (max_posts p) <= pow2 0)%Q).
    { apply Qle_shift_div_r; [exact T0|]. change (pow2 0) with 1%Q.
      rewrite Qmult_1_l. exact PT. }
    destruct (fl_bounded _ 0 R0 R1 ltac:(lia)) as [E1 [L1 U1]]. rewrite E1.
    change (pow2 0) with 1%Q in U1.
    cbn [rbind]. rewrite float_of_int_100. cbn [rbind fmul].
    set (q := rnd64 (inject_Z (posts_generated p) / inject_Z (max_posts p))) in *.
    assert (H0 : (0 <= q * 100)%Q) by nra.
    assert (H1 : (q * 100 <= inject_Z 100)%Q) by (change (inject_Z 100) with 100%Q; nra).
    assert (H2 : (rnd64 (q * 100) <= 100)%Q).
    { apply (rnd64_le_Z (q * 100) 100); [cbn; lia | exact H1]. }
    assert (P7 : (100 <= pow2 7)%Q) by (vm_compute; discriminate).
    destruct (fl_bounded (q * 100) 7 H0
                ltac:(change (inject_Z 100) with 100%Q in H1; lra) ltac:(lia))
      as [E2 [L2 _]].
    rewrite E2. eexists. exists (rnd64 (q * 100)). split; [reflexivity|].
    cbn [completion_percentage]. split; [reflexivity|]. split; [exact L2|].
    split; [exact H2|].
    intro Eq. unfold q. rewrite Eq.
    assert (One : (inject_Z (max_posts p) / inject_Z (max_posts p) == inject_Z 1)%Q).
    { change (inject_Z 1) with 1%Q. field. intro Z0. rewrite Z0 in T0.
      exact (Qlt_irrefl _ T0). }
    rewrite (rnd64_comp _ _ One).
    assert (R : (rnd64 (inject_Z 1) == inject_Z 1)%Q) by (apply rnd64_Z; cbn; lia).
    assert (C : (rnd64 (inject_Z 1) * 100 == inject_Z 100)%Q)
      by (rewrite R; reflexivity).
    rewrite (rnd64_comp _ _ C). apply rnd64_Z. cbn. lia.
Qed.

Lemma completion_percentage_range_witness :
  (max_posts (mkProducer 0 0 false) = 0 ->
   producer_get_stats (mkProducer 0 0 false) = Raise ZeroDivisionError) /\
  0 <= posts_generated (mkProducer 50 50 false) <= max_posts (mkProducer 50 50 false) /\
  0 < max_posts (mkProducer 50 50 false) /\
  exists s q,
    producer_get_stats (mkProducer 50 50 false) = Ok s /\
    completion_percentage s = Fin q /\ (0 <= q)%Q /\ (q <= 100)%Q /\
    (posts_generated (mkProducer 50 50 false) = max_posts (mkProducer 50 50 false) ->
     (q == 100)%Q).
Proof.
  split; [exact (proj1 (completion_percentage_range (mkProducer 0 0 false)))|].
  assert (A : 0 <= posts_generated (mkProducer 50 50 false)
              <= max_posts (mkProducer 50 50 false)) by (cbn; lia).
  assert (B : 0 < max_posts (mkProducer 50 50 false)) by (cbn; lia).
  split; [exact A|]. split; [exact B|].
  exact (proj2 (completion_percentage_range (mkProducer 50 50 false)) A B).
Defined.

(** ** The counts of a generated record *)

Lemma fmul_between a b c d lo hi n f g :
  between a b f -> between c d g -> (0 <= a)%Q -> (0 <= c)%Q ->
  (b * d <= pow2 n)%Q -> -1074 <= n < 1024 ->
  (lo <= rnd64 (a * c))%Q -> (rnd64 (b * d) <= hi)%Q ->
  between lo hi (fmul f g).
Proof.
  intros [p [-> [P0 P1]]] [q [-> [Q0 Q1]]] A C B N L H. cbn [fmul].
  assert (X0 : (0 <= p * q)%Q) by nra.
  assert (X1 : (a * c <= p * q)%Q) by nra.
  assert (X2 : (p * q <= b * d)%Q) by nra.
  destruct (fl_bounded (p * q) n X0 ltac:(lra) N) as [E _]. rewrite E.
  exists (rnd64 (p * q)). split; [reflexivity|].
  pose proof (rnd64_mono _ _ X1). pose proof (rnd64_mono _ _ X2). split; lra.
Qed.

Lemma float_trunc_between lo hi zlo zhi f :
  between lo hi f -> (0 <= lo)%Q -> (inject_Z zlo <= lo)%Q -> (hi <= inject_Z zhi)%Q ->
  exists z, float_trunc f = Ok z /\ zlo <= z <= zhi.
Proof.
  intros [q [-> [Q0 Q1]]] L0 L H. cbn [float_trunc].
  assert (E : Qle_bool 0 q = true) by (apply Qle_bool_iff; lra). rewrite E.
  eexists. split; [reflexivity|]. split.
  - rewrite <- (Qfloor_Z zlo). apply Qfloor_resp_le. lra.
  - pose proof (Qfloor_le q) as F. rewrite Zle_Qle. lra.
Qed.

Lemma multiplier_between i :
  (i < List.length platforms)%nat ->
  between (rnd64 (4 # 5)) 3 (assoc_get (nth i platforms "") (fl 1) engagement_multiplier).
Proof.
  intro H. cbn in H.
  do 5 (destruct i as [|i];
        [eexists; split; [vm_compute; reflexivity | split; vm_compute; discriminate]|]).
  lia.
Qed.

Lemma float_of_int_between lo hi n :
  lo <= n <= hi -> Z.abs n <= 2 ^ 53 ->
  exists f, float_of_int n = Ok f /\ between (inject_Z lo) (inject_Z hi) f.
Proof.
  intros H B. destruct (float_of_int_exact n B) as [q [E Q]].
  exists (Fin q). split; [exact E|]. exists q. split; [reflexivity|].
  rewrite Q, <- !Zle_Qle. lia.
Qed.

Lemma fl_between x : (0 <= x)%Q -> (x <= 1)%Q -> between (rnd64 x) (rnd64 x) (fl x).
Proof.
  intros L U. destruct (fl_bounded x 0 L U ltac:(lia)) as [E _]. rewrite E.
  eexists. split; [reflexivity|]. split; apply Qle_refl.
Qed.

Ltac qcompute := vm_compute; discriminate.

(** What [generate_post] returns for draws in range, with the ranges of its
    four counts. *)
Lemma generate_post_shape posts_generated d :
  draws_in_range d ->
  exists seconds us post_time likes shares comments views,
    timedelta_of_hours (draw_time_offset d) = Ok us /\
    datetime_sub (draw_now d) us = Ok post_time /\
    valid_datetime post_time = true /\
    generated_counts likes shares comments views /\
    generate_post posts_generated d
    = Ok (generated_record posts_generated d seconds post_time likes shares comments views).
Proof.
  intros [Ht Hu Hun Hp Hto Hte Hb [Hn Hy] Hoff Hl Hs Hc Hv Hve Hm Hk Hh Hme Hse].
  unfold generate_post.
  destruct (float_trunc_bounded _ _ (between_bounded _ _ 62 _ Ht ltac:(lra)
              ltac:(rewrite (pow2_Z 62) by lia; apply Qle_refl))) as [seconds [-> _]].
  cbn [rbind].
  destruct (float_of_int_between 10 1000 _ Hb ltac:(lia)) as [base [-> Bb]]. cbn [rbind].
  destruct Hoff as [off [Eoff [O0 O1]]]. rewrite Eoff. cbn [timedelta_of_hours].
  destruct (timedelta_hours_day off O0 O1) as [us [Eus Us]]. rewrite Eus. cbn [rbind].
  destruct (datetime_sub_day _ us Hn Hy Us) as [post_time [Ept Vt]]. rewrite Ept.
  cbn [rbind].
  pose proof (fmul_between _ _ _ _ 8 3000 12 _ _ Bb (multiplier_between _ Hp)
                ltac:(qcompute) ltac:(qcompute) ltac:(qcompute) ltac:(lia)
                ltac:(qcompute) ltac:(qcompute)) as Bs.
  destruct (float_trunc_between _ _ 6 3600 _
              (fmul_between _ _ _ _ (32 # 5) 3600 12 _ _ Bs Hl
                 ltac:(qcompute) ltac:(qcompute) ltac:(qcompute) ltac:(lia)
                 ltac:(qcompute) ltac:(qcompute))
              ltac:(qcompute) ltac:(qcompute) ltac:(qcompute)) as [likes [El L0]].
  unfold int_of_product at 1. rewrite El. cbn [rbind].
  pose proof (fmul_between _ _ _ _ (4 # 5) 300 9 _ _ Bs
                (fl_between (1 # 10) ltac:(qcompute) ltac:(qcompute))
                ltac:(qcompute) ltac:(qcompute) ltac:(qcompute) ltac:(lia)
                ltac:(qcompute) ltac:(qcompute)) as Bsh.
  destruct (float_trunc_between _ _ 0 450 _
              (fmul_between _ _ _ _ (2 # 5) 450 9 _ _ Bsh Hs
                 ltac:(qcompute) ltac:(qcompute) ltac:(qcompute) ltac:(lia)
                 ltac:(qcompute) ltac:(qcompute))
              ltac:(qcompute) ltac:(qcompute) ltac:(qcompute)) as [shares [Es S0]].
  unfold int_of_product at 1. rewrite Es. cbn [rbind].
  pose proof (fmul_between _ _ _ _ (2 # 5) 150 8 _ _ Bs
                (fl_between (1 # 20) ltac:(qcompute) ltac:(qcompute))
                ltac:(qcompute) ltac:(qcompute) ltac:(qcompute) ltac:(lia)
                ltac:(qcompute) ltac:(qcompute)) as Bco.
  destruct (float_trunc_between _ _ 0 300 _
              (fmul_between _ _ _ _ (1 # 10) 300 9 _ _ Bco Hc
                 ltac:(qcompute) ltac:(qcompute) ltac:(qcompute) ltac:(lia)
                 ltac:(qcompute) ltac:(qcompute))
              ltac:(qcompute) ltac:(qcompute) ltac:(qcompute)) as [comments [Ec C0]].
  unfold int_of_product at 1. rewrite Ec. cbn [rbind].
  destruct (float_of_int_between 10 10 10 ltac:(lia) ltac:(lia)) as [ten [-> Bten]].
  cbn [rbind].
  pose proof (fmul_between _ _ _ _ 80 30000 15 _ _ Bs Bten
                ltac:(qcompute) ltac:(qcompute) ltac:(qcompute) ltac:(lia)
                ltac:(qcompute) ltac:(qcompute)) as Bv.
  destruct (float_trunc_between _ _ 400 450000 _
              (fmul_between _ _ _ _ 400 450000 19 _ _ Bv Hv
                 ltac:(qcompute) ltac:(qcompute) ltac:(qcompute) ltac:(lia)
                 ltac:(qcompute) ltac:(qcompute))
              ltac:(qcompute) ltac:(qcompute) ltac:(qcompute)) as [views [Ev V0]].
  unfold int_of_product at 1. rewrite Ev. cbn [rbind].
  unfold _generate_hashtags.
  rewrite sample_in_range by (rewrite (hashtag_pool_size _ Hto); lia).
  cbn [rbind].
  exists seconds, us, post_time, likes, shares, comments, views.
  split; [first [reflexivity | exact Eus]|]. split; [exact Ept|].
  split; [exact Vt|]. split; [repeat split; lia | reflexivity].
Qed.

(** For draws in range, [generate_post] returns a record whose likes lie
    between 6 and 3600, shares between 0 and 450, comments between 0 and
    300, and views between 400 and 450000: a generated record always has
    views, and its counts are far below the magnitudes at which floats lose
    integers. *)
Theorem generated_counts_are_bounded (posts_generated : Z) (d : draws) :
  draws_in_range d ->
  exists post likes shares comments views,
    generate_post posts_generated d = Ok post /\
    getitem post "engagement" = Ok (engagement_block likes shares comments views) /\
    6 <= likes <= 3600 /\ 0 <= shares <= 450 /\ 0 <= comments <= 300 /\
    400 <= views <= 450000.
Proof.
  intro R.
  destruct (generate_post_shape posts_generated d R)
    as [seconds [us [post_time [likes [shares [comments [views [_ [_ [_ [B G]]]]]]]]]]].
  eexists. exists likes, shares, comments, views.
  split; [exact G|]. split; [reflexivity | exact B].
Qed.

Lemma generated_counts_are_bounded_witness :
  draws_in_range sample_draws /\
  exists post likes shares comments views,
    generate_post 41 sample_draws = Ok post /\
    getitem post "engagement" = Ok (engagement_block likes shares comments views) /\
    6 <= likes <= 3600 /\ 0 <= shares <= 450 /\ 0 <= comments <= 300 /\
    400 <= views <= 450000.
Proof.
  split; [exact sample_draws_in_range|].
  exact (generated_counts_are_bounded 41 sample_draws sample_draws_in_range).
Defined.

Lemma generated_record_valid posts_generated d seconds post_time likes shares comments views :
  draws_in_range d -> valid_datetime post_time = true ->
  generated_counts likes shares comments views ->
  validate_post
    (generated_record posts_generated d seconds post_time likes shares comments views)
  = Ok (true, []).
Proof.
  intros [Ht Hu Hun Hp Hto Hte Hb [Hn Hy] Hoff Hl Hs Hc Hv Hve Hm Hk Hh Hme Hse] Vt
         [L [S [C V]]].
  pose proof (content_choice_ok _ _ Hte Hto) as Ck. unfold content_ok in Ck.
  cbv zeta in Ck. rewrite !andb_true_iff, negb_true_iff, Z.leb_le in Ck.
  destruct Ck as [[Ck1 Ck2] Ck3].
  unfold generated_record.
  apply (record_of_valid _ _ _ _ _ _ _ _ _ _ post_time); try assumption; try lia.
  - apply strip_nonblank. reflexivity.
  - apply platform_choice_valid. exact Hp.
  - apply sentiment_choice_valid. exact Hse.
Qed.

(** ** Processing a generated record *)

Lemma engagement_rate_finite l s c v :
  0 <= l -> 0 <= s -> 0 <= c -> 0 < v -> l + s + c < 2 ^ 64 ->
  exists q, engagement_rate l s c v = Ok (VFloat (Fin q)) /\ (0 <= q)%Q.
Proof.
  intros Hl Hs Hc Pv B. rewrite engagement_rate_unfold.
  assert (E : (0 <? v) = true) by (apply Z.ltb_lt; exact Pv). rewrite E.
  set (t := l + s + c) in *.
  unfold int_truediv. destruct (v =? 0) eqn:V0; [lia|].
  assert (T0 : (0 <= inject_Z t)%Q)
    by (change 0%Q with (inject_Z 0); rewrite <- Zle_Qle; lia).
  assert (T1 : (inject_Z t <= pow2 64)%Q)
    by (rewrite (pow2_Z 64) by lia; rewrite <- Zle_Qle; lia).
  assert (V1 : (1 <= inject_Z v)%Q)
    by (change 1%Q with (inject_Z 1); rewrite <- Zle_Qle; lia).
  assert (R0 : (0 <= inject_Z t / inject_Z v)%Q).
  { apply Qle_shift_div_l; qlra. }
  assert (R1 : (inject_Z t / inject_Z v <= pow2 64)%Q).
  { apply Qle_shift_div_r; [qlra|]. pose proof (pow2_pos 64). qnra. }
  destruct (fl_bounded _ 64 R0 R1 ltac:(lia)) as [E1 [L1 U1]]. rewrite E1. cbn [rbind fmul].
  set (q1 := rnd64 (inject_Z t / inject_Z v)) in *.
  assert (P64 : (pow2 71 == pow2 64 * 128)%Q) by reflexivity.
  destruct (fl_bounded (q1 * 100) 71 ltac:(nra) ltac:(rewrite P64; nra) ltac:(lia))
    as [E2 [L2 U2]].
  rewrite E2. cbn [float_round2].
  set (q2 := rnd64 (q1 * 100)) in *.
  destruct (round_half_even_bounds (q2 * 100)) as [B1 B2].
  pose proof (round_half_even_nonneg (q2 * 100) ltac:(nra)) as N.
  rewrite Zle_Qle in N. change (inject_Z 0) with 0%Q in N.
  set (m := inject_Z (round_half_even (q2 * 100))) in *. clearbody m.
  assert (P72 : (pow2 72 == pow2 71 * 2)%Q) by reflexivity.
  pose proof (pow2_pos 71) as P71.
  assert (G1 : (1 <= pow2 71)%Q) by (vm_compute; discriminate).
  destruct (fl_bounded (m / 100) 72) as [E3 [L3 U3]]; [ | | lia | ].
  - apply Qle_shift_div_l; [reflexivity | lra].
  - apply Qle_shift_div_r; [reflexivity|]. rewrite P72. lra.
  - rewrite E3. eexists. split; [reflexivity | exact L3].
Qed.

Lemma transform_post_record_of now post_id user_id username platform content topic
    likes shares comments views dt verified has_media hashtags mentions sentiment category :
  0 <= likes -> 0 <= shares -> 0 <= comments -> 0 < views ->
  likes + 3 * shares + 2 * comments + views < 2 ^ 53 ->
  valid_datetime dt = true ->
  exists p,
    transform_post now
      (record_of post_id user_id username platform content topic likes shares comments
         views (isoformat dt) verified has_media hashtags mentions sentiment category)
    = Ok p /\
    getitem p "post_hour" = Ok (VInt (hour dt)) /\
    get_method p "topic" (VStr "unknown") = Ok (VStr topic).
Proof.
  intros Hl Hs Hc Hv B Vd.
  destruct (engagement_rate_finite likes shares comments views Hl Hs Hc Hv ltac:(lia))
    as [q [Er _]].
  destruct (popularity_score_value likes shares comments views Hl Hs Hc ltac:(lia) B)
    as [f [Ep _]].
  unfold engagement_rate in Er. unfold popularity_score in Ep.
  unfold transform_post, record_of.
  cbn [copy_for_update rbind getitem lookup String.eqb Ascii.eqb Bool.eqb engagement_block].
  cbn [engagement_block] in Ep.
  destruct (py_add (VInt likes) (VInt shares)) as [ls|e] eqn:A1; [|discriminate Er].
  cbn [rbind] in Er |- *.
  destruct (py_add ls (VInt comments)) as [tot|e] eqn:A2; [|discriminate Er].
  cbn [rbind] in Er |- *. rewrite Er. cbn [rbind py_len word_count get_method dict_get lookup
    String.eqb Ascii.eqb Bool.eqb].
  rewrite Ep. cbn [rbind py_fromisoformat].
  rewrite (fromisoformat_isoformat dt Vd).
  eexists. split; [reflexivity|]. split.
  - cbn [getitem]. rewrite lookup_dict_set. reflexivity.
  - cbn [get_method]. unfold dict_get. rewrite !lookup_dict_set. reflexivity.
Qed.

Lemma process_post_success clk v p st st1 :
  validate_post v = Ok (true, []) ->
  transform_post (now_first clk) v = Ok p ->
  update_statistics p st = (st1, Ok tt) ->
  process_post clk v st = (stored p (fsub (time_end clk) (time_start clk)) st1, Ok (Some p)).
Proof.
  intros V T U. unfold process_post, process_post_body.
  cbv beta iota delta [cbind clift]. rewrite V. cbn [negb]. cbv beta iota.
  rewrite T. cbv beta iota. rewrite U. reflexivity.
Qed.

Lemma process_generated_record clk st posts_generated d seconds post_time
    likes shares comments views :
  draws_in_range d -> valid_datetime post_time = true ->
  generated_counts likes shares comments views ->
  exists p st1,
    transform_post (now_first clk)
      (generated_record posts_generated d seconds post_time likes shares comments views)
    = Ok p /\
    getitem p "post_hour" = Ok (VInt (hour post_time)) /\
    same_records st st1 /\
    process_post clk
      (generated_record posts_generated d seconds post_time likes shares comments views) st
    = (stored p (fsub (time_end clk) (time_start clk)) st1, Ok (Some p)).
Proof.
  intros R Vt B.
  pose proof (generated_record_valid posts_generated d seconds post_time
                likes shares comments views R Vt B) as V.
  destruct B as [L [S [C W]]].
  destruct (transform_post_record_of (now_first clk)
              ("post_" ++ str_of_Z (posts_generated + 1) ++ "_" ++ str_of_Z seconds)%string
              (draw_user_id d) (nth (draw_username d) usernames "")
              (nth (draw_platform d) platforms "")
              (format_topic (nth (draw_template d) content_templates "")
                 (nth (draw_topic d) topics ""))
              (nth (draw_topic d) topics "") likes shares comments views post_time
              (nth (draw_verified d) [true; false] false)
              (nth (draw_has_media d) [true; false] false)
              (map (fun i => nth i (assoc_get (nth (draw_topic d) topics "")
                                      ["#Tech"; "#Innovation"] hashtag_pools) "")
                   (draw_hashtags d))
              (draw_mentions d) (nth (draw_sentiment d) valid_sentiments "")
              (_categorize_content
                 (format_topic (nth (draw_template d) content_templates "")
                    (nth (draw_topic d) topics ""))
                 (nth (draw_topic d) topics ""))
              ltac:(lia) ltac:(lia) ltac:(lia) ltac:(lia) ltac:(lia) Vt)
    as [p [T [H Tp]]].
  fold (generated_record posts_generated d seconds post_time likes shares comments views) in T.
  destruct (validated_record _ _ V) as [d0 [Ed VR]].
  assert (PO : processed_ok p).
  { rewrite Ed in T. exact (transform_post_stores _ _ _ VR T). }
  destruct (update_statistics_processed p st PO) as [k [topic [rate [s [c [h [_ [G U]]]]]]]].
  rewrite Tp in G. injection G as <-. cbn [hashable] in U.
  destruct (update_statistics_frame _ _ _ _ U) as [SR _].
  eexists. eexists. split; [exact T|]. split; [exact H|]. split; [exact SR|].
  exact (process_post_success clk _ p st _ V T U).
Qed.

(** A record [generate_post] returned for draws in range goes through
    [process_post] without failure, whatever the state of the consumer: it
    is transformed, counted and stored, [processed_posts] grows by one, and
    [failed_posts] and the error log stay as they were. *)
Theorem generated_post_is_processed (clk : clock) (st : consumer)
    (posts_generated : Z) (d : draws) :
  draws_in_range d ->
  exists post p st',
    generate_post posts_generated d = Ok post /\
    transform_post (now_first clk) post = Ok p /\
    process_post clk post st = (st', Ok (Some p)) /\
    processed_posts st' = processed_posts st + 1 /\
    processed_data st' = processed_data st ++ [p] /\
    failed_posts st' = failed_posts st /\
    error_log st' = error_log st.
Proof.
  intro R.
  destruct (generate_post_shape posts_generated d R)
    as [seconds [us [post_time [likes [shares [comments [views [_ [_ [Vt [B G]]]]]]]]]]].
  destruct (process_generated_record clk st posts_generated d seconds post_time
              likes shares comments views R Vt B)
    as [p [st1 [T [_ [[S1 [S2 [S3 [S4 S5]]]] P]]]]].
  eexists. exists p. eexists. split; [exact G|]. split; [exact T|]. split; [exact P|].
  unfold stored. cbn. rewrite S1, S2, S3, S5. repeat split.
Qed.

Lemma generated_post_is_processed_witness :
  draws_in_range sample_draws /\
  exists post p st',
    generate_post 41 sample_draws = Ok post /\
    transform_post (now_first sample_clock) post = Ok p /\
    process_post sample_clock post new_consumer = (st', Ok (Some p)) /\
    processed_posts st' = processed_posts new_consumer + 1 /\
    processed_data st' = processed_data new_consumer ++ [p] /\
    failed_posts st' = failed_posts new_consumer /\
    error_log st' = error_log new_consumer.
Proof.
  split; [exact sample_draws_in_range|].
  exact (generated_post_is_processed sample_clock new_consumer 41 sample_draws
           sample_draws_in_range).
Defined.

(** The timestamp the producer writes is read back by the consumer: the
    [post_hour] that [transform_post] stores for a generated record is the
    hour of the datetime [now - time_offset] the producer computed. *)
Theorem generated_timestamp_is_read_back (now : datetime) (posts_generated : Z) (d : draws) :
  draws_in_range d ->
  exists post us post_time p,
    generate_post posts_generated d = Ok post /\
    timedelta_of_hours (draw_time_offset d) = Ok us /\
    datetime_sub (draw_now d) us = Ok post_time /\
    transform_post now post = Ok p /\
    getitem p "post_hour" = Ok (VInt (hour post_time)).
Proof.
  intro R.
  destruct (generate_post_shape posts_generated d R)
    as [seconds [us [post_time [likes [shares [comments [views [U [S [Vt [B G]]]]]]]]]]].
  destruct (process_generated_record (mkClock (Fin 0) (Fin 0) now now) new_consumer
              posts_generated d seconds post_time likes shares comments views R Vt B)
    as [p [st1 [T [H _]]]].
  eexists. exists us, post_time, p.
  split; [exact G|]. split; [exact U|]. split; [exact S|]. split; [exact T | exact H].
Qed.

Lemma generated_timestamp_is_read_back_witness :
  draws_in_range sample_draws /\
  exists post us post_time p,
    generate_post 41 sample_draws = Ok post /\
    timedelta_of_hours (draw_time_offset sample_draws) = Ok us /\
    datetime_sub (draw_now sample_draws) us = Ok post_time /\
    transform_post (now_first sample_clock) post = Ok p /\
    getitem p "post_hour" = Ok (VInt (hour post_time)).
Proof.
  split; [exact sample_draws_in_range|].
  exact (generated_timestamp_is_read_back (now_first sample_clock) 41 sample_draws
           sample_draws_in_range).
Defined.

Lemma process_generated_input clk x st :
  generated_input (clk, x) ->
  let st' := fst (process_post clk x st) in
  processed_posts st' = processed_posts st + 1 /\
  failed_posts st' = failed_posts st /\
  error_log st' = error_log st.
Proof.
  intros [n [d [R G]]]. cbn [snd] in G.
  destruct (generate_post_shape n d R)
    as [seconds [us [post_time [likes [shares [comments [views [_ [_ [Vt [B G']]]]]]]]]]].
  rewrite G in G'. injection G' as ->.
  destruct (process_generated_record clk st n d seconds post_time
              likes shares comments views R Vt B)
    as [p [st1 [_ [_ [[S1 [S2 [S3 [S4 S5]]]] P]]]]].
  rewrite P. unfold stored. cbn. rewrite S1, S2, S5. repeat split.
Qed.

(** The consumer never fails on what the producer makes: after a run over
    records that [generate_post] returned for draws in range, every record
    is counted as processed, none as failed, and the error log is empty. *)
Theorem generated_run_has_no_failures (inputs : list (clock * pyval)) :
  Forall generated_input inputs ->
  let st := consume inputs new_consumer in
  processed_posts st = Z.of_nat (List.length inputs) /\
  failed_posts st = 0 /\
  error_log st = [].
Proof.
  intro F. cbv zeta.
  assert (G : forall st,
            processed_posts (consume inputs st)
            = processed_posts st + Z.of_nat (List.length inputs) /\
            failed_posts (consume inputs st) = failed_posts st /\
            error_log (consume inputs st) = error_log st).
  { induction F as [|[clk x] rest Hx F IH]; intro st; cbn [consume List.length].
    - repeat split. lia.
    - destruct (IH (fst (process_post clk x st))) as [I1 [I2 I3]].
      destruct (process_generated_input clk x st Hx) as [P1 [P2 P3]].
      rewrite I1, I2, I3, P1, P2, P3. repeat split. lia. }
  destruct (G new_consumer) as [G1 [G2 G3]]. rewrite G1, G2, G3. repeat split.
Qed.

Lemma generated_run_has_no_failures_witness :
  Forall generated_input
    [(sample_clock, generated 41 sample_draws); (sample_clock, generated 42 later_draws)] /\
  let st := consume
              [(sample_clock, generated 41 sample_draws);
               (sample_clock, generated 42 later_draws)] new_consumer in
  processed_posts st = 2 /\ failed_posts st = 0 /\ error_log st = [].
Proof.
  assert (R2 : draws_in_range later_draws).
  { constructor; cbn;
      try (eexists; split; [reflexivity | split; vm_compute; discriminate]).
    all: try lia.
    split; [reflexivity|]. split.
    - constructor; [intros [] | constructor].
    - constructor; [lia | constructor]. }
  assert (G1 : generate_post 41 sample_draws = Ok (generated 41 sample_draws))
    by (vm_compute; reflexivity).
  assert (G2 : generate_post 42 later_draws = Ok (generated 42 later_draws))
    by (vm_compute; reflexivity).
  assert (F : Forall generated_input
                [(sample_clock, generated 41 sample_draws);
                 (sample_clock, generated 42 later_draws)]).
  { constructor; [exists 41, sample_draws; split; [exact sample_draws_in_range | exact G1]|].
    constructor; [exists 42, later_draws; split; [exact R2 | exact G2] | constructor]. }
  split; [exact F|].
  exact (generated_run_has_no_failures _ F).
Defined.

(** ** The production loop *)

Lemma enqueued_posts_app a b : enqueued_posts (a ++ b) = enqueued_posts a ++ enqueued_posts b.
Proof. unfold enqueued_posts. apply flat_map_app. Qed.

Lemma count_generated_app a b : count_generated (a ++ b) = count_generated a + count_generated b.
Proof. unfold count_generated. rewrite filter_app, length_app. lia. Qed.

Lemma count_queue_full_app a b :
  count_queue_full (a ++ b) = count_queue_full a + count_queue_full b.
Proof. unfold count_queue_full. rewrite filter_app, length_app. lia. Qed.

Lemma production_accounts_done p log p' q' e :
  max_posts p' = max_posts p -> posts_generated p' = posts_generated p ->
  production_accounts p log (mkRun p' q' log e).
Proof.
  intros M G. constructor; cbn [run_events run_producer].
  - exists []. rewrite app_nil_r. cbn. split; [reflexivity|]. split; [lia | reflexivity].
  - exact M.
  - intro H. lia.
Qed.

Lemma production_accounts_step p p' log added r :
  max_posts p' = max_posts p ->
  posts_generated p' = posts_generated p + Z.of_nat (List.length (enqueued_posts added)) ->
  count_generated added
  = Z.of_nat (List.length (enqueued_posts added)) + count_queue_full added ->
  (posts_generated p <= max_posts p -> posts_generated p' <= max_posts p) ->
  production_accounts p' (log ++ added) r -> production_accounts p log r.
Proof.
  intros M G C B [[more [E [G' C']]] M' B']. constructor.
  - exists (added ++ more). rewrite E, app_assoc. split; [reflexivity|].
    rewrite enqueued_posts_app, count_generated_app, count_queue_full_app, length_app.
    split; lia.
  - congruence.
  - intro H. rewrite M in B'. apply B'. apply B. exact H.
Qed.

Lemma production_loop_accounts interval schedule p q log :
  production_accounts p log (production_loop interval schedule p q log).
Proof.
  revert p q log. induction schedule as [|it rest IH]; intros p q log; cbn [production_loop].
  - apply production_accounts_done; reflexivity.
  - set (p0 := if stop_requested it then set_running false p else p).
    assert (M0 : max_posts p0 = max_posts p) by (unfold p0; destruct (stop_requested it); reflexivity).
    assert (G0 : posts_generated p0 = posts_generated p)
      by (unfold p0; destruct (stop_requested it); reflexivity).
    destruct (producer_running p0 && (posts_generated p0 <? max_posts p0)) eqn:Go;
      [|apply production_accounts_done; assumption].
    apply andb_true_iff in Go. destruct Go as [_ Lt]. apply Z.ltb_lt in Lt.
    destruct (generate_post (posts_generated p0) (iteration_draws it)) as [post|e];
      [|apply production_accounts_done; assumption].
    destruct (put post (consumed it) q) as [q' [|]].
    + destruct (sleep interval) as [[]|e].
      * rewrite <- app_assoc.
        apply (production_accounts_step p
                 (mkProducer (max_posts p0) (posts_generated p0 + 1) (producer_running p0))
                 log ([Generated post; Enqueued post] ++ [Slept interval]));
          cbn; try lia. apply IH.
      * apply (production_accounts_step p
                 (set_running false
                    (mkProducer (max_posts p0) (posts_generated p0 + 1) (producer_running p0)))
                 log [Generated post; Enqueued post]); cbn; try lia.
        apply production_accounts_done; reflexivity.
    + destruct (sleep (fmul interval (Fin 2))) as [[]|e].
      * rewrite <- app_assoc.
        apply (production_accounts_step p p0 log
                 ([Generated post; QueueFull] ++ [Slept (fmul interval (Fin 2))]));
          cbn; try lia. apply IH.
      * apply (production_accounts_step p (set_running false p0) log
                 [Generated post; QueueFull]); cbn; try lia.
        apply production_accounts_done; reflexivity.
Qed.

(** In every run of [start_production], [posts_generated] counts the records
    that were enqueued, not the calls of [generate_post]: each generated
    record was either enqueued or met a full queue; [max_posts] is never
    changed, and a producer that starts at or below [max_posts] never goes
    past it. *)
Theorem production_counts_enqueued_posts (interval : pyfloat) (schedule : list iteration)
    (p : producer) (q : channel) :
  let r := start_production interval schedule p q in
  posts_generated (run_producer r)
  = posts_generated p + Z.of_nat (List.length (enqueued_posts (run_events r))) /\
  count_generated (run_events r)
  = Z.of_nat (List.length (enqueued_posts (run_events r))) + count_queue_full (run_events r) /\
  max_posts (run_producer r) = max_posts p /\
  (posts_generated p <= max_posts p -> posts_generated (run_producer r) <= max_posts p).
Proof.
  cbv zeta. unfold start_production.
  destruct (production_loop_accounts interval schedule (set_running true p) q [])
    as [[added [E [G C]]] M B].
  cbn [app] in E. rewrite E. cbn [set_running posts_generated max_posts] in G, M, B.
  repeat split; assumption.
Qed.

Example production_counts_over_a_full_queue :
  let r := start_production (Fin 1) sample_schedule (mkProducer 10 0 false) full_channel in
  posts_generated (run_producer r) = 1 /\
  List.length (enqueued_posts (run_events r)) = 1%nat /\
  count_generated (run_events r) = 2 /\
  count_queue_full (run_events r) = 1.
Proof. vm_compute. repeat split. Qed.

Lemma production_counts_enqueued_posts_witness :
  posts_generated (mkProducer 10 0 false) <= max_posts (mkProducer 10 0 false) /\
  posts_generated
    (run_producer (start_production (Fin 1) sample_schedule (mkProducer 10 0 false) full_channel))
  <= max_posts (mkProducer 10 0 false).
Proof.
  assert (H : posts_generated (mkProducer 10 0 false) <= max_posts (mkProducer 10 0 false))
    by (cbn; lia).
  split; [exact H|].
  exact (proj2 (proj2 (proj2
           (production_counts_enqueued_posts (Fin 1) sample_schedule
              (mkProducer 10 0 false) full_channel))) H).
Defined.

Lemma generate_post_valid posts_generated d :
  draws_in_range d ->
  exists post,
    generate_post posts_generated d = Ok post /\ validate_post post = Ok (true, []).
Proof.
  intro R.
  destruct (generate_post_shape posts_generated d R)
    as [seconds [us [post_time [likes [shares [comments [views [_ [_ [Vt [B G]]]]]]]]]]].
  eexists. split; [exact G|].
  exact (generated_record_valid posts_generated d seconds post_time
           likes shares comments views R Vt B).
Qed.

Lemma In_skipn {A : Type} (n : nat) (l : list A) x : In x (skipn n l) -> In x l.
Proof.
  revert l. induction n as [|n IH]; intros [|y l] H; cbn [skipn] in H; try exact H.
  right. apply IH. exact H.
Qed.

Lemma Forall_put (P : pyval -> Prop) item n q :
  Forall P (items q) -> P item -> Forall P (items (fst (put item n q))).
Proof.
  intros F H. unfold put.
  assert (G : Forall P (items (taken n q))).
  { cbn [taken items]. apply Forall_forall. intros x I.
    exact (proj1 (Forall_forall _ _) F x (In_skipn n _ x I)). }
  destruct (is_full (taken n q)); cbn [fst items]; [exact G|].
  apply Forall_app. split; [exact G | constructor; [exact H | constructor]].
Qed.

Lemma Forall_put_full (P : pyval -> Prop) item n q :
  Forall P (items q) -> snd (put item n q) = false -> Forall P (items (fst (put item n q))).
Proof.
  intros F H. unfold put in *.
  destruct (is_full (taken n q)); [|discriminate].
  cbn [fst taken items]. apply Forall_forall. intros x I.
  exact (proj1 (Forall_forall _ _) F x (In_skipn n _ x I)).
Qed.

Lemma production_loop_valid (P : pyval -> Prop) interval schedule :
  Forall (fun it => draws_in_range (iteration_draws it)) schedule ->
  sleep interval = Ok tt -> sleep (fmul interval (Fin 2)) = Ok tt ->
  (forall post, validate_post post = Ok (true, []) -> P post) ->
  forall p q log,
    Forall (fun post => validate_post post = Ok (true, [])) (enqueued_posts log) ->
    Forall P (items q) ->
    let r := production_loop interval schedule p q log in
    run_error r = None /\
    Forall (fun post => validate_post post = Ok (true, [])) (enqueued_posts (run_events r)) /\
    Forall P (items (run_channel r)).
Proof.
  intros F S1 S2 HP.
  induction F as [|it rest Hit F IH]; intros p q log L Q; cbn [production_loop].
  - cbn. auto.
  - set (p0 := if stop_requested it then set_running false p else p).
    destruct (producer_running p0 && (posts_generated p0 <? max_posts p0)); [|cbn; auto].
    destruct (generate_post_valid (posts_generated p0) (iteration_draws it) Hit)
      as [post [G V]].
    rewrite G.
    pose proof (Forall_put P post (consumed it) q Q (HP post V)) as Q1.
    pose proof (Forall_put_full P post (consumed it) q Q) as Q2.
    destruct (put post (consumed it) q) as [q' [|]]; cbn [fst snd] in Q1, Q2.
    + rewrite S1. apply IH; [|exact Q1].
      rewrite !enqueued_posts_app. cbn. rewrite app_nil_r.
      apply Forall_app. split; [exact L | constructor; [exact V | constructor]].
    + rewrite S2. apply IH; [|exact (Q2 eq_refl)].
      rewrite !enqueued_posts_app. cbn. rewrite !app_nil_r. exact L.
Qed.

(** With draws in range and an interval [time.sleep] accepts, a run of
    [start_production] ends without an exception, every record it enqueues
    passes [validate_post], and every item of the queue is either one that
    was there before or one that passes [validate_post]. *)
Theorem production_enqueues_valid_posts (interval : pyfloat) (schedule : list iteration)
    (p : producer) (q : channel) :
  Forall (fun it => draws_in_range (iteration_draws it)) schedule ->
  sleep interval = Ok tt -> sleep (fmul interval (Fin 2)) = Ok tt ->
  let r := start_production interval schedule p q in
  run_error r = None /\
  Forall (fun post => validate_post post = Ok (true, [])) (enqueued_posts (run_events r)) /\
  Forall (old_or_valid q) (items (run_channel r)).
Proof.
  intros F S1 S2. unfold start_production.
  apply (production_loop_valid (old_or_valid q) interval schedule F S1 S2).
  - intros post V. right. exact V.
  - constructor.
  - apply Forall_forall. intros x I. left. exact I.
Qed.

Lemma later_draws_in_range : draws_in_range later_draws.
Proof.
  constructor; cbn;
    try (eexists; split; [reflexivity | split; vm_compute; discriminate]).
  all: try lia.
  split; [reflexivity|]. split.
  - constructor; [intros [] | constructor].
  - constructor; [lia | constructor].
Defined.

Lemma production_enqueues_valid_posts_witness :
  Forall (fun it => draws_in_range (iteration_draws it)) sample_schedule /\
  sleep (Fin 1) = Ok tt /\ sleep (fmul (Fin 1) (Fin 2)) = Ok tt /\
  let r := start_production (Fin 1) sample_schedule (mkProducer 10 0 false) full_channel in
  run_error r = None /\
  Forall (fun post => validate_post post = Ok (true, [])) (enqueued_posts (run_events r)) /\
  Forall (old_or_valid full_channel) (items (run_channel r)).
Proof.
  assert (F : Forall (fun it => draws_in_range (iteration_draws it)) sample_schedule).
  { constructor; [exact sample_draws_in_range|].
    constructor; [exact later_draws_in_range | constructor]. }
  assert (S1 : sleep (Fin 1) = Ok tt) by (vm_compute; reflexivity).
  assert (S2 : sleep (fmul (Fin 1) (Fin 2)) = Ok tt) by (vm_compute; reflexivity).
  split; [exact F|]. split; [exact S1|]. split; [exact S2|].
  exact (production_enqueues_valid_posts (Fin 1) sample_schedule (mkProducer 10 0 false)
           full_channel F S1 S2).
Defined.

Lemma rnd64_below_zero x : (x <= - pow2 (-1074))%Q -> (rnd64 x <= - pow2 (-1074))%Q.
Proof.
  intro H. apply rnd64_mono in H.
  rewrite rnd64_opp, (rnd64_pow2 (-1074)) in H by lia. exact H.
Qed.

Lemma rnd64_above_pow2 x n : -1074 <= n -> (- pow2 n <= x)%Q -> (- pow2 n <= rnd64 x)%Q.
Proof.
  intros Hn H. apply rnd64_mono in H.
  rewrite rnd64_opp, (rnd64_pow2 n) in H by exact Hn. exact H.
Qed.

(** [time.sleep] raises [ValueError] for every negative double down to
    [-9e9] seconds. *)
Lemma sleep_negative s :
  (-9000000000 <= s)%Q -> (s <= - pow2 (-1074))%Q -> sleep (Fin s) = Raise ValueError.
Proof.
  intros L U. unfold sleep. cbn [fmul].
  set (x := (s * 1000000000)%Q).
  pose proof (pow2_pos (-1074)) as T.
  assert (C : (inject_Z (2 ^ 63) >= 9000000000000000000)%Q) by (vm_compute; discriminate).
  assert (X1 : (x <= - pow2 (-1074))%Q) by (unfold x; lra).
  assert (X0 : (- pow2 63 <= x)%Q) by (rewrite (pow2_Z 63) by lia; unfold x; lra).
  pose proof (rnd64_below_zero x X1) as R1.
  pose proof (rnd64_above_pow2 x 63 ltac:(lia) X0) as R0.
  assert (P : (pow2 63 < pow2 1024)%Q) by (apply pow2_lt; lia).
  rewrite (fl_Fin x) by lra.
  set (ns := rnd64 x) in *.
  assert (E : Qle_bool 0 ns = false).
  { destruct (Qle_bool 0 ns) eqn:E; [|reflexivity]. apply Qle_bool_iff in E. lra. }
  rewrite E.
  assert (F1 : Qfloor ns < 0).
  { pose proof (Qfloor_le ns) as F. rewrite Zlt_Qlt. change (inject_Z 0) with 0%Q. lra. }
  assert (F0 : - 2 ^ 63 <= Qfloor ns).
  { rewrite <- (Qfloor_Z (- 2 ^ 63)). apply Qfloor_resp_le.
    rewrite inject_Z_opp, <- (pow2_Z 63) by lia. exact R0. }
  assert (A : (- 2 ^ 63 <=? Qfloor ns) && (Qfloor ns <? 2 ^ 63) = true).
  { apply andb_true_iff. split; [apply Z.leb_le; exact F0 | apply Z.ltb_lt; lia]. }
  rewrite A.
  assert (N : (Qfloor ns <? 0) = true) by (apply Z.ltb_lt; exact F1).
  rewrite N. reflexivity.
Qed.

Example sleep_outcomes :
  sleep (Fin 1) = Ok tt /\
  sleep (Fin (- (1 # 2))) = Raise ValueError /\
  sleep (Fin (- 9300000000)) = Raise OverflowError /\
  sleep (Fin 9300000000) = Raise OverflowError /\
  sleep NaN = Raise ValueError.
Proof. vm_compute. repeat split. Qed.

(** ** A negative interval *)

(** A negative interval (a negative double of at most [4e9] seconds in
    magnitude) ends the production at the first [time.sleep]: a producer
    that is not stopped and has posts left to make generates one record and
    then ends with [ValueError] and [is_running] off.  If the queue has room
    the record is enqueued and counted before the sleep after it raises; if
    the queue is full the record is dropped, nothing is counted, and the
    back-off sleep raises. *)
Theorem negative_interval_stops_production (s : Q) (it : iteration) (rest : list iteration)
    (p : producer) (q : channel) :
  (-4000000000 <= s)%Q -> (s <= - pow2 (-1074))%Q ->
  stop_requested it = false ->
  posts_generated p < max_posts p ->
  draws_in_range (iteration_draws it) ->
  exists post,
    generate_post (posts_generated p) (iteration_draws it) = Ok post /\
    start_production (Fin s) (it :: rest) p q
    = if is_full (taken (consumed it) q)
      then mkRun (mkProducer (max_posts p) (posts_generated p) false)
                 (taken (consumed it) q)
                 [Generated post; QueueFull]
                 (Some ValueError)
      else mkRun (mkProducer (max_posts p) (posts_generated p + 1) false)
                 (mkChannel (items (taken (consumed it) q) ++ [post]) (maxsize q))
                 [Generated post; Enqueued post]
                 (Some ValueError).
Proof.
  intros Lo Hi St Lt R.
  destruct (generate_post_valid (posts_generated p) (iteration_draws it) R) as [post [G _]].
  exists post. split; [exact G|].
  unfold start_production. cbn [production_loop]. rewrite St.
  cbn [set_running producer_running posts_generated max_posts andb].
  apply Z.ltb_lt in Lt. rewrite Lt, G. unfold put.
  destruct (is_full (taken (consumed it) q)) eqn:Fu.
  - (* the back-off sleeps twice the interval *)
    pose proof (pow2_pos (-1074)) as T.
    assert (X1 : (s * 2 <= - pow2 (-1074))%Q) by lra.
    assert (X0 : (inject_Z (- 8000000000) <= s * 2)%Q)
      by (change (inject_Z (- 8000000000)) with (- 8000000000)%Q; lra).
    pose proof (rnd64_below_zero _ X1) as R1.
    pose proof (rnd64_ge_Z (s * 2) (- 8000000000) ltac:(cbn; lia) X0) as R0.
    change (inject_Z (- 8000000000)) with (- 8000000000)%Q in R0.
    pose proof (pow2_pos 1024) as P.
    assert (P33 : (8000000000 <= pow2 33)%Q) by (vm_compute; discriminate).
    assert (P' : (pow2 33 < pow2 1024)%Q) by (apply pow2_lt; lia).
    cbn [fmul]. rewrite (fl_Fin (s * 2)) by lra.
    rewrite (sleep_negative (rnd64 (s * 2))) by lra.
    reflexivity.
  - rewrite (sleep_negative s) by lra. reflexivity.
Qed.

Lemma negative_interval_stops_production_witness :
  (-4000000000 <= - (1 # 2))%Q /\ (- (1 # 2) <= - pow2 (-1074))%Q /\
  stop_requested (mkIteration false sample_draws 0) = false /\
  posts_generated fresh_producer < max_posts fresh_producer /\
  draws_in_range (iteration_draws (mkIteration false sample_draws 0)) /\
  exists post,
    generate_post (posts_generated fresh_producer)
      (iteration_draws (mkIteration false sample_draws 0)) = Ok post /\
    start_production (Fin (- (1 # 2))) [mkIteration false sample_draws 0] fresh_producer
      (mkChannel [] 5)
    = if is_full (taken (consumed (mkIteration false sample_draws 0)) (mkChannel [] 5))
      then mkRun (mkProducer (max_posts fresh_producer) (posts_generated fresh_producer) false)
                 (taken (consumed (mkIteration false sample_draws 0)) (mkChannel [] 5))
                 [Generated post; QueueFull]
                 (Some ValueError)
      else mkRun (mkProducer (max_posts fresh_producer)
                    (posts_generated fresh_producer + 1) false)
                 (mkChannel
                    (items (taken (consumed (mkIteration false sample_draws 0))
                              (mkChannel [] 5)) ++ [post])
                    (maxsize (mkChannel [] 5)))
                 [Generated post; Enqueued post]
                 (Some ValueError).
Proof.
  assert (A : (-4000000000 <= - (1 # 2))%Q) by (vm_compute; discriminate).
  assert (A' : (- (1 # 2) <= - pow2 (-1074))%Q) by (vm_compute; discriminate).
  assert (B : posts_generated fresh_producer < max_posts fresh_producer) by (cbn; lia).
  split; [exact A|]. split; [exact A'|]. split; [reflexivity|]. split; [exact B|].
  split; [exact sample_draws_in_range|].
  exact (negative_interval_stops_production (- (1 # 2)) (mkIteration false sample_draws 0) []
           fresh_producer (mkChannel [] 5) A A' eq_refl B sample_draws_in_range).
Defined.

(** The two ends of the run on a sample: with room in the queue one post is
    counted, with a full queue none is. *)
Example negative_interval_on_a_full_queue :
  run_error (start_production (Fin (- (1 # 2))) sample_schedule fresh_producer full_channel)
  = Some ValueError /\
  posts_generated
    (run_producer (start_production (Fin (- (1 # 2))) sample_schedule fresh_producer
                     full_channel)) = 0 /\
  posts_generated
    (run_producer (start_production (Fin (- (1 # 2))) sample_schedule fresh_producer
                     (mkChannel [] 5))) = 1.
Proof. vm_compute. repeat split. Qed.

(** ** The popularity score never decreases *)

(** Below [2^53] the popularity score is monotone in all four counts: a
    record with no fewer likes, shares, comments and views than another has
    no lower score. *)
Theorem popularity_score_monotone (l s c v l' s' c' v' : Z) :
  0 <= l <= l' -> 0 <= s <= s' -> 0 <= c <= c' -> 0 <= v <= v' ->
  l' + 3 * s' + 2 * c' + v' < 2 ^ 53 ->
  exists f f',
    popularity_score l s c v = Ok (VFloat (Fin f)) /\
    popularity_score l' s' c' v' = Ok (VFloat (Fin f')) /\
    (f <= f')%Q.
Proof.
  intros Hl Hs Hc Hv B.
  destruct (popularity_score_value l s c v) as [f [E F]]; try lia.
  destruct (popularity_score_value l' s' c' v') as [f' [E' F']]; try lia.
  exists f, f'. split; [exact E|]. split; [exact E'|].
  rewrite F, F'. unfold score_value. apply rnd64_mono.
  destruct tenth_bounds as [C0 C1].
  assert (X : (rnd64 (inject_Z v * rnd64 (1 # 10)) <= rnd64 (inject_Z v' * rnd64 (1 # 10)))%Q).
  { apply rnd64_mono.
    assert (V : (inject_Z v <= inject_Z v')%Q) by (rewrite <- Zle_Qle; lia).
    assert (V0 : (0 <= inject_Z v)%Q)
      by (change 0%Q with (inject_Z 0); rewrite <- Zle_Qle; lia).
    qnra. }
  assert (I : (inject_Z (l + 3 * s + 2 * c) <= inject_Z (l' + 3 * s' + 2 * c'))%Q)
    by (rewrite <- Zle_Qle; lia).
  lra.
Qed.

Lemma popularity_score_monotone_witness :
  0 <= 120 <= 121 /\ 0 <= 12 <= 12 /\ 0 <= 6 <= 9 /\ 0 <= 6000 <= 6000 /\
  121 + 3 * 12 + 2 * 9 + 6000 < 2 ^ 53 /\
  exists f f',
    popularity_score 120 12 6 6000 = Ok (VFloat (Fin f)) /\
    popularity_score 121 12 9 6000 = Ok (VFloat (Fin f')) /\
    (f <= f')%Q.
Proof.
  assert (B : 121 + 3 * 12 + 2 * 9 + 6000 < 2 ^ 53) by (vm_compute; reflexivity).
  do 4 (split; [lia|]). split; [exact B|].
  apply (popularity_score_monotone 120 12 6 6000 121 12 9 6000); first [lia | exact B].
Defined.

(** The score is not strictly increasing in the likes: with five views, one
    more like than [2^52 + 1] gives the same score. *)
Example popularity_score_tie_in_likes :
  popularity_score likes_2_52_plus_1 0 0 5 = popularity_score (likes_2_52_plus_1 + 1) 0 0 5.
Proof. vm_compute. reflexivity. Qed.

(** ** The success rate at its two ends *)

Lemma float_round2_Z z :
  Z.abs z <= 2 ^ 40 -> exists q, float_round2 (Fin (inject_Z z)) = Fin q /\ (q == inject_Z z)%Q.
Proof.
  intro B. cbn [float_round2].
  assert (E : (inject_Z z * 100 == inject_Z (z * 100))%Q)
    by (rewrite inject_Z_mult; reflexivity).
  assert (R : round_half_even (inject_Z z * 100) = z * 100).
  { pose proof (round_half_even_mono (inject_Z z * 100) (inject_Z (z * 100))
                  ltac:(rewrite E; apply Qle_refl)) as M1.
    pose proof (round_half_even_mono (inject_Z (z * 100)) (inject_Z z * 100)
                  ltac:(rewrite E; apply Qle_refl)) as M2.
    rewrite round_half_even_Z in M1, M2. lia. }
  rewrite R.
  assert (D : (inject_Z (z * 100) / 100 == inject_Z z)%Q).
  { rewrite inject_Z_mult. change (inject_Z 100) with 100%Q. field. }
  rewrite (fl_comp _ _ D).
  apply fl_int. assert (2 ^ 40 <= 2 ^ 53) by (apply Z.pow_le_mono_r; lia). lia.
Qed.

Lemma float_round2_exact x z :
  (x == inject_Z z)%Q -> Z.abs z <= 2 ^ 40 ->
  exists q, float_round2 (Fin x) = Fin q /\ (q == inject_Z z)%Q.
Proof.
  intros X B. destruct (float_round2_Z z B) as [q [E Q]]. exists q. split; [|exact Q].
  rewrite <- E. cbn [float_round2].
  assert (R : round_half_even (x * 100) = round_half_even (inject_Z z * 100)).
  { pose proof (round_half_even_mono (x * 100) (inject_Z z * 100)
                  ltac:(rewrite X; apply Qle_refl)) as M1.
    pose proof (round_half_even_mono (inject_Z z * 100) (x * 100)
                  ltac:(rewrite X; apply Qle_refl)) as M2.
    lia. }
  rewrite R. reflexivity.
Qed.

Lemma percentage_of_ratio a b z :
  b <> 0 -> (inject_Z a / inject_Z b == inject_Z z)%Q -> 0 <= z <= 1 ->
  exists q,
    (ratio <- int_truediv a b ;; hundred <- float_of_int 100 ;;
     Ok (float_round2 (fmul ratio hundred))) = Ok (Fin q) /\
    (q == inject_Z (z * 100))%Q.
Proof.
  intros Nb E Z. unfold int_truediv.
  destruct (b =? 0) eqn:B0; [apply Z.eqb_eq in B0; contradiction|].
  rewrite (fl_comp _ _ E).
  destruct (fl_int z ltac:(lia)) as [q1 [E1 Q1]]. rewrite E1. cbn [rbind].
  rewrite float_of_int_100. cbn [rbind fmul].
  assert (M : (q1 * 100 == inject_Z (z * 100))%Q)
    by (rewrite Q1, inject_Z_mult; reflexivity).
  rewrite (fl_comp _ _ M).
  destruct (fl_int (z * 100) ltac:(lia)) as [q2 [E2 Q2]]. rewrite E2.
  destruct (float_round2_exact q2 (z * 100) Q2 ltac:(lia)) as [q [E3 Q3]].
  rewrite E3. exists q. split; [reflexivity | exact Q3].
Qed.

(** [get_stats] reports a success rate of exactly 100.0 when records were
    processed and none failed, and of exactly 0.0 when records failed and
    none was processed. *)
Theorem success_rate_at_its_ends (queue_size : Z) (st : consumer) :
  (0 < processed_posts st -> failed_posts st = 0 ->
   exists s q, get_stats queue_size st = Ok s /\
               stats_success_rate s = NFloat (Fin q) /\ (q == 100)%Q) /\
  (processed_posts st = 0 -> 0 < failed_posts st ->
   exists s q, get_stats queue_size st = Ok s /\
               stats_success_rate s = NFloat (Fin q) /\ (q == 0)%Q).
Proof.
  unfold get_stats, success_rate_of. split; intros P F.
  - rewrite F, Z.add_0_r.
    assert (L : (0 <? processed_posts st) = true) by (apply Z.ltb_lt; exact P). rewrite L.
    destruct (percentage_of_ratio (processed_posts st) (processed_posts st) 1)
      as [q [E Q]]; [lia | | lia |].
    + change (inject_Z 1) with 1%Q. field. intro Z0.
      assert (N : (0 < inject_Z (processed_posts st))%Q)
        by (change 0%Q with (inject_Z 0); rewrite <- Zlt_Qlt; exact P).
      rewrite Z0 in N. exact (Qlt_irrefl _ N).
    + rewrite E. cbn [rbind]. eexists. exists q. split; [reflexivity|].
      split; [reflexivity | exact Q].
  - rewrite P, Z.add_0_l.
    assert (L : (0 <? failed_posts st) = true) by (apply Z.ltb_lt; exact F). rewrite L.
    destruct (percentage_of_ratio 0 (failed_posts st) 0) as [q [E Q]]; [lia | | lia |].
    + unfold Qdiv. ring.
    + rewrite E. cbn [rbind]. eexists. exists q. split; [reflexivity|].
      split; [reflexivity | exact Q].
Qed.

Lemma success_rate_at_its_ends_witness :
  (0 < processed_posts (set_processed_posts 7 new_consumer) ->
   failed_posts (set_processed_posts 7 new_consumer) = 0 ->
   exists s q, get_stats 0 (set_processed_posts 7 new_consumer) = Ok s /\
               stats_success_rate s = NFloat (Fin q) /\ (q == 100)%Q) /\
  (processed_posts (set_failed_posts 3 new_consumer) = 0 ->
   0 < failed_posts (set_failed_posts 3 new_consumer) ->
   exists s q, get_stats 0 (set_failed_posts 3 new_consumer) = Ok s /\
               stats_success_rate s = NFloat (Fin q) /\ (q == 0)%Q).
Proof.
  split.
  - exact (proj1 (success_rate_at_its_ends 0 (set_processed_posts 7 new_consumer))).
  - exact (proj2 (success_rate_at_its_ends 0 (set_failed_posts 3 new_consumer))).
Defined.

(** ** The keys of the distributions *)

Lemma fromisoformat_hour s dt : fromisoformat s = Some dt -> 0 <= hour dt <= 23.
Proof.
  unfold fromisoformat, obind. intro H.
  repeat match type of H with
  | match ?x with _ => _ end = Some _ =>
      let E := fresh "E" in destruct x eqn:E; try discriminate H
  | (if ?b then _ else _) = Some _ =>
      let E := fresh "E" in destruct b eqn:E; try discriminate H
  | (let '(_, _) := ?p in _) = Some _ => destruct p
  end;
  injection H as <-; cbn [hour]; try lia.
  match goal with
  | V : _ && valid_time _ _ _ _ = true |- _ =>
      apply andb_true_iff in V; destruct V as [_ V]; unfold valid_time in V;
      rewrite !andb_true_iff, !Z.leb_le in V; lia
  end.
Qed.

Lemma transform_post_fields now d p :
  transform_post now (VDict d) = Ok p ->
  exists t h r,
    p = VDict t /\
    (forall k, ~ In k added_fields -> lookup k t = lookup k d) /\
    lookup "post_hour" t = Some (VInt h) /\ 0 <= h <= 23 /\
    lookup "engagement_rate" t = Some r.
Proof.
  intro H. unfold transform_post in H. cbn [copy_for_update rbind] in H.
  repeat rstep H. injection H as <-.
  match goal with
  | E : py_fromisoformat ?ts = Ok ?parsed |- _ =>
      assert (Hr : 0 <= hour parsed <= 23);
      [unfold py_fromisoformat in E; destruct ts; try discriminate E;
       match type of E with
       | match fromisoformat ?s with _ => _ end = _ =>
           destruct (fromisoformat s) as [dt|] eqn:F; [|discriminate E];
           injection E as <-; exact (fromisoformat_hour _ _ F)
       end
      |eexists; exists (hour parsed)]
  end.
  eexists. split; [reflexivity|]. split; [|split; [|split]].
  - intros k N. rewrite !lookup_dict_set.
    repeat match goal with
    | |- context [String.eqb ?a k] =>
        let E := fresh "E" in
        destruct (String.eqb a k) eqn:E;
        [apply String.eqb_eq in E; subst k; exfalso; apply N; cbn; tauto|]
    end.
    reflexivity.
  - rewrite !lookup_dict_set. reflexivity.
  - exact Hr.
  - rewrite !lookup_dict_set. reflexivity.
Qed.

Lemma update_statistics_keyed t st pl se ca h r :
  lookup "platform" t = Some (VStr pl) ->
  lookup "sentiment" t = Some (VStr se) ->
  lookup "category" t = Some (VStr ca) ->
  lookup "post_hour" t = Some (VInt h) ->
  lookup "engagement_rate" t = Some r ->
  update_statistics (VDict t) st =
  if hashable (dict_get "topic" (VStr "unknown") t)
  then (set_hourly_stats (incr (VInt h) (hourly_stats st))
          (set_category_stats (incr (VStr ca) (category_stats st))
             (set_sentiment_stats (incr (VStr se) (sentiment_stats st))
                (set_engagement_stats (append_to (VStr pl) r (engagement_stats st))
                   (set_topic_stats
                      (incr (dict_get "topic" (VStr "unknown") t) (topic_stats st))
                      (set_platform_stats (incr (VStr pl) (platform_stats st)) st))))),
        Ok tt)
  else (set_platform_stats (incr (VStr pl) (platform_stats st)) st, Raise TypeError).
Proof.
  intros Lpl Lse Lca Lh Lr.
  unfold update_statistics. cbv beta iota delta [cbind clift cget cmodify].
  cbn [getitem get_method]. rewrite Lpl, Lr, Lse, Lca, Lh.
  cbv beta iota. cbn [counter_incr hashable group_append].
  unfold counter_incr at 1.
  destruct (hashable (dict_get "topic" (VStr "unknown") t)); reflexivity.
Qed.

Lemma keys_incr (P : pyval -> Prop) k (c : counter) :
  Forall (fun kv => P (fst kv)) c -> P k -> Forall (fun kv => P (fst kv)) (incr k c).
Proof.
  intros F H. induction F as [|[k' n] rest Hk F IH]; cbn [incr].
  - constructor; [exact H | constructor].
  - destruct (key_eqb k' k); constructor; try assumption.
Qed.

(** What a valid record and its transform tell [update_statistics]. *)
Lemma processed_fields clk d p :
  validate_post (VDict d) = Ok (true, []) ->
  transform_post (now_first clk) (VDict d) = Ok p ->
  exists t pl se ca h r,
    p = VDict t /\
    lookup "platform" d = Some (VStr pl) /\ in_strings pl valid_platforms = true /\
    in_strings se valid_sentiments = true /\ in_strings ca valid_categories = true /\
    0 <= h <= 23 /\
    lookup "topic" t = lookup "topic" d /\
    lookup "platform" t = Some (VStr pl) /\
    lookup "sentiment" t = Some (VStr se) /\
    lookup "category" t = Some (VStr ca) /\
    lookup "post_hour" t = Some (VInt h) /\
    lookup "engagement_rate" t = Some r.
Proof.
  intros V T.
  destruct (validate_post_valid _ _ V) as [d' [Ed [_ F]]]. injection Ed as <-.
  destruct (proj1 (field_checks_pass d) F)
    as [_ _ _ [pl [Lpl Mpl]] _ _ _ [se [Lse Mse]] [ca [Lca Mca]]].
  destruct (transform_post_fields _ _ _ T) as [t [h [r [-> [K [Lh [Hh Lr]]]]]]].
  assert (N : forall k, In k ["platform"; "sentiment"; "category"; "topic"] ->
                        ~ In k added_fields).
  { intros k I J. cbn in I, J.
    destruct I as [<- | [<- | [<- | [<- | []]]]];
      destruct J as [J | [J | [J | [J | [J | [J | []]]]]]]; discriminate J. }
  exists t, pl, se, ca, h, r. split; [reflexivity|].
  rewrite !K by (apply N; cbn; tauto). repeat split; first [assumption | reflexivity | lia].
Qed.

Lemma keys_valid_step clk x st :
  keys_valid st -> keys_valid (fst (process_post clk x st)).
Proof.
  intros KV.
  destruct (is_dict x) eqn:D.
  - destruct x as [| | | | | |d]; try discriminate. rewrite process_post_dict.
    assert (L : forall errors now st1, keys_valid st1 ->
              keys_valid (logged_failure d errors now st1)).
    { intros errors now st1 [K1 K2 K3 K4]. constructor; assumption. }
    destruct (validate_post (VDict d)) as [[[|] errors]|e] eqn:V; try (apply L; exact KV).
    destruct (validate_post_valid _ _ V) as [_ [_ [-> _]]].
    destruct (transform_post (now_first clk) (VDict d)) as [p|e] eqn:T;
      try (apply L; exact KV).
    destruct (processed_fields clk d p V T)
      as [t [pl [se [ca [h [r [-> [_ [Mpl [Mse [Mca [Hh [_ [Lpl [Lse [Lca [Lh Lr]]]]]]]]]]]]]]]]].
    rewrite (update_statistics_keyed t st pl se ca h r Lpl Lse Lca Lh Lr).
    destruct KV as [K1 K2 K3 K4].
    assert (K1' : keys_among valid_platforms (incr (VStr pl) (platform_stats st))).
    { apply (keys_incr (fun key => exists s, key = VStr s /\ in_strings s valid_platforms = true));
        [exact K1 | eauto]. }
    destruct (hashable (dict_get "topic" (VStr "unknown") t)); cbn [fst].
    + constructor; unfold stored; cbn; [exact K1' | | |].
      * apply (keys_incr (fun key => exists s, key = VStr s /\
                                     in_strings s valid_sentiments = true));
          [exact K2 | eauto].
      * apply (keys_incr (fun key => exists s, key = VStr s /\
                                     in_strings s valid_categories = true));
          [exact K3 | eauto].
      * apply (keys_incr (fun key => exists z, key = VInt z /\ 0 <= z <= 23));
          [exact K4 | eauto].
    + apply L. constructor; cbn; assumption.
  - rewrite (process_post_non_dict clk x st D). destruct KV as [K1 K2 K3 K4].
    constructor; assumption.
Qed.

(** After any run, the platform, sentiment and category distributions have
    no key outside the valid platforms, sentiments and categories, and the
    hourly distribution has no key outside the hours 0 to 23. *)
Theorem distributions_have_valid_keys (inputs : list (clock * pyval)) :
  keys_valid (consume inputs new_consumer).
Proof.
  assert (G : forall st, keys_valid st -> keys_valid (consume inputs st)).
  { induction inputs as [|[clk x] rest IH]; intros st K; cbn [consume]; [exact K|].
    apply IH. apply keys_valid_step. exact K. }
  apply G. constructor; constructor.
Qed.

(** ** A topic that cannot be hashed *)

(** A record that passes validation and transformation but whose topic is a
    list or a dict is first counted under its platform, then
    [update_statistics] raises [TypeError] at the topic: [process_post]
    returns [None], counts and logs a failure, and leaves the platform
    count in place. *)
Theorem unhashable_topic_is_counted_then_fails (clk : clock) (d : pydict) (p topic : pyval)
    (st : consumer) :
  validate_post (VDict d) = Ok (true, []) ->
  transform_post (now_first clk) (VDict d) = Ok p ->
  lookup "topic" d = Some topic -> hashable topic = false ->
  exists platform,
    lookup "platform" d = Some (VStr platform) /\
    process_post clk (VDict d) st
    = (logged_failure d [FmtExn "" TypeError] (now_second clk)
         (set_platform_stats (incr (VStr platform) (platform_stats st)) st),
       Ok None).
Proof.
  intros V T Lt Ht.
  destruct (processed_fields clk d p V T)
    as [t [pl [se [ca [h [r [-> [Ld [_ [_ [_ [_ [Kt [Lpl [Lse [Lca [Lh Lr]]]]]]]]]]]]]]]]].
  exists pl. split; [exact Ld|].
  rewrite process_post_dict, V, T.
  rewrite (update_statistics_keyed t st pl se ca h r Lpl Lse Lca Lh Lr).
  unfold dict_get. rewrite Kt, Lt, Ht. reflexivity.
Qed.

Lemma unhashable_topic_is_counted_then_fails_witness :
  validate_post (VDict (dict_set "topic" (VList []) tutorial_post)) = Ok (true, []) /\
  lookup "topic" (dict_set "topic" (VList []) tutorial_post) = Some (VList []) /\
  hashable (VList []) = false /\
  exists p platform,
    transform_post (now_first sample_clock)
      (VDict (dict_set "topic" (VList []) tutorial_post)) = Ok p /\
    lookup "platform" (dict_set "topic" (VList []) tutorial_post) = Some (VStr platform) /\
    process_post sample_clock (VDict (dict_set "topic" (VList []) tutorial_post))
      new_consumer
    = (logged_failure (dict_set "topic" (VList []) tutorial_post) [FmtExn "" TypeError]
         (now_second sample_clock)
         (set_platform_stats (incr (VStr platform) (platform_stats new_consumer))
            new_consumer),
       Ok None).
Proof.
  assert (V : validate_post (VDict (dict_set "topic" (VList []) tutorial_post))
              = Ok (true, [])) by (vm_compute; reflexivity).
  assert (T : exists p, transform_post (now_first sample_clock)
                (VDict (dict_set "topic" (VList []) tutorial_post)) = Ok p)
    by (vm_compute; eexists; reflexivity).
  destruct T as [p T].
  split; [exact V|]. split; [reflexivity|]. split; [reflexivity|].
  exists p.
  destruct (unhashable_topic_is_counted_then_fails sample_clock
              (dict_set "topic" (VList []) tutorial_post) p (VList []) new_consumer
              V T eq_refl eq_refl) as [platform [L P]].
  exists platform. split; [exact T|]. split; [exact L | exact P].
Defined.

(** ** The report of a run *)

Lemma counts_match_consume inputs n st :
  Forall (fun input => is_dict (snd input) = true) inputs ->
  counts_match n st ->
  counts_match (n + Z.of_nat (List.length inputs)) (consume inputs st).
Proof.
  intro F. revert n st.
  induction F as [|[clk x] rest Hx F IH]; intros n st C; cbn [consume List.length].
  - rewrite Z.add_0_r. exact C.
  - cbn [snd] in Hx. destruct x as [| | | | | |d]; try discriminate.
    replace (n + Z.of_nat (S (List.length rest)))
      with (n + 1 + Z.of_nat (List.length rest)) by lia.
    apply IH. apply counts_match_step. exact C.
Qed.

Lemma totals_match_consume inputs st :
  totals_match st -> totals_match (consume inputs st).
Proof.
  revert st. induction inputs as [|[clk x] rest IH]; intros st T; cbn [consume]; [exact T|].
  apply IH. apply totals_match_step. exact T.
Qed.

Lemma get_analytics_fields st a :
  get_analytics st = Ok (Report a) ->
  total_processed a = processed_posts st /\
  total_failed a = failed_posts st /\
  total_errors a = Z.of_nat (List.length (error_log st)) /\
  recent_errors a = last_five (error_log st) /\
  platform_distribution a = platform_stats st /\
  topic_distribution a = topic_stats st /\
  sentiment_distribution a = sentiment_stats st /\
  category_distribution a = category_stats st /\
  hourly_post_distribution a = hourly_stats st.
Proof.
  unfold get_analytics. intro H. destruct (processed_data st); [discriminate H|].
  repeat rstep H. injection H as <-. cbn. repeat split.
Qed.

Lemma length_last_five {A : Type} (l : list A) :
  Z.of_nat (List.length (last_five l)) = Z.min 5 (Z.of_nat (List.length l)).
Proof. unfold last_five. rewrite length_skipn. lia. Qed.

(** The slice [l[-5:]] holds the last entries of [l], in their order. *)
Lemma nth_error_last_entries {A : Type} (l recent : list A) :
  recent = skipn (List.length l - 5) l ->
  forall i,
    nth_error recent i = nth_error l (List.length l - List.length recent + i).
Proof.
  intros -> i. rewrite nth_error_skipn, length_skipn.
  f_equal. lia.
Qed.

(** The report [get_analytics] gives after a run over dicts that processed
    at least one of them agrees with the run: processed and failed records
    add up to the records of the run; the error summary counts the failed
    records, and its recent errors are the last five entries of the error
    log in the order they were logged (all entries if there are fewer),
    entry [i] of the summary being entry [n - k + i] of a log of [n] entries
    of which the summary shows [k]; the topic, sentiment, category and
    hourly distributions each sum to the number of processed records, which
    the platform distribution can exceed. *)
Theorem report_matches_the_run (inputs : list (clock * pyval)) :
  Forall (fun input => is_dict (snd input) = true) inputs ->
  Z.of_nat (List.length inputs) < 2 ^ 63 ->
  let st := consume inputs new_consumer in
  processed_data st <> [] ->
  exists a,
    get_analytics st = Ok (Report a) /\
    total_processed a + total_failed a = Z.of_nat (List.length inputs) /\
    total_errors a = total_failed a /\
    recent_errors a = skipn (List.length (error_log st) - 5) (error_log st) /\
    Z.of_nat (List.length (recent_errors a)) = Z.min 5 (total_failed a) /\
    (forall i,
       nth_error (recent_errors a) i
       = nth_error (error_log st)
           (List.length (error_log st) - List.length (recent_errors a) + i)) /\
    counter_total (topic_distribution a) = total_processed a /\
    counter_total (sentiment_distribution a) = total_processed a /\
    counter_total (category_distribution a) = total_processed a /\
    counter_total (hourly_post_distribution a) = total_processed a /\
    total_processed a <= counter_total (platform_distribution a)
                      <= total_processed a + total_failed a.
Proof.
  intros F B st N.
  pose proof (analytics_ready_consume inputs 0 new_consumer analytics_ready_new) as R.
  cbn [Nat.add] in R. fold st in R.
  destruct (get_analytics_report _ st R B N) as [a [_ [G _]]].
  destruct (get_analytics_fields st a G) as [A1 [A2 [A3 [A4 [A5 [A6 [A7 [A8 A9]]]]]]]].
  pose proof (counts_match_consume inputs 0 new_consumer F
                ltac:(constructor; reflexivity)) as [C1 C2 C3 C4].
  fold st in C1, C2, C3, C4.
  pose proof (totals_match_consume inputs new_consumer
                ltac:(constructor; cbn; lia)) as [T1 T2 T3 T4 T5 T6 T7].
  fold st in T1, T2, T3, T4, T5, T6, T7.
  unfold last_five in A4.
  exists a. split; [exact G|].
  split; [rewrite A1, A2; cbn [Z.add] in C1; lia|].
  split; [rewrite A2, A3; exact C4|].
  split; [exact A4|].
  split; [rewrite A4, A2, length_skipn; lia|].
  split; [exact (nth_error_last_entries (error_log st) (recent_errors a) A4)|].
  rewrite A1, A2, A5, A6, A7, A8, A9.
  repeat split; try assumption; lia.
Qed.

Lemma report_matches_the_run_witness :
  Forall (fun input => is_dict (snd input) = true) failing_inputs /\
  Z.of_nat (List.length failing_inputs) < 2 ^ 63 /\
  processed_data (consume failing_inputs new_consumer) <> [] /\
  exists a,
    get_analytics (consume failing_inputs new_consumer) = Ok (Report a) /\
    total_processed a + total_failed a = Z.of_nat (List.length failing_inputs) /\
    total_errors a = total_failed a /\
    recent_errors a
    = skipn (List.length (error_log (consume failing_inputs new_consumer)) - 5)
            (error_log (consume failing_inputs new_consumer)) /\
    Z.of_nat (List.length (recent_errors a)) = Z.min 5 (total_failed a) /\
    (forall i,
       nth_error (recent_errors a) i
       = nth_error (error_log (consume failing_inputs new_consumer))
           (List.length (error_log (consume failing_inputs new_consumer))
            - List.length (recent_errors a) + i)) /\
    counter_total (topic_distribution a) = total_processed a /\
    counter_total (sentiment_distribution a) = total_processed a /\
    counter_total (category_distribution a) = total_processed a /\
    counter_total (hourly_post_distribution a) = total_processed a /\
    total_processed a <= counter_total (platform_distribution a)
                      <= total_processed a + total_failed a.
Proof.
  assert (F : Forall (fun input => is_dict (snd input) = true) failing_inputs)
    by (repeat constructor).
  assert (B : Z.of_nat (List.length failing_inputs) < 2 ^ 63) by (vm_compute; reflexivity).
  assert (N : processed_data (consume failing_inputs new_consumer) <> []).
  { vm_compute. intro E. discriminate E. }
  split; [exact F|]. split; [exact B|]. split; [exact N|].
  exact (report_matches_the_run failing_inputs F B N).
Defined.

(** A run with seven rejected records [r1] to [r7]: the summary counts seven
    errors and shows those of [r3] to [r7], in this order. *)
Example recent_errors_of_seven :
  exists a,
    get_analytics (consume failing_inputs new_consumer) = Ok (Report a) /\
    total_errors a = 7 /\
    map err_post_id (recent_errors a)
    = [VStr "r3"; VStr "r4"; VStr "r5"; VStr "r6"; VStr "r7"].
Proof.
  eexists. split; [vm_compute; reflexivity|]. split; vm_compute; reflexivity.
Qed.
